(** * x402 on Solana: route matching, price conversion, transaction
      introspection, settlement and the Express payment middleware

    A shallow embedding of the TypeScript sources
      - [x402/shared/middleware.ts]  (route patterns, price conversion),
      - [x402/schemes/exact/svm/facilitator/verify.ts] and [settle.ts],
      - [x402/shared/svm/transaction.ts] and [rpc.ts],
      - [x402-express/index.ts]      (the payment middleware),
    together with the properties stated about them.

    Conventions.  A JavaScript string is a Rocq [string] holding its UTF-8
    bytes; letter case is folded on ASCII letters only.  A JavaScript
    [number] is a binary64 value of the Standard Library's [SpecFloat].  A
    [throw] is the [Throw] branch of [result]; an [await] inside the
    facilitator or the middleware is plain sequencing.  The one place where
    two flows meet is [await next()]: the handler may itself be waiting
    when [next()] returns, which [Express.HAwait] marks. *)

From Stdlib Require Import ZArith List Bool Ascii String Lia.
From Stdlib Require Import Floats.SpecFloat.
From stdpp Require Import base option list gmap strings.

Local Open Scope string_scope.
Local Open Scope Z_scope.

(* ===================================================================== *)
(** * Thrown values and fallible computations *)
(* ===================================================================== *)

(** What a JavaScript [catch] clause can receive.  [JsError] is
    [new Error(message)] and the built-in subclasses that the sources do not
    tell apart ([TypeError], [SyntaxError], [URIError]); [SolanaError] carries
    the numeric code that [isSolanaError] inspects; [DOMException] carries its
    [name]; [Thrown] is a thrown value that is not an [Error] at all. *)
Inductive Exn : Type :=
| JsError (message : string)
| SolanaError (code : Z) (message : string)
| DOMException (name message : string)
| Thrown (value : string).

(** [error instanceof Error] *)
Definition instanceofError (e : Exn) : bool :=
  match e with
  | Thrown _ => false
  | _ => true
  end.

(** [error.message] of a value for which [instanceofError] holds. *)
Definition message_of (e : Exn) : string :=
  match e with
  | JsError m => m
  | SolanaError _ m => m
  | DOMException _ m => m
  | Thrown _ => EmptyString
  end.

Inductive result (A : Type) : Type :=
| Ok (a : A)
| Throw (e : Exn).
Arguments Ok {A} a.
Arguments Throw {A} e.

Definition rbind {A B : Type} (c : result A) (k : A -> result B) : result B :=
  match c with
  | Ok a => k a
  | Throw e => Throw e
  end.

(** [try { c } catch (e) { h e }] *)
Definition try_catch {A : Type} (c : result A) (h : Exn -> result A) : result A :=
  match c with
  | Ok a => Ok a
  | Throw e => h e
  end.

Declare Scope result_scope.
Delimit Scope result_scope with result.
Notation "'let!' x ':=' c 'in' k" := (rbind c (fun x => k))
  (at level 10, x pattern, c at level 100, k at level 200) : result_scope.
Notation "c ';;;' k" := (rbind c (fun _ => k))
  (at level 100, k at level 200, right associativity) : result_scope.

Definition is_ok {A : Type} (c : result A) : bool :=
  match c with Ok _ => true | Throw _ => false end.

(** [if (cond) throw new Error(msg)] *)
Definition throw_if (cond : bool) (msg : string) : result unit :=
  if cond then Throw (JsError msg) else Ok tt.

(* ===================================================================== *)
(** * JavaScript built-ins used by the sources *)
(* ===================================================================== *)

Module JS.

Definition code (c : ascii) : Z := Z.of_N (N_of_ascii c).
Definition chr (z : Z) : ascii := ascii_of_N (Z.to_N z).

Definition ascii_eqb (a b : ascii) : bool := code a =? code b.

Definition isLower (c : ascii) : bool := (97 <=? code c) && (code c <=? 122).
Definition isUpper (c : ascii) : bool := (65 <=? code c) && (code c <=? 90).
Definition isDigit (c : ascii) : bool := (48 <=? code c) && (code c <=? 57).

Definition toUpperChar (c : ascii) : ascii :=
  if isLower c then chr (code c - 32) else c.
Definition toLowerChar (c : ascii) : ascii :=
  if isUpper c then chr (code c + 32) else c.

(** [String.prototype.toUpperCase] / [toLowerCase] (ASCII letters). *)
Fixpoint toUpperCase (s : string) : string :=
  match s with
  | EmptyString => EmptyString
  | String c s' => String (toUpperChar c) (toUpperCase s')
  end.

Fixpoint toLowerCase (s : string) : string :=
  match s with
  | EmptyString => EmptyString
  | String c s' => String (toLowerChar c) (toLowerCase s')
  end.

(** [s.includes(c)] for a one-character needle. *)
Fixpoint includesChar (c : ascii) (s : string) : bool :=
  match s with
  | EmptyString => false
  | String d s' => ascii_eqb c d || includesChar c s'
  end.

(** [s.includes(needle)] *)
Fixpoint includes (needle s : string) : bool :=
  String.prefix needle s ||
  match s with
  | EmptyString => false
  | String _ s' => includes needle s'
  end.

(** ** [decodeURIComponent]

    ECMAScript's [Decode] with an empty reserved set.  Every [%] must be
    followed by two hexadecimal digits, and the octets so written must,
    where their high bit is set, form the UTF-8 encoding of one code point
    (no overlong form, no surrogate, nothing above U+10FFFF).  Anything
    else raises [URIError]. *)

Definition hexValue (c : ascii) : option Z :=
  let n := code c in
  if (48 <=? n) && (n <=? 57) then Some (n - 48)
  else if (65 <=? n) && (n <=? 70) then Some (n - 55)
  else if (97 <=? n) && (n <=? 102) then Some (n - 87)
  else None.

Inductive UriToken : Type :=
| UChar (c : ascii)      (* a character written as itself *)
| UOctet (b : Z).        (* an octet written as %XX *)

Fixpoint uriTokens (s : string) : option (list UriToken) :=
  match s with
  | EmptyString => Some []
  | String c rest =>
      if ascii_eqb c "%"%char then
        match rest with
        | String h (String l rest') =>
            match hexValue h, hexValue l, uriTokens rest' with
            | Some hv, Some lv, Some ts => Some (UOctet (16 * hv + lv) :: ts)
            | _, _, _ => None
            end
        | _ => None
        end
      else
        match uriTokens rest with
        | Some ts => Some (UChar c :: ts)
        | None => None
        end
  end.

Definition isContinuation (b : Z) : bool := Z.land b 192 =? 128.

(** [s.length]: the number of UTF-16 code units of the text of which [s]
    is the UTF-8 encoding.  A continuation byte counts for nothing, the
    first byte of a four-byte sequence for two (a pair of surrogates),
    every other byte for one. *)
Fixpoint utf16Length (s : string) : nat :=
  match s with
  | EmptyString => O
  | String c s' =>
      let units :=
        if isContinuation (code c) then 0%nat
        else if 240 <=? code c then 2%nat
        else 1%nat in
      (units + utf16Length s')%nat
  end.

Definition validCodePoint (lo cp : Z) : bool :=
  (lo <=? cp) && (cp <=? 1114111) && negb ((55296 <=? cp) && (cp <=? 57343)).

Fixpoint uriOctets (ts : list UriToken) : option string :=
  match ts with
  | [] => Some EmptyString
  | UChar c :: ts' =>
      match uriOctets ts' with
      | Some s => Some (String c s)
      | None => None
      end
  | UOctet b :: ts' =>
      if b <? 128 then
        match uriOctets ts' with
        | Some s => Some (String (chr b) s)
        | None => None
        end
      else if Z.land b 224 =? 192 then
        match ts' with
        | UOctet b1 :: ts2 =>
            if isContinuation b1
               && validCodePoint 128 (Z.land b 31 * 64 + Z.land b1 63) then
              match uriOctets ts2 with
              | Some s => Some (String (chr b) (String (chr b1) s))
              | None => None
              end
            else None
        | _ => None
        end
      else if Z.land b 240 =? 224 then
        match ts' with
        | UOctet b1 :: UOctet b2 :: ts3 =>
            if isContinuation b1 && isContinuation b2
               && validCodePoint 2048
                    (Z.land b 15 * 4096 + Z.land b1 63 * 64 + Z.land b2 63) then
              match uriOctets ts3 with
              | Some s =>
                  Some (String (chr b) (String (chr b1) (String (chr b2) s)))
              | None => None
              end
            else None
        | _ => None
        end
      else if Z.land b 248 =? 240 then
        match ts' with
        | UOctet b1 :: UOctet b2 :: UOctet b3 :: ts4 =>
            if isContinuation b1 && isContinuation b2 && isContinuation b3
               && validCodePoint 65536
                    (Z.land b 7 * 262144 + Z.land b1 63 * 4096
                     + Z.land b2 63 * 64 + Z.land b3 63) then
              match uriOctets ts4 with
              | Some s =>
                  Some (String (chr b) (String (chr b1)
                          (String (chr b2) (String (chr b3) s))))
              | None => None
              end
            else None
        | _ => None
        end
      else None
  end.

Definition decodeURIComponent (s : string) : result string :=
  match uriTokens s with
  | Some ts =>
      match uriOctets ts with
      | Some r => Ok r
      | None => Throw (JsError "URI malformed")
      end
  | None => Throw (JsError "URI malformed")
  end.

(** ** [BigInt(string)]

    [StringToBigInt]: white space is trimmed from both ends; the empty
    text is [0n]; otherwise the text is decimal digits with an optional
    sign, or binary, octal or hexadecimal digits after [0b], [0o], [0x].
    Anything else raises [SyntaxError]. *)

Definition isWhiteSpace (c : ascii) : bool :=
  let n := code c in ((9 <=? n) && (n <=? 13)) || (n =? 32).

Fixpoint trimStart (s : string) : string :=
  match s with
  | String c s' => if isWhiteSpace c then trimStart s' else s
  | EmptyString => EmptyString
  end.

(** Drops trailing white space: a character stays when something that is
    not white space follows it or it is not white space itself. *)
Fixpoint trimEnd (s : string) : string :=
  match s with
  | EmptyString => EmptyString
  | String c s' =>
      match trimEnd s' with
      | EmptyString => if isWhiteSpace c then EmptyString else String c EmptyString
      | t => String c t
      end
  end.

Definition digitIn (radix : Z) (c : ascii) : option Z :=
  match hexValue c with
  | Some v => if v <? radix then Some v else None
  | None => None
  end.

Fixpoint digitsIn (radix acc : Z) (s : string) : option Z :=
  match s with
  | EmptyString => Some acc
  | String c s' =>
      match digitIn radix c with
      | Some v => digitsIn radix (radix * acc + v) s'
      | None => None
      end
  end.

(** One digit at least. *)
Definition numeral (radix : Z) (s : string) : option Z :=
  match s with
  | EmptyString => None
  | _ => digitsIn radix 0 s
  end.

Definition StringToBigInt (s : string) : option Z :=
  match trimEnd (trimStart s) with
  | EmptyString => Some 0
  | String c rest as text =>
      if ascii_eqb c "+"%char then numeral 10 rest
      else if ascii_eqb c "-"%char then option_map Z.opp (numeral 10 rest)
      else if ascii_eqb c "0"%char then
        match rest with
        | String p ds =>
            if ascii_eqb (toLowerChar p) "x"%char then numeral 16 ds
            else if ascii_eqb (toLowerChar p) "o"%char then numeral 8 ds
            else if ascii_eqb (toLowerChar p) "b"%char then numeral 2 ds
            else numeral 10 text
        | EmptyString => Some 0
        end
      else numeral 10 text
  end.

Definition BigInt (s : string) : result Z :=
  match StringToBigInt s with
  | Some n => Ok n
  | None => Throw (JsError ("Cannot convert " ++ s ++ " to a BigInt")%string)
  end.


End JS.

(* ===================================================================== *)
(** * The regular expressions that route keys compile to *)
(* ===================================================================== *)

(** [computeRoutePatterns] builds every pattern as [^ ... $] with flag [i]
    from escaped literals, [.*?] (for [*]) and [[^\/]+] (for [[param]]).
    This module reads such a source text back and decides [RegExp.test] for
    it.  A source text outside that fragment (a route key with a backslash
    or an unmatched square bracket) is not given a meaning here. *)
Module Regex.

Inductive Atom : Type :=
| Lit (c : ascii)        (* one character, compared modulo ASCII case *)
| AnyLazy                (* .*?    : any run of non line terminators *)
| SegmentPlus.           (* [^\/]+ : a non-empty run without a slash *)

Definition isIdentityEscape (c : ascii) : bool :=
  JS.includesChar c "$()+.?^{|}/".

Definition isSyntaxChar (c : ascii) : bool :=
  JS.includesChar c "\^$.|?*+()[]{}/".

(** Atoms of the text between [^] and [$]. *)
Fixpoint atoms (fuel : nat) (s : string) : option (list Atom) :=
  match fuel with
  | O => None
  | S fuel' =>
      match s with
      | EmptyString => Some []
      | String c rest =>
          if String.prefix ".*?" s then
            option_map (cons AnyLazy) (atoms fuel' (String.substring 3 (String.length s - 3) s))
          else if String.prefix "[^\/]+" s then
            option_map (cons SegmentPlus) (atoms fuel' (String.substring 6 (String.length s - 6) s))
          else if JS.ascii_eqb c "\"%char then
            match rest with
            | String d rest' =>
                if isIdentityEscape d
                then option_map (cons (Lit d)) (atoms fuel' rest')
                else None
            | EmptyString => None
            end
          else if isSyntaxChar c then None
          else option_map (cons (Lit c)) (atoms fuel' rest)
      end
  end.

(** [new RegExp(source, "i")] for a source of the form [^ ... $]. *)
Definition parse (source : string) : option (list Atom) :=
  match source with
  | String c body =>
      if JS.ascii_eqb c "^"%char then
        let n := String.length body in
        match n with
        | O => None
        | S m =>
            if String.eqb (String.substring m 1 body) "$"
            then atoms (S n) (String.substring 0 m body)
            else None
        end
      else None
  | EmptyString => None
  end.

(** [.] does not match LF, CR, U+2028 or U+2029 (the last two are the
    bytes E2 80 A8 and E2 80 A9). *)
Definition lineTerminatorAt (s : string) : bool :=
  match s with
  | String c rest =>
      (JS.code c =? 10) || (JS.code c =? 13)
      || ((JS.code c =? 226)
          && match rest with
             | String c1 (String c2 _) =>
                 (JS.code c1 =? 128) && ((JS.code c2 =? 168) || (JS.code c2 =? 169))
             | _ => false
             end)
  | EmptyString => false
  end.

Definition eq_ignore_case (a b : ascii) : bool :=
  JS.ascii_eqb (JS.toUpperChar a) (JS.toUpperChar b).

(** Does the whole of [s] match the atom sequence?  Backtracking over
    every split, so lazy and greedy quantifiers agree. *)
Fixpoint matches (re : list Atom) (s : string) {struct re} : bool :=
  match re with
  | [] => match s with EmptyString => true | _ => false end
  | Lit c :: re' =>
      match s with
      | String d s' => eq_ignore_case c d && matches re' s'
      | EmptyString => false
      end
  | AnyLazy :: re' =>
      (fix any (t : string) : bool :=
         matches re' t
         || match t with
            | String _ t' => negb (lineTerminatorAt t) && any t'
            | EmptyString => false
            end) s
  | SegmentPlus :: re' =>
      (fix seg (t : string) : bool :=
         match t with
         | String d t' =>
             negb (JS.ascii_eqb d "/"%char) && (matches re' t' || seg t')
         | EmptyString => false
         end) s
  end.


(** A compiled pattern keeps its [source] text (read by
    [findMatchingRoute] to rank matches) next to its atoms. *)
Record RegExp : Type := { source : string; atoms_of : list Atom }.

(** [new RegExp(source, "i")], for a source of the fragment.  For every
    other source the answer is [Throw], which then only says that the
    source is outside the fragment: JavaScript rejects some of these (an
    unmatched square bracket) and compiles others (a backslash before a
    letter). *)
Definition compile (src : string) : result RegExp :=
  match parse src with
  | Some re => Ok {| source := src; atoms_of := re |}
  | None => Throw (JsError "Invalid regular expression")
  end.

(** [pattern.test(input)] *)
Definition test (p : RegExp) (input : string) : bool :=
  matches (atoms_of p) input.

End Regex.

(* ===================================================================== *)
(** * Numbers: binary64 values, [Number(string)], [Number.toString] *)
(* ===================================================================== *)

Module Num.

Definition prec : Z := 53.
Definition emax : Z := 1024.

(** A JavaScript number. *)
Definition number : Type := spec_float.

Definition mul (x y : number) : number := SFmul prec emax x y.
Definition ltb (x y : number) : bool := SFltb x y.

(** The binary64 value nearest to [n / d] (ties to even), [n >= 0], [d > 0]. *)
Definition of_ratio (n d : Z) : number :=
  if n =? 0 then S754_zero false
  else
    let '(mz, ez, lz) := SFdiv_core_binary prec emax n 0 d 0 in
    binary_round_aux prec emax false mz ez lz.

Definition of_Z (n : Z) : number :=
  match n with
  | Z0 => S754_zero false
  | Zpos p => binary_normalize prec emax n 0 false
  | Zneg p => binary_normalize prec emax n 0 true
  end.

(** [10 ** k] for a small non-negative integer [k] (exact up to [k = 22]). *)
Definition pow10 (k : Z) : number := of_Z (10 ^ k).

(** ** Decimal numerals *)

Fixpoint digitsValue (acc : Z) (s : string) : option Z :=
  match s with
  | EmptyString => Some acc
  | String c s' =>
      if JS.isDigit c then digitsValue (10 * acc + (JS.code c - 48)) s' else None
  end.

Fixpoint splitAtDot (s : string) : string * option string :=
  match s with
  | EmptyString => (EmptyString, None)
  | String c s' =>
      if JS.ascii_eqb c "."%char then (EmptyString, Some s')
      else let '(a, b) := splitAtDot s' in (String c a, b)
  end.

(** [Number(s)] for an unsigned decimal numeral [ddd], [ddd.], [ddd.ddd]
    or [.ddd]; [None] is [NaN].  The value is the binary64 nearest to the
    numeral. *)
Definition ofDecimal (s : string) : option number :=
  let '(ip, fp) := splitAtDot s in
  let fp' := match fp with Some f => f | None => EmptyString end in
  match ip, fp' with
  | EmptyString, EmptyString => None
  | _, _ =>
      match digitsValue 0 (ip ++ fp')%string with
      | Some n => Some (of_ratio n (10 ^ Z.of_nat (String.length fp')))
      | None => None
      end
  end.

(** The decimal digits of a non-negative integer. *)
Fixpoint digitsOf (fuel : nat) (n : Z) (acc : string) : string :=
  match fuel with
  | O => acc
  | S fuel' =>
      let acc' := String (JS.chr (48 + n mod 10)) acc in
      if n <? 10 then acc' else digitsOf fuel' (n / 10) acc'
  end.

Definition Z_to_string (n : Z) : string :=
  if n <? 0 then String "-"%char (digitsOf (Z.to_nat (Z.log2 (- n)) + 1) (- n) EmptyString)
  else digitsOf (Z.to_nat (Z.log2 n) + 1) n EmptyString.

Fixpoint zeros (n : nat) : string :=
  match n with
  | O => EmptyString
  | S n' => String "0"%char (zeros n')
  end.

(** ** [Number.prototype.toString()]

    For a finite [x > 0] the standard asks for integers [n], [k], [s] with
    [10^(k-1) <= s < 10^k], such that [s * 10^(n-k)] converts back to [x],
    [k] least, and [s] nearest to [x] among those.  A decimal converts back
    to [x = m * 2^e] when it lies between the midpoints to the two
    neighbours of [x], the midpoints included when [m] is even.  Below,
    everything is counted in units of [2^(e-2)], so that [x] is [4m], the
    upper midpoint [4m + 2] and the lower one [4m - 2], or [4m - 1] when
    [x] is a power of two. *)

Definition pow2 (k : Z) : Z := 2 ^ Z.max k 0.
Definition pow10Z (k : Z) : Z := 10 ^ Z.max k 0.

(** [10^(n-1) <= m * 2^e < 10^n] *)
Definition hasIntegerDigits (m e n : Z) : bool :=
  let x := m * pow2 e in
  let d := pow2 (- e) in
  (pow10Z (n - 1) * d <=? x * pow10Z (1 - n))
  && (x * pow10Z (- n) <? pow10Z n * d).

Definition integerDigits (m e : Z) : Z :=
  let b := Z.log2 m + 1 + e in
  let lo := (b - 1) * 30102 / 100000 in
  if hasIntegerDigits m e lo then lo
  else if hasIntegerDigits m e (lo + 1) then lo + 1
  else if hasIntegerDigits m e (lo + 2) then lo + 2
  else lo + 3.

(** The candidate with [k] digits, if there is one: [(s, n)]. *)
Definition shortest_at (m e n0 k : Z) : option (Z * Z) :=
  let E := e - 2 in
  let q := n0 - k in
  let scale := pow2 E * pow10Z (- q) in
  let unit := pow10Z q * pow2 (- E) in
  let below := if (m =? 2 ^ 52) && (-1074 <? e) then 1 else 2 in
  let X := 4 * m * scale in
  let L := (4 * m - below) * scale in
  let H := (4 * m + 2) * scale in
  let closed := Z.even m in
  let s_lo :=
    if closed then (L + unit - 1) / unit else L / unit + 1 in
  let s_hi :=
    if closed then H / unit
    else if H mod unit =? 0 then H / unit - 1 else H / unit in
  let lo := Z.max s_lo (10 ^ (k - 1)) in
  let hi := Z.min s_hi (10 ^ k) in
  if hi <? lo then None
  else
    let f := X / unit in
    let r := X mod unit in
    let nearest :=
      if 2 * r <? unit then f
      else if unit <? 2 * r then f + 1
      else if Z.even f then f else f + 1 in
    let s := Z.max lo (Z.min hi nearest) in
    if s =? 10 ^ k then Some (10 ^ (k - 1), n0 + 1) else Some (s, n0).

Fixpoint shortest (fuel : nat) (m e n0 k : Z) : Z * Z * Z :=
  match fuel with
  | O => (n0, k, m)
  | S fuel' =>
      match shortest_at m e n0 k with
      | Some (s, n) => (n, k, s)
      | None => shortest fuel' m e n0 (k + 1)
      end
  end.

Definition formatDecimal (n k s : Z) : string :=
  let D := Z_to_string s in
  if (k <=? n) && (n <=? 21) then (D ++ zeros (Z.to_nat (n - k)))%string
  else if (0 <? n) && (n <=? 21) then
    (String.substring 0 (Z.to_nat n) D ++ "."
       ++ String.substring (Z.to_nat n) (Z.to_nat (k - n)) D)%string
  else if (-6 <? n) && (n <=? 0) then
    ("0." ++ zeros (Z.to_nat (- n)) ++ D)%string
  else
    let ex := n - 1 in
    let sign := if ex <? 0 then "-" else "+" in
    let mant :=
      if k =? 1 then D
      else (String.substring 0 1 D ++ "." ++ String.substring 1 (Z.to_nat (k - 1)) D)%string in
    (mant ++ "e" ++ sign ++ Z_to_string (Z.abs ex))%string.

Definition toString (x : number) : string :=
  match x with
  | S754_nan => "NaN"
  | S754_zero _ => "0"
  | S754_infinity false => "Infinity"
  | S754_infinity true => "-Infinity"
  | S754_finite sign m e =>
      let '(n, k, s) := shortest 18 (Zpos m) e (integerDigits (Zpos m) e) 1 in
      ((if sign then "-" else EmptyString) ++ formatDecimal n k s)%string
  end.

End Num.

(* ===================================================================== *)
(** * [x402/types]: prices, route configuration, payment requirements *)
(* ===================================================================== *)

(** [Money]: a string such as ["$0.01"] or a number of dollars. *)
Inductive Money : Type :=
| MoneyString (s : string)
| MoneyNumber (x : Num.number).

(** The asset descriptor of a token amount, and of [getDefaultAsset]. *)
Record Asset : Type := {
  asset_address : string;
  asset_decimals : Z;
  asset_eip712_name : string;
  asset_eip712_version : string
}.

(** [Price = Money | ERC20TokenAmount | SPLTokenAmount] *)
Inductive Price : Type :=
| PriceMoney (m : Money)
| PriceToken (amount : string) (asset : Asset).

(** [PaymentMiddlewareConfig], the optional hints of a route. *)
Record PaymentMiddlewareConfig : Type := {
  description : option string;
  mimeType : option string;
  maxTimeoutSeconds : option Z;
  customPaywallHtml : option string;
  resource : option string;
  discoverable : option bool
}.

Record RouteConfig : Type := {
  price : Price;
  network : string;
  config : option PaymentMiddlewareConfig
}.

(** A value of [RoutesConfig]: a bare price or a full [RouteConfig]. *)
Inductive RouteValue : Type :=
| RouteBare (m : Money)
| RouteFull (c : RouteConfig).

(** [RoutesConfig]: the entries of the object, in enumeration order. *)
Definition RoutesConfig : Type := list (string * RouteValue).

Record RoutePattern : Type := {
  verb : string;
  pattern : Regex.RegExp;
  route_config : RouteConfig
}.

(** [extra] of the requirements: the fee payer on Solana, the EIP-712
    domain on EVM networks. *)
Inductive Extra : Type :=
| ExtraFeePayer (feePayer : string)
| ExtraEip712 (name version : string).

(** [outputSchema.input]; the caller's opaque [inputSchema] and
    [outputSchema] objects are carried along unread and are left out. *)
Record InputSchema : Type := {
  input_type : string;
  input_method : string;
  input_discoverable : bool
}.

Record PaymentRequirements : Type := {
  req_scheme : string;
  req_network : string;
  maxAmountRequired : string;
  req_resource : string;
  req_description : string;
  req_mimeType : string;
  payTo : string;
  req_maxTimeoutSeconds : Z;
  req_asset : string;
  req_outputSchema : InputSchema;
  req_extra : Extra
}.

(** [payload.payload]: the Solana payload carries the base64 transaction;
    an EVM payload has no [transaction] field. *)
Inductive ExactPayload : Type :=
| ExactSvmPayload (transaction : string)
| ExactEvmPayload (signature : string).

Record PaymentPayload : Type := {
  pay_x402Version : Z;
  pay_scheme : string;
  pay_network : string;
  pay_payload : ExactPayload
}.

(** [ErrorReasons] of [x402/types/verify/x402Specs.ts]. *)
Definition ErrorReasons : list string := [
  "insufficient_funds";
  "invalid_exact_evm_payload_authorization_valid_after";
  "invalid_exact_evm_payload_authorization_valid_before";
  "invalid_exact_evm_payload_authorization_value";
  "invalid_exact_evm_payload_signature";
  "invalid_exact_evm_payload_recipient_mismatch";
  "invalid_exact_svm_payload_transaction";
  "invalid_exact_svm_payload_transaction_amount_mismatch";
  "invalid_exact_svm_payload_transaction_create_ata_instruction";
  "invalid_exact_svm_payload_transaction_create_ata_instruction_incorrect_payee";
  "invalid_exact_svm_payload_transaction_create_ata_instruction_incorrect_asset";
  "invalid_exact_svm_payload_transaction_instructions";
  "invalid_exact_svm_payload_transaction_instructions_length";
  "invalid_exact_svm_payload_transaction_instructions_compute_limit_instruction";
  "invalid_exact_svm_payload_transaction_instructions_compute_price_instruction";
  "invalid_exact_svm_payload_transaction_instructions_compute_price_instruction_too_high";
  "invalid_exact_svm_payload_transaction_instruction_not_spl_token_transfer_checked";
  "invalid_exact_svm_payload_transaction_instruction_not_token_2022_transfer_checked";
  "invalid_exact_svm_payload_transaction_not_a_transfer_instruction";
  "invalid_exact_svm_payload_transaction_receiver_ata_not_found";
  "invalid_exact_svm_payload_transaction_sender_ata_not_found";
  "invalid_exact_svm_payload_transaction_simulation_failed";
  "invalid_exact_svm_payload_transaction_transfer_to_incorrect_ata";
  "invalid_network";
  "invalid_payload";
  "invalid_payment_requirements";
  "invalid_scheme";
  "invalid_payment";
  "payment_expired";
  "unsupported_scheme";
  "invalid_x402_version";
  "invalid_transaction_state";
  "invalid_x402_version";
  "settle_exact_svm_block_height_exceeded";
  "settle_exact_svm_transaction_confirmation_timed_out";
  "unsupported_scheme";
  "unexpected_settle_error";
  "unexpected_verify_error"
].

(** [ErrorReasons.includes(message)] *)
Definition isErrorReason (message : string) : bool :=
  existsb (String.eqb message) ErrorReasons.

Record VerifyResponse : Type := {
  isValid : bool;
  invalidReason : option string;
  verify_payer : option string
}.

Record SettleResponse : Type := {
  success : bool;
  errorReason : option string;
  settle_payer : option string;
  settle_transaction : string;
  settle_network : string
}.

(** The network tables of [x402/types/shared/network.ts]. *)
Definition SupportedSVMNetworks : list string := ["solana-devnet"; "solana"].
Definition SupportedEVMNetworks : list string :=
  ["base-sepolia"; "base"; "avalanche-fuji"; "avalanche"; "iotex"; "sei";
   "sei-testnet"; "polygon"; "polygon-amoy"; "peaq"].

Definition SvmNetworkToChainId : list (string * Z) :=
  [("solana-devnet", 103); ("solana", 101)].
Definition EvmNetworkToChainId : list (string * Z) :=
  [("base-sepolia", 84532); ("base", 8453); ("avalanche-fuji", 43113);
   ("avalanche", 43114); ("iotex", 4689); ("sei", 1329); ("sei-testnet", 1328);
   ("polygon", 137); ("polygon-amoy", 80002); ("peaq", 3338)].

(** One entry of the USDC table, as [getUsdcChainConfigForChain] returns it. *)
Record ChainConfig : Type := { usdcAddress : string; usdcName : string }.

(** Modelled from the spec: the USDC table of
    [x402/types/shared/evm/config.ts], which is not among the sources.  The
    spec gives a compiled-in USDC configuration keyed by chain id; the
    entries here are those of Base, Base Sepolia and the two Solana
    networks, as the repository's tests expect them. *)
Definition usdcConfig : list (Z * ChainConfig) :=
  [ (84532, {| usdcAddress := "0x036CbD53842c5426634e7929541eC2318f3dCF7e";
               usdcName := "USDC" |});
    (8453, {| usdcAddress := "0x833589fCD6eDb6E08f4c7C32D4f71b54bdA02913";
              usdcName := "USD Coin" |});
    (103, {| usdcAddress := "4zMMC9srt5Ri5X14GAgXhaHii3GnPAEERYPJgZJDncDU";
             usdcName := "USDC" |});
    (101, {| usdcAddress := "EPjFWdd5AufqSSqeM2qN1xzybapC8G4wEGGkZwyTDt1v";
             usdcName := "USDC" |}) ].

Fixpoint assoc {A : Type} (k : string) (l : list (string * A)) : option A :=
  match l with
  | [] => None
  | (k', v) :: l' => if String.eqb k k' then Some v else assoc k l'
  end.

Fixpoint assocZ {A : Type} (k : Z) (l : list (Z * A)) : option A :=
  match l with
  | [] => None
  | (k', v) :: l' => if k =? k' then Some v else assocZ k l'
  end.

(** Outcome of [schema.safeParse]. *)
Inductive SafeParse (A : Type) : Type :=
| ParseSuccess (data : A)
| ParseFailure (error : string).
Arguments ParseSuccess {A} data.
Arguments ParseFailure {A} error.

(** Modelled from the spec: [moneySchema] of [x402/types/shared/money.ts],
    which is not among the sources.  The spec: USD money is ["$0.01"] or
    [0.01]; the money parser rejects values below 0.0001 and what is not
    numeric.  A string is read as an optional dollar sign followed by an
    unsigned decimal numeral. *)
Definition minMoney : Num.number := Num.of_ratio 1 10000.

Definition moneyNumber (m : Money) : option Num.number :=
  match m with
  | MoneyNumber x => match x with S754_nan => None | _ => Some x end
  | MoneyString s =>
      match s with
      | String c rest =>
          if JS.ascii_eqb c "$"%char then Num.ofDecimal rest else Num.ofDecimal s
      | EmptyString => None
      end
  end.

Definition moneySchema_safeParse (m : Money) : SafeParse Num.number :=
  match moneyNumber m with
  | None => ParseFailure "Expected number, received nan"
  | Some x =>
      if Num.ltb x minMoney
      then ParseFailure "Number must be greater than or equal to 0.0001"
      else ParseSuccess x
  end.

(* ===================================================================== *)
(** * [x402/shared/middleware.ts]: route patterns *)
(* ===================================================================== *)

Module Shared.

(** ** String rewriting steps, each one [String.prototype.replace] call *)

(** [.replace(/[$()+.?^{|}]/g, "\\$&")] *)
Fixpoint escapeSpecials (s : string) : string :=
  match s with
  | EmptyString => EmptyString
  | String c s' =>
      if JS.includesChar c "$()+.?^{|}"
      then String "\"%char (String c (escapeSpecials s'))
      else String c (escapeSpecials s')
  end.

(** [.replace(/\*/g, ".*?")] *)
Fixpoint replaceWildcards (s : string) : string :=
  match s with
  | EmptyString => EmptyString
  | String c s' =>
      if JS.ascii_eqb c "*"%char
      then (".*?" ++ replaceWildcards s')%string
      else String c (replaceWildcards s')
  end.

(** [.replace(/\[([^\]]+)\]/g, "[^/]+")].  [pending] is [Some name] while
    the scan is past an opening bracket that has not been closed: [name]
    holds the characters read since.  A bracket pair with nothing between
    is not a parameter, and an opening bracket that is never closed stays
    as it is. *)
Fixpoint replaceParams (pending : option string) (s : string) : string :=
  match s with
  | EmptyString =>
      match pending with
      | Some name => String "["%char name
      | None => EmptyString
      end
  | String c s' =>
      match pending with
      | None =>
          if JS.ascii_eqb c "["%char
          then replaceParams (Some EmptyString) s'
          else String c (replaceParams None s')
      | Some name =>
          if JS.ascii_eqb c "]"%char then
            match name with
            | EmptyString => String "["%char (String "]"%char (replaceParams None s'))
            | _ => ("[^/]+" ++ replaceParams None s')%string
            end
          else replaceParams (Some (name ++ String c EmptyString)%string) s'
      end
  end.

(** [.replace(/\//g, "\\/")] *)
Fixpoint escapeSlashes (s : string) : string :=
  match s with
  | EmptyString => EmptyString
  | String c s' =>
      if JS.ascii_eqb c "/"%char
      then String "\"%char (String "/"%char (escapeSlashes s'))
      else String c (escapeSlashes s')
  end.

(** [\s] on ASCII: tab, line feed, vertical tab, form feed, carriage
    return, space. *)
Definition isSpace (c : ascii) : bool :=
  let n := JS.code c in ((9 <=? n) && (n <=? 13)) || (n =? 32).

(** [pattern.split(/\s+/)]: [cur] is the piece being read, [inGap] tells
    that the previous character was white space. *)
Fixpoint splitSpaces (cur : string) (inGap : bool) (s : string) : list string :=
  match s with
  | EmptyString => [cur]
  | String c s' =>
      if isSpace c then
        if inGap then splitSpaces cur true s'
        else cur :: splitSpaces EmptyString true s'
      else splitSpaces (cur ++ String c EmptyString)%string false s'
  end.

(** The regular expression source built from the path part of a key. *)
Definition patternSource (path : string) : string :=
  ("^" ++ escapeSlashes (replaceParams None (replaceWildcards (escapeSpecials path)))
       ++ "$")%string.

Definition normalizeRoute (v : RouteValue) : RouteConfig :=
  match v with
  | RouteBare m => {| price := PriceMoney m; network := "base-sepolia"; config := None |}
  | RouteFull c => c
  end.

Definition computeRoutePattern (entry : string * RouteValue) : result RoutePattern :=
  let '(key, value) := entry in
  let routeConfig := normalizeRoute value in
  let '(verb_, path) :=
    if JS.includes " " key then
      match splitSpaces EmptyString false key with
      | v :: p :: _ => (v, Some p)
      | v :: [] => (v, None)
      | [] => (EmptyString, None)
      end
    else ("*", Some key) in
  match path with
  | None | Some EmptyString =>
      Throw (JsError ("Invalid route pattern: " ++ key)%string)
  | Some path =>
      (let! re := Regex.compile (patternSource path) in
       Ok {| verb := JS.toUpperCase verb_; pattern := re; route_config := routeConfig |})%result
  end.

Fixpoint mapM {A B : Type} (f : A -> result B) (l : list A) : result (list B) :=
  match l with
  | [] => Ok []
  | x :: l' =>
      (let! y := f x in
       let! ys := mapM f l' in
       Ok (y :: ys))%result
  end.

Definition computeRoutePatterns (routes : RoutesConfig) : result (list RoutePattern) :=
  mapM computeRoutePattern routes.

(** ** [findMatchingRoute] *)

(** [path.split(/[?#]/)[0]] *)
Fixpoint beforeQueryOrHash (s : string) : string :=
  match s with
  | EmptyString => EmptyString
  | String c s' =>
      if JS.ascii_eqb c "?"%char || JS.ascii_eqb c "#"%char then EmptyString
      else String c (beforeQueryOrHash s')
  end.

(** [.replace(/\\/g, "/")] *)
Fixpoint replaceBackslashes (s : string) : string :=
  match s with
  | EmptyString => EmptyString
  | String c s' =>
      String (if JS.ascii_eqb c "\"%char then "/"%char else c) (replaceBackslashes s')
  end.

(** [.replace(/\/+/g, "/")]: of a run of slashes only the first is kept;
    [afterSlash] tells that the previous character was a slash. *)
Fixpoint collapseSlashes (afterSlash : bool) (s : string) : string :=
  match s with
  | EmptyString => EmptyString
  | String c s' =>
      if JS.ascii_eqb c "/"%char then
        if afterSlash then collapseSlashes true s'
        else String c (collapseSlashes true s')
      else String c (collapseSlashes false s')
  end.

(** Non-empty and made of slashes only: what [\/+$] accepts. *)
Fixpoint slashesToEnd (s : string) : bool :=
  match s with
  | EmptyString => false
  | String c EmptyString => JS.ascii_eqb c "/"%char
  | String c s' => JS.ascii_eqb c "/"%char && slashesToEnd s'
  end.

(** [(.+?)\/+$] tried at the start of [s], the group already holding
    [group]: the lazy group takes one more character at a time and stops
    as soon as the rest is slashes up to the end. *)
Fixpoint lazyGroup (group s : string) : option string :=
  match s with
  | EmptyString => None
  | String c s' =>
      if Regex.lineTerminatorAt s then None
      else
        let group' := (group ++ String c EmptyString)%string in
        if slashesToEnd s' then Some group' else lazyGroup group' s'
  end.

(** A match starts at a character, not at a byte inside the encoding of
    one. *)
Definition insideCharacter (s : string) : bool :=
  match s with
  | String c _ => JS.isContinuation (JS.code c)
  | EmptyString => false
  end.

(** [.replace(/(.+?)\/+$/, "$1")]: the leftmost start that matches. *)
Fixpoint trimTrailingSlashes (s : string) : string :=
  match (if insideCharacter s then None else lazyGroup EmptyString s) with
  | Some group => group
  | None =>
      match s with
      | EmptyString => EmptyString
      | String c s' => String c (trimTrailingSlashes s')
      end
  end.

Definition normalizePath (path : string) : result string :=
  (let pathWithoutQuery := beforeQueryOrHash path in
   let! decodedPath := JS.decodeURIComponent pathWithoutQuery in
   Ok (trimTrailingSlashes (collapseSlashes false (replaceBackslashes decodedPath))))%result.

Definition routeMatches (normalizedPath method : string) (r : RoutePattern) : bool :=
  let matchesPath := Regex.test (pattern r) normalizedPath in
  let upperMethod := JS.toUpperCase method in
  let matchesVerb := String.eqb (verb r) "*" || String.eqb upperMethod (verb r) in
  matchesPath && matchesVerb.

(** [pattern.source.length] *)
Definition sourceLength (r : RoutePattern) : nat :=
  JS.utf16Length (Regex.source (pattern r)).

(** [undefined] is [None]. *)
Definition findMatchingRoute (routePatterns : list RoutePattern)
    (path method : string) : option RoutePattern :=
  match normalizePath path with
  | Throw _ => None
  | Ok normalizedPath =>
      match List.filter (routeMatches normalizedPath method) routePatterns with
      | [] => None
      | first :: others =>
          Some (fold_left
                  (fun a b => if (sourceLength a <? sourceLength b)%nat then b else a)
                  others first)
      end
  end.

(** ** [getNetworkId] of [x402/shared/network.ts] *)
Definition getNetworkId (network : string) : result Z :=
  match assoc network EvmNetworkToChainId with
  | Some id => Ok id
  | None =>
      match assoc network SvmNetworkToChainId with
      | Some id => Ok id
      | None => Throw (JsError ("Unsupported network: " ++ network)%string)
      end
  end.

(** [getUsdcChainConfigForChain] of [x402/shared/evm/usdc.ts] *)
Definition getUsdcChainConfigForChain (chainId : Z) : option ChainConfig :=
  assocZ chainId usdcConfig.

(** ** [getDefaultAsset] *)
Definition getDefaultAsset (network : string) : result Asset :=
  (let! chainId := getNetworkId network in
   match getUsdcChainConfigForChain chainId with
   | None => Throw (JsError ("Unable to get default asset on " ++ network)%string)
   | Some usdc =>
       Ok {| asset_address := usdcAddress usdc;
             asset_decimals := 6;
             asset_eip712_name := usdcName usdc;
             asset_eip712_version := "2" |}
   end)%result.

(** What [processPriceToAtomicAmount] returns: the amount with its asset,
    or an object with an [error] text. *)
Inductive AtomicAmount : Type :=
| Atomic (maxAmountRequired : string) (asset : Asset)
| AtomicError (error : string).

(** [s] between double quotes. *)
Definition quoted (s : string) : string :=
  (String (JS.chr 34) s ++ String (JS.chr 34) EmptyString)%string.

Definition priceText (m : Money) : string :=
  match m with
  | MoneyString s => s
  | MoneyNumber x => Num.toString x
  end.

(** ** [processPriceToAtomicAmount] *)
Definition processPriceToAtomicAmount (price : Price) (network : string)
    : result AtomicAmount :=
  match price with
  | PriceMoney m =>
      match moneySchema_safeParse m with
      | ParseFailure err =>
          Ok (AtomicError
                ("Invalid price (price: " ++ priceText m
                 ++ "). Must be in the form " ++ quoted "$3.10" ++ ", 0.10, "
                 ++ quoted "0.001" ++ ", " ++ err)%string)
      | ParseSuccess parsedUsdAmount =>
          (let! asset := getDefaultAsset network in
           Ok (Atomic
                 (Num.toString
                    (Num.mul parsedUsdAmount (Num.pow10 (asset_decimals asset))))
                 asset))%result
      end
  | PriceToken amount asset => Ok (Atomic amount asset)
  end.

(** ** [findMatchingPaymentRequirements] *)
Definition findMatchingPaymentRequirements
    (paymentRequirements : list PaymentRequirements) (payment : PaymentPayload)
    : option PaymentRequirements :=
  List.find
    (fun value =>
       String.eqb (req_scheme value) (pay_scheme payment)
       && String.eqb (req_network value) (pay_network payment))
    paymentRequirements.

End Shared.

(* ===================================================================== *)
(** * Solana: transactions, instructions, and the collaborators *)
(* ===================================================================== *)

Module Svm.

Definition Address : Type := string.

Definition SCHEME : string := "exact".
Definition COMPUTE_BUDGET_PROGRAM_ADDRESS : Address :=
  "ComputeBudget111111111111111111111111111111".
Definition TOKEN_PROGRAM_ADDRESS : Address :=
  "TokenkegQfeZyiNwAJbNbGKPFXCWuBvf9Ss623VQ5DA".
Definition TOKEN_2022_PROGRAM_ADDRESS : Address :=
  "TokenzQdBNbLqP5VEhdkAS6EPFLC1PHnBqCXEpPxuEb".

(** Codes of [SolanaError].  The sources test for
    [SOLANA_ERROR__BLOCK_HEIGHT_EXCEEDED] alone; of the others it matters
    only that they differ from it. *)
Definition SOLANA_ERROR__BLOCK_HEIGHT_EXCEEDED : Z := 1.
Definition SOLANA_ERROR__CODECS__INVALID_BYTE_LENGTH : Z := 8078001.
Definition SOLANA_ERROR__INSTRUCTION__EXPECTED_TO_HAVE_ACCOUNTS : Z := 4128000.
Definition SOLANA_ERROR__INSTRUCTION__EXPECTED_TO_HAVE_DATA : Z := 4128001.
Definition SOLANA_ERROR__TRANSACTION__EXPECTED_BLOCKHASH_LIFETIME : Z := 5663011.

Record AccountMeta : Type := { address : Address; role : Z }.

(** An instruction of a decompiled message; [accounts] and [data] may be
    absent ([undefined]).  Data bytes are integers in [0, 255]. *)
Record Instruction : Type := {
  programAddress : Address;
  accounts : option (list AccountMeta);
  data : option (list Z)
}.

Record Lifetime : Type := { blockhash : string; lastValidBlockHeight : Z }.

(** A decompiled transaction message; [lifetimeConstraint] is [None] for a
    message whose lifetime is a durable nonce. *)
Record TransactionMessage : Type := {
  instructions : list Instruction;
  lifetimeConstraint : option Lifetime
}.

Record CompiledInstruction : Type := {
  programAddressIndex : nat;
  accountIndices : option (list nat)
}.

Record CompiledTransactionMessage : Type := {
  staticAccounts : option (list Address);
  compiledInstructions : option (list CompiledInstruction)
}.

(** A decoded transaction: the message bytes and, per signer, the
    signature once it is there. *)
Record Transaction : Type := {
  messageBytes : string;
  signatures : list (Address * option string)
}.

Record Rpc : Type := { rpc_mainnet : bool; rpc_url : string }.
Record RpcSubscriptions : Type := { subs_mainnet : bool; subs_url : string }.

Record MaybeAccount : Type := { account_address : Address; account_exists : bool }.

(** [simulateResult.value?.err]: [None] when the simulation reports no
    error. *)
Record SimulateResult : Type := { simulate_err : option string }.

(** [X402Config]: of its contents the facilitator reads
    [svmConfig.rpcUrl]. *)
Record X402Config : Type := { rpcUrl : option string }.

(** The key pair signer of the facilitator. *)
Record KeyPairSigner : Type := { signer_address : Address }.

(** ** The collaborators

    The Solana libraries and the RPC node, as far as the facilitator calls
    them.  Each is a function of its arguments that returns or throws. *)
Record World : Type := {
  (** [getTransactionDecoder().decode(getBase64Encoder().encode(text))] *)
  decodeTransaction : string -> result Transaction;
  (** [getCompiledTransactionMessageDecoder().decode(messageBytes)] *)
  decodeCompiledMessage : string -> result CompiledTransactionMessage;
  decompileTransactionMessage : CompiledTransactionMessage -> result TransactionMessage;
  decompileTransactionMessageFetchingLookupTables :
    CompiledTransactionMessage -> Rpc -> result TransactionMessage;
  (** [findAssociatedTokenPda({ mint, owner, tokenProgram })[0]] *)
  findAssociatedTokenPda : Address -> Address -> Address -> result Address;
  fetchEncodedAccounts : Rpc -> list Address -> result (list MaybeAccount);
  (** Whether the token libraries recognise data that does not start with
      the TransferChecked discriminator as some other instruction of the
      program ([false]: their [identify...] function throws). *)
  identifiesOtherInstruction : Address -> list Z -> bool;
  partiallySignTransaction : KeyPairSigner -> Transaction -> result Transaction;
  signTransaction : KeyPairSigner -> Transaction -> result Transaction;
  (** Throws when the transaction carries no signature of its fee payer. *)
  getSignatureFromTransaction : Transaction -> result string;
  (** [rpc.simulateTransaction(wire, config).send()] *)
  simulateTransaction : Rpc -> Transaction -> result SimulateResult;
  (** [rpc.sendTransaction(wire, config).send()] *)
  sendTransaction : Rpc -> Transaction -> result string;
  createSolanaRpcSubscriptions : bool -> string -> result RpcSubscriptions;
  (** [waitForRecentTransactionConfirmation] under an abort signal that
      fires after the given number of milliseconds.  An abort is delivered
      as a [DOMException] named [AbortError], an expired blockhash as a
      [SolanaError] with code [SOLANA_ERROR__BLOCK_HEIGHT_EXCEEDED]. *)
  waitForRecentTransactionConfirmation :
    Rpc -> RpcSubscriptions -> Transaction -> Lifetime -> Z -> result unit
}.

(** ** Instruction parsers of the program libraries

    [@solana-program/compute-budget], [@solana-program/token] and
    [@solana-program/token-2022] decode instruction data with fixed-size
    little-endian struct decoders, which throw when the bytes run out and
    ignore bytes that follow. *)

Fixpoint littleEndian (bytes : list Z) : Z :=
  match bytes with
  | [] => 0
  | b :: bytes' => b + 256 * littleEndian bytes'
  end.

(** Reads [size] bytes at [offset]. *)
Definition readNumber (size offset : nat) (bytes : list Z) : result Z :=
  let chunk := firstn size (skipn offset bytes) in
  if (length chunk =? size)%nat then Ok (littleEndian chunk)
  else Throw (SolanaError SOLANA_ERROR__CODECS__INVALID_BYTE_LENGTH
                "Codec expected more bytes").

(** [parseSetComputeUnitLimitInstruction]: [{ discriminator: u8, units: u32 }] *)
Definition parseSetComputeUnitLimitInstruction (bytes : list Z) : result Z :=
  (let! _ := readNumber 1 0 bytes in
   readNumber 4 1 bytes)%result.

(** [parseSetComputeUnitPriceInstruction]:
    [{ discriminator: u8, microLamports: u64 }]; the result is
    [data.microLamports]. *)
Definition parseSetComputeUnitPriceInstruction (bytes : list Z) : result Z :=
  (let! _ := readNumber 1 0 bytes in
   readNumber 8 1 bytes)%result.

Record ParsedCreateATA : Type := {
  ata_payer : AccountMeta;
  ata_ata : AccountMeta;
  ata_owner : AccountMeta;
  ata_mint : AccountMeta
}.

(** [parseCreateAssociatedTokenInstruction]: six accounts at least, in the
    order payer, ata, owner, mint, system program, token program; data
    [{ discriminator: u8 }]. *)
Definition parseCreateAssociatedTokenInstruction
    (accs : list AccountMeta) (bytes : list Z) : result ParsedCreateATA :=
  match accs with
  | p :: a :: o :: m :: _ :: _ :: _ =>
      (let! _ := readNumber 1 0 bytes in
       Ok {| ata_payer := p; ata_ata := a; ata_owner := o; ata_mint := m |})%result
  | _ => Throw (JsError "Not enough accounts")
  end.

Record ParsedTransferChecked : Type := {
  tc_programAddress : Address;
  tc_source : AccountMeta;
  tc_mint : AccountMeta;
  tc_destination : AccountMeta;
  tc_authority : AccountMeta;
  tc_amount : Z;
  tc_decimals : Z
}.

(** [parseTransferCheckedInstruction] of either token library: four
    accounts at least, in the order source, mint, destination, authority;
    data [{ discriminator: u8, amount: u64, decimals: u8 }]. *)
Definition parseTransferCheckedInstruction
    (program : Address) (accs : list AccountMeta) (bytes : list Z)
    : result ParsedTransferChecked :=
  match accs with
  | s :: m :: d :: a :: _ =>
      (let! _ := readNumber 1 0 bytes in
       let! amount := readNumber 8 1 bytes in
       let! decimals := readNumber 1 9 bytes in
       Ok {| tc_programAddress := program; tc_source := s; tc_mint := m;
             tc_destination := d; tc_authority := a;
             tc_amount := amount; tc_decimals := decimals |})%result
  | _ => Throw (JsError "Not enough accounts")
  end.

Inductive TokenInstruction : Type :=
| TransferChecked
| OtherTokenInstruction.

(** [identifyTokenInstruction] / [identifyToken2022Instruction]: the first
    data byte 12 is TransferChecked in both programs. *)
Definition identifyInstruction (w : World) (program : Address) (bytes : list Z)
    : result TokenInstruction :=
  match bytes with
  | 12 :: _ => Ok TransferChecked
  | _ =>
      if identifiesOtherInstruction w program bytes then Ok OtherTokenInstruction
      else Throw (JsError "The provided instruction could not be identified")
  end.

(** [assertIsInstructionWithAccounts] / [assertIsInstructionWithData] *)
Definition assertIsInstructionWithAccounts (i : Instruction) : result (list AccountMeta) :=
  match accounts i with
  | Some accs => Ok accs
  | None => Throw (SolanaError SOLANA_ERROR__INSTRUCTION__EXPECTED_TO_HAVE_ACCOUNTS
                     "The instruction does not have any accounts")
  end.

Definition assertIsInstructionWithData (i : Instruction) : result (list Z) :=
  match data i with
  | Some bytes => Ok bytes
  | None => Throw (SolanaError SOLANA_ERROR__INSTRUCTION__EXPECTED_TO_HAVE_DATA
                     "The instruction does not have any data")
  end.

(** [instruction.data?.[0]] *)
Definition firstDataByte (i : Instruction) : option Z :=
  match data i with
  | Some (b :: _) => Some b
  | _ => None
  end.

Definition firstDataByteIs (i : Instruction) (d : Z) : bool :=
  match firstDataByte i with
  | Some b => b =? d
  | None => false
  end.

(* --------------------------------------------------------------------- *)
(** ** [x402/shared/svm/rpc.ts] *)
(* --------------------------------------------------------------------- *)

Definition DEVNET_RPC_URL : string := "https://api.devnet.solana.com".
Definition MAINNET_RPC_URL : string := "https://api.mainnet-beta.solana.com".
Definition DEVNET_WS_URL : string := "wss://api.devnet.solana.com".
Definition MAINNET_WS_URL : string := "wss://api.mainnet-beta.solana.com".

(** [url ? a : b]: an absent or empty URL is falsy. *)
Definition truthyUrl (url : option string) : option string :=
  match url with
  | Some EmptyString | None => None
  | Some u => Some u
  end.

Definition createDevnetRpcClient (url : option string) : Rpc :=
  {| rpc_mainnet := false;
     rpc_url := match truthyUrl url with Some u => u | None => DEVNET_RPC_URL end |}.

Definition createMainnetRpcClient (url : option string) : Rpc :=
  {| rpc_mainnet := true;
     rpc_url := match truthyUrl url with Some u => u | None => MAINNET_RPC_URL end |}.

Definition getRpcClient (network : string) (url : option string) : result Rpc :=
  if String.eqb network "solana-devnet" then Ok (createDevnetRpcClient url)
  else if String.eqb network "solana" then Ok (createMainnetRpcClient url)
  else Throw (JsError "Invalid network").

(** [url.startsWith("http") ? url.replace("http", "ws") : url] *)
Definition httpToWs (url : string) : string :=
  if String.prefix "http" url
  then ("ws" ++ String.substring 4 (String.length url - 4) url)%string
  else url.

Definition getRpcSubscriptions (w : World) (network : string) (url : option string)
    : result RpcSubscriptions :=
  if String.eqb network "solana-devnet" then
    createSolanaRpcSubscriptions w false
      (match truthyUrl url with Some u => httpToWs u | None => DEVNET_WS_URL end)
  else if String.eqb network "solana" then
    createSolanaRpcSubscriptions w true
      (match truthyUrl url with Some u => httpToWs u | None => MAINNET_WS_URL end)
  else Throw (JsError "Invalid network").

(* --------------------------------------------------------------------- *)
(** ** [x402/shared/svm/transaction.ts] *)
(* --------------------------------------------------------------------- *)

(** [svmPayload.transaction] of a payload without that field is
    [undefined], which the base64 encoder rejects. *)
Definition decodeTransactionFromPayload (w : World) (svmPayload : ExactPayload)
    : result Transaction :=
  try_catch
    (match svmPayload with
     | ExactSvmPayload transaction => decodeTransaction w transaction
     | ExactEvmPayload _ => Throw (JsError "Cannot read properties of undefined")
     end)
    (fun _ => Throw (JsError "invalid_exact_svm_payload_transaction")).

(** [staticAccounts[index].toString()]: a [TypeError] out of range. *)
Definition accountAt (staticAccounts : list Address) (index : nat) : result Address :=
  match nth_error staticAccounts index with
  | Some a => Ok a
  | None => Throw (JsError "Cannot read properties of undefined (reading 'toString')")
  end.

Fixpoint tokenPayerOf (staticAccounts : list Address) (ixs : list CompiledInstruction)
    : result string :=
  match ixs with
  | [] => Ok EmptyString
  | ix :: ixs' =>
      (let! programAddress := accountAt staticAccounts (programAddressIndex ix) in
       if String.eqb programAddress TOKEN_PROGRAM_ADDRESS
          || String.eqb programAddress TOKEN_2022_PROGRAM_ADDRESS
       then
         match accountIndices ix with
         | Some (_ :: _ :: _ :: ownerIndex :: _) =>
             let! ownerAddress := accountAt staticAccounts ownerIndex in
             match ownerAddress with
             | EmptyString => tokenPayerOf staticAccounts ixs'
             | _ => Ok ownerAddress
             end
         | _ => tokenPayerOf staticAccounts ixs'
         end
       else tokenPayerOf staticAccounts ixs')%result
  end.

Definition getTokenPayerFromTransaction (w : World) (transaction : Transaction)
    : result string :=
  (let! compiled := decodeCompiledMessage w (messageBytes transaction) in
   tokenPayerOf
     (match staticAccounts compiled with Some l => l | None => [] end)
     (match compiledInstructions compiled with Some l => l | None => [] end))%result.

Definition signAndSimulateTransaction (w : World) (signer : KeyPairSigner)
    (transaction : Transaction) (rpc : Rpc) : result SimulateResult :=
  (let! signedTransaction := partiallySignTransaction w signer transaction in
   simulateTransaction w rpc signedTransaction)%result.

End Svm.

(* ===================================================================== *)
(** * [schemes/exact/svm/facilitator/verify.ts] *)
(* ===================================================================== *)

Module Facilitator.
Import Svm.

Definition reason_length : string :=
  "invalid_exact_svm_payload_transaction_instructions_length".
Definition reason_compute_limit : string :=
  "invalid_exact_svm_payload_transaction_instructions_compute_limit_instruction".
Definition reason_compute_price : string :=
  "invalid_exact_svm_payload_transaction_instructions_compute_price_instruction".
Definition reason_compute_price_too_high : string :=
  "invalid_exact_svm_payload_transaction_instructions_compute_price_instruction_too_high".
Definition reason_create_ata : string :=
  "invalid_exact_svm_payload_transaction_create_ata_instruction".
Definition reason_create_ata_incorrect_payee : string :=
  "invalid_exact_svm_payload_transaction_create_ata_instruction_incorrect_payee".
Definition reason_create_ata_incorrect_asset : string :=
  "invalid_exact_svm_payload_transaction_create_ata_instruction_incorrect_asset".
Definition reason_instructions : string :=
  "invalid_exact_svm_payload_transaction_instructions".
Definition reason_not_spl_transfer_checked : string :=
  "invalid_exact_svm_payload_transaction_instruction_not_spl_token_transfer_checked".
Definition reason_not_2022_transfer_checked : string :=
  "invalid_exact_svm_payload_transaction_instruction_not_token_2022_transfer_checked".
Definition reason_not_a_transfer : string :=
  "invalid_exact_svm_payload_transaction_not_a_transfer_instruction".
Definition reason_incorrect_ata : string :=
  "invalid_exact_svm_payload_transaction_transfer_to_incorrect_ata".
Definition reason_sender_ata_not_found : string :=
  "invalid_exact_svm_payload_transaction_sender_ata_not_found".
Definition reason_receiver_ata_not_found : string :=
  "invalid_exact_svm_payload_transaction_receiver_ata_not_found".
Definition reason_amount_mismatch : string :=
  "invalid_exact_svm_payload_transaction_amount_mismatch".
Definition reason_simulation_failed : string :=
  "invalid_exact_svm_payload_transaction_simulation_failed".

(** ** [verifySchemesAndNetworks] *)
Definition verifySchemesAndNetworks (payload : PaymentPayload)
    (paymentRequirements : PaymentRequirements) : result unit :=
  (throw_if (negb (String.eqb (pay_scheme payload) SCHEME)
             || negb (String.eqb (req_scheme paymentRequirements) SCHEME))
     "unsupported_scheme" ;;;
   throw_if (negb (String.eqb (pay_network payload) (req_network paymentRequirements))
             || negb (existsb (String.eqb (req_network paymentRequirements))
                        SupportedSVMNetworks))
     "invalid_network")%result.

(** ** [verifyComputeLimitInstruction]: whatever fails inside the [try],
    the [catch] throws the one reason. *)
Definition verifyComputeLimitInstruction (instruction : Instruction) : result unit :=
  try_catch
    (throw_if (negb (String.eqb (programAddress instruction) COMPUTE_BUDGET_PROGRAM_ADDRESS)
               || negb (firstDataByteIs instruction 2))
       reason_compute_limit ;;;
     let! _ := parseSetComputeUnitLimitInstruction
                 (match data instruction with Some b => b | None => [] end) in
     Ok tt)%result
    (fun _ => Throw (JsError reason_compute_limit)).

(** ** [verifyComputePriceInstruction]: no [try] here, so what the parser
    throws goes to the caller as it is. *)
Definition verifyComputePriceInstruction (instruction : Instruction) : result unit :=
  (throw_if (negb (String.eqb (programAddress instruction) COMPUTE_BUDGET_PROGRAM_ADDRESS)
             || negb (firstDataByteIs instruction 3))
     reason_compute_price ;;;
   let! microLamports := parseSetComputeUnitPriceInstruction
                           (match data instruction with Some b => b | None => [] end) in
   throw_if (5 * 1000000 <? microLamports) reason_compute_price_too_high)%result.

(** The [try] block of [verifyCreateATAInstruction]: the two assertions
    and the parse. *)
Definition parsedCreateATA (instruction : Instruction) : result ParsedCreateATA :=
  (let! accs := assertIsInstructionWithAccounts instruction in
   let! bytes := assertIsInstructionWithData instruction in
   parseCreateAssociatedTokenInstruction accs bytes)%result.

(** ** [verifyCreateATAInstruction] *)
Definition verifyCreateATAInstruction (instruction : Instruction)
    (paymentRequirements : PaymentRequirements) : result unit :=
  (let! createATAInstruction :=
     try_catch (parsedCreateATA instruction)
       (fun _ => Throw (JsError reason_create_ata)) in
   throw_if (negb (String.eqb (address (ata_owner createATAInstruction))
                     (payTo paymentRequirements)))
     reason_create_ata_incorrect_payee ;;;
   throw_if (negb (String.eqb (address (ata_mint createATAInstruction))
                     (req_asset paymentRequirements)))
     reason_create_ata_incorrect_asset)%result.

(** ** [getValidatedTransferCheckedInstruction] *)
Definition getValidatedTransferCheckedInstruction (w : World) (instruction : Instruction)
    : result ParsedTransferChecked :=
  (let! asserted :=
     try_catch
       (let! bytes := assertIsInstructionWithData instruction in
        let! accs := assertIsInstructionWithAccounts instruction in
        Ok (bytes, accs))
       (fun _ => Throw (JsError reason_instructions)) in
   let bytes := fst asserted in
   let accs := snd asserted in
   if String.eqb (programAddress instruction) TOKEN_PROGRAM_ADDRESS then
     let! identifiedInstruction := identifyInstruction w TOKEN_PROGRAM_ADDRESS bytes in
     match identifiedInstruction with
     | TransferChecked =>
         parseTransferCheckedInstruction (programAddress instruction) accs bytes
     | OtherTokenInstruction => Throw (JsError reason_not_spl_transfer_checked)
     end
   else if String.eqb (programAddress instruction) TOKEN_2022_PROGRAM_ADDRESS then
     let! identifiedInstruction := identifyInstruction w TOKEN_2022_PROGRAM_ADDRESS bytes in
     match identifiedInstruction with
     | TransferChecked =>
         parseTransferCheckedInstruction (programAddress instruction) accs bytes
     | OtherTokenInstruction => Throw (JsError reason_not_2022_transfer_checked)
     end
   else Throw (JsError reason_not_a_transfer))%result.

(** The [for] loop over the accounts that do not exist. *)
Fixpoint checkMissingAccounts (missingAccounts : list MaybeAccount)
    (source payToATA : Address) (txHasCreateDestATAInstruction : bool) : result unit :=
  match missingAccounts with
  | [] => Ok tt
  | missingAccount :: rest =>
      (throw_if (String.eqb (account_address missingAccount) source)
         reason_sender_ata_not_found ;;;
       throw_if (String.eqb (account_address missingAccount) payToATA
                 && negb txHasCreateDestATAInstruction)
         reason_receiver_ata_not_found ;;;
       checkMissingAccounts rest source payToATA txHasCreateDestATAInstruction)%result
  end.

(** The statements of [verifyTransferCheckedInstruction] that come before
    the amount check: the destination and the existence of the accounts. *)
Definition verifyTransferAccounts (w : World) (parsedInstruction : ParsedTransferChecked)
    (paymentRequirements : PaymentRequirements)
    (txHasCreateDestATAInstruction : bool) (rpc : Rpc) : result unit :=
  (let tokenProgramAddress :=
     if String.eqb (tc_programAddress parsedInstruction) TOKEN_PROGRAM_ADDRESS
     then TOKEN_PROGRAM_ADDRESS else TOKEN_2022_PROGRAM_ADDRESS in
   let! payToATA :=
     findAssociatedTokenPda w (req_asset paymentRequirements)
       (payTo paymentRequirements) tokenProgramAddress in
   throw_if (negb (String.eqb (address (tc_destination parsedInstruction)) payToATA))
     reason_incorrect_ata ;;;
   let addresses := [address (tc_source parsedInstruction); payToATA] in
   let! maybeAccounts := fetchEncodedAccounts w rpc addresses in
   let missingAccounts := List.filter (fun a => negb (account_exists a)) maybeAccounts in
   checkMissingAccounts missingAccounts (address (tc_source parsedInstruction))
     payToATA txHasCreateDestATAInstruction)%result.

(** The amount check that ends [verifyTransferCheckedInstruction]. *)
Definition verifyTransferAmount (parsedInstruction : ParsedTransferChecked)
    (paymentRequirements : PaymentRequirements) : result unit :=
  (let instructionAmount := tc_amount parsedInstruction in
   let! paymentRequirementsAmount := JS.BigInt (maxAmountRequired paymentRequirements) in
   throw_if (negb (instructionAmount =? paymentRequirementsAmount))
     reason_amount_mismatch)%result.

(** ** [verifyTransferCheckedInstruction] *)
Definition verifyTransferCheckedInstruction (w : World)
    (parsedInstruction : ParsedTransferChecked)
    (paymentRequirements : PaymentRequirements)
    (txHasCreateDestATAInstruction : bool) (rpc : Rpc) : result unit :=
  (verifyTransferAccounts w parsedInstruction paymentRequirements
     txHasCreateDestATAInstruction rpc ;;;
   verifyTransferAmount parsedInstruction paymentRequirements)%result.

(** ** [verifyTransferInstruction] *)
Definition verifyTransferInstruction (w : World) (instruction : Instruction)
    (paymentRequirements : PaymentRequirements)
    (txHasCreateDestATAInstruction : bool) (rpc : Rpc) : result unit :=
  (let! tokenInstruction := getValidatedTransferCheckedInstruction w instruction in
   verifyTransferCheckedInstruction w tokenInstruction paymentRequirements
     txHasCreateDestATAInstruction rpc)%result.

(** ** [verifyTransactionInstructions] *)
Definition verifyTransactionInstructions (w : World)
    (transactionMessage : TransactionMessage)
    (paymentRequirements : PaymentRequirements) (rpc : Rpc) : result unit :=
  match instructions transactionMessage with
  | [i0; i1; i2] =>
      (verifyComputeLimitInstruction i0 ;;;
       verifyComputePriceInstruction i1 ;;;
       verifyTransferInstruction w i2 paymentRequirements false rpc)%result
  | [i0; i1; i2; i3] =>
      (verifyComputeLimitInstruction i0 ;;;
       verifyComputePriceInstruction i1 ;;;
       verifyCreateATAInstruction i2 paymentRequirements ;;;
       verifyTransferInstruction w i3 paymentRequirements true rpc)%result
  | _ => Throw (JsError reason_length)
  end.

(** ** [transactionIntrospection] *)
Definition transactionIntrospection (w : World) (svmPayload : ExactPayload)
    (paymentRequirements : PaymentRequirements) (config : option X402Config)
    : result unit :=
  (let! rpc := getRpcClient (req_network paymentRequirements)
                 (match config with Some c => rpcUrl c | None => None end) in
   let! decodedTransaction := decodeTransactionFromPayload w svmPayload in
   let! compiledTransactionMessage :=
     decodeCompiledMessage w (messageBytes decodedTransaction) in
   let! transactionMessage := decompileTransactionMessage w compiledTransactionMessage in
   verifyTransactionInstructions w transactionMessage paymentRequirements rpc)%result.

(** ** [verify]

    [verify_try] is the body of the [try] block; it yields the payer of the
    valid response.  [verify] adds the [catch] clause, in which the payer is
    looked up again under a [try] of its own. *)
Definition verify_try (w : World) (signer : KeyPairSigner) (payload : PaymentPayload)
    (paymentRequirements : PaymentRequirements) (config : option X402Config)
    : result string :=
  (verifySchemesAndNetworks payload paymentRequirements ;;;
   let svmPayload := pay_payload payload in
   let! decodedTransaction := decodeTransactionFromPayload w svmPayload in
   let! rpc := getRpcClient (req_network paymentRequirements)
                 (match config with Some c => rpcUrl c | None => None end) in
   transactionIntrospection w svmPayload paymentRequirements config ;;;
   let! simulateResult := signAndSimulateTransaction w signer decodedTransaction rpc in
   throw_if (match simulate_err simulateResult with Some _ => true | None => false end)
     reason_simulation_failed ;;;
   getTokenPayerFromTransaction w decodedTransaction)%result.

(** The payer as the [catch] clause computes it: [undefined] when decoding
    or the lookup throws. *)
Definition payerOrUndefined (w : World) (payload : PaymentPayload) : option string :=
  match (let! tx := decodeTransactionFromPayload w (pay_payload payload) in
         getTokenPayerFromTransaction w tx)%result with
  | Ok p => Some p
  | Throw _ => None
  end.

Definition verify (w : World) (signer : KeyPairSigner) (payload : PaymentPayload)
    (paymentRequirements : PaymentRequirements) (config : option X402Config)
    : VerifyResponse :=
  match verify_try w signer payload paymentRequirements config with
  | Ok p => {| isValid := true; invalidReason := None; verify_payer := Some p |}
  | Throw error =>
      if instanceofError error && isErrorReason (message_of error) then
        {| isValid := false;
           invalidReason := Some (message_of error);
           verify_payer := payerOrUndefined w payload |}
      else
        {| isValid := false;
           invalidReason := Some "unexpected_verify_error";
           verify_payer := payerOrUndefined w payload |}
  end.

(* ===================================================================== *)
(** * [schemes/exact/svm/facilitator/settle.ts] *)
(* ===================================================================== *)

(** What [confirmSignedTransaction] resolves to. *)
Record Confirmation : Type := {
  conf_success : bool;
  conf_errorReason : option string;
  conf_signature : string
}.

(** ** [sendSignedTransaction] *)
Definition sendSignedTransaction (w : World) (signedTransaction : Transaction) (rpc : Rpc)
    : result string :=
  sendTransaction w rpc signedTransaction.

(** [isSolanaError(error, code)] *)
Definition isSolanaError (error : Exn) (code : Z) : bool :=
  match error with
  | SolanaError c _ => c =? code
  | _ => false
  end.

(** [error instanceof DOMException && error.name === "AbortError"] *)
Definition isAbortError (error : Exn) : bool :=
  match error with
  | DOMException name _ => String.eqb name "AbortError"
  | _ => false
  end.

(** [assertIsTransactionMessageWithBlockhashLifetime] *)
Definition assertIsTransactionMessageWithBlockhashLifetime (m : TransactionMessage)
    : result Lifetime :=
  match lifetimeConstraint m with
  | Some l => Ok l
  | None => Throw (SolanaError SOLANA_ERROR__TRANSACTION__EXPECTED_BLOCKHASH_LIFETIME
                     "Transaction does not have a blockhash lifetime")
  end.

(** ** [confirmSignedTransaction]

    The abort controller is set to fire after 60000 ms; the [finally]
    clause clears the timer and changes no result.  [confirm_try] is the
    body of the [try] block up to the wait. *)
Definition confirm_try (w : World) (signedTransaction : Transaction)
    (rpc : Rpc) (rpcSubscriptions : RpcSubscriptions) : result unit :=
  (let! compiledTransactionMessage :=
     decodeCompiledMessage w (messageBytes signedTransaction) in
   let! decompiledTransactionMessage :=
     decompileTransactionMessageFetchingLookupTables w compiledTransactionMessage rpc in
   let! lifetime :=
     assertIsTransactionMessageWithBlockhashLifetime decompiledTransactionMessage in
   waitForRecentTransactionConfirmation w rpc rpcSubscriptions signedTransaction
     lifetime 60000)%result.

Definition confirmSignedTransaction (w : World) (signedTransaction : Transaction)
    (rpc : Rpc) (rpcSubscriptions : RpcSubscriptions) : result Confirmation :=
  (let! signature := getSignatureFromTransaction w signedTransaction in
   try_catch
     (confirm_try w signedTransaction rpc rpcSubscriptions ;;;
      Ok {| conf_success := true; conf_errorReason := None; conf_signature := signature |})
     (fun error =>
        if isSolanaError error SOLANA_ERROR__BLOCK_HEIGHT_EXCEEDED then
          Ok {| conf_success := false;
                conf_errorReason := Some "settle_exact_svm_block_height_exceeded";
                conf_signature := signature |}
        else if isAbortError error then
          Ok {| conf_success := false;
                conf_errorReason := Some "settle_exact_svm_transaction_confirmation_timed_out";
                conf_signature := signature |}
        else Throw error))%result.

(** ** [sendAndConfirmSignedTransaction] *)
Definition sendAndConfirmSignedTransaction (w : World) (signedTransaction : Transaction)
    (rpc : Rpc) (rpcSubscriptions : RpcSubscriptions) : result Confirmation :=
  (sendSignedTransaction w signedTransaction rpc ;;;
   confirmSignedTransaction w signedTransaction rpc rpcSubscriptions)%result.

(** ** [settle] *)
Definition settle (w : World) (signer : KeyPairSigner) (payload : PaymentPayload)
    (paymentRequirements : PaymentRequirements) (config : option X402Config)
    : result SettleResponse :=
  let verifyResponse := verify w signer payload paymentRequirements config in
  if negb (isValid verifyResponse) then
    Ok {| success := false;
          errorReason := invalidReason verifyResponse;
          settle_payer := None;
          settle_transaction := EmptyString;
          settle_network := pay_network payload |}
  else
    (let svmPayload := pay_payload payload in
     let! decodedTransaction := decodeTransactionFromPayload w svmPayload in
     let! signedTransaction := signTransaction w signer decodedTransaction in
     let! payer := getTokenPayerFromTransaction w decodedTransaction in
     let url := match config with Some c => rpcUrl c | None => None end in
     let! rpc := getRpcClient (req_network paymentRequirements) url in
     let! rpcSubscriptions := getRpcSubscriptions w (req_network paymentRequirements) url in
     try_catch
       (let! confirmation :=
          sendAndConfirmSignedTransaction w signedTransaction rpc rpcSubscriptions in
        Ok {| success := conf_success confirmation;
              errorReason := conf_errorReason confirmation;
              settle_payer := Some payer;
              settle_transaction := conf_signature confirmation;
              settle_network := pay_network payload |})
       (fun _ =>
          let! signature := getSignatureFromTransaction w signedTransaction in
          Ok {| success := false;
                errorReason := Some "unexpected_settle_error";
                settle_payer := Some payer;
                settle_transaction := signature;
                settle_network := pay_network payload |}))%result.

End Facilitator.

(* ===================================================================== *)
(** * [x402-express/index.ts]: the payment middleware *)
(* ===================================================================== *)

Module Express.

(** ** The Express response, as far as the middleware and a handler use it *)

(** The [error] member of a 402 body. *)
Inductive ErrorField : Type :=
| ErrorText (text : string)
| ErrorReason (reason : option string)   (* [invalidReason] / [errorReason] *)
| ErrorCaught (error : Exn).             (* the caught value itself *)

(** The object given to [res.status(402).json(...)]; [body_payer] is
    present in the reply to a failed verification only. *)
Record Body402 : Type := {
  body_x402Version : Z;
  body_error : ErrorField;
  body_accepts : list PaymentRequirements;
  body_payer : option (option string)
}.

Inductive Chunk : Type :=
| ChunkRaw (bytes : string)       (* what a handler writes *)
| ChunkJson (body : Body402)
| ChunkHtml (html : string).

(** The arguments of one [end(...)] call: [end()], [end(cb)],
    [end(chunk, cb)] or [end(chunk, encoding, cb)]; a callback is named by
    a number. *)
Record EndArgs : Type := {
  end_chunk : option Chunk;
  end_encoding : option string;
  end_callback : option nat
}.

(** [statusCode], the headers set so far (names in lower case, as Node
    keeps them), [headersSent], which function [res.end] currently is, and
    what has gone to the client: the status line and headers at the moment
    they were flushed, the chunks written, and the arguments of the call
    that ended the response. *)
Record Response : Type := {
  statusCode : Z;
  headers : gmap string string;
  headersSent : bool;
  endIntercepted : bool;
  wireHead : option (Z * gmap string string);
  wireChunks : list Chunk;
  ended : option EndArgs
}.

Inductive Call : Type :=
| CallSupported
| CallVerify (payment : PaymentPayload) (requirements : PaymentRequirements)
| CallNext
| CallSettle (payment : PaymentPayload) (requirements : PaymentRequirements).

(** The response, the middleware's variable [endArgs], and the calls made
    to the facilitator and to [next], oldest first. *)
Record State : Type := {
  res : Response;
  endArgs : option EndArgs;
  calls : list Call
}.

Definition set_res (f : Response -> Response) (st : State) : State :=
  {| res := f (res st); endArgs := endArgs st; calls := calls st |}.

Definition log (c : Call) (st : State) : State :=
  {| res := res st; endArgs := endArgs st; calls := calls st ++ [c] |}.

(** ** Computations that change the state and may throw *)

Definition M (A : Type) : Type := State -> result A * State.

Definition ret {A : Type} (a : A) : M A := fun st => (Ok a, st).
Definition raise {A : Type} (e : Exn) : M A := fun st => (Throw e, st).
Definition lift {A : Type} (c : result A) : M A := fun st => (c, st).

Definition bind {A B : Type} (c : M A) (k : A -> M B) : M B :=
  fun st =>
    match c st with
    | (Ok a, st') => k a st'
    | (Throw e, st') => (Throw e, st')
    end.

(** [try { c } catch (error) { h error }] *)
Definition catch {A : Type} (c : M A) (h : Exn -> M A) : M A :=
  fun st =>
    match c st with
    | (Ok a, st') => (Ok a, st')
    | (Throw e, st') => h e st'
    end.

(** [try { c } finally { f }] *)
Definition finally {A : Type} (c : M A) (f : M unit) : M A :=
  fun st =>
    match c st with
    | (r, st') =>
        match f st' with
        | (Ok _, st'') => (r, st'')
        | (Throw e, st'') => (Throw e, st'')
        end
    end.

Declare Scope m_scope.
Delimit Scope m_scope with M.
Notation "'do' x '<-' c ';' k" := (bind c (fun x => k))
  (at level 10, x name, c at level 100, k at level 200) : m_scope.
Notation "c '>>' k" := (bind c (fun _ => k))
  (at level 100, k at level 200, right associativity) : m_scope.

Definition modify (f : State -> State) : M unit := fun st => (Ok tt, f st).
Definition gets {A : Type} (f : State -> A) : M A := fun st => (Ok (f st), st).

(** [res.status(code)] *)
Definition res_status (code : Z) : M unit :=
  modify (set_res (fun r =>
    {| statusCode := code; headers := headers r; headersSent := headersSent r;
       endIntercepted := endIntercepted r; wireHead := wireHead r;
       wireChunks := wireChunks r; ended := ended r |})).

Definition with_header (name value : string) (r : Response) : Response :=
  {| statusCode := statusCode r;
     headers := <[JS.toLowerCase name := value]> (headers r);
     headersSent := headersSent r; endIntercepted := endIntercepted r;
     wireHead := wireHead r; wireChunks := wireChunks r; ended := ended r |}.

(** [res.setHeader(name, value)]: Node throws once the headers are sent. *)
Definition res_setHeader (name value : string) : M unit :=
  fun st =>
    if headersSent (res st)
    then (Throw (JsError "Cannot set headers after they are sent to the client"), st)
    else (Ok tt, set_res (with_header name value) st).

(** The status line and headers go out with the first write or end. *)
Definition flushHead (r : Response) : option (Z * gmap string string) :=
  if headersSent r then wireHead r else Some (statusCode r, headers r).

(** The [end] of Node's response: ends the response once; a later call has
    no effect. *)
Definition originalEnd (args : EndArgs) : M unit :=
  modify (set_res (fun r =>
    match ended r with
    | Some _ => r
    | None =>
        {| statusCode := statusCode r; headers := headers r; headersSent := true;
           endIntercepted := endIntercepted r; wireHead := flushHead r;
           wireChunks := wireChunks r; ended := Some args |}
    end)).

(** [res.end(...args)], whichever function [res.end] is at the time: the
    one the middleware installs stores its arguments in [endArgs]. *)
Definition res_end (args : EndArgs) : M unit :=
  fun st =>
    if endIntercepted (res st)
    then (Ok tt, {| res := res st; endArgs := Some args; calls := calls st |})
    else originalEnd args st.

(** [res.end = function (...args) { endArgs = args; ... }] and
    [res.end = originalEnd] *)
Definition set_end (intercepted : bool) : M unit :=
  modify (set_res (fun r =>
    {| statusCode := statusCode r; headers := headers r; headersSent := headersSent r;
       endIntercepted := intercepted; wireHead := wireHead r;
       wireChunks := wireChunks r; ended := ended r |})).

(** [res.send(chunk)] of Express: sets the content type where there is
    none (a header write, so it throws once the headers are sent) and hands
    the chunk to [this.end]. *)
Definition sendArgs (chunk : Chunk) : EndArgs :=
  {| end_chunk := Some chunk; end_encoding := Some "utf8"; end_callback := None |}.

Definition res_send (contentType : string) (chunk : Chunk) : M unit :=
  (do present <- gets (fun st => headers (res st) !! "content-type");
   res_setHeader "Content-Type"
     (match present with Some t => t | None => contentType end) >>
   res_end (sendArgs chunk))%M.

(** [res.json(body)] *)
Definition res_json (body : Body402) : M unit :=
  res_send "application/json; charset=utf-8" (ChunkJson body).

(** The arguments with which [res.json(body)] reaches [end]. *)
Definition jsonEnd (body : Body402) : EndArgs := sendArgs (ChunkJson body).

(** ** The downstream handler

    What [next()] sets off, as the calls the handler makes on the response,
    in their order.  A header written after the headers went out is
    dropped.  [HAwait] is the point where an asynchronous handler waits for
    something that is not there yet when [next()] returns (a timer, a
    query, a request to another server): [next()] returns [undefined] at
    that point, so that [await next()] in the middleware does not wait for
    the handler, and what the handler does after the wait it does when the
    middleware has returned. *)
Inductive HandlerOp : Type :=
| HStatus (code : Z)
| HSetHeader (name value : string)
| HWrite (chunk : Chunk)
| HEnd (args : EndArgs)
| HAwait.

(** [res.write(chunk)] *)
Definition res_write (chunk : Chunk) : M unit :=
  modify (set_res (fun r =>
    match ended r with
    | Some _ => r
    | None =>
        {| statusCode := statusCode r; headers := headers r; headersSent := true;
           endIntercepted := endIntercepted r; wireHead := flushHead r;
           wireChunks := wireChunks r ++ [chunk]; ended := None |}
    end)).

Definition runOp (op : HandlerOp) : M unit :=
  match op with
  | HStatus code => res_status code
  | HSetHeader name value => catch (res_setHeader name value) (fun _ => ret tt)
  | HWrite chunk => res_write chunk
  | HEnd args => res_end args
  | HAwait => ret tt
  end.

(** What the handler does before [next()] returns: its calls up to the
    first wait. *)
Fixpoint runHandler (handler : list HandlerOp) : M unit :=
  match handler with
  | [] => ret tt
  | HAwait :: _ => ret tt
  | op :: handler' => (runOp op >> runHandler handler')%M
  end.

(** The calls that follow the first wait of the handler. *)
Fixpoint afterAwait (handler : list HandlerOp) : list HandlerOp :=
  match handler with
  | [] => []
  | HAwait :: handler' => handler'
  | _ :: handler' => afterAwait handler'
  end.

(** The handler resumed when the middleware has returned: the calls in
    their order, further waits being waited for. *)
Fixpoint resumeHandler (handler : list HandlerOp) : M unit :=
  match handler with
  | [] => ret tt
  | op :: handler' => (runOp op >> resumeHandler handler')%M
  end.

(** [next()] *)
Definition next (handler : list HandlerOp) : M unit :=
  (modify (log CallNext) >> runHandler handler)%M.

(** ** The request and the collaborators *)

Record Request : Type := {
  path : string;
  method : string;
  protocol : string;
  host : string;
  originalUrl : string;
  header_payment : option string;      (* [req.header("X-PAYMENT")] *)
  header_userAgent : option string;
  header_accept : option string
}.

(** One entry of [supported().kinds]. *)
Record Kind : Type := {
  kind_scheme : string;
  kind_network : string;
  kind_feePayer : option string         (* [kind?.extra?.feePayer] *)
}.

(** The facilitator client of [useFacilitator] with the helpers the
    middleware imports: each call returns or throws. *)
Record Facilitator : Type := {
  verify : PaymentPayload -> PaymentRequirements -> result VerifyResponse;
  settle : PaymentPayload -> PaymentRequirements -> result SettleResponse;
  supported : result (list Kind);
  (** [exact.evm.decodePayment] *)
  decodePayment : string -> result PaymentPayload;
  (** [getAddress] of viem *)
  getAddress : string -> result string;
  getPaywallHtml : list PaymentRequirements -> string -> string;
  (** [settleResponseHeader]: base64 of the JSON text *)
  settleResponseHeader : SettleResponse -> string
}.

Definition x402Version : Z := 1.

Definition orEmpty (s : option string) : string :=
  match s with Some t => t | None => EmptyString end.

(** A string that is neither absent nor empty. *)
Definition truthy (s : option string) : option string :=
  match s with
  | Some EmptyString | None => None
  | Some t => Some t
  end.

Definition body402 (error : ErrorField) (accepts : list PaymentRequirements)
    (payer : option (option string)) : Body402 :=
  {| body_x402Version := x402Version; body_error := error;
     body_accepts := accepts; body_payer := payer |}.

(** [res.status(402).json({ x402Version, error, accepts, payer? })] *)
Definition reply402 (error : ErrorField) (accepts : list PaymentRequirements)
    (payer : option (option string)) : M unit :=
  (res_status 402 >> res_json (body402 error accepts payer))%M.

(** ** Building the payment requirements (the part of the middleware up to
    the reading of the [X-PAYMENT] header) *)
Definition buildPaymentRequirements (f : Facilitator) (payTo_ : string)
    (req : Request) (matchingRoute : RoutePattern) : M (list PaymentRequirements) :=
  let routeConfig := route_config matchingRoute in
  let network_ := network routeConfig in
  let config_ := config routeConfig in
  let opt {A : Type} (g : PaymentMiddlewareConfig -> option A) : option A :=
    match config_ with Some c => g c | None => None end in
  (do atomicAmountForAsset <- lift (Shared.processPriceToAtomicAmount (price routeConfig) network_);
   match atomicAmountForAsset with
   | Shared.AtomicError error => raise (JsError error)
   | Shared.Atomic maxAmountRequired_ asset =>
       let resourceUrl :=
         match truthy (opt resource) with
         | Some r => r
         | None => (protocol req ++ "://" ++ host req ++ path req)%string
         end in
       let schema :=
         {| input_type := "http";
            input_method := JS.toUpperCase (method req);
            input_discoverable :=
              match opt discoverable with Some d => d | None => true end |} in
       let requirements (payTo' asset' : string) (extra : Extra) :=
         {| req_scheme := "exact";
            req_network := network_;
            maxAmountRequired := maxAmountRequired_;
            req_resource := resourceUrl;
            req_description := orEmpty (opt description);
            req_mimeType := orEmpty (opt mimeType);
            payTo := payTo';
            req_maxTimeoutSeconds :=
              match opt maxTimeoutSeconds with Some t => t | None => 60 end;
            req_asset := asset';
            req_outputSchema := schema;
            req_extra := extra |} in
       if existsb (String.eqb network_) SupportedEVMNetworks then
         do payTo' <- lift (getAddress f payTo_);
         do asset' <- lift (getAddress f (asset_address asset));
         ret [requirements payTo' asset'
                (ExtraEip712 (asset_eip712_name asset) (asset_eip712_version asset))]
       else if existsb (String.eqb network_) SupportedSVMNetworks then
         modify (log CallSupported) >>
         do paymentKinds <- lift (supported f);
         let feePayer :=
           match List.find
                   (fun kind => String.eqb (kind_network kind) network_
                                && String.eqb (kind_scheme kind) "exact")
                   paymentKinds with
           | Some kind => kind_feePayer kind
           | None => None
           end in
         match truthy feePayer with
         | None =>
             raise (JsError ("The facilitator did not provide a fee payer for network: "
                             ++ network_ ++ ".")%string)
         | Some feePayer' =>
             ret [requirements payTo_ (asset_address asset) (ExtraFeePayer feePayer')]
         end
       else raise (JsError ("Unsupported network: " ++ network_)%string)
   end)%M.

(** ** The middleware, first part: up to a verified payment

    The middleware is one function in the source.  Here it is cut where the
    payment has been verified: [challenge] is the text before
    [const originalEnd = res.end.bind(res)], [settlePhase] the text from
    there on.  [challenge] yields [None] when the request has been answered
    (a 402) or handed to [next] (no matching route), and the decoded
    payment with the selected and all requirements when it was verified. *)
Record Verified : Type := {
  decodedPayment : PaymentPayload;
  selectedPaymentRequirements : PaymentRequirements;
  paymentRequirements : list PaymentRequirements
}.

Definition challenge (f : Facilitator) (payTo_ : string)
    (routePatterns : list RoutePattern) (req : Request) (handler : list HandlerOp)
    : M (option Verified) :=
  match Shared.findMatchingRoute routePatterns (path req) (JS.toUpperCase (method req)) with
  | None => (next handler >> ret None)%M
  | Some matchingRoute =>
      (do requirements <- buildPaymentRequirements f payTo_ req matchingRoute;
       let userAgent := orEmpty (header_userAgent req) in
       let acceptHeader := orEmpty (header_accept req) in
       let isWebBrowser :=
         JS.includes "text/html" acceptHeader && JS.includes "Mozilla" userAgent in
       match truthy (header_payment req) with
       | None =>
           if isWebBrowser then
             let customHtml :=
               match config (route_config matchingRoute) with
               | Some c => truthy (customPaywallHtml c)
               | None => None
               end in
             let html :=
               match customHtml with
               | Some h => h
               | None => getPaywallHtml f requirements (originalUrl req)
               end in
             res_status 402 >> res_send "text/html; charset=utf-8" (ChunkHtml html) >>
             ret None
           else
             reply402 (ErrorText "X-PAYMENT header is required") requirements None >>
             ret None
       | Some payment =>
           match decodePayment f payment with
           | Throw error =>
               reply402
                 (match error with
                  | Thrown EmptyString => ErrorText "Invalid or malformed payment header"
                  | _ => ErrorCaught error
                  end)
                 requirements None >>
               ret None
           | Ok decoded =>
               let decoded' :=
                 {| pay_x402Version := x402Version;
                    pay_scheme := pay_scheme decoded;
                    pay_network := pay_network decoded;
                    pay_payload := pay_payload decoded |} in
               match Shared.findMatchingPaymentRequirements requirements decoded' with
               | None =>
                   reply402 (ErrorText "Unable to find matching payment requirements")
                     requirements None >>
                   ret None
               | Some selected =>
                   let verified :=
                     {| decodedPayment := decoded';
                        selectedPaymentRequirements := selected;
                        paymentRequirements := requirements |} in
                   catch
                     (modify (log (CallVerify decoded' selected)) >>
                      do response <- lift (verify f decoded' selected);
                      if negb (isValid response) then
                        reply402 (ErrorReason (invalidReason response))
                          requirements (Some (verify_payer response)) >>
                        ret None
                      else ret (Some verified))
                     (fun error =>
                        reply402 (ErrorCaught error) requirements None >>
                        ret None)
               end
           end
       end)%M
  end.

(** ** The middleware, second part: intercept, forward, settle, flush *)

(** [let endArgs = null; res.end = function (...args) { endArgs = args; ... }] *)
Definition intercept : M unit :=
  (modify (fun st => {| res := res st; endArgs := None; calls := calls st |}) >>
   set_end true)%M.

(** [res.end = originalEnd; if (endArgs) { originalEnd(...endArgs); }] *)
Definition flushBuffered : M unit :=
  (set_end false >>
   do buffered <- gets endArgs;
   match buffered with
   | Some args => originalEnd args
   | None => ret tt
   end)%M.

(** What follows [await next()]: the status check, [settle], the
    [X-PAYMENT-RESPONSE] header and the [finally] clause. *)
Definition afterNext (f : Facilitator) (a : Verified) : M unit :=
  (do status <- gets (fun st => statusCode (res st));
   if 400 <=? status then flushBuffered
   else
     finally
       (catch
          (modify (log (CallSettle (decodedPayment a) (selectedPaymentRequirements a))) >>
           do settleResponse <-
             lift (settle f (decodedPayment a) (selectedPaymentRequirements a));
           let responseHeader := settleResponseHeader f settleResponse in
           res_setHeader "X-PAYMENT-RESPONSE" responseHeader >>
           if negb (success settleResponse)
           then reply402 (ErrorReason (errorReason settleResponse))
                  (paymentRequirements a) None
           else ret tt)
          (fun error =>
             do sent <- gets (fun st => headersSent (res st));
             if negb sent
             then reply402 (ErrorCaught error) (paymentRequirements a) None
             else ret tt))
       flushBuffered)%M.

Definition settlePhase (f : Facilitator) (handler : list HandlerOp) (a : Verified)
    : M unit :=
  (intercept >> next handler >> afterNext f a)%M.

(** ** The middleware returned by [paymentMiddleware(payTo, routes, ...)] *)
Definition handleRequest (f : Facilitator) (payTo_ : string)
    (routePatterns : list RoutePattern) (req : Request) (handler : list HandlerOp)
    : M unit :=
  (do verified <- challenge f payTo_ routePatterns req handler;
   match verified with
   | Some a => settlePhase f handler a
   | None => ret tt
   end)%M.

(** [paymentMiddleware(payTo, routes, facilitator, ...)]: the route
    patterns are compiled once, when the middleware is created. *)
Definition paymentMiddleware (f : Facilitator) (payTo_ : string) (routes : RoutesConfig)
    : result (Request -> list HandlerOp -> M unit) :=
  (let! routePatterns := Shared.computeRoutePatterns routes in
   Ok (handleRequest f payTo_ routePatterns))%result.

(** The response of a verified request when [next()] has returned:
    [res.end] intercepted, the handler run up to its first wait. *)
Definition afterHandler (handler : list HandlerOp) (st : State) : State :=
  snd ((intercept >> next handler)%M st).

(** ** Calls other than settle *)

Definition isSettleCall (c : Call) : bool :=
  match c with CallSettle _ _ => true | _ => false end.

(** [st'] has the calls of [st] and after them calls other than settle. *)
Definition quiet (st st' : State) : Prop :=
  exists l, calls st' = (calls st ++ l)%list
            /\ forallb (fun c => negb (isSettleCall c)) l = true.

(** Every run of [c] is quiet. *)
Definition Quiet {A : Type} (c : M A) : Prop :=
  forall st r st', c st = (r, st') -> quiet st st'.

End Express.

(* ===================================================================== *)
(** * Concrete transactions, collaborators and requests *)
(* ===================================================================== *)

(** The inputs at which the properties below are exercised: a devnet
    payment of 1800 atomic units of USDC from a client to a merchant, with
    the facilitator as fee payer. *)
Module Examples.
Import Svm.

Definition usdcDevnet : Address := "4zMMC9srt5Ri5X14GAgXhaHii3GnPAEERYPJgZJDncDU".
Definition merchant : Address := "CKy5kSzS3K2V4RcedtEa7hC43aYk5tq6z6A4vZnE1fVz".
Definition client : Address := "ClientOwner11111111111111111111111111111111".
Definition feePayer : Address := "FeePayer1111111111111111111111111111111111".
Definition clientATA : Address := "ClientTokenAccount111111111111111111111111".
Definition merchantATA : Address := "MerchantTokenAccount1111111111111111111111".

Definition meta (a : Address) : AccountMeta := {| address := a; role := 1 |}.

(** [SetComputeUnitLimit(6500)], as in the repository's tests. *)
Definition limitInstruction : Instruction :=
  {| programAddress := COMPUTE_BUDGET_PROGRAM_ADDRESS; accounts := None;
     data := Some [2; 100; 25; 0; 0] |}.

(** [SetComputeUnitPrice(microLamports)] *)
Definition priceInstruction (microLamportsBytes : list Z) : Instruction :=
  {| programAddress := COMPUTE_BUDGET_PROGRAM_ADDRESS; accounts := None;
     data := Some (3 :: microLamportsBytes) |}.

Definition priceOne : Instruction := priceInstruction [1; 0; 0; 0; 0; 0; 0; 0].
(** 6 000 000 = 0x5B8D80 *)
Definition priceSixMillion : Instruction := priceInstruction [128; 141; 91; 0; 0; 0; 0; 0].
(** The discriminator and nothing after it. *)
Definition priceTruncated : Instruction := priceInstruction [].

(** [TransferChecked(amount, decimals = 6)] of the SPL token program;
    1800 = 0x0708, 1799 = 0x0707. *)
Definition transferInstruction (amountBytes : list Z) : Instruction :=
  {| programAddress := TOKEN_PROGRAM_ADDRESS;
     accounts := Some [meta clientATA; meta usdcDevnet; meta merchantATA; meta client];
     data := Some (12 :: amountBytes ++ [6]) |}.

(** The same instruction once parsed. *)
Definition parsedTransfer (amount : Z) : ParsedTransferChecked :=
  {| tc_programAddress := TOKEN_PROGRAM_ADDRESS;
     tc_source := meta clientATA; tc_mint := meta usdcDevnet;
     tc_destination := meta merchantATA; tc_authority := meta client;
     tc_amount := amount; tc_decimals := 6 |}.

Definition transfer1800 : Instruction := transferInstruction [8; 7; 0; 0; 0; 0; 0; 0].
Definition transfer1801 : Instruction := transferInstruction [9; 7; 0; 0; 0; 0; 0; 0].

(** Create-ATA for [owner] and [mint], paid by the facilitator. *)
Definition createATAInstruction (owner mint : Address) : Instruction :=
  {| programAddress := "ATokenGPvbdGVxr1b2hvZbsiqW5xWH25efTNsLJA8knL";
     accounts := Some [meta feePayer; meta merchantATA; meta owner; meta mint;
                       meta "11111111111111111111111111111111";
                       meta TOKEN_PROGRAM_ADDRESS];
     data := Some [0] |}.

Definition requirements : PaymentRequirements :=
  {| req_scheme := "exact";
     req_network := "solana-devnet";
     maxAmountRequired := "1800";
     req_resource := "http://localhost:4021/weather";
     req_description := EmptyString;
     req_mimeType := EmptyString;
     payTo := merchant;
     req_maxTimeoutSeconds := 60;
     req_asset := usdcDevnet;
     req_outputSchema :=
       {| input_type := "http"; input_method := "GET"; input_discoverable := true |};
     req_extra := ExtraFeePayer feePayer |}.

Definition payment : PaymentPayload :=
  {| pay_x402Version := 1; pay_scheme := "exact"; pay_network := "solana-devnet";
     pay_payload := ExactSvmPayload "AQID" |}.

Definition transaction : Transaction :=
  {| messageBytes := "message";
     signatures := [(feePayer, None); (client, Some "client-signature")] |}.

(** Static accounts and compiled instructions of a three-instruction
    payment. *)
Definition compiledMessage : CompiledTransactionMessage :=
  {| staticAccounts :=
       Some [feePayer; client; clientATA; merchantATA; usdcDevnet;
             TOKEN_PROGRAM_ADDRESS; COMPUTE_BUDGET_PROGRAM_ADDRESS];
     compiledInstructions :=
       Some [ {| programAddressIndex := 6; accountIndices := None |};
              {| programAddressIndex := 6; accountIndices := None |};
              {| programAddressIndex := 5;
                 accountIndices := Some [2; 4; 3; 1]%nat |} ] |}.

Definition lifetime : Lifetime :=
  {| blockhash := "9xQeWvG816bUx9EPjHmaT23yvVM2ZWbrrpZb9PusVFin";
     lastValidBlockHeight := 1234 |}.

(** What the node and the network do in one scenario. *)
Record Scenario : Type := {
  sc_instructions : list Instruction;
  (** which of the fetched accounts exist; [None]: the fetch fails *)
  sc_accounts : option (Address -> bool);
  sc_send : result string;
  sc_wait : result unit
}.

Definition world (sc : Scenario) : World :=
  {| decodeTransaction :=
       fun text => if String.eqb text "AQID" then Ok transaction
                   else Throw (JsError "Expected a base64 wire transaction");
     decodeCompiledMessage := fun _ => Ok compiledMessage;
     decompileTransactionMessage :=
       fun _ => Ok {| instructions := sc_instructions sc;
                      lifetimeConstraint := Some lifetime |};
     decompileTransactionMessageFetchingLookupTables :=
       fun _ _ => Ok {| instructions := sc_instructions sc;
                        lifetimeConstraint := Some lifetime |};
     findAssociatedTokenPda :=
       fun mint owner tokenProgram =>
         if String.eqb owner merchant then Ok merchantATA else Ok clientATA;
     fetchEncodedAccounts :=
       fun _ addresses =>
         match sc_accounts sc with
         | Some present =>
             Ok (List.map (fun a => {| account_address := a; account_exists := present a |})
                   addresses)
         | None => Throw (JsError "fetch failed")
         end;
     identifiesOtherInstruction := fun _ _ => true;
     partiallySignTransaction := fun _ tx => Ok tx;
     signTransaction := fun _ tx => Ok tx;
     getSignatureFromTransaction :=
       fun _ => Ok "5VERv8NMvzbJMEkV8xnrLkEaWRtSz9CosKDYjCJjBRnb";
     simulateTransaction := fun _ _ => Ok {| simulate_err := None |};
     sendTransaction := fun _ _ => sc_send sc;
     createSolanaRpcSubscriptions :=
       fun mainnet url => Ok {| subs_mainnet := mainnet; subs_url := url |};
     waitForRecentTransactionConfirmation := fun _ _ _ _ _ => sc_wait sc |}.

Definition signer : KeyPairSigner := {| signer_address := feePayer |}.

Definition devnetRpc : Rpc := createDevnetRpcClient None.

(** The payment as the client builds it, on a healthy network. *)
Definition happy (ixs : list Instruction) : Scenario :=
  {| sc_instructions := ixs;
     sc_accounts := Some (fun _ => true);
     sc_send := Ok "5VERv8NMvzbJMEkV8xnrLkEaWRtSz9CosKDYjCJjBRnb";
     sc_wait := Ok tt |}.

Definition threeInstructions : list Instruction :=
  [limitInstruction; priceOne; transfer1800].


Definition message (ixs : list Instruction) : TransactionMessage :=
  {| instructions := ixs; lifetimeConstraint := Some lifetime |}.

(** The node cannot be reached when the accounts are fetched. *)
Definition unreachable : Scenario :=
  {| sc_instructions := threeInstructions;
     sc_accounts := None;
     sc_send := Ok "5VERv8NMvzbJMEkV8xnrLkEaWRtSz9CosKDYjCJjBRnb";
     sc_wait := Ok tt |}.

(** Submission fails with an error whose text is one of the reasons. *)
Definition sendFails : Scenario :=
  {| sc_instructions := threeInstructions;
     sc_accounts := Some (fun _ => true);
     sc_send := Throw (JsError "insufficient_funds");
     sc_wait := Ok tt |}.

(** The wait for confirmation ends as given. *)
Definition waitEnds (outcome : result unit) : Scenario :=
  {| sc_instructions := threeInstructions;
     sc_accounts := Some (fun _ => true);
     sc_send := Ok "5VERv8NMvzbJMEkV8xnrLkEaWRtSz9CosKDYjCJjBRnb";
     sc_wait := outcome |}.

Definition devnetSubscriptions : RpcSubscriptions :=
  {| subs_mainnet := false; subs_url := DEVNET_WS_URL |}.

(** *** The resource server *)

Definition weatherRoutes : RoutesConfig :=
  [("GET /weather",
    RouteFull {| price := PriceMoney (MoneyString "$0.0018");
                 network := "solana-devnet"; config := None |})].

Definition wildcardRoutes : RoutesConfig :=
  [("/api/*", RouteBare (MoneyString "$0.01"))].

Definition patternsOf (routes : RoutesConfig) : list RoutePattern :=
  match Shared.computeRoutePatterns routes with
  | Ok patterns => patterns
  | Throw _ => []
  end.

(** The paths that the spec lists as naming one route. *)
Definition equivalentPaths : list string :=
  ["/api/test"; "/api//test"; "/API/test/"; "/api/%74est"; "/api\test"].

Definition settledOk : SettleResponse :=
  {| success := true; errorReason := None; settle_payer := Some client;
     settle_transaction := "5VERv8NMvzbJMEkV8xnrLkEaWRtSz9CosKDYjCJjBRnb";
     settle_network := "solana-devnet" |}.

Definition settledFailed : SettleResponse :=
  {| success := false; errorReason := Some "invalid_transaction_state";
     settle_payer := Some client;
     settle_transaction := "5VERv8NMvzbJMEkV8xnrLkEaWRtSz9CosKDYjCJjBRnb";
     settle_network := "solana-devnet" |}.

(** A facilitator that accepts the payment and settles as told. *)
Definition facilitator (settled : result SettleResponse) : Express.Facilitator :=
  {| Express.verify :=
       fun _ _ => Ok {| isValid := true; invalidReason := None;
                        verify_payer := Some client |};
     Express.settle := fun _ _ => settled;
     Express.supported :=
       Ok [ {| Express.kind_scheme := "exact";
               Express.kind_network := "solana-devnet";
               Express.kind_feePayer := Some feePayer |} ];
     Express.decodePayment :=
       fun header => if String.eqb header "eyJ4NDAyVmVyc2lvbiI6MX0="
                     then Ok payment else Throw (JsError "Invalid payment");
     Express.getAddress := fun a => Ok a;
     Express.getPaywallHtml := fun _ _ => "<html>Paywall</html>";
     Express.settleResponseHeader :=
       fun r => if success r then "eyJzdWNjZXNzIjp0cnVlfQ=="
                else "eyJzdWNjZXNzIjpmYWxzZX0=" |}.

Definition request (path_ : string) (payment_ : option string) : Express.Request :=
  {| Express.path := path_; Express.method := "GET"; Express.protocol := "http";
     Express.host := "localhost:4021"; Express.originalUrl := path_;
     Express.header_payment := payment_;
     Express.header_userAgent := None; Express.header_accept := None |}.

Definition paidRequest : Express.Request :=
  request "/weather" (Some "eyJ4NDAyVmVyc2lvbiI6MX0=").

(** A response on which nothing has been done yet. *)
Definition freshState : Express.State :=
  {| Express.res :=
       {| Express.statusCode := 200; Express.headers := ∅;
          Express.headersSent := false; Express.endIntercepted := false;
          Express.wireHead := None; Express.wireChunks := [];
          Express.ended := None |};
     Express.endArgs := None;
     Express.calls := [] |}.

Definition endWith (text : string) : Express.EndArgs :=
  {| Express.end_chunk := Some (Express.ChunkRaw text);
     Express.end_encoding := None; Express.end_callback := None |}.

(** A handler that answers 200, and one that answers 503. *)
Definition handlerOk : list Express.HandlerOp :=
  [Express.HStatus 200; Express.HEnd (endWith "sunny")].
Definition handlerDown : list Express.HandlerOp :=
  [Express.HStatus 503; Express.HEnd (endWith "service unavailable")].

End Examples.

(* ===================================================================== *)
(** * The calls a computation of the middleware makes *)
(* ===================================================================== *)

Module Trace.
Import Express.

(** Every run of [c] leaves the list of calls as it was. *)
Definition Silent {A : Type} (c : M A) : Prop :=
  forall st r st', c st = (r, st') -> calls st' = calls st.

(** The decoded payment as the middleware keeps it: [x402Version] set to
    the version of the middleware. *)
Definition stamped (decoded : PaymentPayload) : PaymentPayload :=
  {| pay_x402Version := x402Version;
     pay_scheme := pay_scheme decoded;
     pay_network := pay_network decoded;
     pay_payload := pay_payload decoded |}.

(** [acceptHeader.includes("text/html") && userAgent.includes("Mozilla")] *)
Definition isWebBrowser (req : Request) : bool :=
  JS.includes "text/html" (orEmpty (header_accept req))
  && JS.includes "Mozilla" (orEmpty (header_userAgent req)).

(** The page sent to a browser: [customPaywallHtml || getPaywallHtml(...)]. *)
Definition paywallHtml (f : Facilitator) (req : Request) (route : RoutePattern)
    (requirements : list PaymentRequirements) : string :=
  match match config (route_config route) with
        | Some c => truthy (customPaywallHtml c)
        | None => None
        end with
  | Some html => html
  | None => getPaywallHtml f requirements (originalUrl req)
  end.

End Trace.

(* ===================================================================== *)
(** * EVM: [x402/shared/evm/usdc.ts] and the facilitator of the exact
      scheme, [x402/schemes/exact/evm/facilitator.ts] *)
(* ===================================================================== *)

Module Evm.

Definition SCHEME : string := "exact".

(** [ExactEvmPayload["authorization"]]: every member is text. *)
Record Authorization : Type := {
  auth_from : string;
  auth_to : string;
  auth_value : string;
  auth_validAfter : string;
  auth_validBefore : string;
  auth_nonce : string
}.

Record ExactEvmPayload : Type := {
  evm_signature : string;
  authorization : Authorization
}.

(** A payment payload whose [payload] is an [ExactEvmPayload]; its
    [x402Version] is read by neither [verify] nor [settle]. *)
Record EvmPaymentPayload : Type := {
  evm_scheme : string;
  evm_network : string;
  evm_payload : ExactEvmPayload
}.

(** The members of [PaymentRequirements] that this facilitator reads.
    [extra_name] and [extra_version] are [extra?.name] and
    [extra?.version]: nothing when [extra] is absent or has no such
    member. *)
Record Requirements : Type := {
  er_scheme : string;
  er_maxAmountRequired : string;
  er_payTo : string;
  er_asset : string;
  extra_name : option string;
  extra_version : option string
}.

(** The argument of [client.verifyTypedData]: the address to recover, the
    EIP-712 domain, the message and the signature ([types] and
    [primaryType] are constants). *)
Record TypedData : Type := {
  td_address : string;
  td_name : string;
  td_version : string;
  td_chainId : Z;
  td_verifyingContract : string;
  td_message : Authorization;
  td_signature : string
}.

(** The arguments of the [transferWithAuthorization] call. *)
Record TransferWithAuthorization : Type := {
  tw_contract : string;
  tw_from : string;
  tw_to : string;
  tw_value : Z;
  tw_validAfter : Z;
  tw_validBefore : Z;
  tw_nonce : string;
  tw_signature : string
}.

(** The viem client or wallet and the viem helpers, as far as the sources
    call them; each returns or throws.  [dateNow n] is the [n]-th reading
    of [Date.now()] in the course of one call of [verify]. *)
Record Client : Type := {
  (** [client.chain?.id] *)
  chain_id : option Z;
  (** [client.readContract({ address, abi, functionName: "version" })] *)
  readVersion : string -> result string;
  (** [client.readContract({ address, abi, functionName: "balanceOf", args })] *)
  readBalanceOf : string -> string -> result Z;
  verifyTypedData : TypedData -> result bool;
  (** [getERC20Balance(client, erc20Address, address)] *)
  getERC20Balance : string -> string -> result Z;
  (** [getAddress] of viem: the checksummed address; throws for text that
      is not an address. *)
  getAddress : string -> result string;
  (** [parseErc6492Signature(signature).signature] *)
  parseErc6492Signature : string -> result string;
  dateNow : nat -> Z;
  writeContract : TransferWithAuthorization -> result string;
  (** [(await wallet.waitForTransactionReceipt({ hash })).status] *)
  waitForTransactionReceipt : string -> result string
}.

(** ** [usdc.ts] *)

(** [config[client.chain!.id.toString()].usdcAddress]: a [TypeError] when
    the client has no chain or the chain has no entry. *)
Definition getUsdcAddress (client : Client) : result string :=
  match chain_id client with
  | None => Throw (JsError "Cannot read properties of undefined (reading 'id')")
  | Some id =>
      match Shared.getUsdcChainConfigForChain id with
      | Some c => Ok (usdcAddress c)
      | None => Throw (JsError "Cannot read properties of undefined (reading 'usdcAddress')")
      end
  end.

(** [getUsdcAddressForChain] *)
Definition getUsdcAddressForChain (chainId : Z) : result string :=
  match Shared.getUsdcChainConfigForChain chainId with
  | Some c => Ok (usdcAddress c)
  | None => Throw (JsError "Cannot read properties of undefined (reading 'usdcAddress')")
  end.

(** [getVersion]: the module keeps the version in [versionCache], here the
    state that goes in and comes out. *)
Definition getVersion (client : Client) (versionCache : option string)
    : result string * option string :=
  match versionCache with
  | Some version => (Ok version, versionCache)
  | None =>
      match getUsdcAddress client with
      | Throw e => (Throw e, None)
      | Ok address =>
          match readVersion client address with
          | Ok version => (Ok version, Some version)
          | Throw e => (Throw e, None)
          end
      end
  end.

(** [getUSDCBalance]: [0n] for a chain without an entry. *)
Definition getUSDCBalance (client : Client) (address : string) : result Z :=
  match chain_id client with
  | None => Throw (JsError "Cannot read properties of undefined (reading 'id')")
  | Some chainId =>
      match Shared.getUsdcChainConfigForChain chainId with
      | None => Ok 0
      | Some usdc => readBalanceOf client (usdcAddress usdc) address
      end
  end.

(** ** The facilitator *)

Definition invalid (reason : string) (payload : EvmPaymentPayload) : VerifyResponse :=
  {| isValid := false; invalidReason := Some reason;
     verify_payer := Some (auth_from (authorization (evm_payload payload))) |}.

(** The [try] block of [verify] that works out the EIP-712 domain: the
    chain id, the token name and the token version. *)
Definition domainOf (client : Client) (payload : EvmPaymentPayload)
    (paymentRequirements : Requirements) (versionCache : option string)
    : result (Z * string * string) * option string :=
  match Shared.getNetworkId (evm_network payload) with
  | Throw e => (Throw e, versionCache)
  | Ok chainId =>
      match match extra_name paymentRequirements with
            | Some name => Ok name
            | None =>
                match Shared.getUsdcChainConfigForChain chainId with
                | Some c => Ok (usdcName c)
                | None =>
                    Throw (JsError
                             "Cannot read properties of undefined (reading 'usdcName')")
                end
            end with
      | Throw e => (Throw e, versionCache)
      | Ok name =>
          match extra_version paymentRequirements with
          | Some version => (Ok (chainId, name, version), versionCache)
          | None =>
              match getVersion client versionCache with
              | (Ok version, cache) => (Ok (chainId, name, version), cache)
              | (Throw e, cache) => (Throw e, cache)
              end
          end
      end
  end.

(** The checks of [verify] that follow the [try] block. *)
Definition verifyAuthorization (client : Client) (payload : EvmPaymentPayload)
    (paymentRequirements : Requirements) (chainId : Z) (name version : string)
    : result VerifyResponse :=
  let exactEvmPayload := evm_payload payload in
  let auth := authorization exactEvmPayload in
  (let! recoveredAddress :=
     verifyTypedData client
       {| td_address := auth_from auth;
          td_name := name; td_version := version; td_chainId := chainId;
          td_verifyingContract := er_asset paymentRequirements;
          td_message := auth;
          td_signature := evm_signature exactEvmPayload |} in
   if negb recoveredAddress then
     Ok (invalid "invalid_exact_evm_payload_signature" payload)
   else
     let! to := getAddress client (auth_to auth) in
     let! payTo_ := getAddress client (er_payTo paymentRequirements) in
     if negb (String.eqb to payTo_) then
       Ok (invalid "invalid_exact_evm_payload_recipient_mismatch" payload)
     else
       let! validBefore := JS.BigInt (auth_validBefore auth) in
       if validBefore <? dateNow client 0 / 1000 + 6 then
         Ok (invalid "invalid_exact_evm_payload_authorization_valid_before" payload)
       else
         let! validAfter := JS.BigInt (auth_validAfter auth) in
         if dateNow client 1 / 1000 <? validAfter then
           Ok (invalid "invalid_exact_evm_payload_authorization_valid_after" payload)
         else
           let! balance :=
             getERC20Balance client (er_asset paymentRequirements) (auth_from auth) in
           let! required := JS.BigInt (er_maxAmountRequired paymentRequirements) in
           if balance <? required then Ok (invalid "insufficient_funds" payload)
           else
             let! value := JS.BigInt (auth_value auth) in
             let! required' := JS.BigInt (er_maxAmountRequired paymentRequirements) in
             if value <? required' then
               Ok (invalid "invalid_exact_evm_payload_authorization_value" payload)
             else
               Ok {| isValid := true; invalidReason := None;
                     verify_payer := Some (auth_from auth) |})%result.

(** ** [verify] *)
Definition verify (client : Client) (payload : EvmPaymentPayload)
    (paymentRequirements : Requirements) (versionCache : option string)
    : result VerifyResponse * option string :=
  if negb (String.eqb (evm_scheme payload) SCHEME)
     || negb (String.eqb (er_scheme paymentRequirements) SCHEME)
  then (Ok (invalid "unsupported_scheme" payload), versionCache)
  else
    match domainOf client payload paymentRequirements versionCache with
    | (Throw _, cache) => (Ok (invalid "invalid_network" payload), cache)
    | (Ok (chainId, name, version), cache) =>
        (verifyAuthorization client payload paymentRequirements chainId name version,
         cache)
    end.

(** The [SettleResponse] of the EVM facilitator always names a payer. *)
Definition settled (success_ : bool) (reason : option string) (transaction : string)
    (payload : EvmPaymentPayload) : SettleResponse :=
  {| success := success_;
     errorReason := reason;
     settle_payer := Some (auth_from (authorization (evm_payload payload)));
     settle_transaction := transaction;
     settle_network := evm_network payload |}.

(** What [settle] does once the payment has been found valid. *)
Definition submit (wallet : Client) (paymentPayload : EvmPaymentPayload)
    (paymentRequirements : Requirements) : result SettleResponse :=
  let payload := evm_payload paymentPayload in
  let auth := authorization payload in
  (let! signature := parseErc6492Signature wallet (evm_signature payload) in
   let! value := JS.BigInt (auth_value auth) in
   let! validAfter := JS.BigInt (auth_validAfter auth) in
   let! validBefore := JS.BigInt (auth_validBefore auth) in
   let! tx :=
     writeContract wallet
       {| tw_contract := er_asset paymentRequirements;
          tw_from := auth_from auth;
          tw_to := auth_to auth;
          tw_value := value;
          tw_validAfter := validAfter;
          tw_validBefore := validBefore;
          tw_nonce := auth_nonce auth;
          tw_signature := signature |} in
   let! status := waitForTransactionReceipt wallet tx in
   if negb (String.eqb status "success")
   then Ok (settled false (Some "invalid_transaction_state") tx paymentPayload)
   else Ok (settled true None tx paymentPayload))%result.

(** ** [settle] *)
Definition settle (wallet : Client) (paymentPayload : EvmPaymentPayload)
    (paymentRequirements : Requirements) (versionCache : option string)
    : result SettleResponse * option string :=
  match verify wallet paymentPayload paymentRequirements versionCache with
  | (Throw e, cache) => (Throw e, cache)
  | (Ok valid, cache) =>
      if negb (isValid valid) then
        (Ok (settled false
               (Some (match invalidReason valid with
                      | Some reason => reason
                      | None => "invalid_scheme"
                      end))
               EmptyString paymentPayload),
         cache)
      else (submit wallet paymentPayload paymentRequirements, cache)
  end.

End Evm.

(* ===================================================================== *)
(** * The Solana client of the exact scheme,
      [x402/schemes/exact/svm/client.ts] *)
(* ===================================================================== *)

Module SvmClient.
Import Svm.

Definition ASSOCIATED_TOKEN_PROGRAM_ADDRESS : Address :=
  "ATokenGPvbdGVxr1b2hvZbsiqW5xWH25efTNsLJA8knL".
Definition SYSTEM_PROGRAM_ADDRESS : Address := "11111111111111111111111111111111".
Definition SOLANA_ERROR__CODECS__NUMBER_OUT_OF_RANGE : Z := 8078011.

(** [AccountRole] *)
Definition READONLY : Z := 0.
Definition WRITABLE : Z := 1.
Definition READONLY_SIGNER : Z := 2.
Definition WRITABLE_SIGNER : Z := 3.

(** What the client reads of the mint account: the program that owns it
    and [data.decimals]. *)
Record Mint : Type := { mint_programAddress : Address; mint_decimals : Z }.

(** A transaction message under construction: the fee payer, the
    instructions and the lifetime. *)
Record Message : Type := {
  msg_feePayer : option Address;
  msg : TransactionMessage
}.

(** The node and the library calls of the client that return or throw. *)
Record Node : Type := {
  fetchMint : Rpc -> Address -> result Mint;
  fetchEncodedAccount : Rpc -> Address -> result MaybeAccount;
  (** [estimateComputeUnitLimitFactory({ rpc })(message)] *)
  estimateComputeUnitLimit : Rpc -> Message -> result Z;
  (** [(await rpc.getLatestBlockhash().send()).value] *)
  getLatestBlockhash : Rpc -> result Lifetime;
  (** The signers are those attached to the accounts of the message: the
      client, as authority of the transfer. *)
  partiallySignTransactionMessageWithSigners : KeyPairSigner -> Message -> result Transaction;
  getBase64EncodedWireTransaction : Transaction -> string;
  encodePayment : PaymentPayload -> result string
}.

(** ** Instruction builders of the program libraries

    The number encoders throw for a number outside the range of the type
    and write it in little-endian order otherwise. *)

Fixpoint littleEndianBytes (size : nat) (n : Z) : list Z :=
  match size with
  | O => []
  | S size' => n mod 256 :: littleEndianBytes size' (n / 256)
  end.

Definition writeNumber (size : nat) (n : Z) : result (list Z) :=
  if (0 <=? n) && (n <? 2 ^ (8 * Z.of_nat size)) then Ok (littleEndianBytes size n)
  else Throw (SolanaError SOLANA_ERROR__CODECS__NUMBER_OUT_OF_RANGE
                "Codec expected number to be in range").

(** [getSetComputeUnitLimitInstruction({ units })] *)
Definition getSetComputeUnitLimitInstruction (units : Z) : result Instruction :=
  (let! bytes := writeNumber 4 units in
   Ok {| programAddress := COMPUTE_BUDGET_PROGRAM_ADDRESS; accounts := None;
         data := Some (2 :: bytes) |})%result.

(** [getSetComputeUnitPriceInstruction({ microLamports })] *)
Definition getSetComputeUnitPriceInstruction (microLamports : Z) : result Instruction :=
  (let! bytes := writeNumber 8 microLamports in
   Ok {| programAddress := COMPUTE_BUDGET_PROGRAM_ADDRESS; accounts := None;
         data := Some (3 :: bytes) |})%result.

(** [getCreateAssociatedTokenInstruction({ payer, ata, owner, mint,
    tokenProgram })]; the payer is given as an address, not as a signer
    object, so its role is not upgraded to a signer's. *)
Definition getCreateAssociatedTokenInstruction
    (payer ata owner mint tokenProgram : Address) : Instruction :=
  {| programAddress := ASSOCIATED_TOKEN_PROGRAM_ADDRESS;
     accounts :=
       Some [ {| address := payer; role := WRITABLE |};
              {| address := ata; role := WRITABLE |};
              {| address := owner; role := READONLY |};
              {| address := mint; role := READONLY |};
              {| address := SYSTEM_PROGRAM_ADDRESS; role := READONLY |};
              {| address := tokenProgram; role := READONLY |} ];
     data := Some [0] |}.

(** [getTransferCheckedInstruction({ source, mint, destination, authority,
    amount, decimals }, { programAddress })]; the authority is a signer. *)
Definition getTransferCheckedInstruction
    (source mint destination : Address) (authority : KeyPairSigner)
    (amount decimals : Z) (program : Address) : result Instruction :=
  (let! amountBytes := writeNumber 8 amount in
   let! decimalsBytes := writeNumber 1 decimals in
   Ok {| programAddress := program;
         accounts :=
           Some [ {| address := source; role := WRITABLE |};
                  {| address := mint; role := READONLY |};
                  {| address := destination; role := WRITABLE |};
                  {| address := signer_address authority; role := READONLY_SIGNER |} ];
         data := Some (12 :: amountBytes ++ decimalsBytes)%list |})%result.

(** ** The client *)

(** [config?.svmConfig?.rpcUrl] *)
Definition rpcUrlOf (config : option X402Config) : option string :=
  match config with
  | Some c => rpcUrl c
  | None => None
  end.

(** [paymentRequirements.extra?.feePayer] *)
Definition feePayerOf (paymentRequirements : PaymentRequirements) : option Address :=
  match req_extra paymentRequirements with
  | ExtraFeePayer feePayer => Some feePayer
  | ExtraEip712 _ _ => None
  end.

(** ** [createTransferInstruction] *)
Definition createTransferInstruction (w : World) (client : KeyPairSigner)
    (paymentRequirements : PaymentRequirements) (decimals : Z)
    (tokenProgramAddress : Address) : result Instruction :=
  (let asset := req_asset paymentRequirements in
   let amount := maxAmountRequired paymentRequirements in
   let! sourceATA :=
     findAssociatedTokenPda w asset (signer_address client) tokenProgramAddress in
   let! destinationATA :=
     findAssociatedTokenPda w asset (payTo paymentRequirements) tokenProgramAddress in
   let! amount' := JS.BigInt amount in
   getTransferCheckedInstruction sourceATA asset destinationATA client amount' decimals
     tokenProgramAddress)%result.

(** ** [createAtaInstructionOrUndefined] *)
Definition createAtaInstructionOrUndefined (w : World) (n : Node)
    (paymentRequirements : PaymentRequirements) (tokenProgramAddress : Address)
    (config : option X402Config) : result (option Instruction) :=
  match feePayerOf paymentRequirements with
  | None | Some EmptyString =>
      Throw (JsError ("feePayer is required in paymentRequirements.extra in order to set the "
                      ++ "facilitator as the fee payer for the create associated token account instruction"))
  | Some feePayer =>
      (let! destinationATAAddress :=
         findAssociatedTokenPda w (req_asset paymentRequirements)
           (payTo paymentRequirements) tokenProgramAddress in
       let! rpc := getRpcClient (req_network paymentRequirements) (rpcUrlOf config) in
       let! maybeAccount := fetchEncodedAccount n rpc destinationATAAddress in
       if negb (account_exists maybeAccount) then
         Ok (Some (getCreateAssociatedTokenInstruction feePayer destinationATAAddress
                     (payTo paymentRequirements) (req_asset paymentRequirements)
                     tokenProgramAddress))
       else Ok None)%result
  end.

(** ** [createAtaAndTransferInstructions] *)
Definition createAtaAndTransferInstructions (w : World) (n : Node) (client : KeyPairSigner)
    (paymentRequirements : PaymentRequirements) (config : option X402Config)
    : result (list Instruction) :=
  (let! rpc := getRpcClient (req_network paymentRequirements) (rpcUrlOf config) in
   let! tokenMint := fetchMint n rpc (req_asset paymentRequirements) in
   let tokenProgramAddress := mint_programAddress tokenMint in
   throw_if (negb (String.eqb tokenProgramAddress TOKEN_PROGRAM_ADDRESS)
             && negb (String.eqb tokenProgramAddress TOKEN_2022_PROGRAM_ADDRESS))
     "Asset was not created by a known token program" ;;;
   let! createAtaIx :=
     createAtaInstructionOrUndefined w n paymentRequirements tokenProgramAddress config in
   let instructions :=
     match createAtaIx with
     | Some ix => [ix]
     | None => []
     end in
   let! transferIx :=
     createTransferInstruction w client paymentRequirements (mint_decimals tokenMint)
       tokenProgramAddress in
   Ok (instructions ++ [transferIx])%list)%result.

(** ** [createTransferTransactionMessage]

    [setTransactionMessageComputeUnitPrice(1, tx)] appends the price
    instruction to the message, which has no instruction yet. *)
Definition createTransferTransactionMessage (w : World) (n : Node) (client : KeyPairSigner)
    (paymentRequirements : PaymentRequirements) (config : option X402Config)
    : result Message :=
  (let! rpc := getRpcClient (req_network paymentRequirements) (rpcUrlOf config) in
   let! transferInstructions :=
     createAtaAndTransferInstructions w n client paymentRequirements config in
   let feePayer := feePayerOf paymentRequirements in
   let! priceIx := getSetComputeUnitPriceInstruction 1 in
   let txToSimulate :=
     {| msg_feePayer := feePayer;
        msg := {| instructions := ([priceIx] ++ transferInstructions)%list;
                  lifetimeConstraint := None |} |} in
   let! estimatedUnits := estimateComputeUnitLimit n rpc txToSimulate in
   let! latestBlockhash := getLatestBlockhash n rpc in
   let! limitIx := getSetComputeUnitLimitInstruction estimatedUnits in
   Ok {| msg_feePayer := feePayer;
         msg := {| instructions := limitIx :: instructions (msg txToSimulate);
                   lifetimeConstraint := Some latestBlockhash |} |})%result.

(** ** [createAndSignPayment] *)
Definition createAndSignPayment (w : World) (n : Node) (client : KeyPairSigner)
    (x402Version : Z) (paymentRequirements : PaymentRequirements)
    (config : option X402Config) : result PaymentPayload :=
  (let! transactionMessage :=
     createTransferTransactionMessage w n client paymentRequirements config in
   let! signedTransaction :=
     partiallySignTransactionMessageWithSigners n client transactionMessage in
   let base64EncodedWireTransaction := getBase64EncodedWireTransaction n signedTransaction in
   Ok {| pay_x402Version := x402Version;
         pay_scheme := req_scheme paymentRequirements;
         pay_network := req_network paymentRequirements;
         pay_payload := ExactSvmPayload base64EncodedWireTransaction |})%result.

(** ** [createPaymentHeader] *)
Definition createPaymentHeader (w : World) (n : Node) (client : KeyPairSigner)
    (x402Version : Z) (paymentRequirements : PaymentRequirements)
    (config : option X402Config) : result string :=
  (let! paymentPayload :=
     createAndSignPayment w n client x402Version paymentRequirements config in
   encodePayment n paymentPayload)%result.

End SvmClient.

(* ===================================================================== *)
(** * Settlement with confirmation by polling, the later
      [x402/schemes/exact/svm/facilitator/settle.ts] *)
(* ===================================================================== *)

Module Polling.
Import Svm Facilitator.

(** [statusResponse.value[0]] when it is not [null]: [err] is [null] for
    a transaction that did not fail. *)
Record SignatureStatus : Type := {
  status_err : option string;
  confirmationStatus : option string
}.

(** The clock and the node during one call of
    [confirmSignedTransactionWithPolling]: [dateNow n] is the [n]-th
    reading of [Date.now()], and the two requests are those of the [n]-th
    round of the loop. *)
Record Node : Type := {
  dateNow : nat -> Z;
  (** [rpc.getBlockHeight({ commitment: "confirmed" }).send()] *)
  getBlockHeight : Rpc -> nat -> result Z;
  (** [(await rpc.getSignatureStatuses([signature], ...).send()).value[0]];
      [None] is [null]. *)
  getSignatureStatuses : Rpc -> string -> nat -> result (option SignatureStatus)
}.

Definition confirmed (signature : string) : Confirmation :=
  {| conf_success := true; conf_errorReason := None; conf_signature := signature |}.

Definition unconfirmed (reason signature : string) : Confirmation :=
  {| conf_success := false; conf_errorReason := Some reason;
     conf_signature := signature |}.

(** [status.confirmationStatus === "confirmed" ||
     status.confirmationStatus === "finalized"] *)
Definition isConfirmed (status : SignatureStatus) : bool :=
  match confirmationStatus status with
  | Some s => String.eqb s "confirmed" || String.eqb s "finalized"
  | None => false
  end.

(** One round of the loop, the body of its [try]: [None] when the loop
    goes on, after the wait or after an error that the [catch] logs. *)
Definition pollOnce (p : Node) (rpc : Rpc) (signature : string)
    (lastValidBlockHeight : Z) (round : nat) : option Confirmation :=
  match getBlockHeight p rpc round with
  | Throw _ => None
  | Ok currentBlockHeight =>
      if lastValidBlockHeight <? currentBlockHeight then
        Some (unconfirmed "settle_exact_svm_block_height_exceeded" signature)
      else
        match getSignatureStatuses p rpc signature round with
        | Throw _ => None
        | Ok None => None
        | Ok (Some status) =>
            match status_err status with
            | Some _ => Some (unconfirmed "settle_exact_svm_transaction_failed" signature)
            | None =>
                if isConfirmed status then Some (confirmed signature) else None
            end
        end
  end.

(** The [while] loop from round [round] on; [None] when the fuel runs out
    before the loop ends. *)
Fixpoint pollFrom (fuel : nat) (p : Node) (rpc : Rpc) (signature : string)
    (lastValidBlockHeight startTime : Z) (round : nat) : option Confirmation :=
  match fuel with
  | O => None
  | S fuel' =>
      if dateNow p (S round) - startTime <? 60000 then
        match pollOnce p rpc signature lastValidBlockHeight round with
        | Some outcome => Some outcome
        | None => pollFrom fuel' p rpc signature lastValidBlockHeight startTime (S round)
        end
      else
        Some (unconfirmed "settle_exact_svm_transaction_confirmation_timed_out" signature)
  end.

(** What [confirmSignedTransactionWithPolling] does before the loop: the
    signature and [lastValidBlockHeight]. *)
Definition pollingLifetime (w : World) (signedTransaction : Transaction) (rpc : Rpc)
    : result (string * Z) :=
  (let! signature := getSignatureFromTransaction w signedTransaction in
   let! compiledTransactionMessage :=
     decodeCompiledMessage w (messageBytes signedTransaction) in
   let! decompiledTransactionMessage :=
     decompileTransactionMessageFetchingLookupTables w compiledTransactionMessage rpc in
   let! lifetime :=
     assertIsTransactionMessageWithBlockhashLifetime decompiledTransactionMessage in
   Ok (signature, lastValidBlockHeight lifetime))%result.

(** ** [confirmSignedTransactionWithPolling] *)
Definition confirmSignedTransactionWithPolling (fuel : nat) (w : World) (p : Node)
    (signedTransaction : Transaction) (rpc : Rpc) : option (result Confirmation) :=
  match pollingLifetime w signedTransaction rpc with
  | Throw e => Some (Throw e)
  | Ok (signature, lastValidBlockHeight) =>
      let startTime := dateNow p 0 in
      match pollFrom fuel p rpc signature lastValidBlockHeight startTime 0 with
      | Some outcome => Some (Ok outcome)
      | None => None
      end
  end.

(** ** [sendAndConfirmSignedTransaction]: whatever the confirmation over
    the subscriptions throws, polling takes over. *)
Definition sendAndConfirmSignedTransaction (fuel : nat) (w : World) (p : Node)
    (signedTransaction : Transaction) (rpc : Rpc) (rpcSubscriptions : RpcSubscriptions)
    : option (result Confirmation) :=
  match sendSignedTransaction w signedTransaction rpc with
  | Throw e => Some (Throw e)
  | Ok _ =>
      match confirmSignedTransaction w signedTransaction rpc rpcSubscriptions with
      | Ok outcome => Some (Ok outcome)
      | Throw _ => confirmSignedTransactionWithPolling fuel w p signedTransaction rpc
      end
  end.

(** ** [settle] *)
Definition settle (fuel : nat) (w : World) (p : Node) (signer : KeyPairSigner)
    (payload : PaymentPayload) (paymentRequirements : PaymentRequirements)
    (config : option X402Config) : option (result SettleResponse) :=
  let verifyResponse := verify w signer payload paymentRequirements config in
  if negb (isValid verifyResponse) then
    Some (Ok {| success := false;
                errorReason := invalidReason verifyResponse;
                settle_payer := None;
                settle_transaction := EmptyString;
                settle_network := pay_network payload |})
  else
    let svmPayload := pay_payload payload in
    match decodeTransactionFromPayload w svmPayload with
    | Throw e => Some (Throw e)
    | Ok decodedTransaction =>
    match signTransaction w signer decodedTransaction with
    | Throw e => Some (Throw e)
    | Ok signedTransaction =>
    match getTokenPayerFromTransaction w decodedTransaction with
    | Throw e => Some (Throw e)
    | Ok payer =>
    let url := match config with Some c => rpcUrl c | None => None end in
    match getRpcClient (req_network paymentRequirements) url with
    | Throw e => Some (Throw e)
    | Ok rpc =>
    match getRpcSubscriptions w (req_network paymentRequirements) url with
    | Throw e => Some (Throw e)
    | Ok rpcSubscriptions =>
    match sendAndConfirmSignedTransaction fuel w p signedTransaction rpc rpcSubscriptions with
    | None => None
    | Some (Ok confirmation) =>
        Some (Ok {| success := conf_success confirmation;
                    errorReason := conf_errorReason confirmation;
                    settle_payer := Some payer;
                    settle_transaction := conf_signature confirmation;
                    settle_network := pay_network payload |})
    | Some (Throw _) =>
        Some (let! signature := getSignatureFromTransaction w signedTransaction in
              Ok {| success := false;
                    errorReason := Some "unexpected_settle_error";
                    settle_payer := Some payer;
                    settle_transaction := signature;
                    settle_network := pay_network payload |})%result
    end end end end end end.

End Polling.

(* ===================================================================== *)
(** * Further concrete cases *)
(* ===================================================================== *)

Module Cases.
Import Svm.



(** The transfer of the devnet payment, but authorised by the
    facilitator's fee payer, for another mint and with other decimals. *)
Definition transferByFeePayer : Instruction :=
  {| programAddress := TOKEN_PROGRAM_ADDRESS;
     accounts :=
       Some [Examples.meta Examples.clientATA;
             Examples.meta "So11111111111111111111111111111111111111112";
             Examples.meta Examples.merchantATA;
             Examples.meta Examples.feePayer];
     data := Some [12; 8; 7; 0; 0; 0; 0; 0; 0; 9] |}.

(** The devnet payment on a node that reports the accounts for which
    [present] holds as existing. *)
Definition accountsPresent (present : Address -> bool) : Examples.Scenario :=
  {| Examples.sc_instructions := Examples.threeInstructions;
     Examples.sc_accounts := Some present;
     Examples.sc_send := Ok "5VERv8NMvzbJMEkV8xnrLkEaWRtSz9CosKDYjCJjBRnb";
     Examples.sc_wait := Ok tt |}.

(** A payment whose transaction text does not decode. *)
Definition garbledPayment : PaymentPayload :=
  {| pay_x402Version := 1; pay_scheme := "exact"; pay_network := "solana-devnet";
     pay_payload := ExactSvmPayload "!!!" |}.

(** The devnet requirements with the amount that
    [processPriceToAtomicAmount] computes for the price ["$0.000123"]. *)
Definition unroundedRequirements : PaymentRequirements :=
  {| req_scheme := "exact";
     req_network := "solana-devnet";
     maxAmountRequired := "123.00000000000001";
     req_resource := "http://localhost:4021/weather";
     req_description := EmptyString;
     req_mimeType := EmptyString;
     payTo := Examples.merchant;
     req_maxTimeoutSeconds := 60;
     req_asset := Examples.usdcDevnet;
     req_outputSchema :=
       {| input_type := "http"; input_method := "GET"; input_discoverable := true |};
     req_extra := ExtraFeePayer Examples.feePayer |}.

(** A payment of 123 units. *)
Definition pay123 : list Instruction :=
  [Examples.limitInstruction; Examples.priceOne;
   Examples.transferInstruction [123; 0; 0; 0; 0; 0; 0; 0]].

(** The discriminator of SetComputeUnitLimit and nothing after it. *)
Definition limitTruncated : Instruction :=
  {| programAddress := COMPUTE_BUDGET_PROGRAM_ADDRESS; accounts := None;
     data := Some [2] |}.

(** [Transfer] (not TransferChecked) of the token program. *)
Definition plainTransfer : Instruction :=
  {| programAddress := TOKEN_PROGRAM_ADDRESS;
     accounts := Some [Examples.meta Examples.clientATA;
                       Examples.meta Examples.merchantATA;
                       Examples.meta Examples.client];
     data := Some [3; 8; 7; 0; 0; 0; 0; 0; 0] |}.

(** A transfer of lamports by the system program. *)
Definition systemTransfer : Instruction :=
  {| programAddress := "11111111111111111111111111111111";
     accounts := Some [Examples.meta Examples.client; Examples.meta Examples.merchant];
     data := Some [2; 0; 0; 0; 8; 7; 0; 0; 0; 0; 0; 0] |}.

(** The weather route asked for by a browser, without payment. *)
Definition browserRequest : Express.Request :=
  {| Express.path := "/weather"; Express.method := "GET"; Express.protocol := "http";
     Express.host := "localhost:4021"; Express.originalUrl := "/weather";
     Express.header_payment := None;
     Express.header_userAgent := Some "Mozilla/5.0 (X11; Linux x86_64)";
     Express.header_accept := Some "text/html,application/xhtml+xml" |}.

(** A facilitator that finds the payment invalid. *)
Definition rejectingFacilitator : Express.Facilitator :=
  {| Express.verify :=
       fun _ _ => Ok {| isValid := false; invalidReason := Some "insufficient_funds";
                        verify_payer := Some Examples.client |};
     Express.settle := fun _ _ => Ok Examples.settledOk;
     Express.supported :=
       Ok [ {| Express.kind_scheme := "exact";
               Express.kind_network := "solana-devnet";
               Express.kind_feePayer := Some Examples.feePayer |} ];
     Express.decodePayment := fun _ => Ok Examples.payment;
     Express.getAddress := fun a => Ok a;
     Express.getPaywallHtml := fun _ _ => "<html>Paywall</html>";
     Express.settleResponseHeader := fun _ => "e30=" |}.

(** A facilitator before which the header decodes to a payment on
    mainnet. *)
Definition mainnetFacilitator : Express.Facilitator :=
  {| Express.verify :=
       fun _ _ => Ok {| isValid := true; invalidReason := None;
                        verify_payer := Some Examples.client |};
     Express.settle := fun _ _ => Ok Examples.settledOk;
     Express.supported :=
       Ok [ {| Express.kind_scheme := "exact";
               Express.kind_network := "solana-devnet";
               Express.kind_feePayer := Some Examples.feePayer |} ];
     Express.decodePayment :=
       fun _ => Ok {| pay_x402Version := 1; pay_scheme := "exact";
                      pay_network := "solana";
                      pay_payload := ExactSvmPayload "AQID" |};
     Express.getAddress := fun a => Ok a;
     Express.getPaywallHtml := fun _ _ => "<html>Paywall</html>";
     Express.settleResponseHeader := fun _ => "e30=" |}.

(** A facilitator whose first kind for devnet names no fee payer. *)
Definition facilitatorWithoutFeePayer : Express.Facilitator :=
  {| Express.verify :=
       fun _ _ => Ok {| isValid := true; invalidReason := None;
                        verify_payer := Some Examples.client |};
     Express.settle := fun _ _ => Ok Examples.settledOk;
     Express.supported :=
       Ok [ {| Express.kind_scheme := "exact";
               Express.kind_network := "solana-devnet";
               Express.kind_feePayer := None |};
            {| Express.kind_scheme := "exact";
               Express.kind_network := "solana-devnet";
               Express.kind_feePayer := Some Examples.feePayer |} ];
     Express.decodePayment := fun _ => Ok Examples.payment;
     Express.getAddress := fun a => Ok a;
     Express.getPaywallHtml := fun _ _ => "<html>Paywall</html>";
     Express.settleResponseHeader := fun _ => "e30=" |}.

(** A client of Base Sepolia: signatures [0xsigned] verify, every account
    holds 5000 units, the token contract reports version 2, and submitted
    transactions succeed. *)
Definition evmClient : Evm.Client :=
  {| Evm.chain_id := Some 84532;
     Evm.readVersion := fun _ => Ok "2";
     Evm.readBalanceOf := fun _ _ => Ok 5000;
     Evm.verifyTypedData := fun td => Ok (String.eqb (Evm.td_signature td) "0xsigned");
     Evm.getERC20Balance := fun _ _ => Ok 5000;
     Evm.getAddress := fun a => Ok a;
     Evm.parseErc6492Signature := fun s => Ok s;
     Evm.dateNow := fun _ => 1700000000000;
     Evm.writeContract := fun _ => Ok "0xhash";
     Evm.waitForTransactionReceipt := fun _ => Ok "success" |}.

(** The same client, for which submitted transactions revert. *)
Definition evmClientReverting : Evm.Client :=
  {| Evm.chain_id := Some 84532;
     Evm.readVersion := fun _ => Ok "2";
     Evm.readBalanceOf := fun _ _ => Ok 5000;
     Evm.verifyTypedData := fun td => Ok (String.eqb (Evm.td_signature td) "0xsigned");
     Evm.getERC20Balance := fun _ _ => Ok 5000;
     Evm.getAddress := fun a => Ok a;
     Evm.parseErc6492Signature := fun s => Ok s;
     Evm.dateNow := fun _ => 1700000000000;
     Evm.writeContract := fun _ => Ok "0xhash";
     Evm.waitForTransactionReceipt := fun _ => Ok "reverted" |}.

(** A client without a chain. *)
Definition evmClientWithoutChain : Evm.Client :=
  {| Evm.chain_id := None;
     Evm.readVersion := fun _ => Ok "1";
     Evm.readBalanceOf := fun _ _ => Ok 0;
     Evm.verifyTypedData := fun _ => Ok false;
     Evm.getERC20Balance := fun _ _ => Ok 0;
     Evm.getAddress := fun a => Ok a;
     Evm.parseErc6492Signature := fun s => Ok s;
     Evm.dateNow := fun _ => 0;
     Evm.writeContract := fun _ => Throw (JsError "no chain");
     Evm.waitForTransactionReceipt := fun _ => Throw (JsError "no chain") |}.

Definition evmAuthorization (value : string) : Evm.Authorization :=
  {| Evm.auth_from := "0xbuyer";
     Evm.auth_to := "0xshop";
     Evm.auth_value := value;
     Evm.auth_validAfter := "1699999400";
     Evm.auth_validBefore := "1700000600";
     Evm.auth_nonce := "0x01" |}.

(** A signed authorization of [value] units on Base Sepolia. *)
Definition evmPayment (value : string) : Evm.EvmPaymentPayload :=
  {| Evm.evm_scheme := "exact";
     Evm.evm_network := "base-sepolia";
     Evm.evm_payload :=
       {| Evm.evm_signature := "0xsigned";
          Evm.authorization := evmAuthorization value |} |}.

(** Requirements of 1000 units that leave the token version to the
    contract. *)
Definition evmRequirements : Evm.Requirements :=
  {| Evm.er_scheme := "exact";
     Evm.er_maxAmountRequired := "1000";
     Evm.er_payTo := "0xshop";
     Evm.er_asset := "0xusdc";
     Evm.extra_name := Some "USDC";
     Evm.extra_version := None |}.

(** A devnet on which the token accounts named by [present] exist. *)
Definition devnet (present : Address -> bool) : World :=
  Examples.world
    {| Examples.sc_instructions := [];
       Examples.sc_accounts := Some present;
       Examples.sc_send := Ok "5VERv8NMvzbJMEkV8xnrLkEaWRtSz9CosKDYjCJjBRnb";
       Examples.sc_wait := Ok tt |}.

(** The node as the client sees it: the asset is a mint of the token
    program with six decimals, and a transaction is estimated at 6500
    compute units. *)
Definition clientNode (present : Address -> bool) : SvmClient.Node :=
  {| SvmClient.fetchMint :=
       fun _ _ => Ok {| SvmClient.mint_programAddress := TOKEN_PROGRAM_ADDRESS;
                        SvmClient.mint_decimals := 6 |};
     SvmClient.fetchEncodedAccount :=
       fun _ a => Ok {| account_address := a; account_exists := present a |};
     SvmClient.estimateComputeUnitLimit := fun _ _ => Ok 6500;
     SvmClient.getLatestBlockhash := fun _ => Ok Examples.lifetime;
     SvmClient.partiallySignTransactionMessageWithSigners :=
       fun _ _ => Ok Examples.transaction;
     SvmClient.getBase64EncodedWireTransaction := fun _ => "AQID";
     SvmClient.encodePayment := fun _ => Ok "eyJ4NDAyVmVyc2lvbiI6MX0=" |}.

(** Every token account exists but that of the merchant. *)
Definition merchantAccountMissing (a : Address) : bool :=
  negb (String.eqb a Examples.merchantATA).

Definition buyer : KeyPairSigner := {| signer_address := Examples.client |}.

(** A node polled once a second: the first request for the block height
    fails, the signature is unknown in round 1, processed in round 2 and
    as [third] says from round 3 on; the block height stays at 1200. *)
Definition pollingNode (third : Polling.SignatureStatus) : Polling.Node :=
  {| Polling.dateNow := fun n => 1700000000000 + 1000 * Z.of_nat n;
     Polling.getBlockHeight :=
       fun _ round =>
         match round with
         | O => Throw (JsError "fetch failed")
         | _ => Ok 1200
         end;
     Polling.getSignatureStatuses :=
       fun _ _ round =>
         match round with
         | 0%nat | 1%nat => Ok None
         | 2%nat => Ok (Some {| Polling.status_err := None;
                                Polling.confirmationStatus := Some "processed" |})
         | _ => Ok (Some third)
         end |}.

Definition statusConfirmed : Polling.SignatureStatus :=
  {| Polling.status_err := None; Polling.confirmationStatus := Some "confirmed" |}.

Definition statusFailed : Polling.SignatureStatus :=
  {| Polling.status_err := Some "InstructionError";
     Polling.confirmationStatus := Some "confirmed" |}.

(** A node that never answers. *)
Definition silentNode : Polling.Node :=
  {| Polling.dateNow := fun n => 1700000000000 + 1000 * Z.of_nat n;
     Polling.getBlockHeight := fun _ _ => Throw (JsError "fetch failed");
     Polling.getSignatureStatuses := fun _ _ _ => Throw (JsError "fetch failed") |}.

(** The subscriptions break off with an error that is neither an expired
    block height nor an abort. *)
Definition socketClosed : World :=
  Examples.world (Examples.waitEnds (Throw (JsError "socket closed"))).

(** A handler that streams: it writes a first chunk, which sends the
    headers, and then ends the response. *)
Definition handlerStreaming : list Express.HandlerOp :=
  [Express.HStatus 200; Express.HWrite (Express.ChunkRaw "sun");
   Express.HEnd (Examples.endWith "ny")].

(** An asynchronous handler: it waits for its database, which fails, and
    then answers 500. *)
Definition handlerFailingLate : list Express.HandlerOp :=
  [Express.HAwait; Express.HStatus 500;
   Express.HEnd (Examples.endWith "database unavailable")].

(** An instruction of the system program that carries six accounts, the
    third being the merchant and the fourth the asset, and one byte of
    data. *)
Definition sixAccountInstruction : Instruction :=
  {| programAddress := "11111111111111111111111111111111";
     accounts := Some [Examples.meta Examples.feePayer; Examples.meta Examples.merchantATA;
                       Examples.meta Examples.merchant; Examples.meta Examples.usdcDevnet;
                       Examples.meta Examples.client; Examples.meta Examples.client];
     data := Some [9] |}.

(** [/^wss?:/i.test(url)] *)
Definition hasWebSocketScheme (url : string) : bool :=
  String.prefix "WS:" (JS.toUpperCase url) || String.prefix "WSS:" (JS.toUpperCase url).

(** The healthy devnet of [Examples.happy], with
    [createSolanaRpcSubscriptions] as [@solana/kit] has it: it throws a
    [DOMException] for a URL whose scheme is neither [ws] nor [wss]. *)
Definition devnetWithSockets : World :=
  let w := Examples.world (Examples.happy Examples.threeInstructions) in
  {| decodeTransaction := decodeTransaction w;
     decodeCompiledMessage := decodeCompiledMessage w;
     decompileTransactionMessage := decompileTransactionMessage w;
     decompileTransactionMessageFetchingLookupTables :=
       decompileTransactionMessageFetchingLookupTables w;
     findAssociatedTokenPda := findAssociatedTokenPda w;
     fetchEncodedAccounts := fetchEncodedAccounts w;
     identifiesOtherInstruction := identifiesOtherInstruction w;
     partiallySignTransaction := partiallySignTransaction w;
     signTransaction := signTransaction w;
     getSignatureFromTransaction := getSignatureFromTransaction w;
     simulateTransaction := simulateTransaction w;
     sendTransaction := sendTransaction w;
     createSolanaRpcSubscriptions :=
       fun mainnet url =>
         if hasWebSocketScheme url
         then Ok {| subs_mainnet := mainnet; subs_url := url |}
         else Throw (DOMException "Error"
                       "Failed to construct 'WebSocket': The URL's scheme must be either 'ws' or 'wss'.");
     waitForRecentTransactionConfirmation := waitForRecentTransactionConfirmation w |}.

(** A facilitator configured with the URL of a local validator, its scheme
    in capitals. *)
Definition capitalUrlConfig : X402Config :=
  {| rpcUrl := Some "HTTP://127.0.0.1:8899" |}.

End Cases.

(* ===================================================================== *)
(** * Properties: route matching *)
(* ===================================================================== *)

Section RouteFacts.

Local Arguments Regex.lineTerminatorAt : simpl never.

Lemma toUpperChar_idem (c : ascii) :
  JS.toUpperChar (JS.toUpperChar c) = JS.toUpperChar c.
Proof. destruct c as [[] [] [] [] [] [] [] []]; reflexivity. Qed.

Lemma eq_ignore_case_upper (c d : ascii) :
  Regex.eq_ignore_case c (JS.toUpperChar d) = Regex.eq_ignore_case c d.
Proof. unfold Regex.eq_ignore_case. now rewrite toUpperChar_idem. Qed.

Lemma slash_upper (d : ascii) :
  JS.ascii_eqb (JS.toUpperChar d) "/"%char = JS.ascii_eqb d "/"%char.
Proof. destruct d as [[] [] [] [] [] [] [] []]; reflexivity. Qed.

(** Folding the case of a character moves its code neither onto nor off
    any of the bytes that make up a line terminator. *)
Lemma code_upper_terminator (c : ascii) :
  (JS.code (JS.toUpperChar c) =? 10) = (JS.code c =? 10)
  /\ (JS.code (JS.toUpperChar c) =? 13) = (JS.code c =? 13)
  /\ (JS.code (JS.toUpperChar c) =? 226) = (JS.code c =? 226)
  /\ (JS.code (JS.toUpperChar c) =? 128) = (JS.code c =? 128)
  /\ (JS.code (JS.toUpperChar c) =? 168) = (JS.code c =? 168)
  /\ (JS.code (JS.toUpperChar c) =? 169) = (JS.code c =? 169).
Proof. destruct c as [[] [] [] [] [] [] [] []]; repeat split; reflexivity. Qed.

Lemma lineTerminatorAt_upper (s : string) :
  Regex.lineTerminatorAt (JS.toUpperCase s) = Regex.lineTerminatorAt s.
Proof.
  unfold Regex.lineTerminatorAt.
  destruct s as [|c [|c1 [|c2 s]]]; simpl; [reflexivity| | |].
  - destruct (code_upper_terminator c) as (-> & -> & -> & _). reflexivity.
  - destruct (code_upper_terminator c) as (-> & -> & -> & _). reflexivity.
  - destruct (code_upper_terminator c) as (-> & -> & -> & _).
    destruct (code_upper_terminator c1) as (_ & _ & _ & -> & _).
    destruct (code_upper_terminator c2) as (_ & _ & _ & _ & -> & ->).
    reflexivity.
Qed.

(** The patterns do not tell letter case apart. *)
Lemma matches_upper (re : list Regex.Atom) :
  forall s, Regex.matches re (JS.toUpperCase s) = Regex.matches re s.
Proof.
  induction re as [|a re IH]; intros s.
  - destruct s; reflexivity.
  - destruct a.
    + destruct s as [|d s]; simpl; [reflexivity|].
      now rewrite eq_ignore_case_upper, IH.
    + simpl. induction s as [|d s IHs].
      * reflexivity.
      * simpl. rewrite IHs.
        change (String (JS.toUpperChar d) (JS.toUpperCase s))
          with (JS.toUpperCase (String d s)).
        now rewrite IH, lineTerminatorAt_upper.
    + simpl. induction s as [|d s IHs].
      * reflexivity.
      * simpl. now rewrite slash_upper, IH, IHs.
Qed.

Lemma routeMatches_upper (np method : string) (r : RoutePattern) :
  Shared.routeMatches (JS.toUpperCase np) method r = Shared.routeMatches np method r.
Proof. unfold Shared.routeMatches, Regex.test. now rewrite matches_upper. Qed.

Lemma filter_routeMatches_upper (np method : string) (rps : list RoutePattern) :
  List.filter (Shared.routeMatches (JS.toUpperCase np) method) rps
  = List.filter (Shared.routeMatches np method) rps.
Proof.
  induction rps as [|r rps IH]; simpl; [reflexivity|].
  now rewrite routeMatches_upper, IH.
Qed.

End RouteFacts.

(** C9.  The route key ["GET /api/test"] compiles to the pattern
    [^\/api\/test$] with verb [GET], and for each of the request paths
    [/api/test], [/api//test], [/API/test/], [/api/%74est] and [/api\test]
    [findMatchingRoute] returns that route.  More generally, whatever the
    compiled route patterns and the method are, [findMatchingRoute] gives
    for each of the five paths the answer it gives for [/api/test]. *)
Theorem route_matching_normalizes_paths :
  (forall value : RouteValue,
     exists route,
       Shared.computeRoutePatterns [("GET /api/test", value)] = Ok [route]
       /\ verb route = "GET"
       /\ Regex.source (pattern route) = "^\/api\/test$"
       /\ Forall (fun p => Shared.findMatchingRoute [route] p "GET" = Some route)
            Examples.equivalentPaths)
  /\ (forall (routePatterns : list RoutePattern) (method : string),
        Forall (fun p => Shared.findMatchingRoute routePatterns p method
                         = Shared.findMatchingRoute routePatterns "/api/test" method)
          Examples.equivalentPaths).
Proof.
  split.
  - intros value. eexists. split; [reflexivity|].
    split; [reflexivity|]. split; [reflexivity|].
    repeat constructor.
  - intros rps method.
    assert (Hup : Shared.findMatchingRoute rps "/API/test/" method
                  = Shared.findMatchingRoute rps "/api/test" method).
    { unfold Shared.findMatchingRoute.
      change (Shared.normalizePath "/API/test/") with (Ok "/API/test").
      change (Shared.normalizePath "/api/test") with (Ok "/api/test").
      cbv beta iota.
      rewrite <- (filter_routeMatches_upper "/API/test"),
              <- (filter_routeMatches_upper "/api/test").
      reflexivity. }
    repeat constructor; try exact Hup.
Qed.

Section HandlerFacts.
Import Express.

Lemma HandlerOp_eq_await (op : HandlerOp) : op = HAwait \/ op <> HAwait.
Proof. destruct op; [right; discriminate..|now left]. Qed.

(** A handler returns, and calls neither the facilitator nor [next]. *)
Lemma runOp_ok (op : HandlerOp) (st : State) :
  exists st', runOp op st = (Ok tt, st') /\ calls st' = calls st.
Proof.
  destruct op; simpl; unfold res_status, res_write, res_end, modify, catch,
    res_setHeader, ret.
  - eexists; split; reflexivity.
  - destruct (headersSent (res st)); eexists; split; reflexivity.
  - eexists; split; reflexivity.
  - destruct (endIntercepted (res st)); [eexists; split; reflexivity|].
    unfold originalEnd, modify. eexists; split; reflexivity.
  - eexists; split; reflexivity.
Qed.

(** [runHandler] one call further, for a call that is not a wait. *)
Lemma runHandler_step (op : HandlerOp) (handler : list HandlerOp) :
  op <> HAwait ->
  runHandler (op :: handler) = (runOp op >> runHandler handler)%M.
Proof. destruct op; intros H; [reflexivity..|contradiction]. Qed.

Lemma runHandler_ok (handler : list HandlerOp) :
  forall st, exists st', runHandler handler st = (Ok tt, st') /\ calls st' = calls st.
Proof.
  induction handler as [|op handler IH]; intros st.
  - eexists; split; reflexivity.
  - destruct (HandlerOp_eq_await op) as [->|Hop].
    + eexists; split; reflexivity.
    + rewrite (runHandler_step op handler Hop).
      unfold bind. destruct (runOp_ok op st) as (st1 & -> & H1).
      destruct (IH st1) as (st2 & -> & H2). eexists; split; [reflexivity|congruence].
Qed.

Lemma next_ok (handler : list HandlerOp) (st : State) :
  exists st', next handler st = (Ok tt, st')
              /\ calls st' = (calls st ++ [CallNext])%list
              /\ st' = snd (runHandler handler (log CallNext st)).
Proof.
  unfold next, bind, modify.
  destruct (runHandler_ok handler (log CallNext st)) as (st' & E & H).
  rewrite E. eexists; split; [reflexivity|]. split; [now rewrite H|reflexivity].
Qed.

End HandlerFacts.

(** C10.  When URL-decoding rejects the request path (a percent sign that
    is not followed by two hexadecimal digits, or octets that are not
    UTF-8), [findMatchingRoute] returns [undefined] whatever the registered
    patterns, and the middleware hands the request to the next handler: it
    completes normally, the only call it makes is [next()] (no
    [supported], no [verify], no [settle]), and the response is exactly
    what the downstream handler made of it (no 402). *)
Theorem malformed_percent_encoding_is_forwarded :
  forall (f : Express.Facilitator) (payTo_ : string) (routePatterns : list RoutePattern)
         (req : Express.Request) (handler : list Express.HandlerOp) (st : Express.State)
         (e : Exn),
    JS.decodeURIComponent (Shared.beforeQueryOrHash (Express.path req)) = Throw e ->
    Shared.findMatchingRoute routePatterns (Express.path req)
      (JS.toUpperCase (Express.method req)) = None
    /\ exists st',
         Express.handleRequest f payTo_ routePatterns req handler st = (Ok tt, st')
         /\ Express.calls st' = (Express.calls st ++ [Express.CallNext])%list
         /\ st' = snd (Express.runHandler handler (Express.log Express.CallNext st)).
Proof.
  intros f payTo_ rps req handler st e Hdec.
  assert (Hnone : Shared.findMatchingRoute rps (Express.path req)
                    (JS.toUpperCase (Express.method req)) = None).
  { unfold Shared.findMatchingRoute, Shared.normalizePath. now rewrite Hdec. }
  split; [exact Hnone|].
  destruct (next_ok handler st) as (st' & Hnext & Hcalls & Hst').
  exists st'. split; [|split; assumption].
  unfold Express.handleRequest, Express.challenge. rewrite Hnone.
  unfold Express.bind at 1 2. rewrite Hnext. reflexivity.
Qed.

(** The route [/api/*] covers the path [/api/%XX] as it is written, yet a
    request for it goes through unpaid. *)
Lemma malformed_percent_encoding_witness :
  JS.decodeURIComponent "/api/%XX" = Throw (JsError "URI malformed")
  /\ Forall (fun r => Regex.test (pattern r) "/api/%XX" = true)
       (Examples.patternsOf Examples.wildcardRoutes)
  /\ Shared.findMatchingRoute (Examples.patternsOf Examples.wildcardRoutes)
       "/api/%XX" "GET" = None
  /\ exists st',
       Express.handleRequest (Examples.facilitator (Ok Examples.settledOk))
         Examples.merchant (Examples.patternsOf Examples.wildcardRoutes)
         (Examples.request "/api/%XX" None) Examples.handlerOk Examples.freshState
       = (Ok tt, st')
       /\ Express.calls st' = [Express.CallNext]
       /\ Express.statusCode (Express.res st') = 200.
Proof.
  split; [reflexivity|]. split; [repeat constructor|].
  destruct (malformed_percent_encoding_is_forwarded
              (Examples.facilitator (Ok Examples.settledOk)) Examples.merchant
              (Examples.patternsOf Examples.wildcardRoutes)
              (Examples.request "/api/%XX" None) Examples.handlerOk
              Examples.freshState (JsError "URI malformed") eq_refl)
    as (Hnone & st' & Hrun & Hcalls & Hst').
  split; [exact Hnone|].
  exists st'. split; [exact Hrun|]. split; [exact Hcalls|].
  rewrite Hst'. reflexivity.
Defined.

(* ===================================================================== *)
(** * Properties: price conversion *)
(* ===================================================================== *)

(** C7.  The conversion multiplies the parsed dollars by [10 ** decimals]
    in binary64 and prints the product; nothing is rounded.  For the price
    ["$0.000123"] on [solana-devnet] the product is not the integer 123
    and [maxAmountRequired] is ["123.00000000000001"], which is not a
    decimal integer.  For ["$0.0018"] the product is exactly 1800 and the
    text is ["1800"]. *)
Theorem price_conversion_does_not_round :
  Shared.processPriceToAtomicAmount (PriceMoney (MoneyString "$0.000123")) "solana-devnet"
  = Ok (Shared.Atomic "123.00000000000001"
          {| asset_address := Examples.usdcDevnet; asset_decimals := 6;
             asset_eip712_name := "USDC"; asset_eip712_version := "2" |})
  /\ JS.BigInt "123.00000000000001" = Throw (JsError "Cannot convert 123.00000000000001 to a BigInt")
  /\ Shared.processPriceToAtomicAmount (PriceMoney (MoneyString "$0.0018")) "solana-devnet"
     = Ok (Shared.Atomic "1800"
             {| asset_address := Examples.usdcDevnet; asset_decimals := 6;
                asset_eip712_name := "USDC"; asset_eip712_version := "2" |}).
Proof. repeat split; vm_compute; reflexivity. Qed.

(* ===================================================================== *)
(** * Properties: transaction introspection *)
(* ===================================================================== *)

Section ResultFacts.

Lemma throw_if_ok (b : bool) (msg : string) : throw_if b msg = Ok tt <-> b = false.
Proof. destruct b; simpl; split; congruence. Qed.

Lemma rbind_ok {A B : Type} (c : result A) (k : A -> result B) (b : B) :
  rbind c k = Ok b -> exists a, c = Ok a /\ k a = Ok b.
Proof. destruct c as [a|e]; simpl; [eauto|discriminate]. Qed.

Lemma isErrorReason_In (m : string) : isErrorReason m = true <-> In m ErrorReasons.
Proof.
  unfold isErrorReason. rewrite existsb_exists. split.
  - intros (x & Hin & Heq). apply String.eqb_eq in Heq. now subst.
  - intros Hin. exists m. split; [exact Hin|apply String.eqb_refl].
Qed.

End ResultFacts.

(** C3.  Once the checks that precede it have passed (the destination is
    the payee's associated token account, the accounts exist), the
    TransferChecked instruction is accepted if and only if
    [BigInt(maxAmountRequired)] is its amount; and whenever
    [BigInt(maxAmountRequired)] is a value that the amount falls short of
    or exceeds, the instruction is rejected with
    [invalid_exact_svm_payload_transaction_amount_mismatch]. *)
Theorem amount_check_is_exact :
  forall (w : Svm.World) (parsedInstruction : Svm.ParsedTransferChecked)
         (paymentRequirements : PaymentRequirements)
         (txHasCreateDestATAInstruction : bool) (rpc : Svm.Rpc),
    Facilitator.verifyTransferAccounts w parsedInstruction paymentRequirements
      txHasCreateDestATAInstruction rpc = Ok tt ->
    (Facilitator.verifyTransferCheckedInstruction w parsedInstruction paymentRequirements
       txHasCreateDestATAInstruction rpc = Ok tt
     <-> JS.BigInt (maxAmountRequired paymentRequirements)
         = Ok (Svm.tc_amount parsedInstruction))
    /\ (forall required : Z,
          JS.BigInt (maxAmountRequired paymentRequirements) = Ok required ->
          (Svm.tc_amount parsedInstruction < required
           \/ required < Svm.tc_amount parsedInstruction) ->
          Facilitator.verifyTransferCheckedInstruction w parsedInstruction
            paymentRequirements txHasCreateDestATAInstruction rpc
          = Throw (JsError Facilitator.reason_amount_mismatch)).
Proof.
  intros w parsed req flag rpc Hreach.
  unfold Facilitator.verifyTransferCheckedInstruction. rewrite Hreach. cbn [rbind].
  unfold Facilitator.verifyTransferAmount.
  destruct (JS.BigInt (maxAmountRequired req)) as [required|e]; cbn [rbind].
  - split.
    + rewrite throw_if_ok, negb_false_iff, Z.eqb_eq. split; congruence.
    + intros required' [= <-] Hne.
      destruct (Z.eqb_spec (Svm.tc_amount parsed) required) as [Heq|_];
        [lia|reflexivity].
  - split; [split; discriminate|]. intros required [=].
Qed.

(** A transfer of 1800 against a requirement of ["1800"] is accepted; 1799
    and 1801 are rejected. *)
Lemma amount_check_witness :
  let w := Examples.world (Examples.happy Examples.threeInstructions) in
  let check amount :=
    Facilitator.verifyTransferCheckedInstruction w (Examples.parsedTransfer amount)
      Examples.requirements false Examples.devnetRpc in
  check 1800 = Ok tt
  /\ check 1799 = Throw (JsError Facilitator.reason_amount_mismatch)
  /\ check 1801 = Throw (JsError Facilitator.reason_amount_mismatch).
Proof.
  intros w check. split; [|split].
  - apply (amount_check_is_exact w (Examples.parsedTransfer 1800)
             Examples.requirements false Examples.devnetRpc eq_refl).
    reflexivity.
  - apply (proj2 (amount_check_is_exact w (Examples.parsedTransfer 1799)
                    Examples.requirements false Examples.devnetRpc eq_refl)
             1800 eq_refl).
    simpl. lia.
  - apply (proj2 (amount_check_is_exact w (Examples.parsedTransfer 1801)
                    Examples.requirements false Examples.devnetRpc eq_refl)
             1800 eq_refl).
    simpl. lia.
Defined.

(** C4, as the code has it.  An instruction that is not of the
    compute-budget program, or whose data does not start with the byte 3,
    is rejected with
    [invalid_exact_svm_payload_transaction_instructions_compute_price_instruction].
    Otherwise the data is parsed as SetComputeUnitPrice: what the parser
    throws goes to the caller unchanged; a parsed price above 5 000 000
    microlamports is rejected with [..._compute_price_instruction_too_high];
    a price of at most 5 000 000 is accepted. *)
Theorem compute_price_instruction_verdicts :
  forall instruction : Svm.Instruction,
    ((Svm.programAddress instruction <> Svm.COMPUTE_BUDGET_PROGRAM_ADDRESS
      \/ Svm.firstDataByte instruction <> Some 3) ->
     Facilitator.verifyComputePriceInstruction instruction
     = Throw (JsError Facilitator.reason_compute_price))
    /\ (forall rest : list Z,
          Svm.programAddress instruction = Svm.COMPUTE_BUDGET_PROGRAM_ADDRESS ->
          Svm.data instruction = Some (3 :: rest) ->
          (forall e, Svm.parseSetComputeUnitPriceInstruction (3 :: rest) = Throw e ->
                     Facilitator.verifyComputePriceInstruction instruction = Throw e)
          /\ (forall microLamports,
                Svm.parseSetComputeUnitPriceInstruction (3 :: rest) = Ok microLamports ->
                (5000000 < microLamports ->
                 Facilitator.verifyComputePriceInstruction instruction
                 = Throw (JsError Facilitator.reason_compute_price_too_high))
                /\ (microLamports <= 5000000 ->
                    Facilitator.verifyComputePriceInstruction instruction = Ok tt))).
Proof.
  intros i. split.
  - intros H. unfold Facilitator.verifyComputePriceInstruction.
    assert (Hb : negb (String.eqb (Svm.programAddress i) Svm.COMPUTE_BUDGET_PROGRAM_ADDRESS)
                 || negb (Svm.firstDataByteIs i 3) = true).
    { apply orb_true_iff. destruct H as [H|H].
      - left. apply negb_true_iff, String.eqb_neq. exact H.
      - right. apply negb_true_iff. unfold Svm.firstDataByteIs.
        destruct (Svm.firstDataByte i) as [b|]; [|reflexivity].
        apply Z.eqb_neq. congruence. }
    rewrite Hb. reflexivity.
  - intros rest Hp Hd.
    unfold Facilitator.verifyComputePriceInstruction, Svm.firstDataByteIs, Svm.firstDataByte.
    rewrite Hp, Hd, String.eqb_refl. cbn [negb orb Z.eqb Pos.eqb throw_if rbind].
    split.
    + intros e ->. reflexivity.
    + intros n ->. cbn [rbind]. change (5 * 1000000) with 5000000. split; intros Hn.
      * apply Z.ltb_lt in Hn. now rewrite Hn.
      * destruct (Z.ltb_spec 5000000 n); [lia|reflexivity].
Qed.

(** A price of 6 000 000 microlamports is too high, a price of 1 passes, a
    SetComputeUnitLimit instruction in the place of the price is rejected. *)
Lemma compute_price_instruction_witness :
  Facilitator.verifyComputePriceInstruction Examples.priceSixMillion
  = Throw (JsError Facilitator.reason_compute_price_too_high)
  /\ Facilitator.verifyComputePriceInstruction Examples.priceOne = Ok tt
  /\ Facilitator.verifyComputePriceInstruction Examples.limitInstruction
     = Throw (JsError Facilitator.reason_compute_price).
Proof.
  split; [|split].
  - destruct (proj2 (compute_price_instruction_verdicts Examples.priceSixMillion)
                [128; 141; 91; 0; 0; 0; 0; 0] eq_refl eq_refl) as [_ Hparsed].
    destruct (Hparsed 6000000 eq_refl) as [Hhigh _]. apply Hhigh. lia.
  - destruct (proj2 (compute_price_instruction_verdicts Examples.priceOne)
                [1; 0; 0; 0; 0; 0; 0; 0] eq_refl eq_refl) as [_ Hparsed].
    destruct (Hparsed 1 eq_refl) as [_ Hlow]. apply Hlow. lia.
  - apply (proj1 (compute_price_instruction_verdicts Examples.limitInstruction)).
    right. simpl. discriminate.
Defined.

(** Against C4 as stated: an instruction of the compute-budget program
    whose data is the byte 3 and nothing else does not parse as
    SetComputeUnitPrice, yet it is not rejected with the compute-price
    reason: the codec's error escapes, and [verify] reports
    [unexpected_verify_error]. *)
Lemma truncated_price_instruction_counterexample :
  Svm.programAddress Examples.priceTruncated = Svm.COMPUTE_BUDGET_PROGRAM_ADDRESS
  /\ Svm.firstDataByte Examples.priceTruncated = Some 3
  /\ Svm.parseSetComputeUnitPriceInstruction [3]
     = Throw (SolanaError Svm.SOLANA_ERROR__CODECS__INVALID_BYTE_LENGTH
                "Codec expected more bytes")
  /\ Facilitator.verifyComputePriceInstruction Examples.priceTruncated
     <> Throw (JsError Facilitator.reason_compute_price)
  /\ invalidReason
       (Facilitator.verify
          (Examples.world
             (Examples.happy
                [Examples.limitInstruction; Examples.priceTruncated; Examples.transfer1800]))
          Examples.signer Examples.payment Examples.requirements None)
     = Some "unexpected_verify_error".
Proof.
  split; [reflexivity|]. split; [reflexivity|]. split; [reflexivity|].
  split; [vm_compute; discriminate|vm_compute; reflexivity].
Qed.

(* ===================================================================== *)
(** * Properties: verify and settle *)
(* ===================================================================== *)

Section SettleFacts.
Import Svm Facilitator.

(** A valid verdict means that the [try] block of [verify] ran to its end. *)
Lemma verify_valid_inv (w : World) (signer : KeyPairSigner) (payload : PaymentPayload)
    (req : PaymentRequirements) (config : option X402Config) :
  isValid (verify w signer payload req config) = true ->
  exists payer, verify_try w signer payload req config = Ok payer.
Proof.
  unfold verify. destruct (verify_try w signer payload req config) as [p|e].
  - eauto.
  - destruct (instanceofError e && isErrorReason (message_of e)); discriminate.
Qed.

(** What has succeeded once the [try] block of [verify] has. *)
Lemma verify_try_ok_inv (w : World) (signer : KeyPairSigner) (payload : PaymentPayload)
    (req : PaymentRequirements) (config : option X402Config) (payer : string) :
  verify_try w signer payload req config = Ok payer ->
  exists tx rpc,
    decodeTransactionFromPayload w (pay_payload payload) = Ok tx
    /\ getRpcClient (req_network req)
         (match config with Some c => rpcUrl c | None => None end) = Ok rpc
    /\ getTokenPayerFromTransaction w tx = Ok payer.
Proof.
  unfold verify_try. intros H.
  apply rbind_ok in H as (_ & _ & H).
  apply rbind_ok in H as (tx & Htx & H).
  apply rbind_ok in H as (rpc & Hrpc & H).
  apply rbind_ok in H as (_ & _ & H).
  apply rbind_ok in H as (sim & _ & H).
  apply rbind_ok in H as (_ & _ & H).
  eauto.
Qed.

(** [settle] after a valid verdict, once the transaction is signed, the
    subscription client is there and the signature can be read. *)
Lemma settle_after_valid (w : World) (signer : KeyPairSigner) (payload : PaymentPayload)
    (req : PaymentRequirements) (config : option X402Config)
    (tx signed : Transaction) (subs : RpcSubscriptions) (signature : string) :
  isValid (verify w signer payload req config) = true ->
  decodeTransactionFromPayload w (pay_payload payload) = Ok tx ->
  signTransaction w signer tx = Ok signed ->
  getRpcSubscriptions w (req_network req)
    (match config with Some c => rpcUrl c | None => None end) = Ok subs ->
  getSignatureFromTransaction w signed = Ok signature ->
  exists rpc payer,
    getRpcClient (req_network req)
      (match config with Some c => rpcUrl c | None => None end) = Ok rpc
    /\ settle w signer payload req config
       = Ok (match sendAndConfirmSignedTransaction w signed rpc subs with
             | Ok confirmation =>
                 {| success := conf_success confirmation;
                    errorReason := conf_errorReason confirmation;
                    settle_payer := Some payer;
                    settle_transaction := conf_signature confirmation;
                    settle_network := pay_network payload |}
             | Throw _ =>
                 {| success := false;
                    errorReason := Some "unexpected_settle_error";
                    settle_payer := Some payer;
                    settle_transaction := signature;
                    settle_network := pay_network payload |}
             end).
Proof.
  intros Hvalid Htx Hsign Hsubs Hsig.
  destruct (verify_valid_inv _ _ _ _ _ Hvalid) as (payer & Htry).
  destruct (verify_try_ok_inv _ _ _ _ _ _ Htry) as (tx' & rpc & Htx' & Hrpc & Hpayer).
  assert (tx' = tx) by congruence. subst tx'.
  exists rpc, payer. split; [exact Hrpc|].
  unfold settle. rewrite Hvalid. cbn [negb].
  rewrite Htx. cbn [rbind]. rewrite Hsign. cbn [rbind]. rewrite Hpayer. cbn [rbind].
  rewrite Hrpc. cbn [rbind]. rewrite Hsubs. cbn [rbind].
  destruct (sendAndConfirmSignedTransaction w signed rpc subs);
    cbn [try_catch rbind]; [|rewrite Hsig]; reflexivity.
Qed.

End SettleFacts.

Section VerifySettle.
Import Svm Facilitator.

(** C6, as the code has it.  [verify] returns a response whatever happens
    inside it: valid exactly when its [try] block runs to the end; when the
    block throws an [Error] whose message is one of [ErrorReasons], that
    message is the [invalidReason]; when it throws anything else, the
    reason is [unexpected_verify_error].  [settle] begins with [verify].
    When verification fails it returns [success: false] with the
    [invalidReason] of [verify] as [errorReason], no payer and an empty
    transaction.  When verification passes, the transaction decodes and
    payer and RPC client are there as they were for [verify]; then
    - what [signTransaction] or [getRpcSubscriptions] throw, [settle]
      throws: they are called before its [try] block;
    - an outcome that submission and confirmation return is passed on;
    - whatever submission or confirmation throw, of whatever message, is
      reported as [unexpected_settle_error] with the signature of the
      signed transaction, and if that signature cannot be read, [settle]
      throws. *)
Theorem verify_and_settle_report_errors :
  forall (w : World) (signer : KeyPairSigner) (payload : PaymentPayload)
         (paymentRequirements : PaymentRequirements) (config : option X402Config),
    let verdict := verify w signer payload paymentRequirements config in
    let attempt := verify_try w signer payload paymentRequirements config in
    let url := match config with Some c => rpcUrl c | None => None end in
    let settled := settle w signer payload paymentRequirements config in
    (* verify *)
    (isValid verdict = true <-> exists payer, attempt = Ok payer)
    /\ (forall e, attempt = Throw e ->
          instanceofError e = true -> In (message_of e) ErrorReasons ->
          isValid verdict = false /\ invalidReason verdict = Some (message_of e))
    /\ (forall e, attempt = Throw e ->
          (instanceofError e = false \/ ~ In (message_of e) ErrorReasons) ->
          isValid verdict = false
          /\ invalidReason verdict = Some "unexpected_verify_error")
    (* settle, verification failed *)
    /\ (isValid verdict = false ->
        settled
        = Ok {| success := false;
                errorReason := invalidReason verdict;
                settle_payer := None;
                settle_transaction := EmptyString;
                settle_network := pay_network payload |})
    (* settle, verification passed *)
    /\ (isValid verdict = true ->
        exists (tx : Transaction) (rpc : Rpc) (payer : string),
          decodeTransactionFromPayload w (pay_payload payload) = Ok tx
          /\ getRpcClient (req_network paymentRequirements) url = Ok rpc
          /\ getTokenPayerFromTransaction w tx = Ok payer
          /\ (forall e, signTransaction w signer tx = Throw e -> settled = Throw e)
          /\ (forall signed, signTransaction w signer tx = Ok signed ->
                (forall e,
                   getRpcSubscriptions w (req_network paymentRequirements) url = Throw e ->
                   settled = Throw e)
                /\ (forall subs,
                      getRpcSubscriptions w (req_network paymentRequirements) url
                      = Ok subs ->
                      (forall confirmation,
                         sendAndConfirmSignedTransaction w signed rpc subs
                         = Ok confirmation ->
                         settled
                         = Ok {| success := conf_success confirmation;
                                 errorReason := conf_errorReason confirmation;
                                 settle_payer := Some payer;
                                 settle_transaction := conf_signature confirmation;
                                 settle_network := pay_network payload |})
                      /\ (forall e,
                            sendAndConfirmSignedTransaction w signed rpc subs = Throw e ->
                            (forall signature,
                               getSignatureFromTransaction w signed = Ok signature ->
                               settled
                               = Ok {| success := false;
                                       errorReason := Some "unexpected_settle_error";
                                       settle_payer := Some payer;
                                       settle_transaction := signature;
                                       settle_network := pay_network payload |})
                            /\ (forall e',
                                  getSignatureFromTransaction w signed = Throw e' ->
                                  settled = Throw e'))))).
Proof.
  intros w signer payload req config verdict attempt url settled.
  split; [|split; [|split; [|split]]].
  - split; [apply verify_valid_inv|].
    intros (payer & H). subst verdict. unfold verify. fold attempt. now rewrite H.
  - intros e He Hinst Hin. subst verdict. unfold verify. fold attempt. rewrite He.
    apply isErrorReason_In in Hin. rewrite Hinst, Hin. split; reflexivity.
  - intros e He Hno. subst verdict. unfold verify. fold attempt. rewrite He.
    assert (Hb : instanceofError e && isErrorReason (message_of e) = false).
    { apply andb_false_iff. destruct Hno as [H|H]; [now left|right].
      destruct (isErrorReason (message_of e)) eqn:E; [|reflexivity].
      apply isErrorReason_In in E. contradiction. }
    rewrite Hb. split; reflexivity.
  - intros Hinvalid. subst settled. unfold settle. fold verdict. now rewrite Hinvalid.
  - intros Hvalid.
    destruct (verify_valid_inv _ _ _ _ _ Hvalid) as (payer & Htry).
    destruct (verify_try_ok_inv _ _ _ _ _ _ Htry) as (tx & rpc & Htx & Hrpc & Hpayer).
    exists tx, rpc, payer. fold url in Hrpc.
    split; [exact Htx|]. split; [exact Hrpc|]. split; [exact Hpayer|].
    assert (Hsettled : settled
              = (let! signedTransaction := signTransaction w signer tx in
                 let! rpcSubscriptions :=
                   getRpcSubscriptions w (req_network req) url in
                 try_catch
                   (let! confirmation :=
                      sendAndConfirmSignedTransaction w signedTransaction rpc
                        rpcSubscriptions in
                    Ok {| success := conf_success confirmation;
                          errorReason := conf_errorReason confirmation;
                          settle_payer := Some payer;
                          settle_transaction := conf_signature confirmation;
                          settle_network := pay_network payload |})
                   (fun _ =>
                      let! signature :=
                        getSignatureFromTransaction w signedTransaction in
                      Ok {| success := false;
                            errorReason := Some "unexpected_settle_error";
                            settle_payer := Some payer;
                            settle_transaction := signature;
                            settle_network := pay_network payload |}))%result).
    { subst settled. unfold settle. fold verdict. rewrite Hvalid. cbn [negb].
      rewrite Htx. cbn [rbind].
      destruct (signTransaction w signer tx) as [signed|e]; [|reflexivity].
      cbn [rbind]. rewrite Hpayer. cbn [rbind]. fold url. rewrite Hrpc. reflexivity. }
    rewrite Hsettled. split.
    + intros e ->. reflexivity.
    + intros signed ->. cbn [rbind]. split.
      * intros e ->. reflexivity.
      * intros subs ->. cbn [rbind]. split.
        -- intros confirmation ->. reflexivity.
        -- intros e ->. cbn [rbind try_catch]. split.
           ++ intros signature ->. reflexivity.
           ++ intros e' ->. reflexivity.
Qed.

(** On a healthy network the payment is settled; when the node cannot be
    reached, [verify] reports [unexpected_verify_error], and so does
    [settle]; when the submission fails, [settle] reports
    [unexpected_settle_error] with the signature. *)
Lemma verify_and_settle_witness :
  (exists response,
     Facilitator.settle (Examples.world (Examples.happy Examples.threeInstructions))
       Examples.signer Examples.payment Examples.requirements None = Ok response
     /\ success response = true /\ errorReason response = None)
  /\ invalidReason
       (Facilitator.verify (Examples.world Examples.unreachable)
          Examples.signer Examples.payment Examples.requirements None)
     = Some "unexpected_verify_error"
  /\ Facilitator.settle (Examples.world Examples.unreachable)
       Examples.signer Examples.payment Examples.requirements None
     = Ok {| success := false; errorReason := Some "unexpected_verify_error";
             settle_payer := None; settle_transaction := EmptyString;
             settle_network := "solana-devnet" |}
  /\ Facilitator.settle (Examples.world Examples.sendFails)
       Examples.signer Examples.payment Examples.requirements None
     = Ok {| success := false; errorReason := Some "unexpected_settle_error";
             settle_payer := Some Examples.client;
             settle_transaction := "5VERv8NMvzbJMEkV8xnrLkEaWRtSz9CosKDYjCJjBRnb";
             settle_network := "solana-devnet" |}.
Proof.
  split; [|split; [|split]].
  - destruct (verify_and_settle_report_errors
                (Examples.world (Examples.happy Examples.threeInstructions))
                Examples.signer Examples.payment Examples.requirements None)
      as (_ & _ & _ & _ & Hsettle).
    destruct (Hsettle eq_refl) as (tx & rpc & payer & Htx & Hrpc & _ & _ & Hsigned).
    injection Htx as <-. injection Hrpc as <-.
    destruct (Hsigned _ eq_refl) as (_ & Hsubs).
    destruct (Hsubs _ eq_refl) as (Hconfirmed & _).
    eexists. split; [apply (Hconfirmed _ eq_refl)|]. split; reflexivity.
  - destruct (verify_and_settle_report_errors (Examples.world Examples.unreachable)
                Examples.signer Examples.payment Examples.requirements None)
      as (_ & _ & Hunknown & _).
    apply (Hunknown (JsError "fetch failed") eq_refl).
    right. vm_compute. intuition discriminate.
  - destruct (verify_and_settle_report_errors (Examples.world Examples.unreachable)
                Examples.signer Examples.payment Examples.requirements None)
      as (_ & _ & _ & Hfailed & _).
    apply (Hfailed eq_refl).
  - destruct (verify_and_settle_report_errors (Examples.world Examples.sendFails)
                Examples.signer Examples.payment Examples.requirements None)
      as (_ & _ & _ & _ & Hsettle).
    destruct (Hsettle eq_refl) as (tx & rpc & payer & Htx & Hrpc & Hpayer & _ & Hsigned).
    injection Htx as <-. injection Hrpc as <-. injection Hpayer as <-.
    destruct (Hsigned _ eq_refl) as (_ & Hsubs).
    destruct (Hsubs _ eq_refl) as (_ & Hthrown).
    destruct (Hthrown _ eq_refl) as (Hreported & _).
    apply (Hreported _ eq_refl).
Defined.

(** Against C6 as stated: [settle] throws.  The facilitator is configured
    with an RPC URL whose scheme is written in capitals.  The RPC client
    works with it, so the payment verifies; [httpToWs] leaves the URL as it
    is, since it does not start with [http]; [createSolanaRpcSubscriptions]
    rejects it; and this call is made before the [try] block of
    [settle]. *)
Lemma settle_throws_counterexample :
  isValid (Facilitator.verify Cases.devnetWithSockets Examples.signer Examples.payment
             Examples.requirements (Some Cases.capitalUrlConfig)) = true
  /\ Svm.httpToWs "HTTP://127.0.0.1:8899" = "HTTP://127.0.0.1:8899"
  /\ (exists e,
        Facilitator.settle Cases.devnetWithSockets Examples.signer Examples.payment
          Examples.requirements (Some Cases.capitalUrlConfig) = Throw e
        /\ Svm.getRpcSubscriptions Cases.devnetWithSockets "solana-devnet"
             (Some "HTTP://127.0.0.1:8899") = Throw e)
  /\ forall response,
       Facilitator.settle Cases.devnetWithSockets Examples.signer Examples.payment
         Examples.requirements (Some Cases.capitalUrlConfig) <> Ok response.
Proof.
  split; [reflexivity|]. split; [reflexivity|]. split.
  - eexists. split; reflexivity.
  - intros response. discriminate.
Qed.

(** C8.  [confirmSignedTransaction] reads the signature of the signed
    transaction and then, under an abort signal set to fire after
    60000 ms, decodes the message, takes its blockhash lifetime and waits
    for the confirmation.  It returns [success: true] when that block runs
    to its end; [success: false] with
    [settle_exact_svm_block_height_exceeded] when the block throws the
    block-height-exceeded error; [success: false] with
    [settle_exact_svm_transaction_confirmation_timed_out] when it throws
    the [AbortError] by which the expiry of the timer ends the wait; and
    any other error is thrown again, which [settle] reports as
    [unexpected_settle_error]. *)
Theorem confirmation_outcomes :
  forall (w : World) (signedTransaction : Transaction) (rpc : Rpc)
         (rpcSubscriptions : RpcSubscriptions) (signature : string),
    getSignatureFromTransaction w signedTransaction = Ok signature ->
    let outcome := confirm_try w signedTransaction rpc rpcSubscriptions in
    let confirmed := confirmSignedTransaction w signedTransaction rpc rpcSubscriptions in
    (* the block ends with the wait, which is made with a limit of 60 s *)
    (forall (compiled : CompiledTransactionMessage) (message : TransactionMessage)
            (lifetime : Lifetime),
       decodeCompiledMessage w (messageBytes signedTransaction) = Ok compiled ->
       decompileTransactionMessageFetchingLookupTables w compiled rpc = Ok message ->
       lifetimeConstraint message = Some lifetime ->
       outcome
       = waitForRecentTransactionConfirmation w rpc rpcSubscriptions signedTransaction
           lifetime 60000)
    /\ (outcome = Ok tt ->
        confirmed = Ok {| conf_success := true; conf_errorReason := None;
                          conf_signature := signature |})
    /\ (forall text,
          outcome = Throw (SolanaError SOLANA_ERROR__BLOCK_HEIGHT_EXCEEDED text) ->
          confirmed = Ok {| conf_success := false;
                            conf_errorReason := Some "settle_exact_svm_block_height_exceeded";
                            conf_signature := signature |})
    /\ (forall text,
          outcome = Throw (DOMException "AbortError" text) ->
          confirmed
          = Ok {| conf_success := false;
                  conf_errorReason :=
                    Some "settle_exact_svm_transaction_confirmation_timed_out";
                  conf_signature := signature |})
    /\ (forall e,
          outcome = Throw e ->
          isSolanaError e SOLANA_ERROR__BLOCK_HEIGHT_EXCEEDED = false ->
          isAbortError e = false ->
          confirmed = Throw e
          /\ forall (signer : KeyPairSigner) (payload : PaymentPayload)
                    (paymentRequirements : PaymentRequirements)
                    (config : option X402Config) (tx : Transaction) (sent : string),
               isValid (verify w signer payload paymentRequirements config) = true ->
               decodeTransactionFromPayload w (pay_payload payload) = Ok tx ->
               signTransaction w signer tx = Ok signedTransaction ->
               getRpcClient (req_network paymentRequirements)
                 (match config with Some c => rpcUrl c | None => None end) = Ok rpc ->
               getRpcSubscriptions w (req_network paymentRequirements)
                 (match config with Some c => rpcUrl c | None => None end)
               = Ok rpcSubscriptions ->
               sendSignedTransaction w signedTransaction rpc = Ok sent ->
               exists response,
                 settle w signer payload paymentRequirements config = Ok response
                 /\ success response = false
                 /\ errorReason response = Some "unexpected_settle_error").
Proof.
  intros w signed rpc subs signature Hsig outcome confirmed.
  subst confirmed. unfold confirmSignedTransaction. rewrite Hsig. cbn [rbind].
  fold outcome.
  split; [|split; [|split; [|split]]].
  - intros compiled message lifetime Hdec Hdecomp Hlife.
    subst outcome. unfold confirm_try. rewrite Hdec. cbn [rbind].
    rewrite Hdecomp. cbn [rbind].
    unfold assertIsTransactionMessageWithBlockhashLifetime. rewrite Hlife. reflexivity.
  - intros ->. reflexivity.
  - intros text ->. reflexivity.
  - intros text ->. reflexivity.
  - intros e He Hs Ha. rewrite He. cbn [rbind try_catch]. rewrite Hs, Ha.
    split; [reflexivity|].
    intros signer payload req config tx sent Hvalid Htx Hsign Hrpc Hsubs Hsend.
    destruct (settle_after_valid _ _ _ _ _ _ _ _ _ Hvalid Htx Hsign Hsubs Hsig)
      as (rpc' & payer & Hrpc' & Hsettle).
    assert (rpc' = rpc) by congruence. subst rpc'.
    eexists. split; [exact Hsettle|].
    unfold sendAndConfirmSignedTransaction. rewrite Hsend. cbn [rbind].
    unfold confirmSignedTransaction. rewrite Hsig. cbn [rbind].
    fold outcome. rewrite He.
    cbn [rbind try_catch]. rewrite Hs, Ha.
    split; reflexivity.
Qed.

(** The four ways in which the wait can end. *)
Lemma confirmation_outcomes_witness :
  let confirmed outcome :=
    Facilitator.confirmSignedTransaction (Examples.world (Examples.waitEnds outcome))
      Examples.transaction Examples.devnetRpc Examples.devnetSubscriptions in
  let signature := "5VERv8NMvzbJMEkV8xnrLkEaWRtSz9CosKDYjCJjBRnb" in
  confirmed (Ok tt)
  = Ok {| Facilitator.conf_success := true; Facilitator.conf_errorReason := None;
          Facilitator.conf_signature := signature |}
  /\ confirmed (Throw (SolanaError 1 "The network has progressed past the last block"))
     = Ok {| Facilitator.conf_success := false;
             Facilitator.conf_errorReason := Some "settle_exact_svm_block_height_exceeded";
             Facilitator.conf_signature := signature |}
  /\ confirmed (Throw (DOMException "AbortError" "This operation was aborted"))
     = Ok {| Facilitator.conf_success := false;
             Facilitator.conf_errorReason :=
               Some "settle_exact_svm_transaction_confirmation_timed_out";
             Facilitator.conf_signature := signature |}
  /\ confirmed (Throw (JsError "WebSocket connection failed"))
     = Throw (JsError "WebSocket connection failed")
  /\ exists response,
       Facilitator.settle
         (Examples.world (Examples.waitEnds (Throw (JsError "WebSocket connection failed"))))
         Examples.signer Examples.payment Examples.requirements None = Ok response
       /\ errorReason response = Some "unexpected_settle_error".
Proof.
  intros confirmed signature.
  pose (at_ outcome :=
          confirmation_outcomes (Examples.world (Examples.waitEnds outcome))
            Examples.transaction Examples.devnetRpc Examples.devnetSubscriptions
            "5VERv8NMvzbJMEkV8xnrLkEaWRtSz9CosKDYjCJjBRnb" eq_refl).
  split; [|split; [|split; [|split]]].
  - apply (proj1 (proj2 (at_ (Ok tt)))). reflexivity.
  - apply (proj1 (proj2 (proj2 (at_ (Throw (SolanaError 1 "The network has progressed past the last block")))))
             "The network has progressed past the last block").
    reflexivity.
  - apply (proj1 (proj2 (proj2 (proj2 (at_ (Throw (DOMException "AbortError" "This operation was aborted"))))))
             "This operation was aborted").
    reflexivity.
  - apply (proj2 (proj2 (proj2 (proj2 (at_ (Throw (JsError "WebSocket connection failed"))))))
             (JsError "WebSocket connection failed") eq_refl eq_refl eq_refl).
  - destruct (proj2 (proj2 (proj2 (proj2 (at_ (Throw (JsError "WebSocket connection failed"))))))
                (JsError "WebSocket connection failed") eq_refl eq_refl eq_refl)
      as [_ Hsettle].
    destruct (Hsettle Examples.signer Examples.payment Examples.requirements None
                Examples.transaction "5VERv8NMvzbJMEkV8xnrLkEaWRtSz9CosKDYjCJjBRnb"
                eq_refl eq_refl eq_refl eq_refl eq_refl eq_refl)
      as (response & Hrun & _ & Hreason).
    exists response. split; [exact Hrun|exact Hreason].
Defined.

End VerifySettle.

(* ===================================================================== *)
(** * Properties: the payment middleware *)
(* ===================================================================== *)

Section MiddlewareFacts.
Import Express.

Lemma quiet_refl (st : State) : quiet st st.
Proof. exists []. split; [now rewrite app_nil_r|reflexivity]. Qed.

Lemma quiet_trans (a b c : State) : quiet a b -> quiet b c -> quiet a c.
Proof.
  intros (l1 & H1 & F1) (l2 & H2 & F2). exists (l1 ++ l2)%list. split.
  - now rewrite H2, H1, app_assoc.
  - now rewrite forallb_app, F1, F2.
Qed.

Lemma quiet_same_calls (st st' : State) : calls st' = calls st -> quiet st st'.
Proof. intros H. exists []. split; [now rewrite app_nil_r|reflexivity]. Qed.

Lemma Quiet_ret {A : Type} (a : A) : Quiet (ret a).
Proof. intros st r st' [= _ <-]. apply quiet_refl. Qed.

Lemma Quiet_raise {A : Type} (e : Exn) : Quiet (@raise A e).
Proof. intros st r st' [= _ <-]. apply quiet_refl. Qed.

Lemma Quiet_lift {A : Type} (c : result A) : Quiet (lift c).
Proof. intros st r st' [= _ <-]. apply quiet_refl. Qed.

Lemma Quiet_gets {A : Type} (g : State -> A) : Quiet (gets g).
Proof. intros st r st' [= _ <-]. apply quiet_refl. Qed.

Lemma Quiet_bind {A B : Type} (c : M A) (k : A -> M B) :
  Quiet c -> (forall a, Quiet (k a)) -> Quiet (bind c k).
Proof.
  intros Hc Hk st r st'. unfold bind. destruct (c st) as [[a|e] st1] eqn:E.
  - intros H. eapply quiet_trans; [eapply Hc, E|eapply Hk, H].
  - intros [= _ <-]. eapply Hc, E.
Qed.

Lemma Quiet_catch {A : Type} (c : M A) (h : Exn -> M A) :
  Quiet c -> (forall e, Quiet (h e)) -> Quiet (catch c h).
Proof.
  intros Hc Hh st r st'. unfold catch. destruct (c st) as [[a|e] st1] eqn:E.
  - intros [= _ <-]. eapply Hc, E.
  - intros H. eapply quiet_trans; [eapply Hc, E|eapply Hh, H].
Qed.

Lemma Quiet_modify (g : State -> State) :
  (forall st, quiet st (g st)) -> Quiet (modify g).
Proof. intros Hg st r st' [= _ <-]. apply Hg. Qed.

Lemma Quiet_set_res (g : Response -> Response) : Quiet (modify (set_res g)).
Proof. apply Quiet_modify. intros st. now apply quiet_same_calls. Qed.

Lemma Quiet_log (c : Call) : isSettleCall c = false -> Quiet (modify (log c)).
Proof.
  intros Hc. apply Quiet_modify. intros st. exists [c]. split; [reflexivity|].
  simpl. now rewrite Hc.
Qed.

Lemma Quiet_res_status (code : Z) : Quiet (res_status code).
Proof. apply Quiet_set_res. Qed.

Lemma Quiet_res_setHeader (name value : string) : Quiet (res_setHeader name value).
Proof.
  intros st r st'. unfold res_setHeader.
  destruct (headersSent (res st)); intros [= _ <-];
    [apply quiet_refl|now apply quiet_same_calls].
Qed.

Lemma Quiet_originalEnd (args : EndArgs) : Quiet (originalEnd args).
Proof. apply Quiet_set_res. Qed.

Lemma Quiet_res_end (args : EndArgs) : Quiet (res_end args).
Proof.
  intros st r st'. unfold res_end. destruct (endIntercepted (res st)).
  - intros [= _ <-]. now apply quiet_same_calls.
  - apply Quiet_originalEnd.
Qed.

Lemma Quiet_res_send (contentType : string) (chunk : Chunk) :
  Quiet (res_send contentType chunk).
Proof.
  unfold res_send. apply Quiet_bind; [apply Quiet_gets|]. intros present.
  apply Quiet_bind; [apply Quiet_res_setHeader|]. intros _. apply Quiet_res_end.
Qed.

Lemma Quiet_reply402 (error : ErrorField) (accepts : list PaymentRequirements)
    (payer : option (option string)) : Quiet (reply402 error accepts payer).
Proof.
  unfold reply402, res_json. apply Quiet_bind; [apply Quiet_res_status|].
  intros _. apply Quiet_res_send.
Qed.

Lemma Quiet_runOp (op : HandlerOp) : Quiet (runOp op).
Proof.
  destruct op; simpl.
  - apply Quiet_res_status.
  - apply Quiet_catch; [apply Quiet_res_setHeader|intros; apply Quiet_ret].
  - apply Quiet_set_res.
  - apply Quiet_res_end.
  - apply Quiet_ret.
Qed.

Lemma Quiet_runHandler (handler : list HandlerOp) : Quiet (runHandler handler).
Proof.
  induction handler as [|op handler IH].
  - apply Quiet_ret.
  - destruct (HandlerOp_eq_await op) as [->|Hop]; [apply Quiet_ret|].
    rewrite (runHandler_step op handler Hop).
    apply Quiet_bind; [apply Quiet_runOp|intros; exact IH].
Qed.

Lemma Quiet_next (handler : list HandlerOp) : Quiet (next handler).
Proof.
  unfold next. apply Quiet_bind; [now apply Quiet_log|intros; apply Quiet_runHandler].
Qed.

Lemma Quiet_buildPaymentRequirements (f : Facilitator) (payTo_ : string) (req : Request)
    (matchingRoute : RoutePattern) :
  Quiet (buildPaymentRequirements f payTo_ req matchingRoute).
Proof.
  unfold buildPaymentRequirements.
  apply Quiet_bind; [apply Quiet_lift|]. intros [maxAmount asset|error];
    [|apply Quiet_raise].
  destruct (existsb _ SupportedEVMNetworks).
  - apply Quiet_bind; [apply Quiet_lift|]. intros ?.
    apply Quiet_bind; [apply Quiet_lift|]. intros ?. apply Quiet_ret.
  - destruct (existsb _ SupportedSVMNetworks); [|apply Quiet_raise].
    apply Quiet_bind; [now apply Quiet_log|]. intros _.
    apply Quiet_bind; [apply Quiet_lift|]. intros kinds.
    destruct (truthy _); [apply Quiet_ret|apply Quiet_raise].
Qed.

Lemma Quiet_challenge (f : Facilitator) (payTo_ : string) (routePatterns : list RoutePattern)
    (req : Request) (handler : list HandlerOp) :
  Quiet (challenge f payTo_ routePatterns req handler).
Proof.
  unfold challenge. destruct (Shared.findMatchingRoute _ _ _) as [route|].
  2:{ apply Quiet_bind; [apply Quiet_next|intros; apply Quiet_ret]. }
  apply Quiet_bind; [apply Quiet_buildPaymentRequirements|]. intros reqs.
  destruct (truthy (header_payment req)) as [payment|].
  2:{ destruct (_ && _).
      - apply Quiet_bind; [apply Quiet_res_status|]. intros _.
        apply Quiet_bind; [apply Quiet_res_send|]. intros _. apply Quiet_ret.
      - apply Quiet_bind; [apply Quiet_reply402|]. intros _. apply Quiet_ret. }
  destruct (decodePayment f payment) as [decoded|error].
  2:{ apply Quiet_bind; [apply Quiet_reply402|]. intros _. apply Quiet_ret. }
  destruct (Shared.findMatchingPaymentRequirements _ _) as [selected|].
  2:{ apply Quiet_bind; [apply Quiet_reply402|]. intros _. apply Quiet_ret. }
  apply Quiet_catch.
  - apply Quiet_bind; [now apply Quiet_log|]. intros _.
    apply Quiet_bind; [apply Quiet_lift|]. intros response.
    destruct (negb (isValid response)); [|apply Quiet_ret].
    apply Quiet_bind; [apply Quiet_reply402|]. intros _. apply Quiet_ret.
  - intros e. apply Quiet_bind; [apply Quiet_reply402|]. intros _. apply Quiet_ret.
Qed.

Lemma quiet_no_settle (st st' : State) (d : PaymentPayload) (r : PaymentRequirements) :
  quiet st st' -> In (CallSettle d r) (calls st') -> In (CallSettle d r) (calls st).
Proof.
  intros (l & -> & Hl) Hin. apply in_app_or in Hin as [Hin|Hin]; [exact Hin|].
  rewrite forallb_forall in Hl. specialize (Hl _ Hin). discriminate.
Qed.


(** While [res.end] is intercepted a handler cannot end the response, and
    it leaves the interception in place. *)
Lemma runOp_intercepted (op : HandlerOp) (st : State) :
  endIntercepted (res st) = true ->
  exists st', runOp op st = (Ok tt, st')
    /\ endIntercepted (res st') = true
    /\ ended (res st') = ended (res st)
    /\ calls st' = calls st.
Proof.
  intros Hi. destruct op; simpl.
  - eexists. split; [reflexivity|]. simpl. intuition congruence.
  - unfold catch, res_setHeader. destruct (headersSent (res st));
      (eexists; split; [reflexivity|]; simpl; intuition congruence).
  - unfold res_write, modify. eexists. split; [reflexivity|]. simpl.
    destruct (ended (res st)) eqn:E; simpl; rewrite ?E; intuition congruence.
  - unfold res_end. rewrite Hi. eexists. split; [reflexivity|]. simpl.
    intuition congruence.
  - eexists. split; [reflexivity|]. intuition congruence.
Qed.

Lemma runHandler_intercepted (handler : list HandlerOp) :
  forall st, endIntercepted (res st) = true ->
  exists st', runHandler handler st = (Ok tt, st')
    /\ endIntercepted (res st') = true
    /\ ended (res st') = ended (res st)
    /\ calls st' = calls st.
Proof.
  induction handler as [|op handler IH]; intros st Hi.
  - eexists. split; [reflexivity|]. intuition congruence.
  - destruct (HandlerOp_eq_await op) as [->|Hop].
    + eexists. split; [reflexivity|]. intuition congruence.
    + rewrite (runHandler_step op handler Hop).
      unfold bind. destruct (runOp_intercepted op st Hi) as (st1 & -> & H1 & H2 & H3).
      destruct (IH st1 H1) as (st2 & -> & H4 & H5 & H6).
      eexists. split; [reflexivity|]. repeat split; congruence.
Qed.

Lemma afterHandler_spec (handler : list HandlerOp) (st : State) :
  (intercept >> next handler)%M st = (Ok tt, afterHandler handler st)
  /\ endIntercepted (res (afterHandler handler st)) = true
  /\ ended (res (afterHandler handler st)) = ended (res st)
  /\ calls (afterHandler handler st) = (calls st ++ [CallNext])%list.
Proof.
  unfold afterHandler, intercept, next, bind, modify, set_end. simpl.
  match goal with |- context [runHandler handler ?s] =>
    destruct (runHandler_intercepted handler s eq_refl) as (st' & -> & H1 & H2 & H3)
  end.
  simpl. intuition congruence.
Qed.

Lemma settlePhase_afterNext (f : Facilitator) (handler : list HandlerOp) (a : Verified)
    (st : State) :
  settlePhase f handler a st = afterNext f a (afterHandler handler st).
Proof.
  destruct (afterHandler_spec handler st) as (Hrun & _).
  unfold settlePhase. unfold bind at 1.
  unfold bind at 1 in Hrun.
  destruct (intercept st) as [[[]|e] st1]; [|discriminate].
  unfold bind at 1. destruct (next handler st1) as [[[]|e] st2]; [|discriminate].
  injection Hrun as <-. reflexivity.
Qed.

Lemma handleRequest_verified (f : Facilitator) (payTo_ : string)
    (routePatterns : list RoutePattern) (req : Request) (handler : list HandlerOp)
    (st st1 : State) (a : Verified) :
  challenge f payTo_ routePatterns req handler st = (Ok (Some a), st1) ->
  handleRequest f payTo_ routePatterns req handler st
  = afterNext f a (afterHandler handler st1).
Proof.
  intros H. unfold handleRequest, bind. rewrite H. apply settlePhase_afterNext.
Qed.


Ltac project :=
  cbn [res set_res log headers statusCode ended with_header headersSent
       endIntercepted flushHead endArgs calls wireHead wireChunks].

(** A handler that has answered when [next()] returns.  For a request
    that was verified (a matching route, a payment that the facilitator
    verified) and whose status code is 400 or above when [next()] has
    returned, the middleware completes with [next()] as its only further
    call: [settle] is not called at any point of the request.  The status
    code, the headers and the chunks written are the handler's, [res.end]
    is the original function again, and the call to [end] that the
    interception buffered goes out with the arguments it was made with,
    under the handler's status and headers if nothing had been sent
    before. *)
Lemma failed_handler_is_not_settled :
  forall (f : Facilitator) (payTo_ : string) (routePatterns : list RoutePattern)
         (req : Request) (handler : list HandlerOp) (st st1 : State) (a : Verified),
    challenge f payTo_ routePatterns req handler st = (Ok (Some a), st1) ->
    400 <= statusCode (res (afterHandler handler st1)) ->
    let handled := afterHandler handler st1 in
    exists st',
      handleRequest f payTo_ routePatterns req handler st = (Ok tt, st')
      (* settle is not called *)
      /\ calls st' = (calls st1 ++ [CallNext])%list
      /\ (forall d r, In (CallSettle d r) (calls st') -> In (CallSettle d r) (calls st))
      (* the response is the handler's *)
      /\ statusCode (res st') = statusCode (res handled)
      /\ headers (res st') = headers (res handled)
      /\ wireChunks (res st') = wireChunks (res handled)
      /\ endIntercepted (res st') = false
      (* and the buffered call to [end] goes out as it was made *)
      /\ match endArgs handled with
         | Some args =>
             ended (res st1) = None ->
             ended (res st') = Some args
             /\ (headersSent (res handled) = false ->
                 wireHead (res st')
                 = Some (statusCode (res handled), headers (res handled)))
         | None => ended (res st') = ended (res st1)
         end.
Proof.
  intros f payTo_ rps req handler st st1 a Hpass Hstatus handled.
  destruct (afterHandler_spec handler st1) as (_ & Hi & Hended & Hcalls).
  fold handled in Hi, Hended, Hcalls, Hstatus.
  rewrite (handleRequest_verified _ _ _ _ _ _ _ _ Hpass). fold handled.
  unfold afterNext, bind, gets. apply Z.leb_le in Hstatus. rewrite Hstatus.
  unfold flushBuffered, bind, set_end, modify, gets. cbn [endArgs set_res].
  destruct (endArgs handled) as [args|] eqn:Eargs.
  - unfold originalEnd, modify, set_res. cbn [res ended].
    eexists. split; [reflexivity|].
    cbn [calls res statusCode headers wireChunks endIntercepted ended wireHead].
    split; [exact Hcalls|]. split.
    { intros d r Hin. cbn [calls] in Hin. rewrite Hcalls in Hin.
      apply in_app_or in Hin as [Hin|[Hin|[]]]; [|discriminate].
      eapply quiet_no_settle; [eapply Quiet_challenge, Hpass|exact Hin]. }
    rewrite Hended.
    destruct (ended (res st1)) eqn:E;
      cbn [statusCode headers wireChunks endIntercepted ended wireHead];
      do 4 (split; [reflexivity|]).
    + discriminate.
    + intros _. split; [reflexivity|]. intros Hsent. unfold flushHead.
      cbn [headersSent statusCode headers]. now rewrite Hsent.
  - eexists. split; [reflexivity|].
    cbn [calls res set_res statusCode headers wireChunks endIntercepted ended wireHead].
    split; [exact Hcalls|]. split.
    { intros d r Hin. cbn [calls set_res] in Hin. rewrite Hcalls in Hin.
      apply in_app_or in Hin as [Hin|[Hin|[]]]; [|discriminate].
      eapply quiet_no_settle; [eapply Quiet_challenge, Hpass|exact Hin]. }
    do 4 (split; [reflexivity|]). exact Hended.
Qed.

(** The handler answers 503 before [next()] returns: the client gets the
    503 with the handler's body, and the facilitator is asked to verify
    but not to settle. *)
Lemma failed_handler_witness :
  exists st',
    handleRequest (Examples.facilitator (Ok Examples.settledOk)) Examples.merchant
      (Examples.patternsOf Examples.weatherRoutes) Examples.paidRequest
      Examples.handlerDown Examples.freshState = (Ok tt, st')
    /\ (forall d r, ~ In (CallSettle d r) (calls st'))
    /\ statusCode (res st') = 503
    /\ headers (res st') !! "x-payment-response" = None
    /\ ended (res st') = Some (Examples.endWith "service unavailable").
Proof.
  destruct (challenge (Examples.facilitator (Ok Examples.settledOk)) Examples.merchant
              (Examples.patternsOf Examples.weatherRoutes) Examples.paidRequest
              Examples.handlerDown Examples.freshState) as [r st1] eqn:Hpass.
  assert (Hr : exists a, r = Ok (Some a)
                         /\ calls st1 = [CallSupported;
                                          CallVerify (decodedPayment a)
                                            (selectedPaymentRequirements a)]
                         /\ res st1 = res Examples.freshState).
  { vm_compute in Hpass. injection Hpass as <- <-.
    eexists. split; [reflexivity|]. split; reflexivity. }
  destruct Hr as (a & -> & Hcalls1 & Hres1).
  assert (Hhandled : statusCode (res (afterHandler Examples.handlerDown st1)) = 503
                     /\ headers (res (afterHandler Examples.handlerDown st1)) = ∅
                     /\ endArgs (afterHandler Examples.handlerDown st1)
                        = Some (Examples.endWith "service unavailable")).
  { unfold afterHandler. destruct st1 as [res1 args1 calls1]. simpl in Hres1. subst res1.
    repeat split; reflexivity. }
  destruct Hhandled as (Hstatus & Hheaders & Hargs).
  destruct (failed_handler_is_not_settled _ _ _ _ _ _ _ _ Hpass
              ltac:(rewrite Hstatus; lia))
    as (st' & Hrun & Hcalls & _ & Hs & Hh & _ & _ & Hend).
  exists st'. split; [exact Hrun|]. split; [|split; [|split]].
  - intros d r Hin. rewrite Hcalls, Hcalls1 in Hin. simpl in Hin.
    intuition discriminate.
  - now rewrite Hs.
  - now rewrite Hh, Hheaders.
  - rewrite Hargs in Hend. apply Hend. now rewrite Hres1.
Defined.

(** C2, as the code has it.  For a verified request whose handler leaves
    the status code below 400 and has sent nothing yet: when [settle]
    returns, the [X-PAYMENT-RESPONSE] header is set to the encoded
    [SettleResponse] whether or not the settlement succeeded; on
    [success: true] the handler's status stands and its buffered [end]
    call goes out; on [success: false] the response is a 402 whose body
    carries [errorReason] and [accepts].  When [settle] throws, no
    [X-PAYMENT-RESPONSE] header is added and the response is a 402 whose
    body carries the thrown value as [error], and [accepts]. *)
Theorem payment_response_header_follows_settle :
  forall (f : Facilitator) (payTo_ : string) (routePatterns : list RoutePattern)
         (req : Request) (handler : list HandlerOp) (st st1 : State) (a : Verified),
    challenge f payTo_ routePatterns req handler st = (Ok (Some a), st1) ->
    let handled := afterHandler handler st1 in
    statusCode (res handled) < 400 ->
    headersSent (res handled) = false ->
    ended (res handled) = None ->
    (forall settleResponse,
       settle f (decodedPayment a) (selectedPaymentRequirements a) = Ok settleResponse ->
       exists st',
         handleRequest f payTo_ routePatterns req handler st = (Ok tt, st')
         /\ headers (res st') !! "x-payment-response"
            = Some (settleResponseHeader f settleResponse)
         /\ (success settleResponse = true ->
             statusCode (res st') = statusCode (res handled)
             /\ ended (res st') = endArgs handled)
         /\ (success settleResponse = false ->
             statusCode (res st') = 402
             /\ ended (res st')
                = Some (jsonEnd (body402 (ErrorReason (errorReason settleResponse))
                                   (paymentRequirements a) None))))
    /\ (forall e,
          settle f (decodedPayment a) (selectedPaymentRequirements a) = Throw e ->
          exists st',
            handleRequest f payTo_ routePatterns req handler st = (Ok tt, st')
            /\ headers (res st') !! "x-payment-response"
               = headers (res handled) !! "x-payment-response"
            /\ statusCode (res st') = 402
            /\ ended (res st')
               = Some (jsonEnd (body402 (ErrorCaught e) (paymentRequirements a) None))).
Proof.
  intros f payTo_ rps req handler st st1 a Hpass handled Hstatus Hsent Hended.
  destruct (afterHandler_spec handler st1) as (_ & Hi & _ & _).
  fold handled in Hi.
  rewrite (handleRequest_verified _ _ _ _ _ _ _ _ Hpass). fold handled.
  assert (Hlt : (400 <=? statusCode (res handled)) = false) by (apply Z.leb_gt; lia).
  split.
  - intros sr Hsettle.
    unfold afterNext, bind, gets. rewrite Hlt.
    unfold finally, catch, bind, modify, lift. rewrite Hsettle.
    unfold res_setHeader. cbn [res log headersSent]. rewrite Hsent.
    destruct (success sr) eqn:Hsucc; cbn [negb].
    + unfold ret, flushBuffered, bind, set_end, modify, gets.
      cbn [set_res res endArgs log].
      destruct (endArgs handled) as [args|] eqn:Eargs;
        unfold originalEnd, modify;
        (eexists; split; [reflexivity|]); project; rewrite ?Hended; project.
      * split; [apply lookup_insert_eq|]. split; [|discriminate].
        intros _. split; reflexivity.
      * split; [apply lookup_insert_eq|]. split; [|discriminate].
        intros _. split; reflexivity.
    + unfold reply402, res_json, res_send, res_status, bind, gets, modify, res_setHeader.
      project. rewrite Hsent.
      unfold res_end. project. rewrite Hi.
      unfold flushBuffered, bind, set_end, modify, gets. project.
      unfold originalEnd, modify.
      eexists. split; [reflexivity|]. project. rewrite Hended. project.
      split.
      { rewrite lookup_insert_ne by discriminate. apply lookup_insert_eq. }
      split; [discriminate|]. intros _. split; reflexivity.
  - intros e Hsettle.
    unfold afterNext, bind, gets. rewrite Hlt.
    unfold finally, catch, bind, modify, lift. rewrite Hsettle.
    unfold gets. project. rewrite Hsent. cbn [negb].
    unfold reply402, res_json, res_send, res_status, bind, gets, modify, res_setHeader.
    project. rewrite Hsent.
    unfold res_end. project. rewrite Hi.
    unfold flushBuffered, bind, set_end, modify, gets. project.
    unfold originalEnd, modify.
    eexists. split; [reflexivity|]. project. rewrite Hended. project.
    split; [now rewrite lookup_insert_ne by discriminate|].
    split; reflexivity.
Qed.

(** A settlement that succeeds, one that fails, and one that throws. *)
Lemma payment_response_header_witness :
  let final settled :=
    snd (handleRequest (Examples.facilitator settled) Examples.merchant
           (Examples.patternsOf Examples.weatherRoutes) Examples.paidRequest
           Examples.handlerOk Examples.freshState) in
  (headers (res (final (Ok Examples.settledOk))) !! "x-payment-response"
   = Some "eyJzdWNjZXNzIjp0cnVlfQ=="
   /\ statusCode (res (final (Ok Examples.settledOk))) = 200
   /\ ended (res (final (Ok Examples.settledOk))) = Some (Examples.endWith "sunny"))
  /\ (headers (res (final (Ok Examples.settledFailed))) !! "x-payment-response"
      = Some "eyJzdWNjZXNzIjpmYWxzZX0="
      /\ statusCode (res (final (Ok Examples.settledFailed))) = 402)
  /\ (headers (res (final (Throw (JsError "Settlement failed")))) !! "x-payment-response"
      = None
      /\ statusCode (res (final (Throw (JsError "Settlement failed")))) = 402).
Proof.
  intros final.
  assert (Hat : forall settled,
            exists a st1,
              challenge (Examples.facilitator settled) Examples.merchant
                (Examples.patternsOf Examples.weatherRoutes) Examples.paidRequest
                Examples.handlerOk Examples.freshState = (Ok (Some a), st1)
              /\ res st1 = res Examples.freshState).
  { intros settled.
    destruct (challenge (Examples.facilitator settled) Examples.merchant
                (Examples.patternsOf Examples.weatherRoutes) Examples.paidRequest
                Examples.handlerOk Examples.freshState) as [r st1] eqn:Hpass.
    vm_compute in Hpass. injection Hpass as <- <-.
    eexists _, _. split; reflexivity. }
  assert (Hhandled : forall st1, res st1 = res Examples.freshState ->
            statusCode (res (afterHandler Examples.handlerOk st1)) = 200
            /\ headersSent (res (afterHandler Examples.handlerOk st1)) = false
            /\ ended (res (afterHandler Examples.handlerOk st1)) = None
            /\ headers (res (afterHandler Examples.handlerOk st1)) = ∅
            /\ endArgs (afterHandler Examples.handlerOk st1)
               = Some (Examples.endWith "sunny")).
  { intros [res1 args1 calls1] Hres1. simpl in Hres1. subst res1.
    repeat split; reflexivity. }
  split; [|split].
  - destruct (Hat (Ok Examples.settledOk)) as (a & st1 & Hpass & Hres1).
    destruct (Hhandled st1 Hres1) as (Hs & Hsent & Hended & Hh & Hargs).
    destruct (payment_response_header_follows_settle _ _ _ _ _ _ _ _ Hpass
                ltac:(rewrite Hs; lia) Hsent Hended) as [Hreturned _].
    destruct (Hreturned Examples.settledOk eq_refl) as (st' & Hrun & Hheader & Hok & _).
    unfold final. rewrite Hrun. cbn [snd].
    destruct (Hok eq_refl) as [Hstatus Hend].
    split; [exact Hheader|]. split; [now rewrite Hstatus|now rewrite Hend].
  - destruct (Hat (Ok Examples.settledFailed)) as (a & st1 & Hpass & Hres1).
    destruct (Hhandled st1 Hres1) as (Hs & Hsent & Hended & Hh & Hargs).
    destruct (payment_response_header_follows_settle _ _ _ _ _ _ _ _ Hpass
                ltac:(rewrite Hs; lia) Hsent Hended) as [Hreturned _].
    destruct (Hreturned Examples.settledFailed eq_refl)
      as (st' & Hrun & Hheader & _ & Hfailed).
    unfold final. rewrite Hrun. cbn [snd].
    destruct (Hfailed eq_refl) as [Hstatus _].
    split; [exact Hheader|exact Hstatus].
  - destruct (Hat (Throw (JsError "Settlement failed"))) as (a & st1 & Hpass & Hres1).
    destruct (Hhandled st1 Hres1) as (Hs & Hsent & Hended & Hh & Hargs).
    destruct (payment_response_header_follows_settle _ _ _ _ _ _ _ _ Hpass
                ltac:(rewrite Hs; lia) Hsent Hended) as [_ Hthrew].
    destruct (Hthrew (JsError "Settlement failed") eq_refl)
      as (st' & Hrun & Hheader & Hstatus & _).
    unfold final. rewrite Hrun. cbn [snd].
    split; [|exact Hstatus]. rewrite Hheader, Hh. reflexivity.
Defined.

(** Against C2 as stated: [settle] returns [success: false] and the
    response, a 402 with the [errorReason] and [accepts], does carry an
    [X-PAYMENT-RESPONSE] header: the header is written before [success] is
    looked at. *)
Lemma failed_settlement_sets_header_counterexample :
  let outcome :=
    handleRequest (Examples.facilitator (Ok Examples.settledFailed)) Examples.merchant
      (Examples.patternsOf Examples.weatherRoutes) Examples.paidRequest
      Examples.handlerOk Examples.freshState in
  success Examples.settledFailed = false
  /\ fst outcome = Ok tt
  /\ statusCode (res (snd outcome)) = 402
  /\ headers (res (snd outcome)) !! "x-payment-response"
     = Some (settleResponseHeader (Examples.facilitator (Ok Examples.settledFailed))
               Examples.settledFailed)
  /\ headers (res (snd outcome)) !! "x-payment-response" <> None
  /\ ended (res (snd outcome))
     = Some (jsonEnd (body402 (ErrorReason (Some "invalid_transaction_state"))
                        [Examples.requirements] None)).
Proof.
  intros outcome. vm_compute. repeat split; try reflexivity; discriminate.
Qed.

End MiddlewareFacts.

(* ===================================================================== *)
(** * Further properties: route selection *)
(* ===================================================================== *)

Section RouteSelection.


Lemma beforeQueryOrHash_app (c : ascii) (path rest : string) :
  JS.ascii_eqb c "?"%char || JS.ascii_eqb c "#"%char = true ->
  Shared.beforeQueryOrHash (path ++ String c rest) = Shared.beforeQueryOrHash path.
Proof.
  intros Hc. induction path as [|d path IH]; simpl.
  - now rewrite Hc.
  - destruct (JS.ascii_eqb d "?"%char || JS.ascii_eqb d "#"%char); [reflexivity|].
    now rewrite IH.
Qed.

Lemma toUpperChar_toLowerChar (c : ascii) :
  JS.toUpperChar (JS.toLowerChar c) = JS.toUpperChar c.
Proof. destruct c as [[] [] [] [] [] [] [] []]; reflexivity. Qed.

Lemma toUpperCase_toLowerCase (s : string) :
  JS.toUpperCase (JS.toLowerCase s) = JS.toUpperCase s.
Proof.
  induction s as [|c s IH]; simpl; [reflexivity|].
  now rewrite toUpperChar_toLowerChar, IH.
Qed.

Lemma toUpperCase_idem (s : string) :
  JS.toUpperCase (JS.toUpperCase s) = JS.toUpperCase s.
Proof.
  induction s as [|c s IH]; simpl; [reflexivity|].
  now rewrite toUpperChar_idem, IH.
Qed.

Lemma findMatchingRoute_method_ext (rps : list RoutePattern) (path m m' : string) :
  JS.toUpperCase m = JS.toUpperCase m' ->
  Shared.findMatchingRoute rps path m = Shared.findMatchingRoute rps path m'.
Proof.
  intros H. unfold Shared.findMatchingRoute.
  destruct (Shared.normalizePath path) as [np|e]; [|reflexivity].
  assert (Hr : forall r, Shared.routeMatches np m r = Shared.routeMatches np m' r).
  { intros r. unfold Shared.routeMatches. now rewrite H. }
  assert (Hf : List.filter (Shared.routeMatches np m) rps
               = List.filter (Shared.routeMatches np m') rps).
  { induction rps as [|r rps IH]; simpl; [reflexivity|]. now rewrite Hr, IH. }
  now rewrite Hf.
Qed.

End RouteSelection.



(** X2.  What follows the first [?] or [#] of the path plays no part in
    the choice of the route. *)
Theorem findMatchingRoute_ignores_query_and_fragment :
  forall (routePatterns : list RoutePattern) (path rest method : string),
    Shared.findMatchingRoute routePatterns (path ++ String "?" rest) method
    = Shared.findMatchingRoute routePatterns path method
    /\ Shared.findMatchingRoute routePatterns (path ++ String "#" rest) method
       = Shared.findMatchingRoute routePatterns path method.
Proof.
  intros rps path rest method.
  unfold Shared.findMatchingRoute, Shared.normalizePath.
  now rewrite !beforeQueryOrHash_app by reflexivity.
Qed.

(** X3.  The method of the request is compared in upper case, so its
    letter case plays no part; and a route key without a space compiles
    to the verb [*], under which the route matches a path for every
    method. *)
Theorem route_verb_is_optional_and_case_insensitive :
  (forall (routePatterns : list RoutePattern) (path method : string),
     Shared.findMatchingRoute routePatterns path (JS.toLowerCase method)
     = Shared.findMatchingRoute routePatterns path method
     /\ Shared.findMatchingRoute routePatterns path (JS.toUpperCase method)
        = Shared.findMatchingRoute routePatterns path method)
  /\ (forall (key : string) (value : RouteValue) (route : RoutePattern),
        JS.includes " " key = false ->
        Shared.computeRoutePattern (key, value) = Ok route ->
        verb route = "*"
        /\ forall normalizedPath method,
             Shared.routeMatches normalizedPath method route
             = Regex.test (pattern route) normalizedPath).
Proof.
  split.
  - intros rps path method. split; apply findMatchingRoute_method_ext.
    + apply toUpperCase_toLowerCase.
    + apply toUpperCase_idem.
  - intros key value route Hkey H. unfold Shared.computeRoutePattern in H.
    rewrite Hkey in H. destruct key as [|c key]; [discriminate|].
    destruct (Regex.compile _) as [re|e]; [|discriminate].
    injection H as <-. split; [reflexivity|].
    intros np method. unfold Shared.routeMatches. cbn [verb pattern].
    change (String.eqb (JS.toUpperCase "*") "*") with true.
    now rewrite orb_true_l, andb_true_r.
Qed.

(** The key [/api/*] has no verb: it matches a [DELETE] as it matches a
    [GET]. *)
Lemma route_verb_witness :
  exists route,
    Shared.computeRoutePattern ("/api/*", RouteBare (MoneyString "$0.01")) = Ok route
    /\ verb route = "*"
    /\ Shared.routeMatches "/api/items" "DELETE" route = true
    /\ Shared.routeMatches "/api/items" "get" route = true.
Proof.
  eexists. split; [reflexivity|].
  destruct (proj2 route_verb_is_optional_and_case_insensitive
              "/api/*" (RouteBare (MoneyString "$0.01")) _ eq_refl eq_refl)
    as [Hverb Hany].
  split; [exact Hverb|]. split; rewrite Hany; reflexivity.
Defined.

(* ===================================================================== *)
(** * Further properties: verification of a Solana payment *)
(* ===================================================================== *)

Section IntrospectionFacts.
Import Svm Facilitator.

Lemma throw_if_inv (b : bool) (msg : string) (r : result unit) :
  throw_if b msg = r ->
  (b = false /\ r = Ok tt) \/ (b = true /\ r = Throw (JsError msg)).
Proof. destruct b; simpl; intros <-; auto. Qed.

Lemma seq_ok {A : Type} (c : result unit) (k : result A) (a : A) :
  (c ;;; k)%result = Ok a -> c = Ok tt /\ k = Ok a.
Proof. destruct c as [[]|e]; simpl; [auto|discriminate]. Qed.

Lemma verifySchemesAndNetworks_ok (payload : PaymentPayload) (req : PaymentRequirements) :
  verifySchemesAndNetworks payload req = Ok tt ->
  pay_scheme payload = "exact" /\ req_scheme req = "exact"
  /\ pay_network payload = req_network req
  /\ In (req_network req) SupportedSVMNetworks.
Proof.
  unfold verifySchemesAndNetworks. intros H.
  apply seq_ok in H as [H1 H2].
  apply throw_if_ok in H1. apply throw_if_ok in H2.
  apply orb_false_iff in H1 as [Ha Hb]. apply orb_false_iff in H2 as [Hc Hd].
  apply negb_false_iff in Ha, Hb, Hc, Hd.
  apply String.eqb_eq in Ha, Hb, Hc.
  repeat split; try assumption.
  apply existsb_exists in Hd as (n & Hin & Hn). apply String.eqb_eq in Hn. now subst.
Qed.

Lemma verifyComputeLimitInstruction_ok (i : Instruction) :
  verifyComputeLimitInstruction i = Ok tt ->
  programAddress i = COMPUTE_BUDGET_PROGRAM_ADDRESS
  /\ firstDataByte i = Some 2
  /\ exists bytes units, data i = Some bytes
                         /\ parseSetComputeUnitLimitInstruction bytes = Ok units.
Proof.
  unfold verifyComputeLimitInstruction. intros H.
  destruct (throw_if _ _ ;;; _)%result as [[]|e] eqn:E; [|discriminate].
  apply seq_ok in E as [H1 H2]. apply throw_if_ok in H1.
  apply orb_false_iff in H1 as [Ha Hb]. apply negb_false_iff in Ha, Hb.
  apply String.eqb_eq in Ha. unfold firstDataByteIs in Hb.
  destruct (firstDataByte i) as [b|] eqn:Eb; [|discriminate].
  apply Z.eqb_eq in Hb. subst b.
  split; [exact Ha|]. split; [reflexivity|].
  unfold firstDataByte in Eb. destruct (data i) as [bytes|]; [|discriminate].
  apply rbind_ok in H2 as (units & Hu & _). eauto.
Qed.

Lemma verifyComputePriceInstruction_ok (i : Instruction) :
  verifyComputePriceInstruction i = Ok tt ->
  programAddress i = COMPUTE_BUDGET_PROGRAM_ADDRESS
  /\ firstDataByte i = Some 3
  /\ exists bytes microLamports,
       data i = Some bytes
       /\ parseSetComputeUnitPriceInstruction bytes = Ok microLamports
       /\ microLamports <= 5000000.
Proof.
  unfold verifyComputePriceInstruction. intros H.
  apply seq_ok in H as [H1 H2]. apply throw_if_ok in H1.
  apply orb_false_iff in H1 as [Ha Hb]. apply negb_false_iff in Ha, Hb.
  apply String.eqb_eq in Ha. unfold firstDataByteIs in Hb.
  destruct (firstDataByte i) as [b|] eqn:Eb; [|discriminate].
  apply Z.eqb_eq in Hb. subst b.
  split; [exact Ha|]. split; [reflexivity|].
  unfold firstDataByte in Eb. destruct (data i) as [bytes|]; [|discriminate].
  apply rbind_ok in H2 as (n & Hn & Hle). apply throw_if_ok in Hle.
  apply Z.ltb_ge in Hle. exists bytes, n. repeat split; [exact Hn|lia].
Qed.

Lemma verifyCreateATAInstruction_ok (i : Instruction) (req : PaymentRequirements) :
  verifyCreateATAInstruction i req = Ok tt ->
  exists created,
    parsedCreateATA i = Ok created
    /\ address (ata_owner created) = payTo req
    /\ address (ata_mint created) = req_asset req.
Proof.
  unfold verifyCreateATAInstruction. intros H.
  destruct (parsedCreateATA i) as [created|e]; [|discriminate].
  cbn [try_catch rbind] in H. apply seq_ok in H as [H1 H2].
  apply throw_if_ok, negb_false_iff, String.eqb_eq in H1.
  apply throw_if_ok, negb_false_iff, String.eqb_eq in H2.
  eauto.
Qed.

(** What [getValidatedTransferCheckedInstruction] hands on. *)
Lemma getValidatedTransferCheckedInstruction_ok (w : World) (i : Instruction)
    (parsed : ParsedTransferChecked) :
  getValidatedTransferCheckedInstruction w i = Ok parsed ->
  (programAddress i = TOKEN_PROGRAM_ADDRESS
   \/ programAddress i = TOKEN_2022_PROGRAM_ADDRESS)
  /\ firstDataByte i = Some 12
  /\ exists accs bytes,
       accounts i = Some accs /\ data i = Some bytes
       /\ parseTransferCheckedInstruction (programAddress i) accs bytes = Ok parsed.
Proof.
  unfold getValidatedTransferCheckedInstruction, assertIsInstructionWithData,
    assertIsInstructionWithAccounts, firstDataByte.
  destruct (data i) as [bytes|]; [|discriminate].
  destruct (accounts i) as [accs|]; [|discriminate].
  cbn [try_catch rbind fst snd].
  assert (Hid : forall p, (let! identified := identifyInstruction w p bytes in
                           match identified with
                           | TransferChecked =>
                               parseTransferCheckedInstruction (programAddress i) accs bytes
                           | OtherTokenInstruction =>
                               Throw (JsError (if String.eqb p TOKEN_PROGRAM_ADDRESS
                                               then reason_not_spl_transfer_checked
                                               else reason_not_2022_transfer_checked))
                           end)%result = Ok parsed ->
                     match bytes with b :: _ => Some b | [] => None end = Some 12
                     /\ parseTransferCheckedInstruction (programAddress i) accs bytes
                        = Ok parsed).
  { intros p H. unfold identifyInstruction in H.
    destruct bytes as [|b bytes].
    - destruct (identifiesOtherInstruction w p []); discriminate.
    - destruct (Z.eq_dec b 12) as [->|Hb]; [auto|].
      assert (Hne : match b with 12 => false | _ => true end = true).
      { destruct b as [|q|q]; try reflexivity.
        do 4 (destruct q as [q|q|]; try reflexivity). congruence. }
      exfalso. clear -H Hne.
      destruct b as [|q|q];
        try (destruct (identifiesOtherInstruction w p _); discriminate).
      do 4 (destruct q as [q|q|];
            try (destruct (identifiesOtherInstruction w p _); discriminate)).
      discriminate. }
  destruct (String.eqb (programAddress i) TOKEN_PROGRAM_ADDRESS) eqn:E1.
  - intros H. apply String.eqb_eq in E1.
    destruct (Hid TOKEN_PROGRAM_ADDRESS H) as [Hb Hp].
    split; [now left|]. split; [exact Hb|]. eauto.
  - destruct (String.eqb (programAddress i) TOKEN_2022_PROGRAM_ADDRESS) eqn:E2;
      [|discriminate].
    intros H. apply String.eqb_eq in E2.
    destruct (Hid TOKEN_2022_PROGRAM_ADDRESS H) as [Hb Hp].
    split; [now right|]. split; [exact Hb|]. eauto.
Qed.

Lemma parseTransferCheckedInstruction_program (program : Address)
    (accs : list AccountMeta) (bytes : list Z) (parsed : ParsedTransferChecked) :
  parseTransferCheckedInstruction program accs bytes = Ok parsed ->
  tc_programAddress parsed = program.
Proof.
  unfold parseTransferCheckedInstruction.
  destruct accs as [|s [|m [|d [|a rest]]]]; try discriminate.
  intros H. apply rbind_ok in H as (_ & _ & H).
  apply rbind_ok in H as (amount & _ & H).
  apply rbind_ok in H as (decimals & _ & H).
  now injection H as <-.
Qed.

(** What has been established when [verifyTransferCheckedInstruction]
    returns. *)
Lemma verifyTransferCheckedInstruction_ok (w : World) (parsed : ParsedTransferChecked)
    (req : PaymentRequirements) (flag : bool) (rpc : Rpc) :
  verifyTransferCheckedInstruction w parsed req flag rpc = Ok tt ->
  findAssociatedTokenPda w (req_asset req) (payTo req)
    (if String.eqb (tc_programAddress parsed) TOKEN_PROGRAM_ADDRESS
     then TOKEN_PROGRAM_ADDRESS else TOKEN_2022_PROGRAM_ADDRESS)
  = Ok (address (tc_destination parsed))
  /\ JS.BigInt (maxAmountRequired req) = Ok (tc_amount parsed).
Proof.
  unfold verifyTransferCheckedInstruction. intros H.
  apply seq_ok in H as [Hacc Hamount].
  split.
  - unfold verifyTransferAccounts in Hacc.
    apply rbind_ok in Hacc as (ata & Hata & Hacc).
    apply seq_ok in Hacc as [Hdest _].
    apply throw_if_ok, negb_false_iff, String.eqb_eq in Hdest.
    now rewrite Hdest.
  - unfold verifyTransferAmount in Hamount.
    apply rbind_ok in Hamount as (n & Hn & Hcmp).
    apply throw_if_ok, negb_false_iff, Z.eqb_eq in Hcmp. now rewrite Hcmp.
Qed.

Lemma verifyTransferInstruction_ok (w : World) (i : Instruction)
    (req : PaymentRequirements) (flag : bool) (rpc : Rpc) :
  verifyTransferInstruction w i req flag rpc = Ok tt ->
  exists parsed,
    getValidatedTransferCheckedInstruction w i = Ok parsed
    /\ (programAddress i = TOKEN_PROGRAM_ADDRESS
        \/ programAddress i = TOKEN_2022_PROGRAM_ADDRESS)
    /\ findAssociatedTokenPda w (req_asset req) (payTo req) (programAddress i)
       = Ok (address (tc_destination parsed))
    /\ JS.BigInt (maxAmountRequired req) = Ok (tc_amount parsed).
Proof.
  unfold verifyTransferInstruction. intros H.
  apply rbind_ok in H as (parsed & Hparsed & H).
  destruct (getValidatedTransferCheckedInstruction_ok _ _ _ Hparsed)
    as (Hprog & _ & accs & bytes & _ & _ & Hparse).
  apply parseTransferCheckedInstruction_program in Hparse.
  destruct (verifyTransferCheckedInstruction_ok _ _ _ _ _ H) as [Hata Hamount].
  exists parsed. split; [exact Hparsed|]. split; [exact Hprog|]. split; [|exact Hamount].
  rewrite Hparse in Hata.
  destruct Hprog as [Hp|Hp]; rewrite Hp in Hata |- *; exact Hata.
Qed.

(** What the parse of a create-ATA instruction asks for: six accounts and
    one byte of data.  Neither the program address nor the value of the
    byte is looked at. *)
Lemma parsedCreateATA_ok (i : Instruction) (created : ParsedCreateATA) :
  parsedCreateATA i = Ok created <->
  exists p a o m s t rest b bytes,
    accounts i = Some (p :: a :: o :: m :: s :: t :: rest)
    /\ data i = Some (b :: bytes)
    /\ created = {| ata_payer := p; ata_ata := a; ata_owner := o; ata_mint := m |}.
Proof.
  unfold parsedCreateATA, assertIsInstructionWithAccounts, assertIsInstructionWithData.
  split.
  - destruct (accounts i) as [accs|]; [|discriminate].
    destruct (data i) as [bytes|]; [|discriminate].
    cbn [rbind]. unfold parseCreateAssociatedTokenInstruction.
    destruct accs as [|p [|a [|o [|m [|s [|t rest]]]]]]; try discriminate.
    destruct bytes as [|b bytes]; [discriminate|].
    cbn. intros [= <-]. exists p, a, o, m, s, t, rest, b, bytes. auto.
  - intros (p & a & o & m & s & t & rest & b & bytes & -> & -> & ->). reflexivity.
Qed.

End IntrospectionFacts.

Section VerifySoundness.
Import Svm Facilitator.

(** What has succeeded when the [try] block of [verify] has. *)
Lemma verify_try_ok_steps (w : World) (signer : KeyPairSigner) (payload : PaymentPayload)
    (req : PaymentRequirements) (config : option X402Config) (payer : string) :
  verify_try w signer payload req config = Ok payer ->
  verifySchemesAndNetworks payload req = Ok tt
  /\ exists tx rpc compiled message simulated,
       decodeTransactionFromPayload w (pay_payload payload) = Ok tx
       /\ getRpcClient (req_network req)
            (match config with Some c => rpcUrl c | None => None end) = Ok rpc
       /\ decodeCompiledMessage w (messageBytes tx) = Ok compiled
       /\ decompileTransactionMessage w compiled = Ok message
       /\ verifyTransactionInstructions w message req rpc = Ok tt
       /\ signAndSimulateTransaction w signer tx rpc = Ok simulated
       /\ simulate_err simulated = None
       /\ getTokenPayerFromTransaction w tx = Ok payer.
Proof.
  unfold verify_try. intros H.
  apply seq_ok in H as [Hs H]. split; [exact Hs|].
  apply rbind_ok in H as (tx & Htx & H).
  apply rbind_ok in H as (rpc & Hrpc & H).
  apply seq_ok in H as [Hi H].
  apply rbind_ok in H as (sim & Hsim & H).
  apply seq_ok in H as [Herr Hpayer].
  unfold transactionIntrospection in Hi. rewrite Hrpc, Htx in Hi. cbn [rbind] in Hi.
  apply rbind_ok in Hi as (compiled & Hc & Hi).
  apply rbind_ok in Hi as (message & Hm & Hi).
  exists tx, rpc, compiled, message, sim.
  repeat (split; [assumption|]). split; [|exact Hpayer].
  apply throw_if_ok in Herr. destruct (simulate_err sim); [discriminate|reflexivity].
Qed.

End VerifySoundness.

(** X4.  [verify] answers [isValid: true] only when every step of its
    [try] block has succeeded: both schemes are [exact], the networks of
    payload and requirements agree and are a supported Solana network, the
    transaction decodes, its message decompiles, the instructions pass
    [verifyTransactionInstructions], and the simulation of the transaction
    signed by the facilitator reports no error.  The payer of the answer is
    then the one [getTokenPayerFromTransaction] reads from the
    transaction. *)
Theorem valid_verdict_passed_every_check :
  forall (w : Svm.World) (signer : Svm.KeyPairSigner) (payload : PaymentPayload)
         (paymentRequirements : PaymentRequirements) (config : option Svm.X402Config),
    isValid (Facilitator.verify w signer payload paymentRequirements config) = true ->
    pay_scheme payload = "exact"
    /\ req_scheme paymentRequirements = "exact"
    /\ pay_network payload = req_network paymentRequirements
    /\ In (req_network paymentRequirements) SupportedSVMNetworks
    /\ exists tx rpc compiled message simulated payer,
         Svm.decodeTransactionFromPayload w (pay_payload payload) = Ok tx
         /\ Svm.getRpcClient (req_network paymentRequirements)
              (match config with Some c => Svm.rpcUrl c | None => None end) = Ok rpc
         /\ Svm.decodeCompiledMessage w (Svm.messageBytes tx) = Ok compiled
         /\ Svm.decompileTransactionMessage w compiled = Ok message
         /\ Facilitator.verifyTransactionInstructions w message paymentRequirements rpc
            = Ok tt
         /\ Svm.signAndSimulateTransaction w signer tx rpc = Ok simulated
         /\ Svm.simulate_err simulated = None
         /\ Svm.getTokenPayerFromTransaction w tx = Ok payer
         /\ Facilitator.verify w signer payload paymentRequirements config
            = {| isValid := true; invalidReason := None; verify_payer := Some payer |}.
Proof.
  intros w signer payload req config Hvalid.
  destruct (verify_valid_inv _ _ _ _ _ Hvalid) as (payer & Htry).
  destruct (verify_try_ok_steps _ _ _ _ _ _ Htry)
    as (Hs & tx & rpc & compiled & message & sim & Htx & Hrpc & Hc & Hm & Hi & Hsim
        & Herr & Hpayer).
  destruct (verifySchemesAndNetworks_ok _ _ Hs) as (H1 & H2 & H3 & H4).
  repeat (split; [assumption|]).
  exists tx, rpc, compiled, message, sim, payer.
  repeat (split; [assumption|]).
  unfold Facilitator.verify. now rewrite Htry.
Qed.

(** The devnet payment of 1800 units is valid, and it went through every
    step. *)
Lemma valid_verdict_witness :
  let w := Examples.world (Examples.happy Examples.threeInstructions) in
  isValid (Facilitator.verify w Examples.signer Examples.payment Examples.requirements None)
  = true
  /\ Svm.decodeTransactionFromPayload w (pay_payload Examples.payment)
     = Ok Examples.transaction
  /\ Facilitator.verify w Examples.signer Examples.payment Examples.requirements None
     = {| isValid := true; invalidReason := None;
          verify_payer := Some Examples.client |}.
Proof.
  intros w. split; [reflexivity|].
  destruct (valid_verdict_passed_every_check w Examples.signer Examples.payment
              Examples.requirements None eq_refl)
    as (_ & _ & _ & _ & tx & rpc & compiled & message & sim & payer
        & Htx & _ & _ & _ & _ & _ & _ & Hpayer & Hverdict).
  rewrite Hverdict. vm_compute in Htx. injection Htx as <-.
  split; [reflexivity|].
  vm_compute in Hpayer. injection Hpayer as <-. reflexivity.
Defined.

(** X5.  The instructions that [verifyTransactionInstructions] lets
    through are a compute-unit limit, a compute-unit price of at most
    5 000 000 microlamports, then, when there are four instructions, an
    instruction with six accounts or more and a byte of data or more
    whose third account is [payTo] and whose fourth account is [asset]
    (this is all that parsing it as CreateAssociatedToken asks for: its
    program address and its discriminator are not compared), and last a
    TransferChecked of the token program or the token-2022 program whose
    destination is the associated token account of [payTo] for [asset]
    under that program and whose amount is [BigInt(maxAmountRequired)]. *)
Theorem accepted_instructions_pay_the_required_amount :
  forall (w : Svm.World) (transactionMessage : Svm.TransactionMessage)
         (paymentRequirements : PaymentRequirements) (rpc : Svm.Rpc),
    Facilitator.verifyTransactionInstructions w transactionMessage paymentRequirements rpc
    = Ok tt ->
    exists limit price transfer parsed priceBytes microLamports,
      (Svm.instructions transactionMessage = [limit; price; transfer]
       \/ exists third payer ata owner mint system token others byte bytes,
            Svm.instructions transactionMessage = [limit; price; third; transfer]
            /\ Svm.accounts third
               = Some (payer :: ata :: owner :: mint :: system :: token :: others)
            /\ Svm.data third = Some (byte :: bytes)
            /\ Svm.address owner = payTo paymentRequirements
            /\ Svm.address mint = req_asset paymentRequirements)
      /\ Svm.programAddress limit = Svm.COMPUTE_BUDGET_PROGRAM_ADDRESS
      /\ Svm.firstDataByte limit = Some 2
      /\ Svm.programAddress price = Svm.COMPUTE_BUDGET_PROGRAM_ADDRESS
      /\ Svm.data price = Some priceBytes
      /\ Svm.parseSetComputeUnitPriceInstruction priceBytes = Ok microLamports
      /\ microLamports <= 5000000
      /\ Facilitator.getValidatedTransferCheckedInstruction w transfer = Ok parsed
      /\ (Svm.programAddress transfer = Svm.TOKEN_PROGRAM_ADDRESS
          \/ Svm.programAddress transfer = Svm.TOKEN_2022_PROGRAM_ADDRESS)
      /\ Svm.findAssociatedTokenPda w (req_asset paymentRequirements)
           (payTo paymentRequirements) (Svm.programAddress transfer)
         = Ok (Svm.address (Svm.tc_destination parsed))
      /\ JS.BigInt (maxAmountRequired paymentRequirements) = Ok (Svm.tc_amount parsed).
Proof.
  intros w tm req rpc H. unfold Facilitator.verifyTransactionInstructions in H.
  destruct (Svm.instructions tm) as [|i0 [|i1 [|i2 [|i3 [|i4 l]]]]]; try discriminate.
  - apply seq_ok in H as [H0 H]. apply seq_ok in H as [H1 H2].
    destruct (verifyComputeLimitInstruction_ok _ H0) as (Hp0 & Hb0 & _).
    destruct (verifyComputePriceInstruction_ok _ H1)
      as (Hp1 & _ & bytes & n & Hd & Hn & Hle).
    destruct (verifyTransferInstruction_ok _ _ _ _ _ H2)
      as (parsed & Hparsed & Hprog & Hata & Hamount).
    exists i0, i1, i2, parsed, bytes, n.
    split; [now left|]. repeat (split; [assumption|]). exact Hamount.
  - apply seq_ok in H as [H0 H]. apply seq_ok in H as [H1 H].
    apply seq_ok in H as [Hc H3].
    destruct (verifyComputeLimitInstruction_ok _ H0) as (Hp0 & Hb0 & _).
    destruct (verifyComputePriceInstruction_ok _ H1)
      as (Hp1 & _ & bytes & n & Hd & Hn & Hle).
    destruct (verifyCreateATAInstruction_ok _ _ Hc) as (created & Hcreated & Ho & Hm).
    apply parsedCreateATA_ok in Hcreated
      as (p & a & o & m & s & t & rest & b & bs & Haccs & Hdata & ->).
    destruct (verifyTransferInstruction_ok _ _ _ _ _ H3)
      as (parsed & Hparsed & Hprog & Hata & Hamount).
    exists i0, i1, i3, parsed, bytes, n.
    split; [right; exists i2, p, a, o, m, s, t, rest, b, bs; auto|].
    repeat (split; [assumption|]). exact Hamount.
Qed.

(** The three instructions of the devnet payment: a price of one
    microlamport and a transfer of 1800 units to the merchant's account.
    And four instructions of which the third is one of the system
    program with the merchant and the asset among its six accounts: they
    are let through as well. *)
Lemma accepted_instructions_witness :
  (exists transfer parsed,
     nth_error Examples.threeInstructions 2 = Some transfer
     /\ Facilitator.getValidatedTransferCheckedInstruction
          (Examples.world (Examples.happy Examples.threeInstructions)) transfer = Ok parsed
     /\ Svm.tc_amount parsed = 1800
     /\ Svm.address (Svm.tc_destination parsed) = Examples.merchantATA)
  /\ (exists third owner mint,
        nth_error [Examples.limitInstruction; Examples.priceOne;
                   Cases.sixAccountInstruction; Examples.transfer1800] 2 = Some third
        /\ Svm.programAddress third = "11111111111111111111111111111111"
        /\ Svm.firstDataByte third = Some 9
        /\ nth_error (default [] (Svm.accounts third)) 2 = Some owner
        /\ nth_error (default [] (Svm.accounts third)) 3 = Some mint
        /\ Svm.address owner = Examples.merchant
        /\ Svm.address mint = Examples.usdcDevnet).
Proof.
  split.
  - destruct (accepted_instructions_pay_the_required_amount
                (Examples.world (Examples.happy Examples.threeInstructions))
                (Examples.message Examples.threeInstructions)
                Examples.requirements Examples.devnetRpc eq_refl)
      as (limit & price & transfer & parsed & bytes & n & Hshape & _ & _ & _ & _ & _ & _
          & Hparsed & _ & Hata & Hamount).
    destruct Hshape
      as [Hshape|(c & p & a & o & m & s & t & rest & b & bs & Hshape & _)];
      [|discriminate].
    injection Hshape as <- <- <-.
    exists Examples.transfer1800, parsed. split; [reflexivity|]. split; [exact Hparsed|].
    split.
    + injection Hamount as Hamount. symmetry. exact Hamount.
    + injection Hata as Hata. symmetry. exact Hata.
  - destruct (accepted_instructions_pay_the_required_amount
                (Examples.world (Examples.happy Examples.threeInstructions))
                (Examples.message [Examples.limitInstruction; Examples.priceOne;
                                   Cases.sixAccountInstruction; Examples.transfer1800])
                Examples.requirements Examples.devnetRpc eq_refl)
      as (limit & price & transfer & parsed & bytes & n & Hshape & _).
    destruct Hshape
      as [Hshape|(c & p & a & o & m & s & t & rest & b & bs & Hshape & Haccs & Hdata
                  & Ho & Hm)];
      [discriminate|].
    injection Hshape as <- <- <- <-.
    exists Cases.sixAccountInstruction, o, m.
    split; [reflexivity|]. split; [reflexivity|]. split; [reflexivity|].
    rewrite Haccs. split; [reflexivity|]. split; [reflexivity|].
    split; [exact Ho|exact Hm].
Defined.

Section TransferFacts.
Import Svm Facilitator.

(** The check of a parsed TransferChecked instruction reads its program
    address, the addresses of its source and destination and its amount. *)
Lemma verifyTransferCheckedInstruction_ext (w : World) (p q : ParsedTransferChecked)
    (req : PaymentRequirements) (flag : bool) (rpc : Rpc) :
  tc_programAddress p = tc_programAddress q ->
  address (tc_source p) = address (tc_source q) ->
  address (tc_destination p) = address (tc_destination q) ->
  tc_amount p = tc_amount q ->
  verifyTransferCheckedInstruction w p req flag rpc
  = verifyTransferCheckedInstruction w q req flag rpc.
Proof.
  intros Hprog Hsrc Hdst Hamount.
  unfold verifyTransferCheckedInstruction, verifyTransferAccounts, verifyTransferAmount.
  now rewrite Hprog, Hsrc, Hdst, Hamount.
Qed.

Lemma readNumber_at (size : nat) (before chunk after : list Z) :
  length chunk = size ->
  readNumber size (length before) (before ++ chunk ++ after) = Ok (littleEndian chunk).
Proof.
  intros H. unfold readNumber.
  change (skipn (length before) (before ++ chunk ++ after))
    with (drop (length before) (before ++ chunk ++ after)).
  rewrite drop_app_length. subst size.
  change (firstn (length chunk) (chunk ++ after))
    with (take (length chunk) (chunk ++ after)).
  rewrite take_app_length, Nat.eqb_refl. reflexivity.
Qed.

(** Data of a TransferChecked instruction as the parser reads them. *)
Lemma parseTransferChecked_data (program : Address) (s m d a : AccountMeta)
    (rest : list AccountMeta) (amountBytes tail : list Z) (decimals : Z) :
  length amountBytes = 8%nat ->
  parseTransferCheckedInstruction program (s :: m :: d :: a :: rest)
    (12 :: amountBytes ++ decimals :: tail)
  = Ok {| tc_programAddress := program; tc_source := s; tc_mint := m;
          tc_destination := d; tc_authority := a;
          tc_amount := littleEndian amountBytes; tc_decimals := decimals |}.
Proof.
  intros H. unfold parseTransferCheckedInstruction.
  change (readNumber 1 0 (12 :: amountBytes ++ decimals :: tail)) with (Ok 12 : result Z).
  cbn [rbind].
  assert (H8 : readNumber 8 1 (12 :: amountBytes ++ decimals :: tail)
               = Ok (littleEndian amountBytes)).
  { exact (readNumber_at 8 [12] amountBytes (decimals :: tail) H). }
  assert (H9 : readNumber 1 9 (12 :: amountBytes ++ decimals :: tail) = Ok decimals).
  { pose proof (readNumber_at 1 (12 :: amountBytes) [decimals] tail eq_refl) as Hr.
    cbn [length] in Hr. rewrite H in Hr.
    change (((12 :: amountBytes) ++ [decimals] ++ tail)%list)
      with (12 :: amountBytes ++ decimals :: tail)%list in Hr.
    rewrite Hr. cbn [littleEndian]. f_equal. lia. }
  rewrite H8. cbn [rbind]. rewrite H9. reflexivity.
Qed.

End TransferFacts.

(** X6.  Of a TransferChecked instruction the facilitator checks the
    program, the source and destination addresses and the amount, and
    nothing else: replacing the mint account, the authority, the accounts
    after the fourth, the decimals and the bytes after them leaves the
    verdict of [verifyTransferInstruction] as it was. *)
Theorem transfer_check_reads_no_mint_authority_decimals :
  forall (w : Svm.World) (program : Svm.Address)
         (source destination mint authority mint' authority' : Svm.AccountMeta)
         (others others' : list Svm.AccountMeta)
         (amountBytes tail tail' : list Z) (decimals decimals' : Z)
         (paymentRequirements : PaymentRequirements)
         (txHasCreateDestATAInstruction : bool) (rpc : Svm.Rpc),
    length amountBytes = 8%nat ->
    Facilitator.verifyTransferInstruction w
      {| Svm.programAddress := program;
         Svm.accounts := Some (source :: mint :: destination :: authority :: others);
         Svm.data := Some (12 :: amountBytes ++ decimals :: tail) |}
      paymentRequirements txHasCreateDestATAInstruction rpc
    = Facilitator.verifyTransferInstruction w
        {| Svm.programAddress := program;
           Svm.accounts := Some (source :: mint' :: destination :: authority' :: others');
           Svm.data := Some (12 :: amountBytes ++ decimals' :: tail') |}
        paymentRequirements txHasCreateDestATAInstruction rpc.
Proof.
  intros w program s d m a m' a' others others' amountBytes tail tail' dec dec'
         req flag rpc Hlen.
  unfold Facilitator.verifyTransferInstruction,
    Facilitator.getValidatedTransferCheckedInstruction,
    Svm.assertIsInstructionWithData, Svm.assertIsInstructionWithAccounts.
  cbn [Svm.data Svm.accounts Svm.programAddress try_catch rbind fst snd].
  unfold Svm.identifyInstruction. cbn [rbind].
  rewrite !(parseTransferChecked_data _ _ _ _ _ _ _ _ _ Hlen).
  destruct (String.eqb program Svm.TOKEN_PROGRAM_ADDRESS);
    [|destruct (String.eqb program Svm.TOKEN_2022_PROGRAM_ADDRESS); [|reflexivity]];
    cbn [rbind]; apply verifyTransferCheckedInstruction_ext; reflexivity.
Qed.

(** The transfer of the devnet payment with the facilitator's fee payer
    as its authority, another mint and other decimals passes as the
    client's own transfer does. *)
Lemma transfer_check_witness :
  let w := Examples.world (Examples.happy Examples.threeInstructions) in
  Facilitator.verifyTransferInstruction w Cases.transferByFeePayer
    Examples.requirements false Examples.devnetRpc = Ok tt
  /\ Facilitator.verifyTransferInstruction w Examples.transfer1800
       Examples.requirements false Examples.devnetRpc = Ok tt.
Proof.
  intros w.
  pose proof (transfer_check_reads_no_mint_authority_decimals w
                Svm.TOKEN_PROGRAM_ADDRESS
                (Examples.meta Examples.clientATA) (Examples.meta Examples.merchantATA)
                (Examples.meta Examples.usdcDevnet) (Examples.meta Examples.client)
                (Examples.meta "So11111111111111111111111111111111111111112")
                (Examples.meta Examples.feePayer) [] []
                [8; 7; 0; 0; 0; 0; 0; 0] [] [] 6 9
                Examples.requirements false Examples.devnetRpc eq_refl) as H.
  assert (Hclient : Facilitator.verifyTransferInstruction w Examples.transfer1800
                      Examples.requirements false Examples.devnetRpc = Ok tt)
    by reflexivity.
  split; [|exact Hclient].
  change Cases.transferByFeePayer
    with {| Svm.programAddress := Svm.TOKEN_PROGRAM_ADDRESS;
            Svm.accounts :=
              Some [Examples.meta Examples.clientATA;
                    Examples.meta "So11111111111111111111111111111111111111112";
                    Examples.meta Examples.merchantATA;
                    Examples.meta Examples.feePayer];
            Svm.data := Some (12 :: [8; 7; 0; 0; 0; 0; 0; 0] ++ [9]) |}.
  rewrite <- H. exact Hclient.
Defined.

Section AccountFacts.
Import Svm Facilitator.

(** The loop over the missing accounts ends in one of three ways. *)
Lemma checkMissingAccounts_cases (missing : list MaybeAccount) (source payToATA : Address)
    (flag : bool) :
  (checkMissingAccounts missing source payToATA flag = Ok tt
   /\ forall a, In a missing ->
        account_address a <> source
        /\ (account_address a = payToATA -> flag = true))
  \/ (checkMissingAccounts missing source payToATA flag
      = Throw (JsError reason_sender_ata_not_found)
      /\ exists a, In a missing /\ account_address a = source)
  \/ (checkMissingAccounts missing source payToATA flag
      = Throw (JsError reason_receiver_ata_not_found)
      /\ flag = false
      /\ exists a, In a missing /\ account_address a = payToATA).
Proof.
  induction missing as [|a missing IH]; simpl.
  - left. split; [reflexivity|]. intros a [].
  - destruct (String.eqb_spec (account_address a) source) as [Hs|Hs]; cbn [throw_if rbind].
    + right. left. split; [reflexivity|]. exists a. auto.
    + destruct (String.eqb_spec (account_address a) payToATA) as [Hd|Hd];
        destruct flag; cbn [negb andb throw_if rbind].
      * destruct IH as [[-> IH]|[[-> (b & Hb & Hbs)]|[-> (Hf & _)]]]; [| |discriminate].
        -- left. split; [reflexivity|]. intros b [<-|Hb]; [auto|now apply IH].
        -- right. left. split; [reflexivity|]. exists b. auto.
      * right. right. split; [reflexivity|]. split; [reflexivity|]. exists a. auto.
      * destruct IH as [[-> IH]|[[-> (b & Hb & Hbs)]|[-> (Hf & _)]]]; [| |discriminate].
        -- left. split; [reflexivity|]. intros b [<-|Hb]; [|now apply IH].
           split; [exact Hs|]. intros; reflexivity.
        -- right. left. split; [reflexivity|]. exists b. auto.
      * destruct IH as [[-> IH]|[[-> (b & Hb & Hbs)]|[-> (Hf & b & Hb & Hbd)]]].
        -- left. split; [reflexivity|]. intros b [<-|Hb]; [|now apply IH].
           split; [exact Hs|]. intros; contradiction.
        -- right. left. split; [reflexivity|]. exists b. auto.
        -- right. right. split; [reflexivity|]. split; [reflexivity|]. exists b. auto.
Qed.

End AccountFacts.

(** X7.  When the transfer goes to the associated token account of
    [payTo] and the node answers the account lookup, the check of the
    accounts passes exactly when, of the accounts reported as not existing,
    none is the source of the transfer and none is the destination unless
    the transaction creates it.  Otherwise the reason is
    [..._sender_ata_not_found] or [..._receiver_ata_not_found], the latter
    only for a transaction without a create instruction. *)
Theorem token_accounts_must_exist :
  forall (w : Svm.World) (parsedInstruction : Svm.ParsedTransferChecked)
         (paymentRequirements : PaymentRequirements)
         (txHasCreateDestATAInstruction : bool) (rpc : Svm.Rpc)
         (payToATA : Svm.Address) (maybeAccounts : list Svm.MaybeAccount),
    Svm.findAssociatedTokenPda w (req_asset paymentRequirements)
      (payTo paymentRequirements)
      (if String.eqb (Svm.tc_programAddress parsedInstruction) Svm.TOKEN_PROGRAM_ADDRESS
       then Svm.TOKEN_PROGRAM_ADDRESS else Svm.TOKEN_2022_PROGRAM_ADDRESS)
    = Ok payToATA ->
    Svm.address (Svm.tc_destination parsedInstruction) = payToATA ->
    Svm.fetchEncodedAccounts w rpc
      [Svm.address (Svm.tc_source parsedInstruction); payToATA] = Ok maybeAccounts ->
    let verdict :=
      Facilitator.verifyTransferAccounts w parsedInstruction paymentRequirements
        txHasCreateDestATAInstruction rpc in
    let absent a := In a maybeAccounts /\ Svm.account_exists a = false in
    (verdict = Ok tt
     <-> forall a, absent a ->
           Svm.account_address a <> Svm.address (Svm.tc_source parsedInstruction)
           /\ (Svm.account_address a = payToATA ->
               txHasCreateDestATAInstruction = true))
    /\ (verdict = Ok tt
        \/ verdict = Throw (JsError Facilitator.reason_sender_ata_not_found)
        \/ (verdict = Throw (JsError Facilitator.reason_receiver_ata_not_found)
            /\ txHasCreateDestATAInstruction = false)).
Proof.
  intros w parsed req flag rpc ata accounts Hata Hdest Hfetch verdict absent.
  assert (Hv : verdict
               = Facilitator.checkMissingAccounts
                   (List.filter (fun a => negb (Svm.account_exists a)) accounts)
                   (Svm.address (Svm.tc_source parsed)) ata flag).
  { subst verdict. unfold Facilitator.verifyTransferAccounts.
    rewrite Hata. cbn [rbind]. rewrite Hdest, String.eqb_refl. cbn [negb throw_if rbind].
    rewrite Hfetch. reflexivity. }
  assert (Habsent : forall a, absent a
                    <-> In a (List.filter (fun a => negb (Svm.account_exists a)) accounts)).
  { intros a. unfold absent. rewrite filter_In, negb_true_iff. tauto. }
  rewrite Hv.
  destruct (checkMissingAccounts_cases
              (List.filter (fun a => negb (Svm.account_exists a)) accounts)
              (Svm.address (Svm.tc_source parsed)) ata flag)
    as [[-> H]|[[-> (a & Ha & Has)]|[-> (Hf & a & Ha & Had)]]].
  - split; [|now left]. split; [|reflexivity].
    intros _ a Ha. apply H. now apply Habsent.
  - split; [|right; now left]. split; [discriminate|].
    intros H. apply Habsent in Ha. destruct (H a Ha) as [Hne _]. contradiction.
  - split; [|right; right; now split]. split; [discriminate|].
    intros H. apply Habsent in Ha. destruct (H a Ha) as [_ Himp].
    specialize (Himp Had). congruence.
Qed.

(** The merchant has no token account yet: a payment that creates it
    passes the check of the accounts, one that does not is rejected; and a
    client without a token account is rejected either way. *)
Lemma token_accounts_witness :
  let check present flag :=
    Facilitator.verifyTransferAccounts (Examples.world (Cases.accountsPresent present))
      (Examples.parsedTransfer 1800) Examples.requirements flag Examples.devnetRpc in
  check (fun a => negb (String.eqb a Examples.merchantATA)) true = Ok tt
  /\ check (fun a => negb (String.eqb a Examples.merchantATA)) false
     = Throw (JsError Facilitator.reason_receiver_ata_not_found)
  /\ check (fun a => negb (String.eqb a Examples.clientATA)) true
     = Throw (JsError Facilitator.reason_sender_ata_not_found).
Proof.
  intros check.
  pose (at_ present flag :=
          token_accounts_must_exist (Examples.world (Cases.accountsPresent present))
            (Examples.parsedTransfer 1800) Examples.requirements flag Examples.devnetRpc
            Examples.merchantATA
            [ {| Svm.account_address := Examples.clientATA;
                 Svm.account_exists := present Examples.clientATA |};
              {| Svm.account_address := Examples.merchantATA;
                 Svm.account_exists := present Examples.merchantATA |} ]
            eq_refl eq_refl eq_refl).
  split; [|split].
  - apply (proj1 (at_ (fun a => negb (String.eqb a Examples.merchantATA)) true)).
    intros a [[<-|[<-|[]]] Hex]; try discriminate.
    split; [discriminate|reflexivity].
  - reflexivity.
  - reflexivity.
Defined.

Section DecodeFacts.
Import Svm Facilitator.

Lemma decodeTransactionFromPayload_throws (w : World) (p : ExactPayload) (e : Exn) :
  decodeTransactionFromPayload w p = Throw e ->
  e = JsError "invalid_exact_svm_payload_transaction".
Proof.
  unfold decodeTransactionFromPayload.
  destruct p as [t|s]; [destruct (decodeTransaction w t)|]; simpl; congruence.
Qed.

Lemma verify_invalid_of_try (w : World) (signer : KeyPairSigner) (payload : PaymentPayload)
    (req : PaymentRequirements) (config : option X402Config) (e : Exn) :
  verify_try w signer payload req config = Throw e ->
  isValid (verify w signer payload req config) = false.
Proof.
  intros H. unfold verify. rewrite H.
  destruct (instanceofError e && isErrorReason (message_of e)); reflexivity.
Qed.

End DecodeFacts.

(** X8.  [decodeTransactionFromPayload] throws nothing but the known
    reason [invalid_exact_svm_payload_transaction]; so for a payload whose
    schemes and networks pass and whose transaction cannot be decoded,
    [verify] answers that reason with no payer, and [settle] hands the same
    reason on without signing or sending anything. *)
Theorem undecodable_transaction_is_reported :
  forall (w : Svm.World) (signer : Svm.KeyPairSigner) (payload : PaymentPayload)
         (paymentRequirements : PaymentRequirements) (config : option Svm.X402Config)
         (e : Exn),
    Facilitator.verifySchemesAndNetworks payload paymentRequirements = Ok tt ->
    Svm.decodeTransactionFromPayload w (pay_payload payload) = Throw e ->
    e = JsError "invalid_exact_svm_payload_transaction"
    /\ Facilitator.verify w signer payload paymentRequirements config
       = {| isValid := false;
            invalidReason := Some "invalid_exact_svm_payload_transaction";
            verify_payer := None |}
    /\ Facilitator.settle w signer payload paymentRequirements config
       = Ok {| success := false;
               errorReason := Some "invalid_exact_svm_payload_transaction";
               settle_payer := None;
               settle_transaction := EmptyString;
               settle_network := pay_network payload |}.
Proof.
  intros w signer payload req config e Hs Hd.
  pose proof (decodeTransactionFromPayload_throws _ _ _ Hd) as ->.
  assert (Hv : Facilitator.verify w signer payload req config
               = {| isValid := false;
                    invalidReason := Some "invalid_exact_svm_payload_transaction";
                    verify_payer := None |}).
  { unfold Facilitator.verify, Facilitator.verify_try, Facilitator.payerOrUndefined.
    rewrite Hs, Hd. reflexivity. }
  split; [reflexivity|]. split; [exact Hv|].
  unfold Facilitator.settle. rewrite Hv. reflexivity.
Qed.

(** A payload whose transaction text is not a wire transaction. *)
Lemma undecodable_transaction_witness :
  Facilitator.verify (Examples.world (Examples.happy Examples.threeInstructions))
    Examples.signer Cases.garbledPayment Examples.requirements None
  = {| isValid := false;
       invalidReason := Some "invalid_exact_svm_payload_transaction";
       verify_payer := None |}.
Proof.
  apply (undecodable_transaction_is_reported
           (Examples.world (Examples.happy Examples.threeInstructions))
           Examples.signer Cases.garbledPayment Examples.requirements None
           (JsError "invalid_exact_svm_payload_transaction") eq_refl eq_refl).
Defined.

(** X9.  Requirements whose [maxAmountRequired] is not text that
    [BigInt] accepts can never be met: whatever the payload, [verify]
    answers [isValid: false] and [settle] answers [success: false] with
    the reason of [verify], the transaction left empty. *)
Theorem requirement_without_integer_amount_is_never_met :
  forall (w : Svm.World) (signer : Svm.KeyPairSigner) (payload : PaymentPayload)
         (paymentRequirements : PaymentRequirements) (config : option Svm.X402Config)
         (e : Exn),
    JS.BigInt (maxAmountRequired paymentRequirements) = Throw e ->
    isValid (Facilitator.verify w signer payload paymentRequirements config) = false
    /\ Facilitator.settle w signer payload paymentRequirements config
       = Ok {| success := false;
               errorReason :=
                 invalidReason
                   (Facilitator.verify w signer payload paymentRequirements config);
               settle_payer := None;
               settle_transaction := EmptyString;
               settle_network := pay_network payload |}.
Proof.
  intros w signer payload req config e Hbig.
  assert (Hv : isValid (Facilitator.verify w signer payload req config) = false).
  { destruct (isValid (Facilitator.verify w signer payload req config)) eqn:E;
      [|reflexivity].
    destruct (verify_valid_inv _ _ _ _ _ E) as (payer & Htry).
    destruct (verify_try_ok_steps _ _ _ _ _ _ Htry)
      as (_ & tx & rpc & compiled & message & sim & _ & _ & _ & _ & Hi & _).
    exfalso. unfold Facilitator.verifyTransactionInstructions in Hi.
    destruct (Svm.instructions message) as [|i0 [|i1 [|i2 [|i3 [|i4 l]]]]];
      try discriminate.
    - apply seq_ok in Hi as [_ Hi]. apply seq_ok in Hi as [_ Hi].
      destruct (verifyTransferInstruction_ok _ _ _ _ _ Hi) as (p & _ & _ & _ & Hb).
      congruence.
    - apply seq_ok in Hi as [_ Hi]. apply seq_ok in Hi as [_ Hi].
      apply seq_ok in Hi as [_ Hi].
      destruct (verifyTransferInstruction_ok _ _ _ _ _ Hi) as (p & _ & _ & _ & Hb).
      congruence. }
  split; [exact Hv|]. unfold Facilitator.settle. now rewrite Hv.
Qed.

(** The amount that the price ["$0.000123"] converts to: the devnet
    payment of 123 units is turned down with [unexpected_verify_error]. *)
Lemma requirement_without_integer_amount_witness :
  let w := Examples.world (Examples.happy Cases.pay123) in
  isValid (Facilitator.verify w Examples.signer Examples.payment Cases.unroundedRequirements
             None) = false
  /\ invalidReason
       (Facilitator.verify w Examples.signer Examples.payment Cases.unroundedRequirements
          None) = Some "unexpected_verify_error".
Proof.
  intros w. split; [|reflexivity].
  apply (requirement_without_integer_amount_is_never_met w Examples.signer
           Examples.payment Cases.unroundedRequirements None
           (JsError "Cannot convert 123.00000000000001 to a BigInt") eq_refl).
Defined.

Section LimitFacts.
Import Svm Facilitator.

Lemma readNumber_ok_iff (size offset : nat) (bytes : list Z) :
  (0 < size)%nat ->
  (exists n, readNumber size offset bytes = Ok n) <-> (offset + size <= length bytes)%nat.
Proof.
  intros Hsize. unfold readNumber.
  change (firstn size (skipn offset bytes)) with (take size (drop offset bytes)).
  rewrite length_take, length_drop.
  destruct (Nat.eqb_spec (size `min` (length bytes - offset)) size) as [H|H].
  - split; [lia|eauto].
  - split; [intros (n & Hn); discriminate|lia].
Qed.

Lemma parseSetComputeUnitLimitInstruction_ok_iff (bytes : list Z) :
  (exists units, parseSetComputeUnitLimitInstruction bytes = Ok units)
  <-> (5 <= length bytes)%nat.
Proof.
  unfold parseSetComputeUnitLimitInstruction. split.
  - intros (units & H). apply rbind_ok in H as (_ & _ & H).
    apply (proj1 (readNumber_ok_iff 4 1 bytes ltac:(lia))). eauto.
  - intros H.
    destruct (proj2 (readNumber_ok_iff 1 0 bytes ltac:(lia)) ltac:(lia)) as (d & ->).
    destruct (proj2 (readNumber_ok_iff 4 1 bytes ltac:(lia)) ltac:(lia)) as (u & Hu).
    exists u. exact Hu.
Qed.

End LimitFacts.

(** X10.  [verifyComputeLimitInstruction] accepts exactly the
    instructions of the compute-budget program whose data are the byte 2
    followed by four bytes at least; every other instruction, data that
    are too short included, is rejected with the one reason
    [..._compute_limit_instruction]: no error of the parser gets out. *)
Theorem compute_limit_instruction_has_one_reason :
  forall instruction : Svm.Instruction,
    (Facilitator.verifyComputeLimitInstruction instruction = Ok tt
     <-> Svm.programAddress instruction = Svm.COMPUTE_BUDGET_PROGRAM_ADDRESS
         /\ exists rest, Svm.data instruction = Some (2 :: rest)
                         /\ (4 <= length rest)%nat)
    /\ (Facilitator.verifyComputeLimitInstruction instruction = Ok tt
        \/ Facilitator.verifyComputeLimitInstruction instruction
           = Throw (JsError Facilitator.reason_compute_limit)).
Proof.
  intros i. split.
  - split.
    + intros H. destruct (verifyComputeLimitInstruction_ok _ H)
        as (Hp & Hb & bytes & units & Hd & Hu).
      split; [exact Hp|]. unfold Svm.firstDataByte in Hb. rewrite Hd in Hb.
      destruct bytes as [|b rest]; [discriminate|]. injection Hb as ->.
      exists rest. split; [exact Hd|].
      pose proof (proj1 (parseSetComputeUnitLimitInstruction_ok_iff (2 :: rest))
                    (ex_intro _ units Hu)) as Hl.
      simpl in Hl. lia.
    + intros (Hp & rest & Hd & Hl).
      unfold Facilitator.verifyComputeLimitInstruction, Svm.firstDataByteIs,
        Svm.firstDataByte.
      rewrite Hp, Hd, String.eqb_refl. cbn [negb orb Z.eqb Pos.eqb throw_if rbind].
      destruct (proj2 (parseSetComputeUnitLimitInstruction_ok_iff (2 :: rest))
                  ltac:(simpl; lia)) as (u & ->).
      reflexivity.
  - unfold Facilitator.verifyComputeLimitInstruction.
    destruct (throw_if _ _ ;;; _)%result as [[]|e]; simpl; auto.
Qed.

(** The limit instruction of the devnet payment passes; the byte 2 alone
    does not, and neither does a price instruction in its place. *)
Lemma compute_limit_instruction_witness :
  Facilitator.verifyComputeLimitInstruction Examples.limitInstruction = Ok tt
  /\ Facilitator.verifyComputeLimitInstruction Cases.limitTruncated
     = Throw (JsError Facilitator.reason_compute_limit)
  /\ Facilitator.verifyComputeLimitInstruction Examples.priceOne
     = Throw (JsError Facilitator.reason_compute_limit).
Proof.
  split; [|split].
  - apply (proj1 (compute_limit_instruction_has_one_reason Examples.limitInstruction)).
    split; [reflexivity|]. exists [100; 25; 0; 0]. split; [reflexivity|simpl; lia].
  - destruct (proj2 (compute_limit_instruction_has_one_reason Cases.limitTruncated))
      as [H|H]; [|exact H].
    apply (proj1 (compute_limit_instruction_has_one_reason Cases.limitTruncated)) in H
      as (_ & rest & Hd & Hl).
    injection Hd as <-. simpl in Hl. lia.
  - reflexivity.
Defined.

(** X11.  How [getValidatedTransferCheckedInstruction] turns an
    instruction down: without data or without accounts the reason is
    [..._instructions]; for a program that is neither the token program
    nor the token-2022 program it is [..._not_a_transfer_instruction]; for
    an instruction of one of these programs that the library identifies
    as something else than TransferChecked it is
    [..._not_spl_token_transfer_checked] or
    [..._not_token_2022_transfer_checked]. *)
Theorem transfer_instruction_rejections :
  forall (w : Svm.World) (instruction : Svm.Instruction),
    let validated := Facilitator.getValidatedTransferCheckedInstruction w instruction in
    ((Svm.data instruction = None \/ Svm.accounts instruction = None) ->
     validated = Throw (JsError Facilitator.reason_instructions))
    /\ (forall accs bytes,
          Svm.accounts instruction = Some accs -> Svm.data instruction = Some bytes ->
          (Svm.programAddress instruction <> Svm.TOKEN_PROGRAM_ADDRESS ->
           Svm.programAddress instruction <> Svm.TOKEN_2022_PROGRAM_ADDRESS ->
           validated = Throw (JsError Facilitator.reason_not_a_transfer))
          /\ (Svm.firstDataByte instruction <> Some 12 ->
              Svm.identifiesOtherInstruction w (Svm.programAddress instruction) bytes
              = true ->
              (Svm.programAddress instruction = Svm.TOKEN_PROGRAM_ADDRESS ->
               validated = Throw (JsError Facilitator.reason_not_spl_transfer_checked))
              /\ (Svm.programAddress instruction = Svm.TOKEN_2022_PROGRAM_ADDRESS ->
                  validated
                  = Throw (JsError Facilitator.reason_not_2022_transfer_checked)))).
Proof.
  intros w i validated. subst validated.
  unfold Facilitator.getValidatedTransferCheckedInstruction,
    Svm.assertIsInstructionWithData, Svm.assertIsInstructionWithAccounts.
  split.
  - intros [H|H]; rewrite H; [reflexivity|].
    destruct (Svm.data i); reflexivity.
  - intros accs bytes Ha Hd. rewrite Ha, Hd. cbn [try_catch rbind fst snd]. split.
    + intros H1 H2. apply String.eqb_neq in H1, H2. now rewrite H1, H2.
    + intros Hb Hother.
      assert (Hid : forall p, Svm.identifiesOtherInstruction w p bytes = true ->
                      Svm.identifyInstruction w p bytes = Ok Svm.OtherTokenInstruction).
      { intros p Hp. unfold Svm.identifyInstruction, Svm.firstDataByte in *.
        rewrite Hd in Hb. destruct bytes as [|b bytes]; [now rewrite Hp|].
        destruct b as [|q|q]; try (now rewrite Hp).
        do 4 (destruct q as [q|q|]; try (now rewrite Hp)). congruence. }
      split; intros Hp; rewrite Hp in Hother |- *.
      * rewrite String.eqb_refl, (Hid _ Hother). reflexivity.
      * change (String.eqb Svm.TOKEN_2022_PROGRAM_ADDRESS Svm.TOKEN_PROGRAM_ADDRESS)
          with false.
        rewrite String.eqb_refl, (Hid _ Hother). reflexivity.
Qed.

(** A plain [Transfer] (first byte 3) of the token program, and an
    instruction of the system program. *)
Lemma transfer_instruction_rejections_witness :
  let w := Examples.world (Examples.happy Examples.threeInstructions) in
  Facilitator.getValidatedTransferCheckedInstruction w Cases.plainTransfer
  = Throw (JsError Facilitator.reason_not_spl_transfer_checked)
  /\ Facilitator.getValidatedTransferCheckedInstruction w Cases.systemTransfer
     = Throw (JsError Facilitator.reason_not_a_transfer)
  /\ Facilitator.getValidatedTransferCheckedInstruction w Examples.limitInstruction
     = Throw (JsError Facilitator.reason_instructions).
Proof.
  intros w. split; [|split].
  - destruct (proj2 (transfer_instruction_rejections w Cases.plainTransfer)
                _ _ eq_refl eq_refl) as [_ H].
    apply H; [discriminate|reflexivity|reflexivity].
  - destruct (proj2 (transfer_instruction_rejections w Cases.systemTransfer)
                _ _ eq_refl eq_refl) as [H _].
    apply H; discriminate.
  - apply (proj1 (transfer_instruction_rejections w Examples.limitInstruction)).
    now right.
Defined.

Section PayerFacts.
Import Svm.

Lemma accountAt_ok (staticAccounts : list Address) (index : nat) (a : Address) :
  accountAt staticAccounts index = Ok a <-> nth_error staticAccounts index = Some a.
Proof.
  unfold accountAt. destruct (nth_error staticAccounts index); split; congruence.
Qed.

Lemma tokenPayerOf_source (staticAccounts : list Address) (ixs : list CompiledInstruction) :
  forall payer,
    tokenPayerOf staticAccounts ixs = Ok payer ->
    payer <> EmptyString ->
    exists ix program source mint destination ownerIndex others,
      In ix ixs
      /\ nth_error staticAccounts (programAddressIndex ix) = Some program
      /\ (program = TOKEN_PROGRAM_ADDRESS \/ program = TOKEN_2022_PROGRAM_ADDRESS)
      /\ accountIndices ix = Some (source :: mint :: destination :: ownerIndex :: others)
      /\ nth_error staticAccounts ownerIndex = Some payer.
Proof.
  induction ixs as [|ix ixs IH]; intros payer H Hne; simpl in H.
  - injection H as <-. contradiction.
  - apply rbind_ok in H as (program & Hprog & H). apply accountAt_ok in Hprog.
    assert (Hrest : tokenPayerOf staticAccounts ixs = Ok payer ->
              exists ix' program source mint destination ownerIndex others,
                In ix' (ix :: ixs)
                /\ nth_error staticAccounts (programAddressIndex ix') = Some program
                /\ (program = TOKEN_PROGRAM_ADDRESS \/ program = TOKEN_2022_PROGRAM_ADDRESS)
                /\ accountIndices ix'
                   = Some (source :: mint :: destination :: ownerIndex :: others)
                /\ nth_error staticAccounts ownerIndex = Some payer).
    { intros H'. destruct (IH _ H' Hne) as (ix' & p & s & m & d & o & r & Hin & Hrest).
      exists ix', p, s, m, d, o, r. split; [now right|exact Hrest]. }
    destruct (String.eqb program TOKEN_PROGRAM_ADDRESS
              || String.eqb program TOKEN_2022_PROGRAM_ADDRESS) eqn:Etoken;
      [|now apply Hrest].
    destruct (accountIndices ix) as [[|s [|m [|d [|o others]]]]|] eqn:Eidx;
      try (now apply Hrest).
    apply rbind_ok in H as (owner & Howner & H). apply accountAt_ok in Howner.
    destruct owner as [|c owner]; [now apply Hrest|].
    injection H as <-.
    exists ix, program, s, m, d, o, others. split; [now left|].
    split; [exact Hprog|]. split; [|split; [exact Eidx|exact Howner]].
    apply orb_true_iff in Etoken as [E|E]; apply String.eqb_eq in E; auto.
Qed.

End PayerFacts.

(** X12.  A payer that [getTokenPayerFromTransaction] returns, when it is
    not the empty text, is the static account at the fourth account index
    of an instruction of the compiled message whose program is the token
    program or the token-2022 program. *)
Theorem token_payer_is_owner_of_a_token_instruction :
  forall (w : Svm.World) (transaction : Svm.Transaction)
         (compiled : Svm.CompiledTransactionMessage) (payer : string),
    Svm.decodeCompiledMessage w (Svm.messageBytes transaction) = Ok compiled ->
    Svm.getTokenPayerFromTransaction w transaction = Ok payer ->
    payer <> EmptyString ->
    exists staticAccounts instructions ix program source mint destination ownerIndex others,
      Svm.staticAccounts compiled = Some staticAccounts
      /\ Svm.compiledInstructions compiled = Some instructions
      /\ In ix instructions
      /\ nth_error staticAccounts (Svm.programAddressIndex ix) = Some program
      /\ (program = Svm.TOKEN_PROGRAM_ADDRESS \/ program = Svm.TOKEN_2022_PROGRAM_ADDRESS)
      /\ Svm.accountIndices ix
         = Some (source :: mint :: destination :: ownerIndex :: others)
      /\ nth_error staticAccounts ownerIndex = Some payer.
Proof.
  intros w tx compiled payer Hc H Hne.
  unfold Svm.getTokenPayerFromTransaction in H. rewrite Hc in H. cbn [rbind] in H.
  destruct (tokenPayerOf_source _ _ _ H Hne)
    as (ix & p & s & m & d & o & r & Hin & Hp & Htoken & Hidx & Ho).
  destruct (Svm.compiledInstructions compiled) as [ixs|]; [|destruct Hin].
  destruct (Svm.staticAccounts compiled) as [accs|];
    [|destruct (Svm.programAddressIndex ix); discriminate].
  exists accs, ixs, ix, p, s, m, d, o, r. repeat (split; [auto; fail|]). exact Ho.
Qed.

(** In the devnet payment the payer is the client, the authority of the
    transfer: the second static account of the message. *)
Lemma token_payer_witness :
  Svm.getTokenPayerFromTransaction
    (Examples.world (Examples.happy Examples.threeInstructions)) Examples.transaction
  = Ok Examples.client
  /\ exists staticAccounts ownerIndex,
       Svm.staticAccounts Examples.compiledMessage = Some staticAccounts
       /\ nth_error staticAccounts ownerIndex = Some Examples.client.
Proof.
  split; [reflexivity|].
  destruct (token_payer_is_owner_of_a_token_instruction
              (Examples.world (Examples.happy Examples.threeInstructions))
              Examples.transaction Examples.compiledMessage Examples.client
              eq_refl eq_refl ltac:(discriminate))
    as (accs & ixs & ix & p & s & m & d & o & r & Ha & Hi & Hin & Hp & Ht & Hidx & Ho).
  exists accs, o. split; [exact Ha|exact Ho].
Defined.



(* ===================================================================== *)
(** * Further properties: the payment middleware *)
(* ===================================================================== *)

Section TraceFacts.
Import Express Trace.

Lemma Silent_ret {A : Type} (a : A) : Silent (ret a).
Proof. now intros st r st' [= _ <-]. Qed.

Lemma Silent_raise {A : Type} (e : Exn) : Silent (@raise A e).
Proof. now intros st r st' [= _ <-]. Qed.

Lemma Silent_lift {A : Type} (c : result A) : Silent (lift c).
Proof. now intros st r st' [= _ <-]. Qed.

Lemma Silent_gets {A : Type} (g : State -> A) : Silent (gets g).
Proof. now intros st r st' [= _ <-]. Qed.

Lemma Silent_bind {A B : Type} (c : M A) (k : A -> M B) :
  Silent c -> (forall a, Silent (k a)) -> Silent (bind c k).
Proof.
  intros Hc Hk st r st'. unfold bind. destruct (c st) as [[a|e] st1] eqn:E.
  - intros H. rewrite (Hk _ _ _ _ H). eapply Hc, E.
  - intros [= _ <-]. eapply Hc, E.
Qed.

Lemma Silent_catch {A : Type} (c : M A) (h : Exn -> M A) :
  Silent c -> (forall e, Silent (h e)) -> Silent (catch c h).
Proof.
  intros Hc Hh st r st'. unfold catch. destruct (c st) as [[a|e] st1] eqn:E.
  - intros [= _ <-]. eapply Hc, E.
  - intros H. rewrite (Hh _ _ _ _ H). eapply Hc, E.
Qed.

Lemma Silent_set_res (g : Response -> Response) : Silent (modify (set_res g)).
Proof. now intros st r st' [= _ <-]. Qed.

Lemma Silent_res_setHeader (name value : string) : Silent (res_setHeader name value).
Proof.
  intros st r st'. unfold res_setHeader.
  destruct (headersSent (res st)); now intros [= _ <-].
Qed.

Lemma Silent_res_end (args : EndArgs) : Silent (res_end args).
Proof.
  intros st r st'. unfold res_end. destruct (endIntercepted (res st)).
  - now intros [= _ <-].
  - apply Silent_set_res.
Qed.

Lemma Silent_res_send (contentType : string) (chunk : Chunk) :
  Silent (res_send contentType chunk).
Proof.
  unfold res_send. apply Silent_bind; [apply Silent_gets|]. intros present.
  apply Silent_bind; [apply Silent_res_setHeader|]. intros _. apply Silent_res_end.
Qed.

Lemma Silent_reply402 (error : ErrorField) (accepts : list PaymentRequirements)
    (payer : option (option string)) : Silent (reply402 error accepts payer).
Proof.
  unfold reply402, res_json. apply Silent_bind; [apply Silent_set_res|].
  intros _. apply Silent_res_send.
Qed.

Lemma Silent_flushBuffered : Silent flushBuffered.
Proof.
  unfold flushBuffered. apply Silent_bind; [apply Silent_set_res|]. intros _.
  apply Silent_bind; [apply Silent_gets|]. intros [args|];
    [apply Silent_set_res|apply Silent_ret].
Qed.

(** Building the requirements asks the facilitator for its supported
    kinds at most, and changes nothing of the response. *)
Lemma buildPaymentRequirements_trace (f : Facilitator) (payTo_ : string) (req : Request)
    (route : RoutePattern) (st : State) (r : result (list PaymentRequirements))
    (st0 : State) :
  buildPaymentRequirements f payTo_ req route st = (r, st0) ->
  res st0 = res st /\ endArgs st0 = endArgs st
  /\ (calls st0 = calls st \/ calls st0 = calls st ++ [CallSupported])%list.
Proof.
  unfold buildPaymentRequirements, bind, lift, raise, ret, modify.
  destruct (Shared.processPriceToAtomicAmount _ _) as [[amount asset|error]|e];
    try (intros [= _ <-]; auto).
  destruct (existsb _ SupportedEVMNetworks).
  - destruct (getAddress f payTo_); [|intros [= _ <-]; auto].
    destruct (getAddress f (asset_address asset)); intros [= _ <-]; auto.
  - destruct (existsb _ SupportedSVMNetworks); [|intros [= _ <-]; auto].
    destruct (supported f) as [kinds|e]; [|intros [= _ <-]; auto].
    destruct (truthy _); intros [= _ <-]; auto.
Qed.

End TraceFacts.

Section ChallengeFacts.
Import Express Trace.

(** A reply followed by [return]: no verified payment comes out, and the
    calls stay as they were. *)
Lemma replied_none {A : Type} (c : M unit) (st : State) (r : result (option A))
    (st1 : State) :
  Silent c ->
  (c >> ret None)%M st = (r, st1) ->
  calls st1 = calls st /\ forall a, r <> Ok (Some a).
Proof.
  intros Hc. unfold bind, ret. destruct (c st) as [[[]|e] st'] eqn:E;
    intros [= <- <-]; (split; [eapply Hc, E|intros a; discriminate]).
Qed.

Lemma replied_none2 {A : Type} (c1 c2 : M unit) (st : State) (r : result (option A))
    (st1 : State) :
  Silent c1 -> Silent c2 ->
  (c1 >> c2 >> ret None)%M st = (r, st1) ->
  calls st1 = calls st /\ forall a, r <> Ok (Some a).
Proof.
  intros H1 H2. unfold bind at 1.
  destruct (c1 st) as [[[]|e] st0] eqn:E1.
  - intros H. destruct (replied_none _ _ _ _ H2 H) as [Hc Hr].
    split; [|exact Hr]. rewrite Hc. eapply H1, E1.
  - intros [= <- <-]. split; [eapply H1, E1|intros a; discriminate].
Qed.

Lemma logged_then_silent {A : Type} (c : Call) (rest : M A) (h : Exn -> M A)
    (st : State) (r : result A) (st' : State) :
  Silent rest -> (forall e, Silent (h e)) ->
  catch (modify (log c) >> rest)%M h st = (r, st') ->
  calls st' = (calls st ++ [c])%list.
Proof.
  intros Hrest Hh H.
  change (catch (modify (log c) >> rest)%M h st) with (catch rest h (log c st)) in H.
  now rewrite (Silent_catch _ _ Hrest Hh _ _ _ H).
Qed.

Lemma finally_silent {A : Type} (c : M A) (f : M unit) (st : State) (r : result A)
    (st' : State) :
  Silent f ->
  finally c f st = (r, st') ->
  exists r1 st1, c st = (r1, st1) /\ calls st' = calls st1.
Proof.
  intros Hf. unfold finally. destruct (c st) as [r1 st1].
  destruct (f st1) as [[[]|e] st2] eqn:E; intros [= <- <-];
    exists r1, st1; (split; [reflexivity|eapply Hf, E]).
Qed.

(** How the first part of the middleware ends for a request that matches
    a route: either no payment was verified and nothing but [supported]
    was called, or [verify] was called once, on the decoded payment and
    the requirements selected for it, and a verified payment comes out
    exactly when [verify] returned [isValid: true]. *)
Lemma challenge_outcomes (f : Facilitator) (payTo_ : string)
    (routePatterns : list RoutePattern) (req : Request) (handler : list HandlerOp)
    (st : State) (route : RoutePattern) (r : result (option Verified)) (st1 : State) :
  Shared.findMatchingRoute routePatterns (path req) (JS.toUpperCase (method req))
  = Some route ->
  challenge f payTo_ routePatterns req handler st = (r, st1) ->
  exists rb st0,
    buildPaymentRequirements f payTo_ req route st = (rb, st0)
    /\ ((calls st1 = calls st0 /\ forall a, r <> Ok (Some a))
        \/ exists requirements payment decoded selected,
             rb = Ok requirements
             /\ truthy (header_payment req) = Some payment
             /\ decodePayment f payment = Ok decoded
             /\ Shared.findMatchingPaymentRequirements requirements (stamped decoded)
                = Some selected
             /\ calls st1 = (calls st0 ++ [CallVerify (stamped decoded) selected])%list
             /\ ((forall a, r <> Ok (Some a))
                 \/ exists response,
                      verify f (stamped decoded) selected = Ok response
                      /\ isValid response = true
                      /\ r = Ok (Some {| decodedPayment := stamped decoded;
                                         selectedPaymentRequirements := selected;
                                         paymentRequirements := requirements |})
                      /\ res st1 = res st0 /\ endArgs st1 = endArgs st0)).
Proof.
  intros Hroute H. unfold challenge in H. rewrite Hroute in H.
  unfold bind at 1 in H.
  destruct (buildPaymentRequirements f payTo_ req route st) as [[reqs|e] st0] eqn:Eb.
  2:{ injection H as <- <-. exists (Throw e), st0. split; [reflexivity|].
      left. split; [reflexivity|]. intros a; discriminate. }
  exists (Ok reqs), st0. split; [reflexivity|].
  destruct (truthy (header_payment req)) as [payment|] eqn:Epay.
  2:{ left. destruct (_ && _).
      - eapply replied_none2; [apply Silent_set_res|apply Silent_res_send|exact H].
      - eapply replied_none; [apply Silent_reply402|exact H]. }
  destruct (decodePayment f payment) as [decoded|error] eqn:Edec.
  2:{ left. eapply replied_none; [apply Silent_reply402|exact H]. }
  fold (stamped decoded) in H.
  destruct (Shared.findMatchingPaymentRequirements reqs (stamped decoded))
    as [selected|] eqn:Esel.
  2:{ left. eapply replied_none; [apply Silent_reply402|exact H]. }
  right. exists reqs, payment, decoded, selected.
  split; [reflexivity|]. split; [reflexivity|]. split; [exact Edec|]. split; [exact Esel|].
  unfold catch, bind at 1, modify in H.
  unfold bind at 1, lift in H.
  destruct (verify f (stamped decoded) selected) as [response|e] eqn:Ev.
  - destruct (isValid response) eqn:Evalid; cbn [negb] in H.
    + injection H as <- <-. split; [reflexivity|]. right.
      exists response. split; [reflexivity|]. split; [exact Evalid|].
      repeat split; reflexivity.
    + destruct ((reply402 (ErrorReason (invalidReason response)) reqs
                   (Some (verify_payer response)) >> ret None)%M
                  (log (CallVerify (stamped decoded) selected) st0))
        as [r0 st'] eqn:Er.
      destruct (replied_none _ _ _ _ (Silent_reply402 _ _ _) Er) as [Hc0 Hr0].
      destruct r0 as [x|e].
      * injection H as <- <-. split; [exact Hc0|]. now left.
      * destruct (replied_none _ _ _ _ (Silent_reply402 _ _ _) H) as [Hc Hr].
        split; [now rewrite Hc, Hc0|]. now left.
  - destruct (replied_none _ _ _ _ (Silent_reply402 _ _ _) H) as [Hc Hr].
    split; [exact Hc|]. now left.
Qed.

(** What follows [next()] calls [settle] once when the status is below
    400 and not at all otherwise, and nothing else. *)
Lemma afterNext_trace (f : Facilitator) (a : Verified) (st : State) (r : result unit)
    (st' : State) :
  afterNext f a st = (r, st') ->
  (400 <= statusCode (res st) /\ calls st' = calls st)
  \/ (statusCode (res st) < 400
      /\ calls st'
         = (calls st ++ [CallSettle (decodedPayment a) (selectedPaymentRequirements a)])%list).
Proof.
  unfold afterNext. unfold bind at 1, gets.
  destruct (Z.leb_spec 400 (statusCode (res st))) as [Hge|Hlt].
  - intros H. left. split; [exact Hge|]. eapply Silent_flushBuffered, H.
  - intros H. right. split; [exact Hlt|].
    apply (finally_silent _ _ _ _ _ Silent_flushBuffered) in H as (r1 & st1 & Hc & ->).
    eapply logged_then_silent; [| |exact Hc].
    + apply Silent_bind; [apply Silent_lift|]. intros sr.
      apply Silent_bind; [apply Silent_res_setHeader|]. intros _.
      destruct (negb (success sr)); [apply Silent_reply402|apply Silent_ret].
    + intros e. apply Silent_bind; [apply Silent_gets|]. intros sent.
      destruct (negb sent); [apply Silent_reply402|apply Silent_ret].
Qed.

End ChallengeFacts.

Section GateFacts.
Import Express Trace.

(** The whole middleware in terms of its first part. *)
Lemma handleRequest_cases (f : Facilitator) (payTo_ : string)
    (routePatterns : list RoutePattern) (req : Request) (handler : list HandlerOp)
    (st : State) (r : result unit) (st' : State) :
  handleRequest f payTo_ routePatterns req handler st = (r, st') ->
  exists rc st1,
    challenge f payTo_ routePatterns req handler st = (rc, st1)
    /\ ((forall a, rc <> Ok (Some a)) /\ st' = st1
        \/ exists a, rc = Ok (Some a)
                     /\ afterNext f a (afterHandler handler st1) = (r, st')).
Proof.
  intros H. unfold handleRequest, bind in H.
  destruct (challenge f payTo_ routePatterns req handler st) as [[[a|]|e] st1] eqn:Ec.
  - exists (Ok (Some a)), st1. split; [reflexivity|]. right. exists a.
    split; [reflexivity|]. now rewrite <- settlePhase_afterNext.
  - injection H as <- <-. exists (Ok None), st1. split; [reflexivity|]. left.
    split; [intros a; discriminate|reflexivity].
  - injection H as <- <-. exists (Throw e), st1. split; [reflexivity|]. left.
    split; [intros a; discriminate|reflexivity].
Qed.

End GateFacts.

(** X13.  For a request that matches a route, the calls the middleware
    makes are, in this order: [supported] (on a Solana network) at most
    once; then possibly [verify]; then, only after [verify], possibly
    [next]; then, only after [next], possibly [settle], with the payment
    and the requirements that [verify] was given.  So [settle] is called
    at most once and never for a payment that was not verified first. *)
Theorem middleware_calls_are_ordered :
  forall (f : Express.Facilitator) (payTo_ : string) (routePatterns : list RoutePattern)
         (req : Express.Request) (handler : list Express.HandlerOp)
         (st st' : Express.State) (route : RoutePattern) (r : result unit),
    Shared.findMatchingRoute routePatterns (Express.path req)
      (JS.toUpperCase (Express.method req)) = Some route ->
    Express.handleRequest f payTo_ routePatterns req handler st = (r, st') ->
    exists before after,
      Express.calls st' = (Express.calls st ++ before ++ after)%list
      /\ (before = [] \/ before = [Express.CallSupported])
      /\ (after = []
          \/ exists payment requirements,
               after = [Express.CallVerify payment requirements]
               \/ after = [Express.CallVerify payment requirements; Express.CallNext]
               \/ after = [Express.CallVerify payment requirements; Express.CallNext;
                           Express.CallSettle payment requirements]).
Proof.
  intros f payTo_ rps req handler st st' route r Hroute H.
  destruct (handleRequest_cases _ _ _ _ _ _ _ _ H) as (rc & st1 & Hc & Hrest).
  destruct (challenge_outcomes _ _ _ _ _ _ _ _ _ Hroute Hc) as (rb & st0 & Hb & Hch).
  destruct (buildPaymentRequirements_trace _ _ _ _ _ _ _ Hb) as (_ & _ & Hcalls0).
  assert (Hbefore : exists before,
            Express.calls st0 = (Express.calls st ++ before)%list
            /\ (before = [] \/ before = [Express.CallSupported])).
  { destruct Hcalls0 as [E|E]; [exists []|exists [Express.CallSupported]];
      rewrite E, ?app_nil_r; auto. }
  destruct Hbefore as (before & E0 & Hbefore).
  exists before.
  destruct Hch as [[Hcalls1 Hnone]|(reqs & payment & decoded & selected & -> & _ & _ & _
                                     & Hcalls1 & Hverified)].
  - destruct Hrest as [[_ ->]|(a & -> & _)]; [|now destruct (Hnone a)].
    exists []. rewrite Hcalls1, E0, app_nil_r. auto.
  - destruct Hrest as [[Hnone ->]|(a & -> & Hafter)].
    + exists [Express.CallVerify (Trace.stamped decoded) selected].
      rewrite Hcalls1, E0, <- app_assoc. split; [reflexivity|]. split; [exact Hbefore|].
      right. exists (Trace.stamped decoded), selected. now left.
    + destruct Hverified as [Hnone|(response & _ & _ & [= ->] & _)];
        [now destruct (Hnone a)|].
      destruct (afterHandler_spec handler st1) as (_ & _ & _ & Hnext).
      cbn [Express.decodedPayment Express.selectedPaymentRequirements] in *.
      destruct (afterNext_trace _ _ _ _ _ Hafter) as [[_ E]|[_ E]];
        rewrite E, Hnext, Hcalls1, E0; cbn [Express.decodedPayment
                                               Express.selectedPaymentRequirements].
      * exists [Express.CallVerify (Trace.stamped decoded) selected; Express.CallNext].
        rewrite <- !app_assoc. split; [reflexivity|]. split; [exact Hbefore|].
        right. exists (Trace.stamped decoded), selected. right. now left.
      * exists [Express.CallVerify (Trace.stamped decoded) selected; Express.CallNext;
                Express.CallSettle (Trace.stamped decoded) selected].
        rewrite <- !app_assoc. split; [reflexivity|]. split; [exact Hbefore|].
        right. exists (Trace.stamped decoded), selected. right. now right.
Qed.

(** The paid request for the weather: [supported], [verify], [next],
    [settle]. *)
Lemma middleware_calls_witness :
  exists st',
    Express.handleRequest (Examples.facilitator (Ok Examples.settledOk)) Examples.merchant
      (Examples.patternsOf Examples.weatherRoutes) Examples.paidRequest
      Examples.handlerOk Examples.freshState = (Ok tt, st')
    /\ exists payment requirements,
         Express.calls st'
         = [Express.CallSupported; Express.CallVerify payment requirements;
            Express.CallNext; Express.CallSettle payment requirements].
Proof.
  destruct (Express.handleRequest (Examples.facilitator (Ok Examples.settledOk))
              Examples.merchant (Examples.patternsOf Examples.weatherRoutes)
              Examples.paidRequest Examples.handlerOk Examples.freshState)
    as [r st'] eqn:E.
  destruct (Shared.findMatchingRoute (Examples.patternsOf Examples.weatherRoutes)
              (Express.path Examples.paidRequest)
              (JS.toUpperCase (Express.method Examples.paidRequest)))
    as [route|] eqn:Eroute; [|vm_compute in Eroute; discriminate].
  destruct (middleware_calls_are_ordered _ _ _ _ _ _ _ _ _ Eroute E)
    as (before & after & Hcalls & _).
  vm_compute in E. injection E as <- <-.
  eexists. split; [reflexivity|]. eexists _, _. reflexivity.
Defined.

(** X14.  For a request that matches a route, the downstream handler is
    run ([next] is called) exactly when the requirements could be built,
    the request carries a non-empty [X-PAYMENT] header that decodes, the
    list of requirements holds one for the scheme and network of the
    payment, and [verify] returned [isValid: true] for the two; [verify]
    has then been called before. *)
Theorem handler_runs_exactly_for_verified_payments :
  forall (f : Express.Facilitator) (payTo_ : string) (routePatterns : list RoutePattern)
         (req : Express.Request) (handler : list Express.HandlerOp)
         (st st' : Express.State) (route : RoutePattern) (r : result unit),
    Shared.findMatchingRoute routePatterns (Express.path req)
      (JS.toUpperCase (Express.method req)) = Some route ->
    Express.handleRequest f payTo_ routePatterns req handler st = (r, st') ->
    exists added,
      Express.calls st' = (Express.calls st ++ added)%list
      /\ (In Express.CallNext added
          <-> exists requirements st0 header decoded selected response,
                Express.buildPaymentRequirements f payTo_ req route st
                = (Ok requirements, st0)
                /\ Express.truthy (Express.header_payment req) = Some header
                /\ Express.decodePayment f header = Ok decoded
                /\ Shared.findMatchingPaymentRequirements requirements
                     (Trace.stamped decoded) = Some selected
                /\ Express.verify f (Trace.stamped decoded) selected = Ok response
                /\ isValid response = true
                /\ exists before after,
                     added = (before ++ Express.CallVerify (Trace.stamped decoded) selected
                                     :: Express.CallNext :: after)%list).
Proof.
  intros f payTo_ rps req handler st st' route r Hroute H.
  destruct (handleRequest_cases _ _ _ _ _ _ _ _ H) as (rc & st1 & Hc & Hrest).
  destruct (challenge_outcomes _ _ _ _ _ _ _ _ _ Hroute Hc) as (rb & st0 & Hb & Hch).
  destruct (buildPaymentRequirements_trace _ _ _ _ _ _ _ Hb) as (_ & _ & Hcalls0).
  assert (Hbefore : exists before,
            Express.calls st0 = (Express.calls st ++ before)%list
            /\ ~ In Express.CallNext before).
  { destruct Hcalls0 as [E|E]; [exists []|exists [Express.CallSupported]];
      rewrite E, ?app_nil_r; (split; [reflexivity|]); simpl; intuition discriminate. }
  destruct Hbefore as (before & E0 & Hbefore).
  (* the cases in which no payment was verified *)
  assert (Hno : forall l,
            ~ In Express.CallNext l ->
            (forall a, rc <> Ok (Some a)) ->
            ~ exists requirements st0' header decoded selected response,
                Express.buildPaymentRequirements f payTo_ req route st
                = (Ok requirements, st0')
                /\ Express.truthy (Express.header_payment req) = Some header
                /\ Express.decodePayment f header = Ok decoded
                /\ Shared.findMatchingPaymentRequirements requirements
                     (Trace.stamped decoded) = Some selected
                /\ Express.verify f (Trace.stamped decoded) selected = Ok response
                /\ isValid response = true
                /\ exists before' after,
                     l = (before' ++ Express.CallVerify (Trace.stamped decoded) selected
                                  :: Express.CallNext :: after)%list).
  { intros l Hl _ (reqs & st0' & header & decoded & selected & response & _ & _ & _ & _
                   & _ & _ & before' & after & ->).
    apply Hl. apply in_or_app. right. right. now left. }
  destruct Hch as [[Hcalls1 Hnone]|(reqs & payment & decoded & selected & -> & Hpay & Hdec
                                     & Hsel & Hcalls1 & Hverified)].
  - destruct Hrest as [[_ ->]|(a & -> & _)]; [|now destruct (Hnone a)].
    exists before. rewrite Hcalls1, E0. split; [reflexivity|].
    split; [intros Hin; contradiction|]. intros Hex. exfalso.
    exact (Hno before Hbefore Hnone Hex).
  - destruct Hrest as [[Hnone ->]|(a & -> & Hafter)].
    + exists (before ++ [Express.CallVerify (Trace.stamped decoded) selected])%list.
      rewrite Hcalls1, E0, <- app_assoc. split; [reflexivity|].
      assert (Hl : ~ In Express.CallNext
                     (before ++ [Express.CallVerify (Trace.stamped decoded) selected])).
      { intros Hin. apply in_app_or in Hin as [Hin|[Hin|[]]];
          [contradiction|discriminate]. }
      split; [intros Hin; contradiction|].
      intros (reqs' & st0' & header & decoded' & selected' & response & Hb' & Hpay'
              & Hdec' & Hsel' & Hv & Hvalid & _).
      exfalso. rewrite Hb in Hb'. injection Hb' as <- <-.
      rewrite Hpay in Hpay'. injection Hpay' as <-.
      rewrite Hdec in Hdec'. injection Hdec' as <-.
      rewrite Hsel in Hsel'. injection Hsel' as <-.
      destruct Hverified as [Hn|(response' & _ & _ & Hr & _)];
        [|now destruct (Hnone _ Hr)].
      (* [verify] said valid, so the first part did hand on a payment *)
      unfold Express.challenge in Hc. rewrite Hroute in Hc.
      unfold Express.bind at 1 in Hc. rewrite Hb, Hpay, Hdec in Hc.
      fold (Trace.stamped decoded) in Hc. rewrite Hsel in Hc.
      unfold Express.catch, Express.bind at 1, Express.modify in Hc.
      unfold Express.bind at 1, Express.lift in Hc. rewrite Hv, Hvalid in Hc.
      cbn [negb] in Hc. injection Hc as <- _. now destruct (Hnone _ eq_refl).
    + destruct Hverified as [Hnone|(response & Hv & Hvalid & [= ->] & _)];
        [now destruct (Hnone a)|].
      destruct (afterHandler_spec handler st1) as (_ & _ & _ & Hnext).
      assert (Hadded : exists after,
                Express.calls st'
                = (Express.calls st
                   ++ before ++ Express.CallVerify (Trace.stamped decoded) selected
                             :: Express.CallNext :: after)%list).
      { destruct (afterNext_trace _ _ _ _ _ Hafter) as [[_ E]|[_ E]];
          rewrite E, Hnext, Hcalls1, E0; eexists; rewrite <- !app_assoc; reflexivity. }
      destruct Hadded as (after & Hadded).
      exists (before ++ Express.CallVerify (Trace.stamped decoded) selected
                     :: Express.CallNext :: after)%list.
      split; [exact Hadded|]. split.
      * intros _. exists reqs, st0, payment, decoded, selected, response.
        repeat (split; [assumption|]). exists before, after. reflexivity.
      * intros _. apply in_or_app. right. right. now left.
Qed.

(** A request without payment is answered without the handler being
    run; the paid request reaches it. *)
Lemma handler_runs_witness :
  let run req :=
    Express.handleRequest (Examples.facilitator (Ok Examples.settledOk)) Examples.merchant
      (Examples.patternsOf Examples.weatherRoutes) req Examples.handlerOk
      Examples.freshState in
  ~ In Express.CallNext (Express.calls (snd (run (Examples.request "/weather" None))))
  /\ In Express.CallNext (Express.calls (snd (run Examples.paidRequest))).
Proof.
  intros run.
  assert (Hroute : exists route,
            Shared.findMatchingRoute (Examples.patternsOf Examples.weatherRoutes)
              "/weather" "GET" = Some route)
    by (eexists; reflexivity).
  destruct Hroute as (route & Hroute).
  split.
  - destruct (run (Examples.request "/weather" None)) as [r st'] eqn:E.
    destruct (handler_runs_exactly_for_verified_payments
                (Examples.facilitator (Ok Examples.settledOk)) Examples.merchant
                (Examples.patternsOf Examples.weatherRoutes)
                (Examples.request "/weather" None) Examples.handlerOk
                Examples.freshState st' route r Hroute E)
      as (added & Hcalls & Hiff).
    cbn [snd]. rewrite Hcalls. intros Hin. apply in_app_or in Hin as [[]|Hin].
    apply Hiff in Hin as (reqs & st0 & header & d & s & resp & _ & Hheader & _).
    discriminate.
  - unfold run. vm_compute. right. right. left. reflexivity.
Defined.

Section ReplyFacts.
Import Express Trace.

Ltac fields :=
  cbn [res set_res log headers statusCode ended with_header headersSent
       endIntercepted flushHead endArgs calls wireHead wireChunks].

(** [res.status(402).send(chunk)] on a response of which nothing has been
    sent and whose [end] is the original one. *)
Lemma send402_fresh (contentType : string) (chunk : Chunk) (st : State) :
  headersSent (res st) = false -> endIntercepted (res st) = false ->
  ended (res st) = None ->
  exists st',
    (res_status 402 >> res_send contentType chunk)%M st = (Ok tt, st')
    /\ calls st' = calls st
    /\ statusCode (res st') = 402
    /\ ended (res st') = Some (sendArgs chunk)
    /\ (exists sent, wireHead (res st') = Some (402, sent))
    /\ headersSent (res st') = true.
Proof.
  intros Hsent Hi Hended.
  unfold res_status, res_send, bind, gets, modify, res_setHeader.
  fields. rewrite Hsent. unfold res_end. fields. rewrite Hi.
  unfold originalEnd, modify.
  eexists. split; [reflexivity|]. fields. rewrite Hended. fields.
  split; [reflexivity|]. split; [reflexivity|]. split; [reflexivity|].
  split; [|reflexivity]. unfold flushHead. fields. rewrite Hsent. eauto.
Qed.

Lemma reply402_fresh (error : ErrorField) (accepts : list PaymentRequirements)
    (payer : option (option string)) (st : State) :
  headersSent (res st) = false -> endIntercepted (res st) = false ->
  ended (res st) = None ->
  exists st',
    reply402 error accepts payer st = (Ok tt, st')
    /\ calls st' = calls st
    /\ statusCode (res st') = 402
    /\ ended (res st') = Some (jsonEnd (body402 error accepts payer))
    /\ (exists sent, wireHead (res st') = Some (402, sent))
    /\ headersSent (res st') = true.
Proof. apply send402_fresh. Qed.

(** When the requirements of a matching route cannot be built, the
    middleware throws what was thrown and has not touched the response. *)
Lemma handleRequest_without_requirements (f : Facilitator) (payTo_ : string)
    (routePatterns : list RoutePattern) (req : Request) (handler : list HandlerOp)
    (st st0 : State) (route : RoutePattern) (e : Exn) :
  Shared.findMatchingRoute routePatterns (path req) (JS.toUpperCase (method req))
  = Some route ->
  buildPaymentRequirements f payTo_ req route st = (Throw e, st0) ->
  handleRequest f payTo_ routePatterns req handler st = (Throw e, st0)
  /\ res st0 = res st
  /\ (calls st0 = calls st \/ calls st0 = calls st ++ [CallSupported])%list.
Proof.
  intros Hroute Hb.
  destruct (buildPaymentRequirements_trace _ _ _ _ _ _ _ Hb) as (Hres & _ & Hcalls).
  split; [|split; [exact Hres|exact Hcalls]].
  unfold handleRequest, challenge. rewrite Hroute.
  unfold bind at 1 2. now rewrite Hb.
Qed.

End ReplyFacts.

(** X15.  A request that matches a route and carries no [X-PAYMENT]
    header (or an empty one), on a response of which nothing has been
    sent.  When the payment requirements of the route can be built, it is
    answered with status 402 without [verify], [next] or [settle] being
    called: a browser (an [Accept] header with [text/html] and a
    [User-Agent] with [Mozilla]) gets the paywall page, the route's own
    where it has one, and every other client the JSON object with
    [x402Version], the error [X-PAYMENT header is required] and the
    requirements as [accepts].  When the requirements cannot be built (the
    price is refused, the network is not a supported one, [supported]
    fails or names no fee payer), the middleware throws that error and
    sends no 402: the response is as it was. *)
Theorem request_without_payment_is_challenged :
  forall (f : Express.Facilitator) (payTo_ : string) (routePatterns : list RoutePattern)
         (req : Express.Request) (handler : list Express.HandlerOp)
         (st : Express.State) (route : RoutePattern),
    Shared.findMatchingRoute routePatterns (Express.path req)
      (JS.toUpperCase (Express.method req)) = Some route ->
    Express.truthy (Express.header_payment req) = None ->
    Express.headersSent (Express.res st) = false ->
    Express.endIntercepted (Express.res st) = false ->
    Express.ended (Express.res st) = None ->
    (forall (requirements : list PaymentRequirements) (st0 : Express.State),
       Express.buildPaymentRequirements f payTo_ req route st = (Ok requirements, st0) ->
       exists st',
         Express.handleRequest f payTo_ routePatterns req handler st = (Ok tt, st')
         /\ Express.calls st' = Express.calls st0
         /\ Express.statusCode (Express.res st') = 402
         /\ (exists sent, Express.wireHead (Express.res st') = Some (402, sent))
         /\ Express.ended (Express.res st')
            = Some (if Trace.isWebBrowser req
                    then Express.sendArgs
                           (Express.ChunkHtml (Trace.paywallHtml f req route requirements))
                    else Express.jsonEnd
                           (Express.body402
                              (Express.ErrorText "X-PAYMENT header is required")
                              requirements None)))
    /\ (forall (e : Exn) (st0 : Express.State),
          Express.buildPaymentRequirements f payTo_ req route st = (Throw e, st0) ->
          Express.handleRequest f payTo_ routePatterns req handler st = (Throw e, st0)
          /\ Express.res st0 = Express.res st
          /\ (Express.calls st0 = Express.calls st
              \/ Express.calls st0
                 = (Express.calls st ++ [Express.CallSupported])%list)).
Proof.
  intros f payTo_ rps req handler st route Hroute Hpay Hsent Hi Hended.
  split; [|intros e st0 Hb; now apply handleRequest_without_requirements with route].
  intros reqs st0 Hb.
  destruct (buildPaymentRequirements_trace _ _ _ _ _ _ _ Hb) as (Hres & _ & _).
  rewrite <- Hres in Hsent, Hi, Hended.
  unfold Express.handleRequest, Express.challenge. rewrite Hroute.
  unfold Express.bind at 1 2. rewrite Hb, Hpay.
  fold (Trace.isWebBrowser req). fold (Trace.paywallHtml f req route reqs).
  destruct (Trace.isWebBrowser req).
  - destruct (send402_fresh "text/html; charset=utf-8"
                (Express.ChunkHtml (Trace.paywallHtml f req route reqs)) st0
                Hsent Hi Hended) as (st' & Hrun & Hc & Hs & He & Hw & _).
    exists st'. unfold Express.bind at 1. unfold Express.bind at 1.
    unfold Express.bind in Hrun. 
    destruct (Express.res_status 402 st0) as [[[]|e] st2]; [|discriminate].
    rewrite Hrun. split; [reflexivity|]. auto.
  - destruct (reply402_fresh (Express.ErrorText "X-PAYMENT header is required") reqs None
                st0 Hsent Hi Hended) as (st' & Hrun & Hc & Hs & He & Hw & _).
    exists st'. unfold Express.bind at 1. rewrite Hrun. split; [reflexivity|]. auto.
Qed.

(** The weather route asked for by a program and by a browser; and asked
    of a facilitator that names no fee payer. *)
Lemma request_without_payment_witness :
  let run f req :=
    Express.handleRequest f Examples.merchant
      (Examples.patternsOf Examples.weatherRoutes) req Examples.handlerOk
      Examples.freshState in
  (exists st', run (Examples.facilitator (Ok Examples.settledOk))
                 (Examples.request "/weather" None) = (Ok tt, st')
               /\ Express.calls st' = [Express.CallSupported]
               /\ Express.statusCode (Express.res st') = 402
               /\ Express.ended (Express.res st')
                  = Some (Express.jsonEnd
                            (Express.body402
                               (Express.ErrorText "X-PAYMENT header is required")
                               [Examples.requirements] None)))
  /\ Express.ended (Express.res (snd (run (Examples.facilitator (Ok Examples.settledOk))
                                        Cases.browserRequest)))
     = Some (Express.sendArgs (Express.ChunkHtml "<html>Paywall</html>"))
  /\ (exists e st',
        run Cases.facilitatorWithoutFeePayer (Examples.request "/weather" None)
        = (Throw e, st')
        /\ Express.res st' = Express.res Examples.freshState
        /\ Express.statusCode (Express.res st') = 200
        /\ Express.ended (Express.res st') = None).
Proof.
  intros run.
  assert (Hroute : exists route,
            Shared.findMatchingRoute (Examples.patternsOf Examples.weatherRoutes)
              "/weather" "GET" = Some route)
    by (eexists; reflexivity).
  destruct Hroute as (route & Hroute).
  split; [|split; [reflexivity|]].
  - destruct (Express.buildPaymentRequirements
                (Examples.facilitator (Ok Examples.settledOk))
                Examples.merchant (Examples.request "/weather" None) route
                Examples.freshState) as [rb st0] eqn:Eb.
    assert (Hb : rb = Ok [Examples.requirements]
                 /\ Express.calls st0 = [Express.CallSupported]).
    { vm_compute in Hroute. injection Hroute as <-. vm_compute in Eb.
      injection Eb as <- <-. split; reflexivity. }
    destruct Hb as [-> Hcalls0].
    destruct (proj1 (request_without_payment_is_challenged
                       (Examples.facilitator (Ok Examples.settledOk)) Examples.merchant
                       (Examples.patternsOf Examples.weatherRoutes)
                       (Examples.request "/weather" None) Examples.handlerOk
                       Examples.freshState route
                       Hroute eq_refl eq_refl eq_refl eq_refl)
                _ _ Eb)
      as (st' & Hrun & Hcalls & Hs & _ & He).
    exists st'. split; [exact Hrun|]. split; [now rewrite Hcalls|]. split; [exact Hs|].
    exact He.
  - destruct (Express.buildPaymentRequirements Cases.facilitatorWithoutFeePayer
                Examples.merchant (Examples.request "/weather" None) route
                Examples.freshState) as [rb st0] eqn:Eb.
    assert (Hb : exists e, rb = Throw e).
    { vm_compute in Hroute. injection Hroute as <-. vm_compute in Eb.
      injection Eb as <- _. eexists. reflexivity. }
    destruct Hb as (e & ->).
    destruct (proj2 (request_without_payment_is_challenged
                       Cases.facilitatorWithoutFeePayer Examples.merchant
                       (Examples.patternsOf Examples.weatherRoutes)
                       (Examples.request "/weather" None) Examples.handlerOk
                       Examples.freshState route
                       Hroute eq_refl eq_refl eq_refl eq_refl)
                _ _ Eb)
      as (Hrun & Hres & _).
    exists e, st0. split; [exact Hrun|]. split; [exact Hres|].
    rewrite Hres. split; reflexivity.
Defined.

(** X16.  A request that matches a route and carries a payment that is
    not accepted, on a response of which nothing has been sent.  When the
    payment requirements of the route can be built, it is answered with
    status 402 and a JSON object holding [x402Version], an error and the
    requirements as [accepts], and the handler is not run.  The error is
    the value thrown by the decoder (or
    [Invalid or malformed payment header] for a falsy one) when the header
    does not decode; [Unable to find matching payment requirements] when
    no requirement has the scheme and network of the payment ([verify] is
    then not called); the [invalidReason], with the [payer], when [verify]
    returns [isValid: false]; and the value thrown when [verify] throws.
    When the requirements cannot be built, the middleware throws that
    error before it reads the payment, and sends no 402. *)
Theorem refused_payment_is_answered_402 :
  forall (f : Express.Facilitator) (payTo_ : string) (routePatterns : list RoutePattern)
         (req : Express.Request) (handler : list Express.HandlerOp)
         (st : Express.State) (route : RoutePattern) (header : string),
    Shared.findMatchingRoute routePatterns (Express.path req)
      (JS.toUpperCase (Express.method req)) = Some route ->
    Express.truthy (Express.header_payment req) = Some header ->
    Express.headersSent (Express.res st) = false ->
    Express.endIntercepted (Express.res st) = false ->
    Express.ended (Express.res st) = None ->
    (forall (requirements : list PaymentRequirements) (st0 : Express.State),
       Express.buildPaymentRequirements f payTo_ req route st = (Ok requirements, st0) ->
       let answered (error : Express.ErrorField) (payer : option (option string))
                    (added : list Express.Call) :=
         exists st',
           Express.handleRequest f payTo_ routePatterns req handler st = (Ok tt, st')
           /\ Express.calls st' = (Express.calls st0 ++ added)%list
           /\ Express.statusCode (Express.res st') = 402
           /\ Express.ended (Express.res st')
              = Some (Express.jsonEnd (Express.body402 error requirements payer)) in
       (forall e, Express.decodePayment f header = Throw e ->
          answered (match e with
                    | Thrown EmptyString =>
                        Express.ErrorText "Invalid or malformed payment header"
                    | _ => Express.ErrorCaught e
                    end) None [])
       /\ (forall decoded, Express.decodePayment f header = Ok decoded ->
             (Shared.findMatchingPaymentRequirements requirements (Trace.stamped decoded)
              = None ->
              answered (Express.ErrorText "Unable to find matching payment requirements")
                None [])
             /\ (forall selected,
                   Shared.findMatchingPaymentRequirements requirements
                     (Trace.stamped decoded) = Some selected ->
                   (forall response,
                      Express.verify f (Trace.stamped decoded) selected = Ok response ->
                      isValid response = false ->
                      answered (Express.ErrorReason (invalidReason response))
                        (Some (verify_payer response))
                        [Express.CallVerify (Trace.stamped decoded) selected])
                   /\ (forall e,
                         Express.verify f (Trace.stamped decoded) selected = Throw e ->
                         answered (Express.ErrorCaught e) None
                           [Express.CallVerify (Trace.stamped decoded) selected]))))
    /\ (forall (e : Exn) (st0 : Express.State),
          Express.buildPaymentRequirements f payTo_ req route st = (Throw e, st0) ->
          Express.handleRequest f payTo_ routePatterns req handler st = (Throw e, st0)
          /\ Express.res st0 = Express.res st
          /\ (Express.calls st0 = Express.calls st
              \/ Express.calls st0
                 = (Express.calls st ++ [Express.CallSupported])%list)).
Proof.
  intros f payTo_ rps req handler st route header Hroute Hpay Hsent Hi Hended.
  split; [|intros e st0 Hb; now apply handleRequest_without_requirements with route].
  intros reqs st0 Hb answered.
  destruct (buildPaymentRequirements_trace _ _ _ _ _ _ _ Hb) as (Hres & _ & _).
  rewrite <- Hres in Hsent, Hi, Hended.
  assert (Hreply : forall error payer st1,
            Express.headersSent (Express.res st1) = false ->
            Express.endIntercepted (Express.res st1) = false ->
            Express.ended (Express.res st1) = None ->
            exists st',
              Express.bind (Express.reply402 error reqs payer)
                (fun _ => Express.ret None) st1
              = (Ok (@None Express.Verified), st')
              /\ Express.calls st' = Express.calls st1
              /\ Express.statusCode (Express.res st') = 402
              /\ Express.ended (Express.res st')
                 = Some (Express.jsonEnd (Express.body402 error reqs payer))).
  { intros error payer st1 H1 H2 H3.
    destruct (reply402_fresh error reqs payer st1 H1 H2 H3)
      as (st' & Hrun & Hc & Hs & He & _).
    exists st'. unfold Express.bind. rewrite Hrun. auto. }
  split.
  - intros e He.
    destruct (Hreply (match e with
                      | Thrown EmptyString =>
                          Express.ErrorText "Invalid or malformed payment header"
                      | _ => Express.ErrorCaught e
                      end) None st0 Hsent Hi Hended) as (st' & Hrun & Hc & Hs & Hend).
    exists st'. rewrite app_nil_r. split; [|auto].
    unfold Express.handleRequest, Express.challenge. rewrite Hroute.
    unfold Express.bind at 1 2. rewrite Hb, Hpay, He, Hrun. reflexivity.
  - intros decoded Hd. split.
    + intros Hsel.
      destruct (Hreply (Express.ErrorText "Unable to find matching payment requirements")
                  None st0 Hsent Hi Hended) as (st' & Hrun & Hc & Hs & Hend).
      exists st'. rewrite app_nil_r. split; [|auto].
      unfold Express.handleRequest, Express.challenge. rewrite Hroute.
      unfold Express.bind at 1 2. rewrite Hb, Hpay, Hd.
      fold (Trace.stamped decoded). rewrite Hsel, Hrun. reflexivity.
    + intros selected Hsel. split.
      * intros response Hv Hinvalid.
        destruct (Hreply (Express.ErrorReason (invalidReason response))
                    (Some (verify_payer response))
                    (Express.log (Express.CallVerify (Trace.stamped decoded) selected) st0)
                    Hsent Hi Hended) as (st' & Hrun & Hc & Hs & Hend).
        exists st'. split; [|auto].
        unfold Express.handleRequest, Express.challenge. rewrite Hroute.
        unfold Express.bind at 1 2. rewrite Hb, Hpay, Hd.
        fold (Trace.stamped decoded). rewrite Hsel.
        unfold Express.catch, Express.bind at 1, Express.modify.
        unfold Express.bind at 1, Express.lift. rewrite Hv, Hinvalid. cbn [negb].
        rewrite Hrun. reflexivity.
      * intros e Hv.
        destruct (Hreply (Express.ErrorCaught e) None
                    (Express.log (Express.CallVerify (Trace.stamped decoded) selected) st0)
                    Hsent Hi Hended) as (st' & Hrun & Hc & Hs & Hend).
        exists st'. split; [|auto].
        unfold Express.handleRequest, Express.challenge. rewrite Hroute.
        unfold Express.bind at 1 2. rewrite Hb, Hpay, Hd.
        fold (Trace.stamped decoded). rewrite Hsel.
        unfold Express.catch, Express.bind at 1, Express.modify.
        unfold Express.bind at 1, Express.lift. rewrite Hv.
        rewrite Hrun. reflexivity.
Qed.

(** A payment that the facilitator finds invalid, one for another
    network than the route's, and one sent to a server whose facilitator
    names no fee payer. *)
Lemma refused_payment_witness :
  let run f :=
    Express.handleRequest f Examples.merchant
      (Examples.patternsOf Examples.weatherRoutes) Examples.paidRequest Examples.handlerOk
      Examples.freshState in
  (exists st',
     run Cases.rejectingFacilitator = (Ok tt, st')
     /\ Express.statusCode (Express.res st') = 402
     /\ Express.ended (Express.res st')
        = Some (Express.jsonEnd
                  (Express.body402 (Express.ErrorReason (Some "insufficient_funds"))
                     [Examples.requirements] (Some (Some Examples.client))))
     /\ ~ In Express.CallNext (Express.calls st'))
  /\ Express.ended (Express.res (snd (run Cases.mainnetFacilitator)))
     = Some (Express.jsonEnd
               (Express.body402
                  (Express.ErrorText "Unable to find matching payment requirements")
                  [Examples.requirements] None))
  /\ (exists e st',
        run Cases.facilitatorWithoutFeePayer = (Throw e, st')
        /\ Express.res st' = Express.res Examples.freshState
        /\ Express.ended (Express.res st') = None).
Proof.
  intros run.
  assert (Hroute : exists route,
            Shared.findMatchingRoute (Examples.patternsOf Examples.weatherRoutes)
              "/weather" "GET" = Some route)
    by (eexists; reflexivity).
  destruct Hroute as (route & Hroute).
  split; [|split; [reflexivity|]].
  - destruct (Express.buildPaymentRequirements Cases.rejectingFacilitator
                Examples.merchant Examples.paidRequest route
                Examples.freshState) as [rb st0] eqn:Eb.
    assert (Hb : rb = Ok [Examples.requirements]
                 /\ Express.calls st0 = [Express.CallSupported]).
    { vm_compute in Hroute. injection Hroute as <-. vm_compute in Eb.
      injection Eb as <- <-. split; reflexivity. }
    destruct Hb as [-> Hcalls0].
    destruct (proj1 (refused_payment_is_answered_402 Cases.rejectingFacilitator
                       Examples.merchant
                       (Examples.patternsOf Examples.weatherRoutes) Examples.paidRequest
                       Examples.handlerOk Examples.freshState route
                       "eyJ4NDAyVmVyc2lvbiI6MX0="
                       Hroute eq_refl eq_refl eq_refl eq_refl)
                _ _ Eb) as [_ Hdecoded].
    destruct (Hdecoded Examples.payment eq_refl) as [_ Hselected].
    destruct (Hselected Examples.requirements eq_refl) as [Hinvalid _].
    destruct (Hinvalid _ eq_refl eq_refl) as (st' & Hrun & Hcalls & Hs & Hend).
    exists st'. split; [exact Hrun|]. split; [exact Hs|]. split; [exact Hend|].
    rewrite Hcalls, Hcalls0. simpl. intuition discriminate.
  - destruct (Express.buildPaymentRequirements Cases.facilitatorWithoutFeePayer
                Examples.merchant Examples.paidRequest route
                Examples.freshState) as [rb st0] eqn:Eb.
    assert (Hb : exists e, rb = Throw e).
    { vm_compute in Hroute. injection Hroute as <-. vm_compute in Eb.
      injection Eb as <- _. eexists. reflexivity. }
    destruct Hb as (e & ->).
    destruct (proj2 (refused_payment_is_answered_402 Cases.facilitatorWithoutFeePayer
                       Examples.merchant
                       (Examples.patternsOf Examples.weatherRoutes) Examples.paidRequest
                       Examples.handlerOk Examples.freshState route
                       "eyJ4NDAyVmVyc2lvbiI6MX0="
                       Hroute eq_refl eq_refl eq_refl eq_refl)
                _ _ Eb)
      as (Hrun & Hres & _).
    exists e, st0. split; [exact Hrun|]. split; [exact Hres|].
    now rewrite Hres.
Defined.

Section StreamFacts.
Import Express Trace.

Ltac fields :=
  cbn [res set_res log headers statusCode ended with_header headersSent
       endIntercepted flushHead endArgs calls wireHead wireChunks].

(** The [finally] clause on a response whose headers are out. *)
Lemma flushBuffered_headers_sent (st : State) :
  headersSent (res st) = true ->
  exists st',
    flushBuffered st = (Ok tt, st')
    /\ calls st' = calls st
    /\ statusCode (res st') = statusCode (res st)
    /\ headers (res st') = headers (res st)
    /\ wireHead (res st') = wireHead (res st)
    /\ wireChunks (res st') = wireChunks (res st)
    /\ endIntercepted (res st') = false
    /\ (ended (res st) = None -> ended (res st') = endArgs st).
Proof.
  intros Hsent.
  unfold flushBuffered, bind, set_end, modify, gets. fields.
  destruct (endArgs st) as [args|] eqn:Eargs.
  - unfold originalEnd, modify. eexists. split; [reflexivity|]. fields.
    destruct (ended (res st)) eqn:Eended; fields.
    + repeat (split; [reflexivity|]). discriminate.
    + repeat (split; [reflexivity|]). split.
      * unfold flushHead. fields. now rewrite Hsent.
      * repeat (split; [reflexivity|]). reflexivity.
  - eexists. split; [reflexivity|]. fields. repeat (split; [reflexivity|]). auto.
Qed.

(** What follows [next()] when the handler has sent its headers already
    and left a status below 400. *)
Lemma afterNext_headers_sent (f : Facilitator) (a : Verified) (st : State) :
  statusCode (res st) < 400 ->
  headersSent (res st) = true ->
  exists st',
    afterNext f a st = (Ok tt, st')
    /\ calls st'
       = (calls st ++ [CallSettle (decodedPayment a) (selectedPaymentRequirements a)])%list
    /\ statusCode (res st') = statusCode (res st)
    /\ headers (res st') = headers (res st)
    /\ wireHead (res st') = wireHead (res st)
    /\ wireChunks (res st') = wireChunks (res st)
    /\ endIntercepted (res st') = false
    /\ (ended (res st) = None -> ended (res st') = endArgs st).
Proof.
  intros Hstatus Hsent.
  assert (Hlt : (400 <=? statusCode (res st)) = false) by (apply Z.leb_gt; lia).
  destruct (flushBuffered_headers_sent
              (log (CallSettle (decodedPayment a) (selectedPaymentRequirements a)) st)
              Hsent) as (st' & Hflush & Hrest).
  exists st'. split; [|exact Hrest].
  unfold afterNext, bind at 1, gets. rewrite Hlt.
  unfold finally, catch, bind at 1, modify. unfold bind at 1, lift.
  destruct (settle f (decodedPayment a) (selectedPaymentRequirements a)) as [sr|e].
  - unfold bind at 1, res_setHeader. fields. rewrite Hsent.
    unfold bind at 1, gets. fields. rewrite Hsent. cbn [negb]. unfold ret.
    now rewrite Hflush.
  - unfold bind at 1, gets. fields. rewrite Hsent. cbn [negb]. unfold ret.
    now rewrite Hflush.
Qed.

End StreamFacts.

(** X17.  When the handler of a verified request has sent its headers
    before the middleware gets to settle (it wrote part of the body) and
    its status is below 400, [settle] is called, but whatever it returns or
    throws, the client is not told: no [X-PAYMENT-RESPONSE] header is
    added, the status and the headers sent stay the handler's, no 402 takes
    the place of the body, and the buffered [end] goes out as it was
    made. *)
Theorem streamed_response_hides_settlement :
  forall (f : Express.Facilitator) (payTo_ : string) (routePatterns : list RoutePattern)
         (req : Express.Request) (handler : list Express.HandlerOp)
         (st st1 : Express.State) (a : Express.Verified),
    Express.challenge f payTo_ routePatterns req handler st = (Ok (Some a), st1) ->
    let handled := Express.afterHandler handler st1 in
    Express.statusCode (Express.res handled) < 400 ->
    Express.headersSent (Express.res handled) = true ->
    exists st',
      Express.handleRequest f payTo_ routePatterns req handler st = (Ok tt, st')
      /\ Express.calls st'
         = (Express.calls st1
            ++ [Express.CallNext;
                Express.CallSettle (Express.decodedPayment a)
                  (Express.selectedPaymentRequirements a)])%list
      /\ Express.statusCode (Express.res st') = Express.statusCode (Express.res handled)
      /\ Express.headers (Express.res st') = Express.headers (Express.res handled)
      /\ Express.wireHead (Express.res st') = Express.wireHead (Express.res handled)
      /\ Express.wireChunks (Express.res st') = Express.wireChunks (Express.res handled)
      /\ (Express.ended (Express.res st1) = None ->
          Express.ended (Express.res st') = Express.endArgs handled).
Proof.
  intros f payTo_ rps req handler st st1 a Hpass handled Hstatus Hsent.
  destruct (afterHandler_spec handler st1) as (_ & _ & Hended & Hcalls).
  fold handled in Hended, Hcalls.
  rewrite (handleRequest_verified _ _ _ _ _ _ _ _ Hpass). fold handled.
  destruct (afterNext_headers_sent f a handled Hstatus Hsent)
    as (st' & Hrun & Hc & Hs & Hh & Hw & Hch & _ & Hend).
  exists st'. split; [exact Hrun|]. split; [now rewrite Hc, Hcalls, <- app_assoc|].
  repeat (split; [assumption|]). intros H. apply Hend. now rewrite Hended.
Qed.

(** A handler that writes a first chunk before it ends: the settlement
    fails, and the client has its 200 all the same. *)
Lemma streamed_response_witness :
  exists st',
    Express.handleRequest (Examples.facilitator (Ok Examples.settledFailed))
      Examples.merchant (Examples.patternsOf Examples.weatherRoutes) Examples.paidRequest
      Cases.handlerStreaming Examples.freshState = (Ok tt, st')
    /\ Express.statusCode (Express.res st') = 200
    /\ Express.headers (Express.res st') !! "x-payment-response" = None
    /\ Express.wireChunks (Express.res st') = [Express.ChunkRaw "sun"]
    /\ Express.ended (Express.res st') = Some (Examples.endWith "ny").
Proof.
  destruct (Express.challenge (Examples.facilitator (Ok Examples.settledFailed))
              Examples.merchant (Examples.patternsOf Examples.weatherRoutes)
              Examples.paidRequest Cases.handlerStreaming Examples.freshState)
    as [rc st1] eqn:Hpass.
  assert (Hr : exists a, rc = Ok (Some a) /\ Express.res st1 = Express.res Examples.freshState).
  { vm_compute in Hpass. injection Hpass as <- <-. eexists. split; reflexivity. }
  destruct Hr as (a & -> & Hres1).
  assert (Hhandled :
            Express.statusCode (Express.res (Express.afterHandler Cases.handlerStreaming st1))
            = 200
            /\ Express.headersSent
                 (Express.res (Express.afterHandler Cases.handlerStreaming st1)) = true
            /\ Express.headers
                 (Express.res (Express.afterHandler Cases.handlerStreaming st1)) = ∅
            /\ Express.wireChunks
                 (Express.res (Express.afterHandler Cases.handlerStreaming st1))
               = [Express.ChunkRaw "sun"]
            /\ Express.endArgs (Express.afterHandler Cases.handlerStreaming st1)
               = Some (Examples.endWith "ny")).
  { unfold Express.afterHandler. destruct st1 as [res1 args1 calls1].
    simpl in Hres1. subst res1. repeat split; reflexivity. }
  destruct Hhandled as (Hs & Hsent & Hh & Hw & Hargs).
  destruct (streamed_response_hides_settlement _ _ _ _ _ _ _ _ Hpass
              ltac:(rewrite Hs; lia) Hsent)
    as (st' & Hrun & _ & Hs' & Hh' & _ & Hw' & Hend).
  exists st'. split; [exact Hrun|]. split; [now rewrite Hs', Hs|].
  split; [now rewrite Hh', Hh|]. split; [now rewrite Hw', Hw|].
  rewrite Hend, Hargs; [reflexivity|]. now rewrite Hres1.
Defined.

(** X18.  On a Solana network the fee payer of the requirements is that
    of the first kind the facilitator lists for the network with scheme
    [exact].  When there is no such kind, or the first one names no fee
    payer, the middleware throws
    [The facilitator did not provide a fee payer for network: ...]: the
    request is not answered (no 402), the handler is not run, and nothing
    but [supported] has been called. *)
Theorem missing_fee_payer_is_thrown :
  forall (f : Express.Facilitator) (payTo_ : string) (routePatterns : list RoutePattern)
         (req : Express.Request) (handler : list Express.HandlerOp)
         (st : Express.State) (route : RoutePattern)
         (amount : string) (asset : Asset) (kinds : list Express.Kind),
    Shared.findMatchingRoute routePatterns (Express.path req)
      (JS.toUpperCase (Express.method req)) = Some route ->
    let network_ := network (route_config route) in
    Shared.processPriceToAtomicAmount (price (route_config route)) network_
    = Ok (Shared.Atomic amount asset) ->
    existsb (String.eqb network_) SupportedEVMNetworks = false ->
    existsb (String.eqb network_) SupportedSVMNetworks = true ->
    Express.supported f = Ok kinds ->
    match List.find (fun kind => String.eqb (Express.kind_network kind) network_
                                 && String.eqb (Express.kind_scheme kind) "exact") kinds
    with
    | Some kind => Express.truthy (Express.kind_feePayer kind) = None
    | None => True
    end ->
    Express.handleRequest f payTo_ routePatterns req handler st
    = (Throw (JsError ("The facilitator did not provide a fee payer for network: "
                       ++ network_ ++ ".")),
       Express.log Express.CallSupported st).
Proof.
  intros f payTo_ rps req handler st route amount asset kinds Hroute network_
         Hprice Hevm Hsvm Hkinds Hfee.
  unfold Express.handleRequest, Express.challenge. rewrite Hroute.
  unfold Express.bind at 1 2.
  assert (Hb : Express.buildPaymentRequirements f payTo_ req route st
               = (Throw (JsError ("The facilitator did not provide a fee payer for network: "
                                  ++ network_ ++ ".")),
                  Express.log Express.CallSupported st)).
  { unfold Express.buildPaymentRequirements. fold network_.
    unfold Express.bind at 1, Express.lift. rewrite Hprice, Hevm, Hsvm.
    unfold Express.bind at 1, Express.modify. unfold Express.bind at 1, Express.lift.
    rewrite Hkinds.
    destruct (List.find _ kinds) as [kind|]; [now rewrite Hfee|reflexivity]. }
  now rewrite Hb.
Qed.

(** A facilitator that lists the devnet kind without a fee payer before
    one that has it. *)
Lemma missing_fee_payer_witness :
  Express.handleRequest Cases.facilitatorWithoutFeePayer Examples.merchant
    (Examples.patternsOf Examples.weatherRoutes) Examples.paidRequest Examples.handlerOk
    Examples.freshState
  = (Throw (JsError
              "The facilitator did not provide a fee payer for network: solana-devnet."),
     Express.log Express.CallSupported Examples.freshState).
Proof.
  assert (Hroute : exists route,
            Shared.findMatchingRoute (Examples.patternsOf Examples.weatherRoutes)
              "/weather" "GET" = Some route
            /\ network (route_config route) = "solana-devnet"
            /\ price (route_config route) = PriceMoney (MoneyString "$0.0018"))
    by (eexists; repeat split; reflexivity).
  destruct Hroute as (route & Hroute & Hnet & Hprice).
  pose proof (missing_fee_payer_is_thrown Cases.facilitatorWithoutFeePayer
                Examples.merchant (Examples.patternsOf Examples.weatherRoutes)
                Examples.paidRequest Examples.handlerOk Examples.freshState route
                "1800"
                {| asset_address := Examples.usdcDevnet; asset_decimals := 6;
                   asset_eip712_name := "USDC"; asset_eip712_version := "2" |}
                [ {| Express.kind_scheme := "exact";
                     Express.kind_network := "solana-devnet";
                     Express.kind_feePayer := None |};
                  {| Express.kind_scheme := "exact";
                     Express.kind_network := "solana-devnet";
                     Express.kind_feePayer := Some Examples.feePayer |} ]
                Hroute) as H.
  rewrite Hnet, Hprice in H.
  apply H; reflexivity.
Defined.
Section AsyncFacts.
Import Express Trace.

Lemma Silent_runOp (op : HandlerOp) : Silent (runOp op).
Proof.
  destruct op; simpl.
  - apply Silent_set_res.
  - apply Silent_catch; [apply Silent_res_setHeader|]. intros _. apply Silent_ret.
  - apply Silent_set_res.
  - apply Silent_res_end.
  - apply Silent_ret.
Qed.

Lemma Silent_resumeHandler (handler : list HandlerOp) : Silent (resumeHandler handler).
Proof.
  induction handler as [|op handler IH]; simpl.
  - apply Silent_ret.
  - apply Silent_bind; [apply Silent_runOp|]. intros _. exact IH.
Qed.

(** A handler that ends by setting a status and ending the response
    leaves that status. *)
Lemma resumeHandler_status (code : Z) (args : EndArgs) (st : State) :
  exists st',
    resumeHandler [HStatus code; HEnd args] st = (Ok tt, st')
    /\ statusCode (res st') = code
    /\ calls st' = calls st.
Proof.
  cbn [resumeHandler runOp]. unfold bind, res_status, modify, ret, res_end.
  cbn [res set_res endIntercepted].
  destruct (endIntercepted (res st)).
  - eexists. split; [reflexivity|]. split; reflexivity.
  - unfold originalEnd, modify. eexists. split; [reflexivity|].
    cbn [res set_res ended calls]. destruct (ended (res st)); split; reflexivity.
Qed.

End AsyncFacts.

(** C1, against the code.  [await next()] does not wait for the handler:
    [next()] returns when the handler has reached its first wait, and the
    middleware reads [res.statusCode] then.  For a verified request it is
    the status code at the return of [next()] that decides: when it is
    below 400, [settle] is called with the verified payment directly after
    [next()], and what the handler does after its wait adds no call and
    takes none back.  A handler that waits and then answers with a status
    of 400 or above, such as 500, has therefore finished with that status
    and has been settled. *)
Theorem failure_after_a_wait_is_settled :
  forall (f : Express.Facilitator) (payTo_ : string) (routePatterns : list RoutePattern)
         (req : Express.Request) (handler : list Express.HandlerOp)
         (st st1 : Express.State) (a : Express.Verified),
    Express.challenge f payTo_ routePatterns req handler st = (Ok (Some a), st1) ->
    Express.statusCode (Express.res (Express.afterHandler handler st1)) < 400 ->
    exists (r : result unit) (st' : Express.State),
      Express.handleRequest f payTo_ routePatterns req handler st = (r, st')
      /\ Express.calls st'
         = (Express.calls st1
            ++ [Express.CallNext;
                Express.CallSettle (Express.decodedPayment a)
                  (Express.selectedPaymentRequirements a)])%list
      /\ (forall (r' : result unit) (st'' : Express.State),
            Express.resumeHandler (Express.afterAwait handler) st' = (r', st'') ->
            Express.calls st'' = Express.calls st')
      /\ (forall (code : Z) (args : Express.EndArgs),
            Express.afterAwait handler = [Express.HStatus code; Express.HEnd args] ->
            400 <= code ->
            exists st'' : Express.State,
              Express.resumeHandler (Express.afterAwait handler) st' = (Ok tt, st'')
              /\ 400 <= Express.statusCode (Express.res st'')
              /\ In (Express.CallSettle (Express.decodedPayment a)
                       (Express.selectedPaymentRequirements a))
                    (Express.calls st'')).
Proof.
  intros f payTo_ rps req handler st st1 a Hpass Hstatus.
  destruct (afterHandler_spec handler st1) as (_ & _ & _ & Hcalls).
  destruct (Express.afterNext f a (Express.afterHandler handler st1)) as [r st'] eqn:Hrun.
  assert (Hc : Express.calls st'
               = (Express.calls st1
                  ++ [Express.CallNext;
                      Express.CallSettle (Express.decodedPayment a)
                        (Express.selectedPaymentRequirements a)])%list).
  { destruct (afterNext_trace _ _ _ _ _ Hrun) as [[Hge _]|[_ Hc]]; [lia|].
    now rewrite Hc, Hcalls, <- app_assoc. }
  exists r, st'. split; [|split; [exact Hc|split]].
  - rewrite (handleRequest_verified _ _ _ _ _ _ _ _ Hpass). exact Hrun.
  - intros r' st''. apply Silent_resumeHandler.
  - intros code args -> Hcode.
    destruct (resumeHandler_status code args st') as (st'' & Hresume & Hs & Hsame).
    exists st''. split; [exact Hresume|]. split; [now rewrite Hs|].
    rewrite Hsame, Hc. apply in_or_app. right. right. now left.
Qed.

(** The weather handler waits for its database and then answers 500.
    When the middleware returns, the settlement has been made and its
    header set; the handler then sends its 500, under that header. *)
Lemma failure_after_a_wait_witness :
  exists (st' st'' : Express.State),
    Express.handleRequest (Examples.facilitator (Ok Examples.settledOk)) Examples.merchant
      (Examples.patternsOf Examples.weatherRoutes) Examples.paidRequest
      Cases.handlerFailingLate Examples.freshState = (Ok tt, st')
    /\ Express.calls st'
       = [Express.CallSupported;
          Express.CallVerify (Trace.stamped Examples.payment) Examples.requirements;
          Express.CallNext;
          Express.CallSettle (Trace.stamped Examples.payment) Examples.requirements]
    /\ Express.resumeHandler (Express.afterAwait Cases.handlerFailingLate) st'
       = (Ok tt, st'')
    /\ Express.statusCode (Express.res st'') = 500
    /\ Express.ended (Express.res st'') = Some (Examples.endWith "database unavailable")
    /\ (exists sent, Express.wireHead (Express.res st'') = Some (500, sent)
                     /\ sent !! "x-payment-response" = Some "eyJzdWNjZXNzIjp0cnVlfQ==")
    /\ Express.calls st'' = Express.calls st'.
Proof.
  destruct (Express.challenge (Examples.facilitator (Ok Examples.settledOk))
              Examples.merchant (Examples.patternsOf Examples.weatherRoutes)
              Examples.paidRequest Cases.handlerFailingLate Examples.freshState)
    as [rc st1] eqn:Hpass.
  assert (Hr : exists a, rc = Ok (Some a)
                 /\ Express.decodedPayment a = Trace.stamped Examples.payment
                 /\ Express.selectedPaymentRequirements a = Examples.requirements
                 /\ Express.calls st1
                    = [Express.CallSupported;
                       Express.CallVerify (Trace.stamped Examples.payment)
                         Examples.requirements]
                 /\ Express.res st1 = Express.res Examples.freshState).
  { vm_compute in Hpass. injection Hpass as <- <-.
    eexists. split; [reflexivity|]. repeat split; reflexivity. }
  destruct Hr as (a & -> & Hd & Hsel & Hcalls1 & Hres1).
  assert (Hstatus : Express.statusCode
                      (Express.res (Express.afterHandler Cases.handlerFailingLate st1))
                    = 200).
  { unfold Express.afterHandler. destruct st1 as [res1 args1 calls1].
    simpl in Hres1. subst res1. reflexivity. }
  destruct (failure_after_a_wait_is_settled _ _ _ _ _ _ _ _ Hpass
              ltac:(rewrite Hstatus; lia))
    as (r & st' & Hrun & Hcalls & Hquiet & Hlate).
  destruct (Hlate 500 (Examples.endWith "database unavailable") eq_refl ltac:(lia))
    as (st'' & Hresume & _ & _).
  assert (Hfinal : r = Ok tt
                   /\ Express.statusCode (Express.res st'') = 500
                   /\ Express.ended (Express.res st'')
                      = Some (Examples.endWith "database unavailable")
                   /\ (exists sent,
                         Express.wireHead (Express.res st'') = Some (500, sent)
                         /\ sent !! "x-payment-response" = Some "eyJzdWNjZXNzIjp0cnVlfQ==")).
  { clear Hcalls Hquiet Hlate.
    rewrite (handleRequest_verified _ _ _ _ _ _ _ _ Hpass) in Hrun.
    destruct st1 as [res1 args1 calls1]. simpl in Hres1. subst res1.
    vm_compute in Hrun. injection Hrun as <- <-.
    vm_compute in Hresume. injection Hresume as <-.
    split; [reflexivity|]. split; [reflexivity|]. split; [reflexivity|].
    eexists. split; [reflexivity|]. reflexivity. }
  destruct Hfinal as (-> & Hs & He & Hw).
  exists st', st''. split; [exact Hrun|]. split.
  { now rewrite Hcalls, Hcalls1, Hd, Hsel. }
  split; [exact Hresume|]. split; [exact Hs|]. split; [exact He|]. split; [exact Hw|].
  exact (Hquiet _ _ Hresume).
Defined.

(* ===================================================================== *)
(** * Further properties: the EVM facilitator *)
(* ===================================================================== *)

Section EvmFacts.
Import Evm.

Lemma invalid_not_valid (reason : string) (payload : EvmPaymentPayload) :
  isValid (invalid reason payload) = false.
Proof. reflexivity. Qed.

(** What the checks that follow the [try] block have established when
    they end with a valid verdict. *)
Lemma verifyAuthorization_valid (client : Client) (payload : EvmPaymentPayload)
    (req : Requirements) (chainId : Z) (name version : string)
    (response : VerifyResponse) :
  verifyAuthorization client payload req chainId name version = Ok response ->
  isValid response = true ->
  let auth := authorization (evm_payload payload) in
  verifyTypedData client
    {| td_address := auth_from auth;
       td_name := name; td_version := version; td_chainId := chainId;
       td_verifyingContract := er_asset req;
       td_message := auth;
       td_signature := evm_signature (evm_payload payload) |} = Ok true
  /\ (exists to, getAddress client (auth_to auth) = Ok to
                 /\ getAddress client (er_payTo req) = Ok to)
  /\ (exists validBefore validAfter balance required value,
        JS.BigInt (auth_validBefore auth) = Ok validBefore
        /\ dateNow client 0 / 1000 + 6 <= validBefore
        /\ JS.BigInt (auth_validAfter auth) = Ok validAfter
        /\ validAfter <= dateNow client 1 / 1000
        /\ getERC20Balance client (er_asset req) (auth_from auth) = Ok balance
        /\ JS.BigInt (er_maxAmountRequired req) = Ok required
        /\ required <= balance
        /\ JS.BigInt (auth_value auth) = Ok value
        /\ required <= value)
  /\ response = {| isValid := true; invalidReason := None;
                   verify_payer := Some (auth_from auth) |}.
Proof.
  intros H Hvalid auth. unfold verifyAuthorization in H. fold auth in H.
  apply rbind_ok in H as (recovered & Hsig & H).
  destruct recovered; cbn [negb] in H;
    [|injection H as <-; discriminate].
  apply rbind_ok in H as (to & Hto & H).
  apply rbind_ok in H as (payTo_ & HpayTo & H).
  destruct (String.eqb_spec to payTo_) as [<-|Hne]; cbn [negb] in H;
    [|injection H as <-; discriminate].
  apply rbind_ok in H as (validBefore & Hvb & H).
  destruct (Z.ltb_spec validBefore (dateNow client 0 / 1000 + 6)) as [Hlt|Hge];
    [injection H as <-; discriminate|].
  apply rbind_ok in H as (validAfter & Hva & H).
  destruct (Z.ltb_spec (dateNow client 1 / 1000) validAfter) as [Hlt|Hge'];
    [injection H as <-; discriminate|].
  apply rbind_ok in H as (balance & Hbal & H).
  apply rbind_ok in H as (required & Hreq & H).
  destruct (Z.ltb_spec balance required) as [Hlt|Hfunds];
    [injection H as <-; discriminate|].
  apply rbind_ok in H as (value & Hval & H).
  apply rbind_ok in H as (required' & Hreq' & H).
  assert (required' = required) by congruence. subst required'.
  destruct (Z.ltb_spec value required) as [Hlt|Hcover];
    [injection H as <-; discriminate|].
  injection H as <-.
  split; [exact Hsig|]. split; [eauto|]. split; [|reflexivity].
  exists validBefore, validAfter, balance, required, value. auto 10.
Qed.

(** Every answer of the checks names the payer and, when it is not valid,
    one of the known reasons. *)
Lemma verifyAuthorization_answer (client : Client) (payload : EvmPaymentPayload)
    (req : Requirements) (chainId : Z) (name version : string)
    (response : VerifyResponse) :
  verifyAuthorization client payload req chainId name version = Ok response ->
  response = {| isValid := true; invalidReason := None;
                verify_payer := Some (auth_from (authorization (evm_payload payload))) |}
  \/ exists reason, response = invalid reason payload /\ In reason ErrorReasons.
Proof.
  unfold verifyAuthorization. intros H.
  apply rbind_ok in H as (recovered & _ & H).
  destruct (negb recovered);
    [injection H as <-; right; eexists; split; [reflexivity|simpl; tauto]|].
  apply rbind_ok in H as (to & _ & H).
  apply rbind_ok in H as (payTo_ & _ & H).
  destruct (negb _);
    [injection H as <-; right; eexists; split; [reflexivity|simpl; tauto]|].
  apply rbind_ok in H as (validBefore & _ & H).
  destruct (_ <? _);
    [injection H as <-; right; eexists; split; [reflexivity|simpl; tauto]|].
  apply rbind_ok in H as (validAfter & _ & H).
  destruct (_ <? _);
    [injection H as <-; right; eexists; split; [reflexivity|simpl; tauto]|].
  apply rbind_ok in H as (balance & _ & H).
  apply rbind_ok in H as (required & _ & H).
  destruct (_ <? _);
    [injection H as <-; right; eexists; split; [reflexivity|simpl; tauto]|].
  apply rbind_ok in H as (value & _ & H).
  apply rbind_ok in H as (required' & _ & H).
  destruct (_ <? _);
    [injection H as <-; right; eexists; split; [reflexivity|simpl; tauto]|].
  injection H as <-. now left.
Qed.

(** [verify] in terms of its parts. *)
Lemma verify_cases (client : Client) (payload : EvmPaymentPayload)
    (req : Requirements) (cache : option string)
    (r : result VerifyResponse) (cache' : option string) :
  verify client payload req cache = (r, cache') ->
  (r = Ok (invalid "unsupported_scheme" payload)
   /\ (evm_scheme payload <> "exact" \/ er_scheme req <> "exact"))
  \/ (evm_scheme payload = "exact" /\ er_scheme req = "exact"
      /\ ((exists e, domainOf client payload req cache = (Throw e, cache')
                     /\ r = Ok (invalid "invalid_network" payload))
          \/ exists chainId name version,
               domainOf client payload req cache = (Ok (chainId, name, version), cache')
               /\ r = verifyAuthorization client payload req chainId name version)).
Proof.
  unfold verify.
  destruct (String.eqb_spec (evm_scheme payload) SCHEME) as [Hs|Hs]; cbn [negb orb].
  - destruct (String.eqb_spec (er_scheme req) SCHEME) as [Hr|Hr]; cbn [negb].
    + intros H. right. split; [exact Hs|]. split; [exact Hr|].
      destruct (domainOf client payload req cache) as [[[[chainId name] version]|e] c];
        injection H as <- <-.
      * right. exists chainId, name, version. split; reflexivity.
      * left. exists e. split; reflexivity.
    + intros [= <- <-]. left. split; [reflexivity|]. now right.
  - intros [= <- <-]. left. split; [reflexivity|]. now left.
Qed.

(** Every answer of [verify] is the valid verdict or a refusal with a known
    reason; both name the payer. *)
Lemma verify_answer (client : Client) (payload : EvmPaymentPayload)
    (req : Requirements) (cache cache' : option string) (response : VerifyResponse) :
  verify client payload req cache = (Ok response, cache') ->
  response = {| isValid := true; invalidReason := None;
                verify_payer := Some (auth_from (authorization (evm_payload payload))) |}
  \/ exists reason, response = invalid reason payload /\ In reason ErrorReasons.
Proof.
  intros H.
  destruct (verify_cases _ _ _ _ _ _ H)
    as [[[= ->] _]|(_ & _ & [(e & _ & [= ->])|(chainId & name & version & _ & Hv)])].
  - right. eexists. split; [reflexivity|simpl; tauto].
  - right. eexists. split; [reflexivity|simpl; tauto].
  - symmetry in Hv. exact (verifyAuthorization_answer _ _ _ _ _ _ _ Hv).
Qed.

End EvmFacts.

(** X19.  The EVM [verify] answers [isValid: true] only when both schemes
    are [exact], the network has a chain id, the signature of the
    authorization is verified for its [from] under the EIP-712 domain of
    the asset, [to] and [payTo] are the same address, [validBefore] lies
    six seconds at least after the clock, [validAfter] not after the
    clock, and both the balance of [from] and the authorized value cover
    [maxAmountRequired] (a higher value is accepted). *)
Theorem evm_valid_verdict_passed_every_check :
  forall (client : Evm.Client) (payload : Evm.EvmPaymentPayload)
         (paymentRequirements : Evm.Requirements) (versionCache cache' : option string)
         (response : VerifyResponse),
    Evm.verify client payload paymentRequirements versionCache = (Ok response, cache') ->
    isValid response = true ->
    let auth := Evm.authorization (Evm.evm_payload payload) in
    Evm.evm_scheme payload = "exact"
    /\ Evm.er_scheme paymentRequirements = "exact"
    /\ (exists chainId name version,
          Shared.getNetworkId (Evm.evm_network payload) = Ok chainId
          /\ Evm.verifyTypedData client
               {| Evm.td_address := Evm.auth_from auth;
                  Evm.td_name := name; Evm.td_version := version;
                  Evm.td_chainId := chainId;
                  Evm.td_verifyingContract := Evm.er_asset paymentRequirements;
                  Evm.td_message := auth;
                  Evm.td_signature := Evm.evm_signature (Evm.evm_payload payload) |}
             = Ok true)
    /\ (exists to, Evm.getAddress client (Evm.auth_to auth) = Ok to
                   /\ Evm.getAddress client (Evm.er_payTo paymentRequirements) = Ok to)
    /\ (exists validBefore validAfter balance required value,
          JS.BigInt (Evm.auth_validBefore auth) = Ok validBefore
          /\ Evm.dateNow client 0 / 1000 + 6 <= validBefore
          /\ JS.BigInt (Evm.auth_validAfter auth) = Ok validAfter
          /\ validAfter <= Evm.dateNow client 1 / 1000
          /\ Evm.getERC20Balance client (Evm.er_asset paymentRequirements)
               (Evm.auth_from auth) = Ok balance
          /\ JS.BigInt (Evm.er_maxAmountRequired paymentRequirements) = Ok required
          /\ required <= balance
          /\ JS.BigInt (Evm.auth_value auth) = Ok value
          /\ required <= value)
    /\ response = {| isValid := true; invalidReason := None;
                     verify_payer := Some (Evm.auth_from auth) |}.
Proof.
  intros client payload req cache cache' response H Hvalid auth.
  destruct (verify_cases _ _ _ _ _ _ H)
    as [[[= ->] _]|(Hs & Hr & [(e & _ & [= ->])|(chainId & name & version & Hd & Hv)])];
    try discriminate.
  symmetry in Hv.
  destruct (verifyAuthorization_valid _ _ _ _ _ _ _ Hv Hvalid)
    as (Hsig & Hto & Hnum & Hresp).
  split; [exact Hs|]. split; [exact Hr|]. split; [|auto].
  exists chainId, name, version. split; [|exact Hsig].
  unfold Evm.domainOf in Hd.
  destruct (Shared.getNetworkId (Evm.evm_network payload)) as [id|e]; [|discriminate].
  destruct (match Evm.extra_name req with Some n => Ok n | None => _ end) as [n|e];
    [|discriminate].
  destruct (Evm.extra_version req) as [v|].
  - now injection Hd as -> _ _ _.
  - destruct (Evm.getVersion client cache) as [[v|e] c]; [|discriminate].
    now injection Hd as -> _ _ _.
Qed.

(** An authorization of 1500 units for requirements of 1000 is valid. *)
Lemma evm_valid_verdict_witness :
  Evm.verify Cases.evmClient (Cases.evmPayment "1500") Cases.evmRequirements None
  = (Ok {| isValid := true; invalidReason := None; verify_payer := Some "0xbuyer" |},
     Some "2")
  /\ exists chainId, Shared.getNetworkId "base-sepolia" = Ok chainId.
Proof.
  split; [reflexivity|].
  destruct (evm_valid_verdict_passed_every_check Cases.evmClient (Cases.evmPayment "1500")
              Cases.evmRequirements None (Some "2") _ eq_refl eq_refl)
    as (_ & _ & (chainId & _ & _ & Hid & _) & _).
  exists chainId. exact Hid.
Defined.

(** X20.  Every answer of the EVM [verify] names [authorization.from] as
    the payer, also when the payment is refused; a refusal carries one of
    the known reasons. *)
Theorem evm_verdict_names_payer_and_known_reason :
  forall (client : Evm.Client) (payload : Evm.EvmPaymentPayload)
         (paymentRequirements : Evm.Requirements) (versionCache cache' : option string)
         (response : VerifyResponse),
    Evm.verify client payload paymentRequirements versionCache = (Ok response, cache') ->
    verify_payer response
    = Some (Evm.auth_from (Evm.authorization (Evm.evm_payload payload)))
    /\ (isValid response = true /\ invalidReason response = None
        \/ isValid response = false
           /\ exists reason, invalidReason response = Some reason
                             /\ In reason ErrorReasons).
Proof.
  intros client payload req cache cache' response H.
  destruct (verify_answer _ _ _ _ _ _ H) as [->|(reason & -> & Hin)].
  - split; [reflexivity|]. now left.
  - split; [reflexivity|]. right. split; [reflexivity|]. eauto.
Qed.

(** An authorization of 999 units is refused for its value, with the
    payer named. *)
Lemma evm_verdict_witness :
  Evm.verify Cases.evmClient (Cases.evmPayment "999") Cases.evmRequirements None
  = (Ok (Evm.invalid "invalid_exact_evm_payload_authorization_value"
           (Cases.evmPayment "999")), Some "2")
  /\ verify_payer (Evm.invalid "invalid_exact_evm_payload_authorization_value"
                     (Cases.evmPayment "999")) = Some "0xbuyer".
Proof.
  split; [reflexivity|].
  exact (proj1 (evm_verdict_names_payer_and_known_reason Cases.evmClient
                  (Cases.evmPayment "999") Cases.evmRequirements None (Some "2") _ eq_refl)).
Defined.

Section EvmSettleFacts.
Import Evm.

(** [settle] in terms of [verify] and [submit]. *)
Lemma settle_cases (wallet : Client) (payload : EvmPaymentPayload)
    (req : Requirements) (cache : option string)
    (r : result SettleResponse) (cache' : option string) :
  settle wallet payload req cache = (r, cache') ->
  (exists e, verify wallet payload req cache = (Throw e, cache') /\ r = Throw e)
  \/ exists valid,
       verify wallet payload req cache = (Ok valid, cache')
       /\ ((isValid valid = false
            /\ r = Ok (settled false
                         (Some (match invalidReason valid with
                                | Some reason => reason
                                | None => "invalid_scheme"
                                end)) EmptyString payload))
           \/ (isValid valid = true /\ r = submit wallet payload req)).
Proof.
  unfold settle.
  destruct (verify wallet payload req cache) as [[valid|e] c].
  - destruct (isValid valid) eqn:Hvalid; cbn [negb]; intros [= <- <-];
      right; exists valid; (split; [reflexivity|]); [right|left];
      (split; [exact Hvalid|reflexivity]).
  - intros [= <- <-]. left. exists e. split; reflexivity.
Qed.

(** What [submit] has done when it returns. *)
Lemma submit_ok (wallet : Client) (payload : EvmPaymentPayload)
    (req : Requirements) (response : SettleResponse) :
  submit wallet payload req = Ok response ->
  let auth := authorization (evm_payload payload) in
  exists signature value validAfter validBefore tx status,
    parseErc6492Signature wallet (evm_signature (evm_payload payload)) = Ok signature
    /\ JS.BigInt (auth_value auth) = Ok value
    /\ JS.BigInt (auth_validAfter auth) = Ok validAfter
    /\ JS.BigInt (auth_validBefore auth) = Ok validBefore
    /\ writeContract wallet
         {| tw_contract := er_asset req;
            tw_from := auth_from auth;
            tw_to := auth_to auth;
            tw_value := value;
            tw_validAfter := validAfter;
            tw_validBefore := validBefore;
            tw_nonce := auth_nonce auth;
            tw_signature := signature |} = Ok tx
    /\ waitForTransactionReceipt wallet tx = Ok status
    /\ ((status = "success" /\ response = settled true None tx payload)
        \/ (status <> "success"
            /\ response = settled false (Some "invalid_transaction_state") tx payload)).
Proof.
  intros H auth. unfold submit in H. fold auth in H.
  apply rbind_ok in H as (signature & Hsig & H).
  apply rbind_ok in H as (value & Hvalue & H).
  apply rbind_ok in H as (validAfter & Hva & H).
  apply rbind_ok in H as (validBefore & Hvb & H).
  apply rbind_ok in H as (tx & Htx & H).
  apply rbind_ok in H as (status & Hstatus & H).
  exists signature, value, validAfter, validBefore, tx, status.
  repeat (split; [assumption|]).
  destruct (String.eqb_spec status "success") as [->|Hne]; cbn [negb] in H;
    injection H as <-; [left|right]; split; auto.
Qed.

End EvmSettleFacts.

(** X21.  The EVM [settle] reports success only when its own [verify] of
    the payment was valid and the [transferWithAuthorization] call that it
    wrote to the asset contract, with the sender, recipient, value,
    validity window and nonce of the authorization and the parsed
    signature, has a receipt of status [success]; the response carries the
    hash of that call, the network of the payload and
    [authorization.from] as payer. *)
Theorem evm_settlement_succeeds_only_after_a_successful_transfer :
  forall (wallet : Evm.Client) (paymentPayload : Evm.EvmPaymentPayload)
         (paymentRequirements : Evm.Requirements) (versionCache cache' : option string)
         (response : SettleResponse),
    Evm.settle wallet paymentPayload paymentRequirements versionCache
    = (Ok response, cache') ->
    success response = true ->
    let payload := Evm.evm_payload paymentPayload in
    let auth := Evm.authorization payload in
    Evm.verify wallet paymentPayload paymentRequirements versionCache
    = (Ok {| isValid := true; invalidReason := None;
             verify_payer := Some (Evm.auth_from auth) |}, cache')
    /\ (exists signature value validAfter validBefore,
          Evm.parseErc6492Signature wallet (Evm.evm_signature payload) = Ok signature
          /\ JS.BigInt (Evm.auth_value auth) = Ok value
          /\ JS.BigInt (Evm.auth_validAfter auth) = Ok validAfter
          /\ JS.BigInt (Evm.auth_validBefore auth) = Ok validBefore
          /\ Evm.writeContract wallet
               {| Evm.tw_contract := Evm.er_asset paymentRequirements;
                  Evm.tw_from := Evm.auth_from auth;
                  Evm.tw_to := Evm.auth_to auth;
                  Evm.tw_value := value;
                  Evm.tw_validAfter := validAfter;
                  Evm.tw_validBefore := validBefore;
                  Evm.tw_nonce := Evm.auth_nonce auth;
                  Evm.tw_signature := signature |}
             = Ok (settle_transaction response))
    /\ Evm.waitForTransactionReceipt wallet (settle_transaction response) = Ok "success"
    /\ errorReason response = None
    /\ settle_payer response = Some (Evm.auth_from auth)
    /\ settle_network response = Evm.evm_network paymentPayload.
Proof.
  intros wallet p req cache cache' response H Hsuccess payload auth.
  destruct (settle_cases _ _ _ _ _ _ H)
    as [(e & _ & [=])|(valid & Hverify & [(_ & [= ->])|(Hvalid & Hsubmit)])];
    [discriminate|].
  symmetry in Hsubmit.
  destruct (submit_ok _ _ _ _ Hsubmit)
    as (signature & value & validAfter & validBefore & tx & status
        & Hsig & Hvalue & Hva & Hvb & Htx & Hstatus & [(-> & ->)|(_ & ->)]);
    [|discriminate].
  split.
  - rewrite Hverify.
    destruct (verify_answer _ _ _ _ _ _ Hverify) as [->|(reason & -> & _)];
      [reflexivity|discriminate].
  - split; [|repeat split; assumption].
    exists signature, value, validAfter, validBefore. auto.
Qed.

(** The authorization of 1500 units is settled by the call [0xhash]. *)
Lemma evm_settlement_witness :
  Evm.settle Cases.evmClient (Cases.evmPayment "1500") Cases.evmRequirements None
  = (Ok (Evm.settled true None "0xhash" (Cases.evmPayment "1500")), Some "2")
  /\ Evm.waitForTransactionReceipt Cases.evmClient "0xhash" = Ok "success".
Proof.
  split; [reflexivity|].
  exact (proj1 (proj2 (proj2
    (evm_settlement_succeeds_only_after_a_successful_transfer Cases.evmClient
       (Cases.evmPayment "1500") Cases.evmRequirements None (Some "2") _
       eq_refl eq_refl)))).
Defined.

(** X22.  When the EVM [settle] returns without success, either its
    [verify] refused the payment, and the response carries the reason of
    [verify] and an empty transaction, or the payment was valid, the
    transfer was written, and its receipt is not of status [success]: the
    response then carries the hash and [invalid_transaction_state].  The
    reason is a known one in both cases. *)
Theorem evm_settlement_failures :
  forall (wallet : Evm.Client) (paymentPayload : Evm.EvmPaymentPayload)
         (paymentRequirements : Evm.Requirements) (versionCache cache' : option string)
         (response : SettleResponse),
    Evm.settle wallet paymentPayload paymentRequirements versionCache
    = (Ok response, cache') ->
    success response = false ->
    (exists reason,
       errorReason response = Some reason /\ In reason ErrorReasons)
    /\ ((exists reason,
           Evm.verify wallet paymentPayload paymentRequirements versionCache
           = (Ok (Evm.invalid reason paymentPayload), cache')
           /\ response = Evm.settled false (Some reason) EmptyString paymentPayload)
        \/ (exists valid tx status,
              Evm.verify wallet paymentPayload paymentRequirements versionCache
              = (Ok valid, cache')
              /\ isValid valid = true
              /\ Evm.waitForTransactionReceipt wallet tx = Ok status
              /\ status <> "success"
              /\ response
                 = Evm.settled false (Some "invalid_transaction_state") tx paymentPayload)).
Proof.
  intros wallet p req cache cache' response H Hfailure.
  destruct (settle_cases _ _ _ _ _ _ H)
    as [(e & _ & [=])|(valid & Hverify & [(Hvalid & [= ->])|(Hvalid & Hsubmit)])].
  - destruct (verify_answer _ _ _ _ _ _ Hverify) as [->|(reason & -> & Hin)];
      [discriminate|].
    split; [exists reason; split; [reflexivity|exact Hin]|].
    left. exists reason. split; [exact Hverify|reflexivity].
  - symmetry in Hsubmit.
    destruct (submit_ok _ _ _ _ Hsubmit)
      as (signature & value & validAfter & validBefore & tx & status
          & _ & _ & _ & _ & _ & Hstatus & [(_ & ->)|(Hne & ->)]);
      [discriminate|].
    split; [eexists; split; [reflexivity|simpl; tauto]|].
    right. exists valid, tx, status. auto.
Qed.

(** A reverted transfer is reported with its hash. *)
Lemma evm_settlement_failures_witness :
  Evm.settle Cases.evmClientReverting (Cases.evmPayment "1500") Cases.evmRequirements None
  = (Ok (Evm.settled false (Some "invalid_transaction_state") "0xhash"
           (Cases.evmPayment "1500")), Some "2")
  /\ exists reason,
       errorReason (Evm.settled false (Some "invalid_transaction_state") "0xhash"
                      (Cases.evmPayment "1500")) = Some reason
       /\ In reason ErrorReasons.
Proof.
  split; [reflexivity|].
  exact (proj1 (evm_settlement_failures Cases.evmClientReverting
                  (Cases.evmPayment "1500") Cases.evmRequirements None (Some "2") _
                  eq_refl eq_refl)).
Defined.

(** X23.  [getVersion] reads the token version from the contract once: a
    version it has returned is kept, and every later call returns it
    without a read, also for a client of another chain, a client without a
    chain, or one whose contract reports another version.  A failed read
    keeps nothing. *)
Theorem token_version_is_read_once :
  forall (client : Evm.Client) (versionCache cache' : option string) (version : string),
    Evm.getVersion client versionCache = (Ok version, cache') ->
    cache' = Some version
    /\ (forall other : Evm.Client,
          Evm.getVersion other cache' = (Ok version, cache'))
    /\ (forall (other : Evm.Client) (paymentPayload : Evm.EvmPaymentPayload)
               (paymentRequirements : Evm.Requirements) (chainId : Z) (name : string),
          Shared.getNetworkId (Evm.evm_network paymentPayload) = Ok chainId ->
          Evm.extra_name paymentRequirements = Some name ->
          Evm.extra_version paymentRequirements = None ->
          Evm.domainOf other paymentPayload paymentRequirements cache'
          = (Ok (chainId, name, version), cache')).
Proof.
  intros client cache cache' version H.
  assert (Hcache : cache' = Some version).
  { unfold Evm.getVersion in H. destruct cache as [v|].
    - now injection H as <- <-.
    - destruct (Evm.getUsdcAddress client) as [address|e]; [|discriminate].
      destruct (Evm.readVersion client address) as [v|e]; [|discriminate].
      now injection H as <- <-. }
  subst cache'. split; [reflexivity|]. split; [reflexivity|].
  intros other p req chainId name Hid Hname Hversion.
  unfold Evm.domainOf. rewrite Hid, Hname, Hversion. reflexivity.
Qed.

(** The version read for Base Sepolia is the one a client without a chain
    gets afterwards. *)
Lemma token_version_witness :
  Evm.getVersion Cases.evmClient None = (Ok "2", Some "2")
  /\ Evm.getVersion Cases.evmClientWithoutChain (Some "2") = (Ok "2", Some "2")
  /\ exists e, Evm.getVersion Cases.evmClientWithoutChain None = (Throw e, None).
Proof.
  split; [reflexivity|]. split.
  - exact (proj1 (proj2 (token_version_is_read_once Cases.evmClient None (Some "2") "2"
                           eq_refl)) Cases.evmClientWithoutChain).
  - eexists. reflexivity.
Defined.

(* ===================================================================== *)
(** * Further properties: the Solana client and the facilitator *)
(* ===================================================================== *)

Section ClientFacts.
Import Svm SvmClient Facilitator.

Lemma littleEndianBytes_length (size : nat) (n : Z) :
  length (littleEndianBytes size n) = size.
Proof.
  revert n. induction size as [|size IH]; intros n; simpl; [reflexivity|].
  now rewrite IH.
Qed.

Lemma littleEndian_littleEndianBytes (size : nat) (n : Z) :
  0 <= n < 2 ^ (8 * Z.of_nat size) ->
  littleEndian (littleEndianBytes size n) = n.
Proof.
  revert n. induction size as [|size IH]; intros n Hn.
  - simpl in *. lia.
  - cbn [littleEndianBytes littleEndian].
    rewrite IH.
    + pose proof (Z.div_mod n 256). lia.
    + replace (8 * Z.of_nat (S size)) with (8 + 8 * Z.of_nat size) in Hn by lia.
      rewrite Z.pow_add_r in Hn by lia.
      change (2 ^ 8) with 256 in Hn.
      split; [apply Z.div_pos; lia|].
      apply Z.div_lt_upper_bound; lia.
Qed.

Lemma writeNumber_ok (size : nat) (n : Z) (bytes : list Z) :
  writeNumber size n = Ok bytes ->
  bytes = littleEndianBytes size n
  /\ 0 <= n < 2 ^ (8 * Z.of_nat size).
Proof.
  unfold writeNumber.
  destruct (Z.leb_spec 0 n); destruct (Z.ltb_spec n (2 ^ (8 * Z.of_nat size)));
    cbn [andb]; intros [= <-]; auto.
Qed.

Lemma readNumber_after (size : nat) (first : Z) (chunk after : list Z) :
  length chunk = size ->
  readNumber size 1 (first :: chunk ++ after) = Ok (littleEndian chunk).
Proof. intros H. exact (readNumber_at size [first] chunk after H). Qed.

(** The limit instruction of the client is one the facilitator accepts. *)
Lemma limit_accepted (units : Z) (ix : Instruction) :
  getSetComputeUnitLimitInstruction units = Ok ix ->
  0 <= units < 2 ^ 32
  /\ ix = {| programAddress := COMPUTE_BUDGET_PROGRAM_ADDRESS; accounts := None;
             data := Some (2 :: littleEndianBytes 4 units) |}
  /\ verifyComputeLimitInstruction ix = Ok tt.
Proof.
  unfold getSetComputeUnitLimitInstruction. intros H.
  apply rbind_ok in H as (bytes & Hbytes & [= <-]).
  apply writeNumber_ok in Hbytes as [-> Hrange].
  split; [exact Hrange|]. split; [reflexivity|].
  reflexivity.
Qed.

(** So is its price instruction, for a price of at most 5 000 000. *)
Lemma price_accepted (microLamports : Z) (ix : Instruction) :
  getSetComputeUnitPriceInstruction microLamports = Ok ix ->
  microLamports <= 5000000 ->
  ix = {| programAddress := COMPUTE_BUDGET_PROGRAM_ADDRESS; accounts := None;
          data := Some (3 :: littleEndianBytes 8 microLamports) |}
  /\ verifyComputePriceInstruction ix = Ok tt.
Proof.
  unfold getSetComputeUnitPriceInstruction. intros H Hle.
  apply rbind_ok in H as (bytes & Hbytes & [= <-]).
  apply writeNumber_ok in Hbytes as [-> Hrange].
  split; [reflexivity|].
  unfold verifyComputePriceInstruction, parseSetComputeUnitPriceInstruction.
  cbn [programAddress data]. rewrite String.eqb_refl.
  change (firstDataByteIs _ 3) with true. cbn [negb orb throw_if rbind].
  pose proof (readNumber_after 8 3 (littleEndianBytes 8 microLamports) []
                (littleEndianBytes_length 8 microLamports)) as Hread.
  rewrite app_nil_r in Hread.
  assert (Hfirst : readNumber 1 0 (3 :: littleEndianBytes 8 microLamports) = Ok 3)
    by reflexivity.
  rewrite Hfirst, Hread.
  rewrite littleEndian_littleEndianBytes by exact Hrange.
  cbn [rbind]. change (5 * 1000000) with 5000000.
  destruct (Z.ltb_spec 5000000 microLamports); [lia|reflexivity].
Qed.

(** What [createTransferInstruction] did when it returns. *)
Lemma createTransferInstruction_ok (w : World) (client : KeyPairSigner)
    (req : PaymentRequirements) (decimals : Z) (program : Address) (ix : Instruction) :
  createTransferInstruction w client req decimals program = Ok ix ->
  exists source destination amount,
    findAssociatedTokenPda w (req_asset req) (signer_address client) program = Ok source
    /\ findAssociatedTokenPda w (req_asset req) (payTo req) program = Ok destination
    /\ JS.BigInt (maxAmountRequired req) = Ok amount
    /\ getTransferCheckedInstruction source (req_asset req) destination client amount
         decimals program = Ok ix.
Proof.
  unfold createTransferInstruction. intros H.
  apply rbind_ok in H as (source & Hsource & H).
  apply rbind_ok in H as (destination & Hdestination & H).
  apply rbind_ok in H as (amount & Hamount & H).
  exists source, destination, amount. auto.
Qed.

(** What [createAtaInstructionOrUndefined] did when it returns. *)
Lemma createAtaInstructionOrUndefined_ok (w : World) (n : Node) (req : PaymentRequirements)
    (program : Address) (config : option X402Config) (createAtaIx : option Instruction) :
  createAtaInstructionOrUndefined w n req program config = Ok createAtaIx ->
  exists feePayer destination rpc maybeAccount,
    req_extra req = ExtraFeePayer feePayer
    /\ feePayer <> EmptyString
    /\ findAssociatedTokenPda w (req_asset req) (payTo req) program = Ok destination
    /\ getRpcClient (req_network req) (rpcUrlOf config) = Ok rpc
    /\ fetchEncodedAccount n rpc destination = Ok maybeAccount
    /\ createAtaIx
       = if account_exists maybeAccount then None
         else Some (getCreateAssociatedTokenInstruction feePayer destination (payTo req)
                      (req_asset req) program).
Proof.
  unfold createAtaInstructionOrUndefined, feePayerOf. intros H.
  destruct (req_extra req) as [feePayer|name version] eqn:Hextra; [|discriminate].
  destruct feePayer as [|c feePayer]; [discriminate|].
  apply rbind_ok in H as (destination & Hdestination & H).
  apply rbind_ok in H as (rpc & Hrpc & H).
  apply rbind_ok in H as (maybeAccount & Haccount & H).
  exists (String c feePayer), destination, rpc, maybeAccount.
  repeat (split; [first [assumption|reflexivity|discriminate]|]).
  destruct (account_exists maybeAccount); cbn [negb] in H; now injection H as <-.
Qed.

(** What [createTransferTransactionMessage] did when it returns. *)
Lemma createTransferTransactionMessage_ok (w : World) (n : Node) (client : KeyPairSigner)
    (req : PaymentRequirements) (config : option X402Config) (built : Message) :
  createTransferTransactionMessage w n client req config = Ok built ->
  exists rpc tokenMint feePayer source destination maybeAccount amount estimatedUnits
         latestBlockhash limitIx priceIx transferIx,
    let program := mint_programAddress tokenMint in
    let transferInstructions :=
      ((if account_exists maybeAccount then []
        else [getCreateAssociatedTokenInstruction feePayer destination (payTo req)
                (req_asset req) program]) ++ [transferIx])%list in
    getRpcClient (req_network req) (rpcUrlOf config) = Ok rpc
    /\ fetchMint n rpc (req_asset req) = Ok tokenMint
    /\ (program = TOKEN_PROGRAM_ADDRESS \/ program = TOKEN_2022_PROGRAM_ADDRESS)
    /\ req_extra req = ExtraFeePayer feePayer
    /\ feePayer <> EmptyString
    /\ findAssociatedTokenPda w (req_asset req) (signer_address client) program = Ok source
    /\ findAssociatedTokenPda w (req_asset req) (payTo req) program = Ok destination
    /\ fetchEncodedAccount n rpc destination = Ok maybeAccount
    /\ JS.BigInt (maxAmountRequired req) = Ok amount
    /\ getTransferCheckedInstruction source (req_asset req) destination client amount
         (mint_decimals tokenMint) program = Ok transferIx
    /\ getSetComputeUnitPriceInstruction 1 = Ok priceIx
    /\ estimateComputeUnitLimit n rpc
         {| msg_feePayer := Some feePayer;
            msg := {| instructions := priceIx :: transferInstructions;
                      lifetimeConstraint := None |} |} = Ok estimatedUnits
    /\ getLatestBlockhash n rpc = Ok latestBlockhash
    /\ getSetComputeUnitLimitInstruction estimatedUnits = Ok limitIx
    /\ built = {| msg_feePayer := Some feePayer;
                  msg := {| instructions := limitIx :: priceIx :: transferInstructions;
                            lifetimeConstraint := Some latestBlockhash |} |}.
Proof.
  unfold createTransferTransactionMessage. intros H.
  apply rbind_ok in H as (rpc & Hrpc & H).
  apply rbind_ok in H as (ixs & Hixs & H).
  apply rbind_ok in H as (priceIx & Hprice & H).
  apply rbind_ok in H as (estimatedUnits & Hunits & H).
  apply rbind_ok in H as (latestBlockhash & Hblockhash & H).
  apply rbind_ok in H as (limitIx & Hlimit & H).
  injection H as <-.
  unfold createAtaAndTransferInstructions in Hixs.
  rewrite Hrpc in Hixs. cbn [rbind] in Hixs.
  apply rbind_ok in Hixs as (tokenMint & Hmint & Hixs).
  apply seq_ok in Hixs as (Hprogram & Hixs).
  apply throw_if_ok in Hprogram.
  apply rbind_ok in Hixs as (createAtaIx & Hata & Hixs).
  apply rbind_ok in Hixs as (transferIx & Htransfer & Hixs).
  injection Hixs as <-.
  apply createAtaInstructionOrUndefined_ok in Hata
    as (feePayer & destination & rpc' & maybeAccount
        & Hextra & Hpayer & Hdestination & Hrpc' & Haccount & ->).
  assert (rpc' = rpc) by congruence. subst rpc'.
  apply createTransferInstruction_ok in Htransfer
    as (source & destination' & amount & Hsource & Hdestination' & Hamount & Htransfer).
  assert (destination' = destination) by congruence. subst destination'.
  assert (Hfee : feePayerOf req = Some feePayer) by (unfold feePayerOf; now rewrite Hextra).
  rewrite Hfee in *.
  exists rpc, tokenMint, feePayer, source, destination, maybeAccount, amount,
    estimatedUnits, latestBlockhash, limitIx, priceIx, transferIx.
  cbn zeta.
  assert (Hsame :
    (match (if account_exists maybeAccount then None
            else Some (getCreateAssociatedTokenInstruction feePayer destination (payTo req)
                         (req_asset req) (mint_programAddress tokenMint)))
     with Some ix => [ix] | None => [] end)
    = (if account_exists maybeAccount then []
       else [getCreateAssociatedTokenInstruction feePayer destination (payTo req)
               (req_asset req) (mint_programAddress tokenMint)]))
    by (destruct (account_exists maybeAccount); reflexivity).
  rewrite Hsame in *.
  split; [exact Hrpc|]. split; [exact Hmint|]. split.
  { destruct (String.eqb_spec (mint_programAddress tokenMint) TOKEN_PROGRAM_ADDRESS);
      [now left|].
    destruct (String.eqb_spec (mint_programAddress tokenMint) TOKEN_2022_PROGRAM_ADDRESS);
      [now right|discriminate]. }
  split; [exact Hextra|]. split; [exact Hpayer|]. split; [exact Hsource|].
  split; [exact Hdestination|]. split; [exact Haccount|]. split; [exact Hamount|].
  split; [exact Htransfer|]. split; [exact Hprice|]. split; [exact Hunits|].
  split; [exact Hblockhash|]. split; [exact Hlimit|]. reflexivity.
Qed.

(** The create-ATA instruction of the client is one the facilitator
    accepts for the same requirements. *)
Lemma create_ata_accepted (payer ata program : Address) (req : PaymentRequirements) :
  verifyCreateATAInstruction
    (getCreateAssociatedTokenInstruction payer ata (payTo req) (req_asset req) program) req
  = Ok tt.
Proof.
  unfold verifyCreateATAInstruction, parsedCreateATA, getCreateAssociatedTokenInstruction.
  cbn [assertIsInstructionWithAccounts assertIsInstructionWithData accounts data rbind
       parseCreateAssociatedTokenInstruction].
  change (readNumber 1 0 [0]) with (Ok (A := Z) 0).
  cbn [rbind try_catch ata_owner ata_mint address].
  rewrite !String.eqb_refl. reflexivity.
Qed.

(** The transfer instruction of the client is one the facilitator accepts
    for the same requirements, when the token account of the sender exists
    and that of the recipient exists or is created by the transaction. *)
Lemma transfer_accepted (w : World) (client : KeyPairSigner) (req : PaymentRequirements)
    (source destination program : Address) (amount decimals : Z) (ix : Instruction)
    (rpc : Rpc) (present : Address -> bool) (txHasCreateDestATAInstruction : bool) :
  getTransferCheckedInstruction source (req_asset req) destination client amount decimals
    program = Ok ix ->
  program = TOKEN_PROGRAM_ADDRESS \/ program = TOKEN_2022_PROGRAM_ADDRESS ->
  findAssociatedTokenPda w (req_asset req) (payTo req) program = Ok destination ->
  JS.BigInt (maxAmountRequired req) = Ok amount ->
  (forall addresses,
     fetchEncodedAccounts w rpc addresses
     = Ok (List.map (fun a => {| account_address := a; account_exists := present a |})
             addresses)) ->
  present source = true ->
  (present destination = false -> txHasCreateDestATAInstruction = true) ->
  verifyTransferInstruction w ix req txHasCreateDestATAInstruction rpc = Ok tt.
Proof.
  unfold getTransferCheckedInstruction.
  intros H Hprogram Hdestination Hamount Hlookup Hsource Hcreate.
  apply rbind_ok in H as (amountBytes & HamountBytes & H).
  apply rbind_ok in H as (decimalsBytes & HdecimalsBytes & H).
  injection H as <-.
  apply writeNumber_ok in HamountBytes as [-> Hrange].
  apply writeNumber_ok in HdecimalsBytes as [-> _].
  change (littleEndianBytes 1 decimals) with [decimals mod 256].
  set (accs := [ {| address := source; role := WRITABLE |};
                 {| address := req_asset req; role := READONLY |};
                 {| address := destination; role := WRITABLE |};
                 {| address := signer_address client; role := READONLY_SIGNER |} ]).
  set (bytes := (12 :: littleEndianBytes 8 amount ++ [decimals mod 256])%list).
  assert (Hparsed :
    getValidatedTransferCheckedInstruction w
      {| programAddress := program; accounts := Some accs; data := Some bytes |}
    = Ok {| tc_programAddress := program;
            tc_source := {| address := source; role := WRITABLE |};
            tc_mint := {| address := req_asset req; role := READONLY |};
            tc_destination := {| address := destination; role := WRITABLE |};
            tc_authority := {| address := signer_address client; role := READONLY_SIGNER |};
            tc_amount := amount; tc_decimals := decimals mod 256 |}).
  { unfold getValidatedTransferCheckedInstruction.
    cbn [assertIsInstructionWithAccounts assertIsInstructionWithData accounts data rbind
         try_catch fst snd programAddress].
    assert (Hparse :
      parseTransferCheckedInstruction program accs bytes
      = Ok {| tc_programAddress := program;
              tc_source := {| address := source; role := WRITABLE |};
              tc_mint := {| address := req_asset req; role := READONLY |};
              tc_destination := {| address := destination; role := WRITABLE |};
              tc_authority := {| address := signer_address client; role := READONLY_SIGNER |};
              tc_amount := amount; tc_decimals := decimals mod 256 |}).
    { unfold accs, bytes.
      rewrite (parseTransferChecked_data program _ _ _ _ [] (littleEndianBytes 8 amount) []
                 (decimals mod 256) (littleEndianBytes_length 8 amount)).
      now rewrite littleEndian_littleEndianBytes by exact Hrange. }
    destruct (String.eqb_spec program TOKEN_PROGRAM_ADDRESS) as [_|Hne].
    - unfold identifyInstruction, bytes. cbn [rbind]. exact Hparse.
    - destruct (String.eqb_spec program TOKEN_2022_PROGRAM_ADDRESS) as [_|Hne'];
        [|tauto].
      unfold identifyInstruction, bytes. cbn [rbind]. exact Hparse. }
  unfold verifyTransferInstruction. rewrite Hparsed. cbn [rbind].
  unfold verifyTransferCheckedInstruction, verifyTransferAccounts, verifyTransferAmount.
  cbn [tc_programAddress tc_destination tc_source tc_amount address].
  assert (Hprog :
    (if String.eqb program TOKEN_PROGRAM_ADDRESS
     then TOKEN_PROGRAM_ADDRESS else TOKEN_2022_PROGRAM_ADDRESS) = program).
  { destruct Hprogram as [-> | ->]; reflexivity. }
  rewrite Hprog, Hdestination. cbn [rbind].
  rewrite String.eqb_refl. cbn [negb throw_if rbind].
  rewrite Hlookup. cbn [rbind List.map List.filter account_exists].
  rewrite Hsource. cbn [negb].
  rewrite Hamount. cbn [rbind]. rewrite Z.eqb_refl. cbn [negb throw_if].
  destruct (present destination) eqn:Hpresent; cbn [negb checkMissingAccounts rbind].
  - reflexivity.
  - cbn [account_address]. rewrite (Hcreate eq_refl).
    destruct (String.eqb_spec destination source) as [->|_]; [congruence|].
    rewrite Bool.andb_false_r. reflexivity.
Qed.

End ClientFacts.

(** X24.  The message that the client builds for payment requirements
    passes the instruction checks the facilitator makes for the same
    requirements, provided the facilitator finds that the token account
    of the client exists and sees the token account of the recipient as
    the client saw it. *)
Theorem client_message_passes_the_instruction_checks :
  forall (w : Svm.World) (n : SvmClient.Node) (client : Svm.KeyPairSigner)
         (paymentRequirements : PaymentRequirements) (config : option Svm.X402Config)
         (built : SvmClient.Message) (rpc : Svm.Rpc) (present : Svm.Address -> bool),
    SvmClient.createTransferTransactionMessage w n client paymentRequirements config
    = Ok built ->
    (forall addresses,
       Svm.fetchEncodedAccounts w rpc addresses
       = Ok (List.map (fun a => {| Svm.account_address := a;
                                   Svm.account_exists := present a |}) addresses)) ->
    (forall program source,
       Svm.findAssociatedTokenPda w (req_asset paymentRequirements)
         (Svm.signer_address client) program = Ok source ->
       present source = true) ->
    (forall clientRpc tokenAccount maybeAccount,
       SvmClient.fetchEncodedAccount n clientRpc tokenAccount = Ok maybeAccount ->
       present tokenAccount = Svm.account_exists maybeAccount) ->
    Facilitator.verifyTransactionInstructions w (SvmClient.msg built) paymentRequirements rpc
    = Ok tt.
Proof.
  intros w n client req config built rpc present Hbuilt Hlookup Hsource Hsame.
  apply createTransferTransactionMessage_ok in Hbuilt
    as (clientRpc & tokenMint & feePayer & source & destination & maybeAccount & amount
        & estimatedUnits & latestBlockhash & limitIx & priceIx & transferIx
        & _ & _ & Hprogram & _ & _ & Hsrc & Hdst & Haccount & Hamount & Htransfer
        & Hprice & _ & _ & Hlimit & ->).
  apply limit_accepted in Hlimit as (_ & _ & Hlimit).
  apply price_accepted in Hprice as (_ & Hprice); [|lia].
  pose proof (Hsame _ _ _ Haccount) as Hdest.
  unfold Facilitator.verifyTransactionInstructions.
  cbn [SvmClient.msg Svm.instructions].
  destruct (Svm.account_exists maybeAccount); cbn [app].
  - rewrite Hlimit, Hprice. cbn [rbind].
    apply (transfer_accepted w client req source destination _ amount _ transferIx rpc
             present false Htransfer Hprogram Hdst Hamount Hlookup (Hsource _ _ Hsrc)).
    congruence.
  - rewrite Hlimit, Hprice, create_ata_accepted. cbn [rbind].
    apply (transfer_accepted w client req source destination _ amount _ transferIx rpc
             present true Htransfer Hprogram Hdst Hamount Hlookup (Hsource _ _ Hsrc)).
    reflexivity.
Qed.

(** On a devnet where the merchant has no token account yet, the client
    builds four instructions, and the facilitator accepts them. *)
Lemma client_message_witness :
  match SvmClient.createTransferTransactionMessage
          (Cases.devnet Cases.merchantAccountMissing)
          (Cases.clientNode Cases.merchantAccountMissing)
          Cases.buyer Examples.requirements None with
  | Ok built =>
      length (Svm.instructions (SvmClient.msg built)) = 4%nat
      /\ Facilitator.verifyTransactionInstructions
           (Cases.devnet Cases.merchantAccountMissing) (SvmClient.msg built)
           Examples.requirements Examples.devnetRpc = Ok tt
  | Throw _ => False
  end.
Proof.
  destruct (SvmClient.createTransferTransactionMessage
              (Cases.devnet Cases.merchantAccountMissing)
              (Cases.clientNode Cases.merchantAccountMissing)
              Cases.buyer Examples.requirements None) as [built|e] eqn:E.
  - split.
    + vm_compute in E. injection E as <-. reflexivity.
    + apply (client_message_passes_the_instruction_checks
               (Cases.devnet Cases.merchantAccountMissing)
               (Cases.clientNode Cases.merchantAccountMissing)
               Cases.buyer Examples.requirements None built Examples.devnetRpc
               Cases.merchantAccountMissing E).
      * intros addresses. reflexivity.
      * intros program source H. vm_compute in H. injection H as <-. reflexivity.
      * intros clientRpc tokenAccount maybeAccount H. injection H as <-. reflexivity.
  - vm_compute in E. discriminate.
Defined.

(** X25.  A message that the client builds has the fee payer named by the
    requirements (a non-empty [extra.feePayer]) and consists of a
    compute-unit limit of the estimated units, a compute-unit price of one
    microlamport, the creation of the recipient's associated token account
    paid by that fee payer exactly when the account does not exist, and a
    TransferChecked of [BigInt(maxAmountRequired)], which lies below 2^64,
    from the associated token account of the client to that of [payTo],
    under the token program that owns the mint, signed by the client. *)
Theorem client_message_shape :
  forall (w : Svm.World) (n : SvmClient.Node) (client : Svm.KeyPairSigner)
         (paymentRequirements : PaymentRequirements) (config : option Svm.X402Config)
         (built : SvmClient.Message),
    SvmClient.createTransferTransactionMessage w n client paymentRequirements config
    = Ok built ->
    exists rpc tokenMint feePayer source destination maybeAccount amount estimatedUnits
           limitIx priceIx transferIx,
      let asset := req_asset paymentRequirements in
      let program := SvmClient.mint_programAddress tokenMint in
      Svm.getRpcClient (req_network paymentRequirements) (SvmClient.rpcUrlOf config) = Ok rpc
      /\ SvmClient.fetchMint n rpc asset = Ok tokenMint
      /\ (program = Svm.TOKEN_PROGRAM_ADDRESS \/ program = Svm.TOKEN_2022_PROGRAM_ADDRESS)
      /\ req_extra paymentRequirements = ExtraFeePayer feePayer
      /\ feePayer <> EmptyString
      /\ SvmClient.msg_feePayer built = Some feePayer
      /\ Svm.findAssociatedTokenPda w asset (Svm.signer_address client) program = Ok source
      /\ Svm.findAssociatedTokenPda w asset (payTo paymentRequirements) program
         = Ok destination
      /\ SvmClient.fetchEncodedAccount n rpc destination = Ok maybeAccount
      /\ JS.BigInt (maxAmountRequired paymentRequirements) = Ok amount
      /\ 0 <= amount < 2 ^ 64
      /\ 0 <= estimatedUnits < 2 ^ 32
      /\ SvmClient.getSetComputeUnitLimitInstruction estimatedUnits = Ok limitIx
      /\ SvmClient.getSetComputeUnitPriceInstruction 1 = Ok priceIx
      /\ SvmClient.getTransferCheckedInstruction source asset destination client amount
           (SvmClient.mint_decimals tokenMint) program = Ok transferIx
      /\ Svm.instructions (SvmClient.msg built)
         = limitIx :: priceIx
           :: ((if Svm.account_exists maybeAccount then []
                else [SvmClient.getCreateAssociatedTokenInstruction feePayer destination
                        (payTo paymentRequirements) asset program]) ++ [transferIx])%list.
Proof.
  intros w n client req config built Hbuilt.
  apply createTransferTransactionMessage_ok in Hbuilt
    as (rpc & tokenMint & feePayer & source & destination & maybeAccount & amount
        & estimatedUnits & latestBlockhash & limitIx & priceIx & transferIx
        & Hrpc & Hmint & Hprogram & Hextra & Hpayer & Hsrc & Hdst & Haccount & Hamount
        & Htransfer & Hprice & _ & _ & Hlimit & ->).
  exists rpc, tokenMint, feePayer, source, destination, maybeAccount, amount,
    estimatedUnits, limitIx, priceIx, transferIx.
  cbn zeta.
  assert (Hrange : 0 <= amount < 2 ^ 64).
  { unfold SvmClient.getTransferCheckedInstruction in Htransfer.
    apply rbind_ok in Htransfer as (bytes & Hbytes & _).
    apply writeNumber_ok in Hbytes as [_ Hrange]. exact Hrange. }
  destruct (limit_accepted _ _ Hlimit) as (Hunits & _ & _).
  split; [exact Hrpc|]. split; [exact Hmint|]. split; [exact Hprogram|].
  split; [exact Hextra|]. split; [exact Hpayer|]. split; [reflexivity|].
  split; [exact Hsrc|]. split; [exact Hdst|]. split; [exact Haccount|].
  split; [exact Hamount|]. split; [exact Hrange|]. split; [exact Hunits|].
  split; [exact Hlimit|]. split; [exact Hprice|]. split; [exact Htransfer|].
  reflexivity.
Qed.

(** Where every token account exists the message has three instructions
    and the facilitator of the requirements as fee payer. *)
Lemma client_message_shape_witness :
  match SvmClient.createTransferTransactionMessage
          (Cases.devnet (fun _ => true)) (Cases.clientNode (fun _ => true))
          Cases.buyer Examples.requirements None with
  | Ok built =>
      SvmClient.msg_feePayer built = Some Examples.feePayer
      /\ length (Svm.instructions (SvmClient.msg built)) = 3%nat
  | Throw _ => False
  end.
Proof.
  destruct (SvmClient.createTransferTransactionMessage
              (Cases.devnet (fun _ => true)) (Cases.clientNode (fun _ => true))
              Cases.buyer Examples.requirements None) as [built|e] eqn:E.
  - destruct (client_message_shape _ _ _ _ _ _ E)
      as (rpc & tokenMint & feePayer & source & destination & maybeAccount & amount
          & estimatedUnits & limitIx & priceIx & transferIx
          & _ & _ & _ & Hextra & _ & Hfee & _ & _ & Haccount & _ & _ & _ & _ & _ & _
          & Hixs).
    injection Hextra as <-. split; [exact Hfee|].
    rewrite Hixs. injection Haccount as <-. reflexivity.
  - vm_compute in E. discriminate.
Defined.

(** X26.  A payment that the client creates carries the given version and
    the scheme and the network of the requirements, and the transaction
    it built, signed and encoded; the network is a supported Solana
    network, so that the payment passes the facilitator's check of schemes
    and networks for the same requirements whenever their scheme is
    [exact]. *)
Theorem client_payment_names_the_requirements :
  forall (w : Svm.World) (n : SvmClient.Node) (client : Svm.KeyPairSigner)
         (x402Version : Z) (paymentRequirements : PaymentRequirements)
         (config : option Svm.X402Config) (payload : PaymentPayload),
    SvmClient.createAndSignPayment w n client x402Version paymentRequirements config
    = Ok payload ->
    (exists built signedTransaction,
       SvmClient.createTransferTransactionMessage w n client paymentRequirements config
       = Ok built
       /\ SvmClient.partiallySignTransactionMessageWithSigners n client built
          = Ok signedTransaction
       /\ payload
          = {| pay_x402Version := x402Version;
               pay_scheme := req_scheme paymentRequirements;
               pay_network := req_network paymentRequirements;
               pay_payload :=
                 ExactSvmPayload
                   (SvmClient.getBase64EncodedWireTransaction n signedTransaction) |})
    /\ In (req_network paymentRequirements) SupportedSVMNetworks
    /\ (req_scheme paymentRequirements = "exact" ->
        Facilitator.verifySchemesAndNetworks payload paymentRequirements = Ok tt).
Proof.
  intros w n client version req config payload H.
  unfold SvmClient.createAndSignPayment in H.
  apply rbind_ok in H as (built & Hbuilt & H).
  apply rbind_ok in H as (signedTransaction & Hsigned & H).
  injection H as <-.
  assert (Hnetwork : In (req_network req) SupportedSVMNetworks).
  { apply createTransferTransactionMessage_ok in Hbuilt
      as (rpc & tokenMint & feePayer & source & destination & maybeAccount & amount
          & estimatedUnits & latestBlockhash & limitIx & priceIx & transferIx
          & Hrpc & _).
    unfold Svm.getRpcClient in Hrpc.
    destruct (String.eqb_spec (req_network req) "solana-devnet") as [->|_];
      [simpl; tauto|].
    destruct (String.eqb_spec (req_network req) "solana") as [->|_];
      [simpl; tauto|discriminate]. }
  split; [exists built, signedTransaction; auto|]. split; [exact Hnetwork|].
  intros Hscheme. unfold Facilitator.verifySchemesAndNetworks.
  cbn [pay_scheme pay_network]. rewrite Hscheme.
  change (String.eqb "exact" Svm.SCHEME) with true. cbn [negb orb throw_if rbind].
  rewrite String.eqb_refl. cbn [negb orb].
  assert (Hin : existsb (String.eqb (req_network req)) SupportedSVMNetworks = true).
  { apply existsb_exists. exists (req_network req). split; [exact Hnetwork|].
    apply String.eqb_refl. }
  rewrite Hin. reflexivity.
Qed.

(** The payment created for the devnet requirements. *)
Lemma client_payment_witness :
  SvmClient.createAndSignPayment (Cases.devnet (fun _ => true))
    (Cases.clientNode (fun _ => true)) Cases.buyer 1 Examples.requirements None
  = Ok Examples.payment
  /\ Facilitator.verifySchemesAndNetworks Examples.payment Examples.requirements = Ok tt.
Proof.
  split; [reflexivity|].
  exact (proj2 (proj2 (client_payment_names_the_requirements
                         (Cases.devnet (fun _ => true)) (Cases.clientNode (fun _ => true))
                         Cases.buyer 1 Examples.requirements None Examples.payment
                         eq_refl)) eq_refl).
Defined.

(* ===================================================================== *)
(** * Further properties: confirmation by polling *)
(* ===================================================================== *)

Section PollingFacts.
Import Svm Facilitator Polling.

Context (p : Node) (rpc : Rpc) (signature : string) (lastValidBlockHeight startTime : Z).

(** The verdicts of one round. *)
Lemma pollOnce_some (round : nat) (outcome : Confirmation) :
  pollOnce p rpc signature lastValidBlockHeight round = Some outcome ->
  exists currentBlockHeight,
    getBlockHeight p rpc round = Ok currentBlockHeight
    /\ ((lastValidBlockHeight < currentBlockHeight
         /\ outcome = unconfirmed "settle_exact_svm_block_height_exceeded" signature)
        \/ (currentBlockHeight <= lastValidBlockHeight
            /\ exists status,
                 getSignatureStatuses p rpc signature round = Ok (Some status)
                 /\ ((status_err status <> None
                      /\ outcome
                         = unconfirmed "settle_exact_svm_transaction_failed" signature)
                     \/ (status_err status = None
                         /\ isConfirmed status = true
                         /\ outcome = confirmed signature)))).
Proof.
  unfold pollOnce.
  destruct (getBlockHeight p rpc round) as [h|e]; [|discriminate].
  intros H. exists h. split; [reflexivity|].
  destruct (Z.ltb_spec lastValidBlockHeight h) as [Hlt|Hge].
  - injection H as <-. left. auto.
  - right. split; [exact Hge|].
    destruct (getSignatureStatuses p rpc signature round) as [[status|]|e];
      [|discriminate|discriminate].
    exists status. split; [reflexivity|].
    destruct (status_err status) as [err|] eqn:Herr.
    + injection H as <-. left. split; [discriminate|reflexivity].
    + destruct (isConfirmed status) eqn:Hconfirmed; [|discriminate].
      injection H as <-. right. auto.
Qed.

(** The loop ends in the first round that is out of time or comes to a
    verdict. *)
Lemma pollFrom_some (fuel round : nat) (outcome : Confirmation) :
  pollFrom fuel p rpc signature lastValidBlockHeight startTime round = Some outcome ->
  exists last,
    (round <= last < round + fuel)%nat
    /\ (forall earlier, (round <= earlier < last)%nat ->
          dateNow p (S earlier) - startTime < 60000
          /\ pollOnce p rpc signature lastValidBlockHeight earlier = None)
    /\ ((60000 <= dateNow p (S last) - startTime
         /\ outcome
            = unconfirmed "settle_exact_svm_transaction_confirmation_timed_out" signature)
        \/ (dateNow p (S last) - startTime < 60000
            /\ pollOnce p rpc signature lastValidBlockHeight last = Some outcome)).
Proof.
  revert round. induction fuel as [|fuel IH]; intros round H; [discriminate|].
  cbn [pollFrom] in H.
  destruct (Z.ltb_spec (dateNow p (S round) - startTime) 60000) as [Hin|Hout].
  - destruct (pollOnce p rpc signature lastValidBlockHeight round) as [c|] eqn:Honce.
    + injection H as <-. exists round. split; [lia|]. split; [intros; lia|].
      right. split; [exact Hin|exact Honce].
    + destruct (IH _ H) as (last & Hlast & Hearlier & Hend).
      exists last. split; [lia|]. split; [|exact Hend].
      intros earlier Hrange.
      destruct (Nat.eq_dec earlier round) as [->|Hne]; [split; assumption|].
      apply Hearlier. lia.
  - injection H as <-. exists round. split; [lia|]. split; [intros; lia|].
    left. split; [lia|reflexivity].
Qed.

(** Once the clock is past the minute the loop has ended. *)
Lemma pollFrom_ends (fuel round late : nat) :
  60000 <= dateNow p (S late) - startTime ->
  (round <= late < round + fuel)%nat ->
  exists outcome,
    pollFrom fuel p rpc signature lastValidBlockHeight startTime round = Some outcome.
Proof.
  intros Hlate. revert round. induction fuel as [|fuel IH]; intros round Hrange; [lia|].
  cbn [pollFrom].
  destruct (Z.ltb_spec (dateNow p (S round) - startTime) 60000) as [Hin|Hout]; [|eauto].
  destruct (pollOnce p rpc signature lastValidBlockHeight round) as [c|]; [eauto|].
  apply IH.
  destruct (Nat.eq_dec round late) as [->|Hne]; [lia|lia].
Qed.

(** More fuel changes no outcome. *)
Lemma pollFrom_more_fuel (fuel fuel' round : nat) (outcome : Confirmation) :
  pollFrom fuel p rpc signature lastValidBlockHeight startTime round = Some outcome ->
  (fuel <= fuel')%nat ->
  pollFrom fuel' p rpc signature lastValidBlockHeight startTime round = Some outcome.
Proof.
  revert fuel' round. induction fuel as [|fuel IH]; intros fuel' round H Hle;
    [discriminate|].
  destruct fuel' as [|fuel']; [lia|].
  cbn [pollFrom] in *.
  destruct (dateNow p (S round) - startTime <? 60000); [|exact H].
  destruct (pollOnce p rpc signature lastValidBlockHeight round); [exact H|].
  apply IH; [exact H|lia].
Qed.

(** Every outcome of the loop carries the signature. *)
Lemma pollFrom_signature (fuel round : nat) (outcome : Confirmation) :
  pollFrom fuel p rpc signature lastValidBlockHeight startTime round = Some outcome ->
  conf_signature outcome = signature.
Proof.
  intros H. apply pollFrom_some in H as (last & _ & _ & [[_ ->]|[_ H]]); [reflexivity|].
  apply pollOnce_some in H
    as (h & _ & [[_ ->]|(_ & status & _ & [[_ ->]|(_ & _ & ->)])]); reflexivity.
Qed.

End PollingFacts.

(** X27.  The outcome of [confirmSignedTransactionWithPolling] is decided
    by the first round that is out of time or comes to a verdict: success
    only when, within 60 seconds of the start, a round found the block
    height not past [lastValidBlockHeight] and a status of the signature
    without error that is [confirmed] or [finalized]; a block height past
    the last valid one gives [settle_exact_svm_block_height_exceeded], a
    status with an error [settle_exact_svm_transaction_failed], and a
    clock at 60 seconds or more
    [settle_exact_svm_transaction_confirmation_timed_out].  The rounds
    before it were in time and undecided: a request failed, the signature
    was unknown, or its status was no more than processed. *)
Theorem polling_outcome_is_that_of_the_first_decisive_round :
  forall (fuel : nat) (w : Svm.World) (p : Polling.Node)
         (signedTransaction : Svm.Transaction) (rpc : Svm.Rpc)
         (outcome : Facilitator.Confirmation),
    Polling.confirmSignedTransactionWithPolling fuel w p signedTransaction rpc
    = Some (Ok outcome) ->
    exists signature lastValidBlockHeight round,
      Polling.pollingLifetime w signedTransaction rpc = Ok (signature, lastValidBlockHeight)
      /\ Facilitator.conf_signature outcome = signature
      /\ (forall earlier, (earlier < round)%nat ->
            Polling.dateNow p (S earlier) - Polling.dateNow p 0 < 60000
            /\ Polling.pollOnce p rpc signature lastValidBlockHeight earlier = None)
      /\ ((60000 <= Polling.dateNow p (S round) - Polling.dateNow p 0
           /\ outcome
              = Polling.unconfirmed "settle_exact_svm_transaction_confirmation_timed_out"
                  signature)
          \/ (Polling.dateNow p (S round) - Polling.dateNow p 0 < 60000
              /\ exists currentBlockHeight,
                   Polling.getBlockHeight p rpc round = Ok currentBlockHeight
                   /\ ((lastValidBlockHeight < currentBlockHeight
                        /\ outcome
                           = Polling.unconfirmed "settle_exact_svm_block_height_exceeded"
                               signature)
                       \/ (currentBlockHeight <= lastValidBlockHeight
                           /\ exists status,
                                Polling.getSignatureStatuses p rpc signature round
                                = Ok (Some status)
                                /\ ((Polling.status_err status <> None
                                     /\ outcome
                                        = Polling.unconfirmed
                                            "settle_exact_svm_transaction_failed" signature)
                                    \/ (Polling.status_err status = None
                                        /\ (Polling.confirmationStatus status
                                            = Some "confirmed"
                                            \/ Polling.confirmationStatus status
                                               = Some "finalized")
                                        /\ outcome = Polling.confirmed signature)))))).
Proof.
  intros fuel w p tx rpc outcome H.
  unfold Polling.confirmSignedTransactionWithPolling in H.
  destruct (Polling.pollingLifetime w tx rpc) as [[signature lastValid]|e];
    [|discriminate].
  destruct (Polling.pollFrom fuel p rpc signature lastValid (Polling.dateNow p 0) 0)
    as [c|] eqn:Hpoll; [|discriminate].
  injection H as <-.
  exists signature, lastValid.
  pose proof (pollFrom_signature _ _ _ _ _ _ _ _ Hpoll) as Hsignature.
  apply pollFrom_some in Hpoll as (round & _ & Hearlier & Hend).
  exists round. split; [reflexivity|]. split; [exact Hsignature|].
  split; [intros earlier Hlt; apply Hearlier; lia|].
  destruct Hend as [Hout|[Hin Honce]]; [now left|].
  right. split; [exact Hin|].
  apply pollOnce_some in Honce as (h & Hheight & Hverdict).
  exists h. split; [exact Hheight|].
  destruct Hverdict as [Hexceeded|(Hle & status & Hstatus & Hverdict)]; [now left|].
  right. split; [exact Hle|]. exists status. split; [exact Hstatus|].
  destruct Hverdict as [Hfailed|(Herr & Hconfirmed & ->)]; [now left|].
  right. split; [exact Herr|]. split; [|reflexivity].
  unfold Polling.isConfirmed in Hconfirmed.
  destruct (Polling.confirmationStatus status) as [s|]; [|discriminate].
  apply Bool.orb_true_iff in Hconfirmed as [Hs|Hs]; apply String.eqb_eq in Hs; subst s;
    auto.
Qed.

(** Polled once a second, a transaction that is confirmed in the fourth
    round is reported as confirmed. *)
Lemma polling_outcome_witness :
  Polling.confirmSignedTransactionWithPolling 100 Cases.socketClosed
    (Cases.pollingNode Cases.statusConfirmed) Examples.transaction Examples.devnetRpc
  = Some (Ok (Polling.confirmed "5VERv8NMvzbJMEkV8xnrLkEaWRtSz9CosKDYjCJjBRnb"))
  /\ exists signature lastValidBlockHeight,
       Polling.pollingLifetime Cases.socketClosed Examples.transaction Examples.devnetRpc
       = Ok (signature, lastValidBlockHeight).
Proof.
  split; [reflexivity|].
  destruct (polling_outcome_is_that_of_the_first_decisive_round 100 Cases.socketClosed
              (Cases.pollingNode Cases.statusConfirmed) Examples.transaction
              Examples.devnetRpc _ eq_refl)
    as (signature & lastValidBlockHeight & _ & Hlifetime & _).
  exists signature, lastValidBlockHeight. exact Hlifetime.
Defined.

(** X28.  Once the signature and the blockhash lifetime of the transaction
    have been read, [confirmSignedTransactionWithPolling] throws nothing
    and ends with the clock: if some reading of the clock in the loop is
    60 seconds or more past the start, the function returns an outcome
    with the signature, whatever the node answers and however often its
    requests fail. *)
Theorem polling_ends_with_the_clock :
  forall (w : Svm.World) (p : Polling.Node) (signedTransaction : Svm.Transaction)
         (rpc : Svm.Rpc) (signature : string) (lastValidBlockHeight : Z) (late : nat),
    Polling.pollingLifetime w signedTransaction rpc = Ok (signature, lastValidBlockHeight) ->
    60000 <= Polling.dateNow p (S late) - Polling.dateNow p 0 ->
    exists outcome,
      Facilitator.conf_signature outcome = signature
      /\ forall fuel, (late < fuel)%nat ->
           Polling.confirmSignedTransactionWithPolling fuel w p signedTransaction rpc
           = Some (Ok outcome).
Proof.
  intros w p tx rpc signature lastValid late Hlifetime Hlate.
  destruct (pollFrom_ends p rpc signature lastValid (Polling.dateNow p 0) (S late) 0 late
              Hlate) as (outcome & Houtcome); [lia|].
  exists outcome. split; [exact (pollFrom_signature _ _ _ _ _ _ _ _ Houtcome)|].
  intros fuel Hfuel.
  unfold Polling.confirmSignedTransactionWithPolling. rewrite Hlifetime.
  rewrite (pollFrom_more_fuel _ _ _ _ _ _ _ _ _ Houtcome) by lia.
  reflexivity.
Qed.

(** A node that never answers is given up after a minute. *)
Lemma polling_ends_witness :
  exists outcome,
    Facilitator.conf_signature outcome = "5VERv8NMvzbJMEkV8xnrLkEaWRtSz9CosKDYjCJjBRnb"
    /\ Polling.confirmSignedTransactionWithPolling 61 Cases.socketClosed Cases.silentNode
         Examples.transaction Examples.devnetRpc = Some (Ok outcome).
Proof.
  destruct (polling_ends_with_the_clock Cases.socketClosed Cases.silentNode
              Examples.transaction Examples.devnetRpc
              "5VERv8NMvzbJMEkV8xnrLkEaWRtSz9CosKDYjCJjBRnb" 1234 59%nat
              eq_refl)
    as (outcome & Hsignature & Hall).
  - vm_compute. discriminate.
  - exists outcome. split; [exact Hsignature|]. apply Hall. lia.
Defined.

Section PollingSettleFacts.
Import Svm Facilitator Polling.

(** A refusal of [verify] carries a known reason. *)
Lemma verify_invalid_reason (w : World) (signer : KeyPairSigner) (payload : PaymentPayload)
    (req : PaymentRequirements) (config : option X402Config) :
  isValid (verify w signer payload req config) = false ->
  exists reason,
    invalidReason (verify w signer payload req config) = Some reason
    /\ In reason ErrorReasons.
Proof.
  unfold verify.
  destruct (verify_try w signer payload req config) as [payer|e]; [discriminate|].
  destruct (instanceofError e && isErrorReason (message_of e)) eqn:Hknown; intros _.
  - apply Bool.andb_true_iff in Hknown as [_ Hknown].
    apply isErrorReason_In in Hknown. eauto.
  - eexists. split; [reflexivity|]. simpl. tauto.
Qed.

(** The outcomes of the confirmation over the subscriptions. *)
Lemma confirmSignedTransaction_shapes (w : World) (signedTransaction : Transaction)
    (rpc : Rpc) (rpcSubscriptions : RpcSubscriptions) (outcome : Confirmation) :
  confirmSignedTransaction w signedTransaction rpc rpcSubscriptions = Ok outcome ->
  exists signature,
    outcome = confirmed signature
    \/ outcome = unconfirmed "settle_exact_svm_block_height_exceeded" signature
    \/ outcome
       = unconfirmed "settle_exact_svm_transaction_confirmation_timed_out" signature.
Proof.
  unfold confirmSignedTransaction. intros H.
  apply rbind_ok in H as (signature & _ & H). exists signature.
  destruct (confirm_try w signedTransaction rpc rpcSubscriptions) as [[]|e];
    cbn [rbind try_catch] in H.
  - injection H as <-. now left.
  - destruct (isSolanaError e SOLANA_ERROR__BLOCK_HEIGHT_EXCEEDED).
    + injection H as <-. right. now left.
    + destruct (isAbortError e); [|discriminate].
      injection H as <-. right. now right.
Qed.

(** The outcomes of the confirmation by polling. *)
Lemma polling_shapes (fuel : nat) (w : World) (p : Node) (signedTransaction : Transaction)
    (rpc : Rpc) (outcome : Confirmation) :
  confirmSignedTransactionWithPolling fuel w p signedTransaction rpc = Some (Ok outcome) ->
  exists signature,
    outcome = confirmed signature
    \/ outcome = unconfirmed "settle_exact_svm_block_height_exceeded" signature
    \/ outcome
       = unconfirmed "settle_exact_svm_transaction_confirmation_timed_out" signature
    \/ outcome = unconfirmed "settle_exact_svm_transaction_failed" signature.
Proof.
  unfold confirmSignedTransactionWithPolling.
  destruct (pollingLifetime w signedTransaction rpc) as [[signature lastValid]|e];
    [|discriminate].
  destruct (pollFrom fuel p rpc signature lastValid (dateNow p 0) 0) as [c|] eqn:Hpoll;
    [|discriminate].
  intros [= <-]. exists signature.
  apply pollFrom_some in Hpoll as (last & _ & _ & [[_ ->]|[_ H]]); [tauto|].
  apply pollOnce_some in H
    as (h & _ & [[_ ->]|(_ & status & _ & [[_ ->]|(_ & _ & ->)])]); tauto.
Qed.

End PollingSettleFacts.

(** X29.  A response of the settlement with polling has no error reason
    exactly when it reports success, and success is reported only for a
    payment that [verify] found valid.  Its error reasons are known ones
    but for [settle_exact_svm_transaction_failed], which polling reports
    for a transaction that failed on the chain and which is not among
    [ErrorReasons]. *)
Theorem polling_settlement_reasons :
  forall (fuel : nat) (w : Svm.World) (p : Polling.Node) (signer : Svm.KeyPairSigner)
         (payload : PaymentPayload) (paymentRequirements : PaymentRequirements)
         (config : option Svm.X402Config) (response : SettleResponse),
    Polling.settle fuel w p signer payload paymentRequirements config
    = Some (Ok response) ->
    match errorReason response with
    | None =>
        success response = true
        /\ isValid (Facilitator.verify w signer payload paymentRequirements config) = true
    | Some reason =>
        success response = false
        /\ (In reason ErrorReasons \/ reason = "settle_exact_svm_transaction_failed")
    end
    /\ ~ In "settle_exact_svm_transaction_failed" ErrorReasons.
Proof.
  intros fuel w p signer payload req config response H.
  split; [|intros Hin; apply isErrorReason_In in Hin; discriminate].
  unfold Polling.settle in H.
  destruct (isValid (Facilitator.verify w signer payload req config)) eqn:Hvalid;
    cbn [negb] in H.
  - destruct (Svm.decodeTransactionFromPayload w (pay_payload payload)) as [tx|e];
      [|discriminate].
    destruct (Svm.signTransaction w signer tx) as [signed|e]; [|discriminate].
    destruct (Svm.getTokenPayerFromTransaction w tx) as [payer|e]; [|discriminate].
    destruct (Svm.getRpcClient _ _) as [rpc|e]; [|discriminate].
    destruct (Svm.getRpcSubscriptions w _ _) as [subs|e]; [|discriminate].
    destruct (Polling.sendAndConfirmSignedTransaction fuel w p signed rpc subs)
      as [[outcome|e]|] eqn:Hconfirm; [| |discriminate].
    + injection H as <-. cbn [errorReason success].
      assert (Hshape : exists signature,
                outcome = Polling.confirmed signature
                \/ outcome
                   = Polling.unconfirmed "settle_exact_svm_block_height_exceeded" signature
                \/ outcome
                   = Polling.unconfirmed
                       "settle_exact_svm_transaction_confirmation_timed_out" signature
                \/ outcome
                   = Polling.unconfirmed "settle_exact_svm_transaction_failed" signature).
      { unfold Polling.sendAndConfirmSignedTransaction in Hconfirm.
        destruct (Facilitator.sendSignedTransaction w signed rpc) as [sent|e];
          [|discriminate].
        destruct (Facilitator.confirmSignedTransaction w signed rpc subs) as [c|e] eqn:Hws.
        - injection Hconfirm as <-.
          apply confirmSignedTransaction_shapes in Hws as (signature & Hws).
          exists signature. tauto.
        - exact (polling_shapes _ _ _ _ _ _ Hconfirm). }
      destruct Hshape as (signature & [-> | [-> | [-> | ->]]]); cbn.
      * auto.
      * split; [reflexivity|]. left. apply isErrorReason_In. reflexivity.
      * split; [reflexivity|]. left. apply isErrorReason_In. reflexivity.
      * split; [reflexivity|]. now right.
    + injection H as H.
      apply rbind_ok in H as (signature & _ & [= <-]). cbn [errorReason success].
      split; [reflexivity|]. left. apply isErrorReason_In. reflexivity.
  - injection H as <-. cbn [errorReason success].
    destruct (verify_invalid_reason w signer payload req config Hvalid)
      as (reason & -> & Hin).
    split; [reflexivity|]. now left.
Qed.

(** The subscriptions break off, and polling finds that the transaction
    failed on the chain. *)
Lemma polling_settlement_witness :
  Polling.settle 100 Cases.socketClosed (Cases.pollingNode Cases.statusFailed)
    Examples.signer Examples.payment Examples.requirements None
  = Some (Ok {| success := false;
                errorReason := Some "settle_exact_svm_transaction_failed";
                settle_payer := Some Examples.client;
                settle_transaction := "5VERv8NMvzbJMEkV8xnrLkEaWRtSz9CosKDYjCJjBRnb";
                settle_network := "solana-devnet" |})
  /\ ~ In "settle_exact_svm_transaction_failed" ErrorReasons.
Proof.
  split; [reflexivity|].
  exact (proj2 (polling_settlement_reasons 100 Cases.socketClosed
                  (Cases.pollingNode Cases.statusFailed) Examples.signer Examples.payment
                  Examples.requirements None _ eq_refl)).
Defined.

(* ===================================================================== *)
(** * Further properties: the RPC endpoints *)
(* ===================================================================== *)

Section RpcFacts.
Import Svm.

Lemma substring_all (s : string) : String.substring 0 (String.length s) s = s.
Proof. induction s as [|c s IH]; simpl; [reflexivity|now rewrite IH]. Qed.

Lemma httpToWs_http (rest : string) : httpToWs ("http" ++ rest) = ("ws" ++ rest)%string.
Proof.
  unfold httpToWs.
  assert (Happ : ("http" ++ rest)%string
                 = String "h" (String "t" (String "t" (String "p" rest))))
    by reflexivity.
  rewrite Happ. simpl. rewrite Nat.sub_0_r, substring_all.
  destruct rest; reflexivity.
Qed.

End RpcFacts.

(** X30.  [getRpcClient] and [getRpcSubscriptions] accept the same two
    networks, [solana-devnet] and [solana], and throw [Invalid network]
    for every other; for an accepted network both address the same
    cluster, with the public endpoints when no URL or an empty one is
    given, and otherwise the RPC client with the given URL and the
    subscriptions with that URL in which a leading [http] is replaced by
    [ws], so that [https://host] becomes [wss://host] and a URL that does
    not start with [http] is used as it is. *)
Theorem rpc_and_subscriptions_address_the_same_cluster :
  forall (w : Svm.World) (network : string) (url : option string),
    (~ In network SupportedSVMNetworks ->
     Svm.getRpcClient network url = Throw (JsError "Invalid network")
     /\ Svm.getRpcSubscriptions w network url = Throw (JsError "Invalid network"))
    /\ (In network SupportedSVMNetworks ->
        let mainnet := String.eqb network "solana" in
        match Svm.truthyUrl url with
        | Some given =>
            Svm.getRpcClient network url
            = Ok {| Svm.rpc_mainnet := mainnet; Svm.rpc_url := given |}
            /\ Svm.getRpcSubscriptions w network url
               = Svm.createSolanaRpcSubscriptions w mainnet (Svm.httpToWs given)
        | None =>
            Svm.getRpcClient network url
            = Ok {| Svm.rpc_mainnet := mainnet;
                    Svm.rpc_url := if mainnet then "https://api.mainnet-beta.solana.com"
                                   else "https://api.devnet.solana.com" |}
            /\ Svm.getRpcSubscriptions w network url
               = Svm.createSolanaRpcSubscriptions w mainnet
                   (if mainnet then "wss://api.mainnet-beta.solana.com"
                    else "wss://api.devnet.solana.com")
        end)
    /\ (forall rest, Svm.httpToWs ("https://" ++ rest) = ("wss://" ++ rest)%string)
    /\ (forall rest, Svm.httpToWs ("http://" ++ rest) = ("ws://" ++ rest)%string)
    /\ (forall given, String.prefix "http" given = false -> Svm.httpToWs given = given).
Proof.
  intros w network url. split; [|split; [|split; [|split]]].
  - intros Hout. unfold Svm.getRpcClient, Svm.getRpcSubscriptions.
    destruct (String.eqb_spec network "solana-devnet") as [->|_];
      [exfalso; apply Hout; simpl; tauto|].
    destruct (String.eqb_spec network "solana") as [->|_];
      [exfalso; apply Hout; simpl; tauto|].
    split; reflexivity.
  - intros Hin mainnet.
    assert (Hcases : network = "solana-devnet" \/ network = "solana")
      by (simpl in Hin; intuition congruence).
    unfold Svm.getRpcClient, Svm.getRpcSubscriptions, Svm.createDevnetRpcClient,
      Svm.createMainnetRpcClient.
    destruct Hcases as [Hn|Hn]; subst network mainnet;
      destruct (Svm.truthyUrl url); split; reflexivity.
  - intros rest. exact (httpToWs_http ("s://" ++ rest)).
  - intros rest. exact (httpToWs_http ("://" ++ rest)).
  - intros given Hprefix. unfold Svm.httpToWs. now rewrite Hprefix.
Qed.

(** A custom mainnet endpoint over https. *)
Lemma rpc_and_subscriptions_witness :
  Svm.getRpcClient "solana" (Some "https://rpc.example.org")
  = Ok {| Svm.rpc_mainnet := true; Svm.rpc_url := "https://rpc.example.org" |}
  /\ Svm.httpToWs "https://rpc.example.org" = "wss://rpc.example.org".
Proof.
  destruct (rpc_and_subscriptions_address_the_same_cluster Cases.socketClosed "solana"
              (Some "https://rpc.example.org")) as (_ & Hin & Hs & _).
  split.
  - apply Hin. simpl. tauto.
  - exact (Hs "rpc.example.org").
Defined.
